(** * Jailhouse: the x86 CPU virtualization and DMA isolation engine

    A shallow embedding of [hypervisor/arch/x86/vmx.c] and
    [hypervisor/arch/x86/vtd.c]: the per-CPU VMX life cycle, the VM-exit
    dispatcher, the hypercall handler, the I/O-port bitmap bookkeeping and
    the VT-d root/context-entry management.

    C integers are [Z] with the wrap-around written out where an operation
    can leave the range; the processor, the VMCS and the hypervisor's data
    are fields of one [state] record that every function threads through a
    small state-and-abort monad. *)

From Stdlib Require Import ZArith List String Bool Lia.
From stdpp Require Import base option list gmap.
Import ListNotations.

#[local] Open Scope Z_scope.

(** ** Fixed-width integers *)

Definition u8 (x : Z) : Z := x mod 2 ^ 8.
Definition u16 (x : Z) : Z := x mod 2 ^ 16.
Definition u32 (x : Z) : Z := x mod 2 ^ 32.
Definition u64 (x : Z) : Z := x mod 2 ^ 64.

(** [~x] on an [unsigned long]. *)
Definition not64 (x : Z) : Z := u64 (Z.lnot x).
(** [~x] on a [u32]. *)
Definition not32 (x : Z) : Z := u32 (Z.lnot x).

(** C truth value of an integer. *)
Definition truthy (x : Z) : bool := negb (x =? 0).

Arguments u8 : simpl never.
Arguments u16 : simpl never.
Arguments u32 : simpl never.
Arguments u64 : simpl never.
Arguments not32 : simpl never.
Arguments not64 : simpl never.
Arguments truthy : simpl never.

(** ** Constants of the headers

    The headers of the repository are not among the sources, so the values
    of their macros are kept abstract: every definition and theorem below is
    parametric in them. *)

(** [jailhouse/types.h], [jailhouse/paging.h], [asm/paging.h],
    [jailhouse/hypercall.h], [jailhouse/cell-config.h]. *)
Class Generic_defs : Type := {
  EPERM : Z; EIO : Z; ENOMEM : Z; EBUSY : Z; ENODEV : Z; ERANGE : Z;
  ENOSYS : Z;
  PAGE_SIZE : Z; PAGE_MASK : Z; PAGE_ADDR_MASK : Z; PAGE_DIR_LEVELS : Z;
  PAGE_MAP_COHERENT : Z; PAGE_MAP_NON_COHERENT : Z;
  PAGE_DEFAULT_FLAGS : Z; PAGE_FLAG_UNCACHED : Z;
  JAILHOUSE_HC_DISABLE : Z; JAILHOUSE_HC_CELL_CREATE : Z;
  JAILHOUSE_HC_CELL_DESTROY : Z;
  JAILHOUSE_MEM_READ : Z; JAILHOUSE_MEM_WRITE : Z;
  JAILHOUSE_MEM_EXECUTE : Z; JAILHOUSE_MEM_DMA : Z
}.

(** [asm/processor.h], [asm/apic.h], [asm/percpu.h]. *)
Class Processor_defs : Type := {
  X86_FEATURE_VMX : Z;
  X86_CR0_PE : Z; X86_CR0_ET : Z; X86_CR0_NW : Z; X86_CR0_CD : Z;
  X86_CR0_PG : Z;
  X86_CR4_VMXE : Z;
  X86_RFLAGS_VM : Z;
  X86_XCR0_FP : Z;
  EFER_LME : Z; EFER_LMA : Z;
  X86_INST_LEN_CPUID : Z; X86_INST_LEN_RDMSR : Z; X86_INST_LEN_WRMSR : Z;
  X86_INST_LEN_VMCALL : Z; X86_INST_LEN_MOV_TO_CR : Z;
  X86_INST_LEN_XSETBV : Z;
  MSR_IA32_SYSENTER_CS : Z; MSR_IA32_SYSENTER_ESP : Z;
  MSR_IA32_SYSENTER_EIP : Z;
  MSR_IA32_FEATURE_CONTROL : Z;
  MSR_IA32_VMX_BASIC : Z; MSR_IA32_VMX_PINBASED_CTLS : Z;
  MSR_IA32_VMX_PROCBASED_CTLS : Z; MSR_IA32_VMX_EXIT_CTLS : Z;
  MSR_IA32_VMX_ENTRY_CTLS : Z; MSR_IA32_VMX_MISC : Z;
  MSR_IA32_VMX_CR0_FIXED0 : Z; MSR_IA32_VMX_CR0_FIXED1 : Z;
  MSR_IA32_VMX_CR4_FIXED0 : Z; MSR_IA32_VMX_CR4_FIXED1 : Z;
  MSR_IA32_VMX_PROCBASED_CTLS2 : Z; MSR_IA32_VMX_EPT_VPID_CAP : Z;
  MSR_IA32_VMX_TRUE_PINBASED_CTLS : Z;
  MSR_X2APIC_BASE : Z; MSR_X2APIC_ICR : Z; MSR_X2APIC_END : Z;
  FEATURE_CONTROL_LOCKED : Z;
  FEATURE_CONTROL_VMXON_ENABLED_OUTSIDE_SMX : Z;
  GDT_DESC_CODE : Z; GDT_DESC_TSS : Z;
  NMI_VECTOR : Z;
  NUM_ENTRY_REGS : Z;
  XAPIC_BASE : Z;
  APIC_BSP_PSEUDO_SIPI : Z;
  (** [sizeof(cpu_data->stack)] *)
  sizeof_stack : Z
}.

(** [asm/vmx.h]: VMCS field encodings, control bits, exit reasons. *)
Class Vmx_defs : Type := {
  (* 16-bit fields *)
  GUEST_ES_SELECTOR : Z; GUEST_CS_SELECTOR : Z; GUEST_SS_SELECTOR : Z;
  GUEST_DS_SELECTOR : Z; GUEST_FS_SELECTOR : Z; GUEST_GS_SELECTOR : Z;
  GUEST_LDTR_SELECTOR : Z; GUEST_TR_SELECTOR : Z;
  HOST_ES_SELECTOR : Z; HOST_CS_SELECTOR : Z; HOST_SS_SELECTOR : Z;
  HOST_DS_SELECTOR : Z; HOST_FS_SELECTOR : Z; HOST_GS_SELECTOR : Z;
  HOST_TR_SELECTOR : Z;
  (* 64-bit fields *)
  IO_BITMAP_A : Z; IO_BITMAP_B : Z; MSR_BITMAP : Z;
  APIC_ACCESS_ADDR : Z; EPT_POINTER : Z; GUEST_PHYSICAL_ADDRESS : Z;
  VMCS_LINK_POINTER : Z; GUEST_IA32_EFER : Z; HOST_IA32_EFER : Z;
  (* 32-bit fields *)
  PIN_BASED_VM_EXEC_CONTROL : Z; CPU_BASED_VM_EXEC_CONTROL : Z;
  EXCEPTION_BITMAP : Z; CR3_TARGET_COUNT : Z; VM_EXIT_CONTROLS : Z;
  VM_EXIT_MSR_STORE_COUNT : Z; VM_EXIT_MSR_LOAD_COUNT : Z;
  VM_ENTRY_CONTROLS : Z; VM_ENTRY_MSR_LOAD_COUNT : Z;
  VM_ENTRY_INTR_INFO_FIELD : Z; SECONDARY_VM_EXEC_CONTROL : Z;
  VM_INSTRUCTION_ERROR : Z; VM_EXIT_REASON : Z; VM_EXIT_INTR_INFO : Z;
  IDT_VECTORING_INFO_FIELD : Z;
  GUEST_CS_LIMIT : Z; GUEST_SS_LIMIT : Z; GUEST_DS_LIMIT : Z;
  GUEST_ES_LIMIT : Z; GUEST_FS_LIMIT : Z; GUEST_GS_LIMIT : Z;
  GUEST_LDTR_LIMIT : Z; GUEST_TR_LIMIT : Z;
  GUEST_GDTR_LIMIT : Z; GUEST_IDTR_LIMIT : Z;
  GUEST_CS_AR_BYTES : Z; GUEST_SS_AR_BYTES : Z; GUEST_DS_AR_BYTES : Z;
  GUEST_ES_AR_BYTES : Z; GUEST_FS_AR_BYTES : Z; GUEST_GS_AR_BYTES : Z;
  GUEST_LDTR_AR_BYTES : Z; GUEST_TR_AR_BYTES : Z;
  GUEST_INTERRUPTIBILITY_INFO : Z; GUEST_ACTIVITY_STATE : Z;
  GUEST_SYSENTER_CS : Z; VMX_PREEMPTION_TIMER_VALUE : Z;
  HOST_IA32_SYSENTER_CS : Z;
  (* natural-width fields *)
  CR0_GUEST_HOST_MASK : Z; CR4_GUEST_HOST_MASK : Z;
  CR0_READ_SHADOW : Z; CR4_READ_SHADOW : Z;
  EXIT_QUALIFICATION : Z; GUEST_LINEAR_ADDRESS : Z;
  GUEST_CR0 : Z; GUEST_CR3 : Z; GUEST_CR4 : Z;
  GUEST_CS_BASE : Z; GUEST_SS_BASE : Z; GUEST_DS_BASE : Z;
  GUEST_ES_BASE : Z; GUEST_FS_BASE : Z; GUEST_GS_BASE : Z;
  GUEST_LDTR_BASE : Z; GUEST_TR_BASE : Z;
  GUEST_GDTR_BASE : Z; GUEST_IDTR_BASE : Z;
  GUEST_DR7 : Z; GUEST_RSP : Z; GUEST_RIP : Z; GUEST_RFLAGS : Z;
  GUEST_PENDING_DBG_EXCEPTIONS : Z;
  GUEST_SYSENTER_ESP : Z; GUEST_SYSENTER_EIP : Z;
  HOST_CR0 : Z; HOST_CR3 : Z; HOST_CR4 : Z;
  HOST_FS_BASE : Z; HOST_GS_BASE : Z; HOST_TR_BASE : Z;
  HOST_GDTR_BASE : Z; HOST_IDTR_BASE : Z;
  HOST_IA32_SYSENTER_ESP : Z; HOST_IA32_SYSENTER_EIP : Z;
  HOST_RSP : Z; HOST_RIP : Z;
  (* offsets between the fields of one segment *)
  GUEST_SEG_LIMIT : Z; GUEST_SEG_AR_BYTES : Z; GUEST_SEG_BASE : Z;
  GUEST_ACTIVITY_ACTIVE : Z; GUEST_ACTIVITY_HLT : Z;
  (* control bits *)
  PIN_BASED_NMI_EXITING : Z; PIN_BASED_VMX_PREEMPTION_TIMER : Z;
  CPU_BASED_USE_IO_BITMAPS : Z; CPU_BASED_USE_MSR_BITMAPS : Z;
  CPU_BASED_ACTIVATE_SECONDARY_CONTROLS : Z;
  SECONDARY_EXEC_VIRTUALIZE_APIC_ACCESSES : Z;
  SECONDARY_EXEC_ENABLE_EPT : Z; SECONDARY_EXEC_UNRESTRICTED_GUEST : Z;
  VM_EXIT_HOST_ADDR_SPACE_SIZE : Z; VM_EXIT_SAVE_IA32_EFER : Z;
  VM_EXIT_LOAD_IA32_EFER : Z;
  VM_ENTRY_IA32E_MODE : Z; VM_ENTRY_LOAD_IA32_EFER : Z;
  VMX_MISC_ACTIVITY_HLT : Z;
  EPT_FLAG_READ : Z; EPT_FLAG_WRITE : Z; EPT_FLAG_EXECUTE : Z;
  EPT_FLAG_WB_TYPE : Z;
  EPT_TYPE_WRITEBACK : Z; EPT_PAGE_WALK_LEN : Z;
  EPT_MANDATORY_FEATURES : Z;
  EPT_INVEPT_SINGLE : Z; EPT_INVEPT_GLOBAL : Z;
  VMX_INVEPT_SINGLE : Z; VMX_INVEPT_GLOBAL : Z;
  (* exit reasons *)
  EXIT_REASONS_FAILED_VMENTRY : Z;
  EXIT_REASON_EXCEPTION_NMI : Z; EXIT_REASON_CPUID : Z;
  EXIT_REASON_VMCALL : Z; EXIT_REASON_CR_ACCESS : Z;
  EXIT_REASON_MSR_READ : Z; EXIT_REASON_MSR_WRITE : Z;
  EXIT_REASON_APIC_ACCESS : Z; EXIT_REASON_EPT_VIOLATION : Z;
  EXIT_REASON_EPT_MISCONFIG : Z; EXIT_REASON_PREEMPTION_TIMER : Z;
  EXIT_REASON_XSETBV : Z;
  APIC_ACCESS_OFFET_MASK : Z; APIC_ACCESS_TYPE_MASK : Z;
  APIC_ACCESS_TYPE_LINEAR_READ : Z; APIC_ACCESS_TYPE_LINEAR_WRITE : Z
}.

(** [asm/vtd.h] and the ACPI DMAR declarations of [jailhouse/acpi.h]. *)
Class Vtd_defs : Type := {
  ACPI_DMAR_DRHD : Z;
  sizeof_acpi_dmar_table : Z;
  sizeof_acpi_dmar_drhd : Z;
  (** [offsetof(struct acpi_dmar_table, remap_structs)] *)
  offsetof_remap_structs : Z;
  VTD_ROOT_PRESENT : Z;
  VTD_CTX_PRESENT : Z; VTD_CTX_FPD : Z; VTD_CTX_TTYPE_MLP_UNTRANS : Z;
  VTD_CTX_AGAW_39 : Z; VTD_CTX_AGAW_48 : Z; VTD_CTX_DID_SHIFT : Z;
  VTD_PAGE_READ : Z; VTD_PAGE_WRITE : Z;
  VTD_CAP_REG : Z; VTD_CAP_NUM_DID_MASK : Z; VTD_CAP_CM : Z;
  VTD_CAP_SAGAW39 : Z; VTD_CAP_SAGAW48 : Z;
  VTD_ECAP_REG : Z; VTD_ECAP_IRO_MASK : Z; VTD_ECAP_IRO_SHIFT : Z;
  VTD_GCMD_REG : Z; VTD_GCMD_SRTP : Z; VTD_GCMD_TE : Z;
  VTD_GSTS_REG : Z; VTD_GSTS_SRTP : Z; VTD_GSTS_TES : Z;
  VTD_RTADDR_REG : Z;
  VTD_CCMD_REG : Z; VTD_CCMD_CIRG_GLOBAL : Z; VTD_CCMD_CIRG_DOMAIN : Z;
  VTD_CCMD_ICC : Z;
  VTD_IOTLB_REG : Z; VTD_IOTLB_DID_SHIFT : Z; VTD_IOTLB_DW : Z;
  VTD_IOTLB_DR : Z; VTD_IOTLB_IIRG_GLOBAL : Z; VTD_IOTLB_IIRG_DOMAIN : Z;
  VTD_IOTLB_IVT : Z
}.

(** ** Data model *)

(** [struct segment] of [asm/processor.h]. *)
Record segment : Type := {
  selector : Z; seg_base : Z; seg_limit : Z; access_rights : Z
}.

(** [struct desc_table_reg]. *)
Record desc_table_reg : Type := { dtr_limit : Z; dtr_base : Z }.

(** The VMXON and VMCS regions of a CPU: the two header words the code
    writes, and the hypervisor address of the region. *)
Record vmx_region : Type := {
  region_addr : Z; revision_id : Z; shadow_indicator : Z
}.

(** [cpu_data->vmx_state]. *)
Inductive vmx_state_t : Type := VMXOFF | VMXON | VMCS_READY.

#[global] Instance vmx_state_eq_dec : EqDecision vmx_state_t.
Proof. solve_decision. Defined.

(** [struct registers]: the frame [vm_exit] of entry.S pushes, lowest
    address first. *)
Record registers : Type := {
  r15 : Z;
  r14 : Z;
  r13 : Z;
  r12 : Z;
  r11 : Z;
  r10 : Z;
  r9 : Z;
  r8 : Z;
  rdi : Z;
  rsi : Z;
  rbp : Z;
  unused : Z;
  rbx : Z;
  rdx : Z;
  rcx : Z;
  rax : Z
}.

Definition set_rbx (v : Z) (s : registers) : registers :=
  {| r15 := r15 s; r14 := r14 s; r13 := r13 s; r12 := r12 s; r11 := r11 s;
     r10 := r10 s; r9 := r9 s; r8 := r8 s; rdi := rdi s; rsi := rsi s;
     rbp := rbp s; unused := unused s; rbx := v; rdx := rdx s; rcx := rcx s;
     rax := rax s |}.
Definition set_rdx (v : Z) (s : registers) : registers :=
  {| r15 := r15 s; r14 := r14 s; r13 := r13 s; r12 := r12 s; r11 := r11 s;
     r10 := r10 s; r9 := r9 s; r8 := r8 s; rdi := rdi s; rsi := rsi s;
     rbp := rbp s; unused := unused s; rbx := rbx s; rdx := v; rcx := rcx s;
     rax := rax s |}.
Definition set_rcx (v : Z) (s : registers) : registers :=
  {| r15 := r15 s; r14 := r14 s; r13 := r13 s; r12 := r12 s; r11 := r11 s;
     r10 := r10 s; r9 := r9 s; r8 := r8 s; rdi := rdi s; rsi := rsi s;
     rbp := rbp s; unused := unused s; rbx := rbx s; rdx := rdx s; rcx := v;
     rax := rax s |}.
Definition set_rax (v : Z) (s : registers) : registers :=
  {| r15 := r15 s; r14 := r14 s; r13 := r13 s; r12 := r12 s; r11 := r11 s;
     r10 := r10 s; r9 := r9 s; r8 := r8 s; rdi := rdi s; rsi := rsi s;
     rbp := rbp s; unused := unused s; rbx := rbx s; rdx := rdx s;
     rcx := rcx s; rax := v |}.

(** [struct jailhouse_memory], [struct jailhouse_pci_device] and
    [struct jailhouse_cell_desc] of [jailhouse/cell-config.h].  The arrays that
    follow the descriptor in memory are lists; the counts of the descriptor
    are their lengths. *)
Record jailhouse_memory : Type := {
  phys_start : Z; virt_start : Z; mem_size : Z; access_flags : Z
}.

Record jailhouse_pci_device : Type := { domain : Z; bus : Z; devfn : Z }.

Record jailhouse_cell_desc : Type := {
  name : string;
  mem_regions : list jailhouse_memory;
  pci_devices : list jailhouse_pci_device;
  (** one byte per eight ports, a set bit denies the port *)
  pio_bitmap : list Z
}.

Definition num_memory_regions (c : jailhouse_cell_desc) : Z :=
  Z.of_nat (length (mem_regions c)).
Definition num_pci_devices (c : jailhouse_cell_desc) : Z :=
  Z.of_nat (length (pci_devices c)).
Definition pio_bitmap_size (c : jailhouse_cell_desc) : Z :=
  Z.of_nat (length (pio_bitmap c)).
Definition jailhouse_cell_mem_regions := mem_regions.
Definition jailhouse_cell_pci_devices := pci_devices.
Definition jailhouse_cell_pio_bitmap := pio_bitmap.

(** [struct cell]. *)
Record cell : Type := {
  (** [cell->id], an [unsigned int] *)
  cell_id : Z;
  config : jailhouse_cell_desc;
  (** [cell->vmx.ept], the root of the EPT *)
  vmx_ept : Z;
  (** address of [cell->vmx.io_bitmap] *)
  io_bitmap_addr : Z;
  (** [cell->vmx.io_bitmap], [2 * PAGE_SIZE] bytes; a set bit traps the port *)
  vmx_io_bitmap : list Z;
  (** [cell->vtd.page_table] *)
  vtd_page_table : Z
}.

Definition set_vmx_ept (v : Z) (s : cell) : cell :=
  {| cell_id := cell_id s; config := config s; vmx_ept := v;
     io_bitmap_addr := io_bitmap_addr s; vmx_io_bitmap := vmx_io_bitmap s;
     vtd_page_table := vtd_page_table s |}.
Definition set_vmx_io_bitmap (v : list Z) (s : cell) : cell :=
  {| cell_id := cell_id s; config := config s; vmx_ept := vmx_ept s;
     io_bitmap_addr := io_bitmap_addr s; vmx_io_bitmap := v;
     vtd_page_table := vtd_page_table s |}.
Definition set_vtd_page_table (v : Z) (s : cell) : cell :=
  {| cell_id := cell_id s; config := config s; vmx_ept := vmx_ept s;
     io_bitmap_addr := io_bitmap_addr s; vmx_io_bitmap := vmx_io_bitmap s;
     vtd_page_table := v |}.

(** A [struct cell *]: the root cell is the global [linux_cell], any other
    cell lives at an address. *)
Inductive cell_ptr : Type := Linux_cell | Cell_at (addr : Z).

(** [struct per_cpu] of [asm/percpu.h], the fields vmx.c uses. *)
Record per_cpu : Type := {
  cpu_id : Z;
  (** address of [cpu_data->stack] *)
  stack : Z;
  linux_sp : Z;
  linux_ip : Z;
  linux_cr3 : Z;
  linux_gdtr : desc_table_reg;
  linux_idtr : desc_table_reg;
  linux_cs : segment;
  linux_ds : segment;
  linux_es : segment;
  linux_fs : segment;
  linux_gs : segment;
  linux_tss : segment;
  linux_efer : Z;
  linux_sysenter_cs : Z;
  linux_sysenter_eip : Z;
  linux_sysenter_esp : Z;
  (** [cpu_data->cell] *)
  cpu_cell : cell_ptr;
  vmx_state : vmx_state_t;
  vmxon_region : vmx_region;
  (** [cpu_data->vmcs] *)
  vmcs_region : vmx_region
}.

Definition set_linux_cr3 (v : Z) (s : per_cpu) : per_cpu :=
  {| cpu_id := cpu_id s; stack := stack s; linux_sp := linux_sp s;
     linux_ip := linux_ip s; linux_cr3 := v; linux_gdtr := linux_gdtr s;
     linux_idtr := linux_idtr s; linux_cs := linux_cs s;
     linux_ds := linux_ds s; linux_es := linux_es s; linux_fs := linux_fs s;
     linux_gs := linux_gs s; linux_tss := linux_tss s;
     linux_efer := linux_efer s; linux_sysenter_cs := linux_sysenter_cs s;
     linux_sysenter_eip := linux_sysenter_eip s;
     linux_sysenter_esp := linux_sysenter_esp s; cpu_cell := cpu_cell s;
     vmx_state := vmx_state s; vmxon_region := vmxon_region s;
     vmcs_region := vmcs_region s |}.
Definition set_linux_gdtr (v : desc_table_reg) (s : per_cpu) : per_cpu :=
  {| cpu_id := cpu_id s; stack := stack s; linux_sp := linux_sp s;
     linux_ip := linux_ip s; linux_cr3 := linux_cr3 s; linux_gdtr := v;
     linux_idtr := linux_idtr s; linux_cs := linux_cs s;
     linux_ds := linux_ds s; linux_es := linux_es s; linux_fs := linux_fs s;
     linux_gs := linux_gs s; linux_tss := linux_tss s;
     linux_efer := linux_efer s; linux_sysenter_cs := linux_sysenter_cs s;
     linux_sysenter_eip := linux_sysenter_eip s;
     linux_sysenter_esp := linux_sysenter_esp s; cpu_cell := cpu_cell s;
     vmx_state := vmx_state s; vmxon_region := vmxon_region s;
     vmcs_region := vmcs_region s |}.
Definition set_linux_idtr (v : desc_table_reg) (s : per_cpu) : per_cpu :=
  {| cpu_id := cpu_id s; stack := stack s; linux_sp := linux_sp s;
     linux_ip := linux_ip s; linux_cr3 := linux_cr3 s;
     linux_gdtr := linux_gdtr s; linux_idtr := v; linux_cs := linux_cs s;
     linux_ds := linux_ds s; linux_es := linux_es s; linux_fs := linux_fs s;
     linux_gs := linux_gs s; linux_tss := linux_tss s;
     linux_efer := linux_efer s; linux_sysenter_cs := linux_sysenter_cs s;
     linux_sysenter_eip := linux_sysenter_eip s;
     linux_sysenter_esp := linux_sysenter_esp s; cpu_cell := cpu_cell s;
     vmx_state := vmx_state s; vmxon_region := vmxon_region s;
     vmcs_region := vmcs_region s |}.
Definition set_linux_cs (v : segment) (s : per_cpu) : per_cpu :=
  {| cpu_id := cpu_id s; stack := stack s; linux_sp := linux_sp s;
     linux_ip := linux_ip s; linux_cr3 := linux_cr3 s;
     linux_gdtr := linux_gdtr s; linux_idtr := linux_idtr s; linux_cs := v;
     linux_ds := linux_ds s; linux_es := linux_es s; linux_fs := linux_fs s;
     linux_gs := linux_gs s; linux_tss := linux_tss s;
     linux_efer := linux_efer s; linux_sysenter_cs := linux_sysenter_cs s;
     linux_sysenter_eip := linux_sysenter_eip s;
     linux_sysenter_esp := linux_sysenter_esp s; cpu_cell := cpu_cell s;
     vmx_state := vmx_state s; vmxon_region := vmxon_region s;
     vmcs_region := vmcs_region s |}.
Definition set_linux_ds (v : segment) (s : per_cpu) : per_cpu :=
  {| cpu_id := cpu_id s; stack := stack s; linux_sp := linux_sp s;
     linux_ip := linux_ip s; linux_cr3 := linux_cr3 s;
     linux_gdtr := linux_gdtr s; linux_idtr := linux_idtr s;
     linux_cs := linux_cs s; linux_ds := v; linux_es := linux_es s;
     linux_fs := linux_fs s; linux_gs := linux_gs s;
     linux_tss := linux_tss s; linux_efer := linux_efer s;
     linux_sysenter_cs := linux_sysenter_cs s;
     linux_sysenter_eip := linux_sysenter_eip s;
     linux_sysenter_esp := linux_sysenter_esp s; cpu_cell := cpu_cell s;
     vmx_state := vmx_state s; vmxon_region := vmxon_region s;
     vmcs_region := vmcs_region s |}.
Definition set_linux_es (v : segment) (s : per_cpu) : per_cpu :=
  {| cpu_id := cpu_id s; stack := stack s; linux_sp := linux_sp s;
     linux_ip := linux_ip s; linux_cr3 := linux_cr3 s;
     linux_gdtr := linux_gdtr s; linux_idtr := linux_idtr s;
     linux_cs := linux_cs s; linux_ds := linux_ds s; linux_es := v;
     linux_fs := linux_fs s; linux_gs := linux_gs s;
     linux_tss := linux_tss s; linux_efer := linux_efer s;
     linux_sysenter_cs := linux_sysenter_cs s;
     linux_sysenter_eip := linux_sysenter_eip s;
     linux_sysenter_esp := linux_sysenter_esp s; cpu_cell := cpu_cell s;
     vmx_state := vmx_state s; vmxon_region := vmxon_region s;
     vmcs_region := vmcs_region s |}.
Definition set_linux_fs (v : segment) (s : per_cpu) : per_cpu :=
  {| cpu_id := cpu_id s; stack := stack s; linux_sp := linux_sp s;
     linux_ip := linux_ip s; linux_cr3 := linux_cr3 s;
     linux_gdtr := linux_gdtr s; linux_idtr := linux_idtr s;
     linux_cs := linux_cs s; linux_ds := linux_ds s; linux_es := linux_es s;
     linux_fs := v; linux_gs := linux_gs s; linux_tss := linux_tss s;
     linux_efer := linux_efer s; linux_sysenter_cs := linux_sysenter_cs s;
     linux_sysenter_eip := linux_sysenter_eip s;
     linux_sysenter_esp := linux_sysenter_esp s; cpu_cell := cpu_cell s;
     vmx_state := vmx_state s; vmxon_region := vmxon_region s;
     vmcs_region := vmcs_region s |}.
Definition set_linux_gs (v : segment) (s : per_cpu) : per_cpu :=
  {| cpu_id := cpu_id s; stack := stack s; linux_sp := linux_sp s;
     linux_ip := linux_ip s; linux_cr3 := linux_cr3 s;
     linux_gdtr := linux_gdtr s; linux_idtr := linux_idtr s;
     linux_cs := linux_cs s; linux_ds := linux_ds s; linux_es := linux_es s;
     linux_fs := linux_fs s; linux_gs := v; linux_tss := linux_tss s;
     linux_efer := linux_efer s; linux_sysenter_cs := linux_sysenter_cs s;
     linux_sysenter_eip := linux_sysenter_eip s;
     linux_sysenter_esp := linux_sysenter_esp s; cpu_cell := cpu_cell s;
     vmx_state := vmx_state s; vmxon_region := vmxon_region s;
     vmcs_region := vmcs_region s |}.
Definition set_linux_tss (v : segment) (s : per_cpu) : per_cpu :=
  {| cpu_id := cpu_id s; stack := stack s; linux_sp := linux_sp s;
     linux_ip := linux_ip s; linux_cr3 := linux_cr3 s;
     linux_gdtr := linux_gdtr s; linux_idtr := linux_idtr s;
     linux_cs := linux_cs s; linux_ds := linux_ds s; linux_es := linux_es s;
     linux_fs := linux_fs s; linux_gs := linux_gs s; linux_tss := v;
     linux_efer := linux_efer s; linux_sysenter_cs := linux_sysenter_cs s;
     linux_sysenter_eip := linux_sysenter_eip s;
     linux_sysenter_esp := linux_sysenter_esp s; cpu_cell := cpu_cell s;
     vmx_state := vmx_state s; vmxon_region := vmxon_region s;
     vmcs_region := vmcs_region s |}.
Definition set_linux_efer (v : Z) (s : per_cpu) : per_cpu :=
  {| cpu_id := cpu_id s; stack := stack s; linux_sp := linux_sp s;
     linux_ip := linux_ip s; linux_cr3 := linux_cr3 s;
     linux_gdtr := linux_gdtr s; linux_idtr := linux_idtr s;
     linux_cs := linux_cs s; linux_ds := linux_ds s; linux_es := linux_es s;
     linux_fs := linux_fs s; linux_gs := linux_gs s;
     linux_tss := linux_tss s; linux_efer := v;
     linux_sysenter_cs := linux_sysenter_cs s;
     linux_sysenter_eip := linux_sysenter_eip s;
     linux_sysenter_esp := linux_sysenter_esp s; cpu_cell := cpu_cell s;
     vmx_state := vmx_state s; vmxon_region := vmxon_region s;
     vmcs_region := vmcs_region s |}.
Definition set_linux_sysenter_cs (v : Z) (s : per_cpu) : per_cpu :=
  {| cpu_id := cpu_id s; stack := stack s; linux_sp := linux_sp s;
     linux_ip := linux_ip s; linux_cr3 := linux_cr3 s;
     linux_gdtr := linux_gdtr s; linux_idtr := linux_idtr s;
     linux_cs := linux_cs s; linux_ds := linux_ds s; linux_es := linux_es s;
     linux_fs := linux_fs s; linux_gs := linux_gs s;
     linux_tss := linux_tss s; linux_efer := linux_efer s;
     linux_sysenter_cs := v; linux_sysenter_eip := linux_sysenter_eip s;
     linux_sysenter_esp := linux_sysenter_esp s; cpu_cell := cpu_cell s;
     vmx_state := vmx_state s; vmxon_region := vmxon_region s;
     vmcs_region := vmcs_region s |}.
Definition set_linux_sysenter_eip (v : Z) (s : per_cpu) : per_cpu :=
  {| cpu_id := cpu_id s; stack := stack s; linux_sp := linux_sp s;
     linux_ip := linux_ip s; linux_cr3 := linux_cr3 s;
     linux_gdtr := linux_gdtr s; linux_idtr := linux_idtr s;
     linux_cs := linux_cs s; linux_ds := linux_ds s; linux_es := linux_es s;
     linux_fs := linux_fs s; linux_gs := linux_gs s;
     linux_tss := linux_tss s; linux_efer := linux_efer s;
     linux_sysenter_cs := linux_sysenter_cs s; linux_sysenter_eip := v;
     linux_sysenter_esp := linux_sysenter_esp s; cpu_cell := cpu_cell s;
     vmx_state := vmx_state s; vmxon_region := vmxon_region s;
     vmcs_region := vmcs_region s |}.
Definition set_linux_sysenter_esp (v : Z) (s : per_cpu) : per_cpu :=
  {| cpu_id := cpu_id s; stack := stack s; linux_sp := linux_sp s;
     linux_ip := linux_ip s; linux_cr3 := linux_cr3 s;
     linux_gdtr := linux_gdtr s; linux_idtr := linux_idtr s;
     linux_cs := linux_cs s; linux_ds := linux_ds s; linux_es := linux_es s;
     linux_fs := linux_fs s; linux_gs := linux_gs s;
     linux_tss := linux_tss s; linux_efer := linux_efer s;
     linux_sysenter_cs := linux_sysenter_cs s;
     linux_sysenter_eip := linux_sysenter_eip s; linux_sysenter_esp := v;
     cpu_cell := cpu_cell s; vmx_state := vmx_state s;
     vmxon_region := vmxon_region s; vmcs_region := vmcs_region s |}.
Definition set_vmx_state (v : vmx_state_t) (s : per_cpu) : per_cpu :=
  {| cpu_id := cpu_id s; stack := stack s; linux_sp := linux_sp s;
     linux_ip := linux_ip s; linux_cr3 := linux_cr3 s;
     linux_gdtr := linux_gdtr s; linux_idtr := linux_idtr s;
     linux_cs := linux_cs s; linux_ds := linux_ds s; linux_es := linux_es s;
     linux_fs := linux_fs s; linux_gs := linux_gs s;
     linux_tss := linux_tss s; linux_efer := linux_efer s;
     linux_sysenter_cs := linux_sysenter_cs s;
     linux_sysenter_eip := linux_sysenter_eip s;
     linux_sysenter_esp := linux_sysenter_esp s; cpu_cell := cpu_cell s;
     vmx_state := v; vmxon_region := vmxon_region s;
     vmcs_region := vmcs_region s |}.
Definition set_vmxon_region (v : vmx_region) (s : per_cpu) : per_cpu :=
  {| cpu_id := cpu_id s; stack := stack s; linux_sp := linux_sp s;
     linux_ip := linux_ip s; linux_cr3 := linux_cr3 s;
     linux_gdtr := linux_gdtr s; linux_idtr := linux_idtr s;
     linux_cs := linux_cs s; linux_ds := linux_ds s; linux_es := linux_es s;
     linux_fs := linux_fs s; linux_gs := linux_gs s;
     linux_tss := linux_tss s; linux_efer := linux_efer s;
     linux_sysenter_cs := linux_sysenter_cs s;
     linux_sysenter_eip := linux_sysenter_eip s;
     linux_sysenter_esp := linux_sysenter_esp s; cpu_cell := cpu_cell s;
     vmx_state := vmx_state s; vmxon_region := v;
     vmcs_region := vmcs_region s |}.
Definition set_vmcs_region (v : vmx_region) (s : per_cpu) : per_cpu :=
  {| cpu_id := cpu_id s; stack := stack s; linux_sp := linux_sp s;
     linux_ip := linux_ip s; linux_cr3 := linux_cr3 s;
     linux_gdtr := linux_gdtr s; linux_idtr := linux_idtr s;
     linux_cs := linux_cs s; linux_ds := linux_ds s; linux_es := linux_es s;
     linux_fs := linux_fs s; linux_gs := linux_gs s;
     linux_tss := linux_tss s; linux_efer := linux_efer s;
     linux_sysenter_cs := linux_sysenter_cs s;
     linux_sysenter_eip := linux_sysenter_eip s;
     linux_sysenter_esp := linux_sysenter_esp s; cpu_cell := cpu_cell s;
     vmx_state := vmx_state s; vmxon_region := vmxon_region s;
     vmcs_region := v |}.

(** [struct vtd_entry]: one root or context entry. *)
Record vtd_entry : Type := { lo_word : Z; hi_word : Z }.

(** ** Observable events

    The trace records what a run did outside its own data: console
    output, calls into collaborators, privileged instructions, and every
    store to [cpu_data->vmx_state]. *)
Inductive event : Type :=
| Printk (fmt : string) (args : list Z)
| Panic_printk (fmt : string) (args : list Z)
| Panic_stop
| Call (fn : string) (args : list Z)
| Insn (mnemonic : string) (operands : list Z)
| Vmx_state (from to : vmx_state_t).


(** ** Machine state *)
Record state {W : Type} : Type := {
  cr0 : Z;
  cr3 : Z;
  cr4 : Z;
  gdtr : desc_table_reg;
  idtr : desc_table_reg;
  (** model-specific registers *)
  msrs : gmap Z Z;
  (** fields of the current VMCS *)
  vmcs : gmap Z Z;
  (** static of vmx.c *)
  vmx_true_msr_offs : Z;
  (** the executing CPU's [struct per_cpu] *)
  cpu_data : per_cpu;
  (** the register frame [vm_exit] pushed *)
  guest_regs : registers;
  (** the root cell, a global of setup.c *)
  linux_cell : cell;
  (** the other [struct cell] objects, by address *)
  cells : gmap Z cell;
  (** static of vtd.c, 256 entries *)
  root_entry_table : list vtd_entry;
  dmar_reg_base : Z;
  dmar_units : Z;
  dmar_pt_levels : Z;
  dmar_num_did : Z;
  (** 64-bit words of hypervisor memory that hold the context-entry tables, by address *)
  mem : gmap Z Z;
  (** what the collaborators own: page tables, page pools, device registers, the APIC model, the cell registry *)
  ext : W;
  (** what the run did, oldest first *)
  trace : list event
}.
Arguments state : clear implicits.

Definition set_cr4 {W} (v : Z) (s : state W) : state W :=
  {| cr0 := cr0 s; cr3 := cr3 s; cr4 := v; gdtr := gdtr s; idtr := idtr s;
     msrs := msrs s; vmcs := vmcs s;
     vmx_true_msr_offs := vmx_true_msr_offs s; cpu_data := cpu_data s;
     guest_regs := guest_regs s; linux_cell := linux_cell s;
     cells := cells s; root_entry_table := root_entry_table s;
     dmar_reg_base := dmar_reg_base s; dmar_units := dmar_units s;
     dmar_pt_levels := dmar_pt_levels s; dmar_num_did := dmar_num_did s;
     mem := mem s; ext := ext s; trace := trace s |}.
Definition set_msrs {W} (v : gmap Z Z) (s : state W) : state W :=
  {| cr0 := cr0 s; cr3 := cr3 s; cr4 := cr4 s; gdtr := gdtr s;
     idtr := idtr s; msrs := v; vmcs := vmcs s;
     vmx_true_msr_offs := vmx_true_msr_offs s; cpu_data := cpu_data s;
     guest_regs := guest_regs s; linux_cell := linux_cell s;
     cells := cells s; root_entry_table := root_entry_table s;
     dmar_reg_base := dmar_reg_base s; dmar_units := dmar_units s;
     dmar_pt_levels := dmar_pt_levels s; dmar_num_did := dmar_num_did s;
     mem := mem s; ext := ext s; trace := trace s |}.
Definition set_vmcs {W} (v : gmap Z Z) (s : state W) : state W :=
  {| cr0 := cr0 s; cr3 := cr3 s; cr4 := cr4 s; gdtr := gdtr s;
     idtr := idtr s; msrs := msrs s; vmcs := v;
     vmx_true_msr_offs := vmx_true_msr_offs s; cpu_data := cpu_data s;
     guest_regs := guest_regs s; linux_cell := linux_cell s;
     cells := cells s; root_entry_table := root_entry_table s;
     dmar_reg_base := dmar_reg_base s; dmar_units := dmar_units s;
     dmar_pt_levels := dmar_pt_levels s; dmar_num_did := dmar_num_did s;
     mem := mem s; ext := ext s; trace := trace s |}.
Definition set_vmx_true_msr_offs {W} (v : Z) (s : state W) : state W :=
  {| cr0 := cr0 s; cr3 := cr3 s; cr4 := cr4 s; gdtr := gdtr s;
     idtr := idtr s; msrs := msrs s; vmcs := vmcs s; vmx_true_msr_offs := v;
     cpu_data := cpu_data s; guest_regs := guest_regs s;
     linux_cell := linux_cell s; cells := cells s;
     root_entry_table := root_entry_table s;
     dmar_reg_base := dmar_reg_base s; dmar_units := dmar_units s;
     dmar_pt_levels := dmar_pt_levels s; dmar_num_did := dmar_num_did s;
     mem := mem s; ext := ext s; trace := trace s |}.
Definition set_cpu_data {W} (v : per_cpu) (s : state W) : state W :=
  {| cr0 := cr0 s; cr3 := cr3 s; cr4 := cr4 s; gdtr := gdtr s;
     idtr := idtr s; msrs := msrs s; vmcs := vmcs s;
     vmx_true_msr_offs := vmx_true_msr_offs s; cpu_data := v;
     guest_regs := guest_regs s; linux_cell := linux_cell s;
     cells := cells s; root_entry_table := root_entry_table s;
     dmar_reg_base := dmar_reg_base s; dmar_units := dmar_units s;
     dmar_pt_levels := dmar_pt_levels s; dmar_num_did := dmar_num_did s;
     mem := mem s; ext := ext s; trace := trace s |}.
Definition set_guest_regs {W} (v : registers) (s : state W) : state W :=
  {| cr0 := cr0 s; cr3 := cr3 s; cr4 := cr4 s; gdtr := gdtr s;
     idtr := idtr s; msrs := msrs s; vmcs := vmcs s;
     vmx_true_msr_offs := vmx_true_msr_offs s; cpu_data := cpu_data s;
     guest_regs := v; linux_cell := linux_cell s; cells := cells s;
     root_entry_table := root_entry_table s;
     dmar_reg_base := dmar_reg_base s; dmar_units := dmar_units s;
     dmar_pt_levels := dmar_pt_levels s; dmar_num_did := dmar_num_did s;
     mem := mem s; ext := ext s; trace := trace s |}.
Definition set_linux_cell {W} (v : cell) (s : state W) : state W :=
  {| cr0 := cr0 s; cr3 := cr3 s; cr4 := cr4 s; gdtr := gdtr s;
     idtr := idtr s; msrs := msrs s; vmcs := vmcs s;
     vmx_true_msr_offs := vmx_true_msr_offs s; cpu_data := cpu_data s;
     guest_regs := guest_regs s; linux_cell := v; cells := cells s;
     root_entry_table := root_entry_table s;
     dmar_reg_base := dmar_reg_base s; dmar_units := dmar_units s;
     dmar_pt_levels := dmar_pt_levels s; dmar_num_did := dmar_num_did s;
     mem := mem s; ext := ext s; trace := trace s |}.
Definition set_cells {W} (v : gmap Z cell) (s : state W) : state W :=
  {| cr0 := cr0 s; cr3 := cr3 s; cr4 := cr4 s; gdtr := gdtr s;
     idtr := idtr s; msrs := msrs s; vmcs := vmcs s;
     vmx_true_msr_offs := vmx_true_msr_offs s; cpu_data := cpu_data s;
     guest_regs := guest_regs s; linux_cell := linux_cell s; cells := v;
     root_entry_table := root_entry_table s;
     dmar_reg_base := dmar_reg_base s; dmar_units := dmar_units s;
     dmar_pt_levels := dmar_pt_levels s; dmar_num_did := dmar_num_did s;
     mem := mem s; ext := ext s; trace := trace s |}.
Definition set_root_entry_table {W} (v : list vtd_entry) (s : state W) : state W :=
  {| cr0 := cr0 s; cr3 := cr3 s; cr4 := cr4 s; gdtr := gdtr s;
     idtr := idtr s; msrs := msrs s; vmcs := vmcs s;
     vmx_true_msr_offs := vmx_true_msr_offs s; cpu_data := cpu_data s;
     guest_regs := guest_regs s; linux_cell := linux_cell s;
     cells := cells s; root_entry_table := v;
     dmar_reg_base := dmar_reg_base s; dmar_units := dmar_units s;
     dmar_pt_levels := dmar_pt_levels s; dmar_num_did := dmar_num_did s;
     mem := mem s; ext := ext s; trace := trace s |}.
Definition set_dmar_reg_base {W} (v : Z) (s : state W) : state W :=
  {| cr0 := cr0 s; cr3 := cr3 s; cr4 := cr4 s; gdtr := gdtr s;
     idtr := idtr s; msrs := msrs s; vmcs := vmcs s;
     vmx_true_msr_offs := vmx_true_msr_offs s; cpu_data := cpu_data s;
     guest_regs := guest_regs s; linux_cell := linux_cell s;
     cells := cells s; root_entry_table := root_entry_table s;
     dmar_reg_base := v; dmar_units := dmar_units s;
     dmar_pt_levels := dmar_pt_levels s; dmar_num_did := dmar_num_did s;
     mem := mem s; ext := ext s; trace := trace s |}.
Definition set_dmar_units {W} (v : Z) (s : state W) : state W :=
  {| cr0 := cr0 s; cr3 := cr3 s; cr4 := cr4 s; gdtr := gdtr s;
     idtr := idtr s; msrs := msrs s; vmcs := vmcs s;
     vmx_true_msr_offs := vmx_true_msr_offs s; cpu_data := cpu_data s;
     guest_regs := guest_regs s; linux_cell := linux_cell s;
     cells := cells s; root_entry_table := root_entry_table s;
     dmar_reg_base := dmar_reg_base s; dmar_units := v;
     dmar_pt_levels := dmar_pt_levels s; dmar_num_did := dmar_num_did s;
     mem := mem s; ext := ext s; trace := trace s |}.
Definition set_dmar_pt_levels {W} (v : Z) (s : state W) : state W :=
  {| cr0 := cr0 s; cr3 := cr3 s; cr4 := cr4 s; gdtr := gdtr s;
     idtr := idtr s; msrs := msrs s; vmcs := vmcs s;
     vmx_true_msr_offs := vmx_true_msr_offs s; cpu_data := cpu_data s;
     guest_regs := guest_regs s; linux_cell := linux_cell s;
     cells := cells s; root_entry_table := root_entry_table s;
     dmar_reg_base := dmar_reg_base s; dmar_units := dmar_units s;
     dmar_pt_levels := v; dmar_num_did := dmar_num_did s; mem := mem s;
     ext := ext s; trace := trace s |}.
Definition set_dmar_num_did {W} (v : Z) (s : state W) : state W :=
  {| cr0 := cr0 s; cr3 := cr3 s; cr4 := cr4 s; gdtr := gdtr s;
     idtr := idtr s; msrs := msrs s; vmcs := vmcs s;
     vmx_true_msr_offs := vmx_true_msr_offs s; cpu_data := cpu_data s;
     guest_regs := guest_regs s; linux_cell := linux_cell s;
     cells := cells s; root_entry_table := root_entry_table s;
     dmar_reg_base := dmar_reg_base s; dmar_units := dmar_units s;
     dmar_pt_levels := dmar_pt_levels s; dmar_num_did := v; mem := mem s;
     ext := ext s; trace := trace s |}.
Definition set_mem {W} (v : gmap Z Z) (s : state W) : state W :=
  {| cr0 := cr0 s; cr3 := cr3 s; cr4 := cr4 s; gdtr := gdtr s;
     idtr := idtr s; msrs := msrs s; vmcs := vmcs s;
     vmx_true_msr_offs := vmx_true_msr_offs s; cpu_data := cpu_data s;
     guest_regs := guest_regs s; linux_cell := linux_cell s;
     cells := cells s; root_entry_table := root_entry_table s;
     dmar_reg_base := dmar_reg_base s; dmar_units := dmar_units s;
     dmar_pt_levels := dmar_pt_levels s; dmar_num_did := dmar_num_did s;
     mem := v; ext := ext s; trace := trace s |}.
Definition set_ext {W} (v : W) (s : state W) : state W :=
  {| cr0 := cr0 s; cr3 := cr3 s; cr4 := cr4 s; gdtr := gdtr s;
     idtr := idtr s; msrs := msrs s; vmcs := vmcs s;
     vmx_true_msr_offs := vmx_true_msr_offs s; cpu_data := cpu_data s;
     guest_regs := guest_regs s; linux_cell := linux_cell s;
     cells := cells s; root_entry_table := root_entry_table s;
     dmar_reg_base := dmar_reg_base s; dmar_units := dmar_units s;
     dmar_pt_levels := dmar_pt_levels s; dmar_num_did := dmar_num_did s;
     mem := mem s; ext := v; trace := trace s |}.
Definition set_trace {W} (v : list event) (s : state W) : state W :=
  {| cr0 := cr0 s; cr3 := cr3 s; cr4 := cr4 s; gdtr := gdtr s;
     idtr := idtr s; msrs := msrs s; vmcs := vmcs s;
     vmx_true_msr_offs := vmx_true_msr_offs s; cpu_data := cpu_data s;
     guest_regs := guest_regs s; linux_cell := linux_cell s;
     cells := cells s; root_entry_table := root_entry_table s;
     dmar_reg_base := dmar_reg_base s; dmar_units := dmar_units s;
     dmar_pt_levels := dmar_pt_levels s; dmar_num_did := dmar_num_did s;
     mem := mem s; ext := ext s; trace := v |}.
(** ** The ACPI DMAR table

    [struct acpi_dmar_table] and [struct acpi_dmar_drhd] as vtd.c reads
    them: the table's length and, for a byte offset into the table, the
    record header found there. *)
Record acpi_dmar_drhd : Type := {
  drhd_type : Z;        (** [header.type] *)
  drhd_length : Z;      (** [header.length] *)
  drhd_segment : Z;     (** [segment] *)
  register_base_addr : Z
}.

Record acpi_dmar_table : Type := {
  dmar_length : Z;      (** [header.length] *)
  remap_struct_at : Z -> acpi_dmar_drhd
}.

(** The page pools of paging.c. *)
Inductive page_pool : Type := mem_pool | remap_pool.

(** ** Collaborators

    Everything vmx.c and vtd.c call but do not define: the paging layer, the
    APIC model, the cell manager of control.c, the console, and the
    processor instructions whose outcome the hardware decides.  Functions
    over [world] touch only what the collaborators own; functions over the
    whole [state] may change anything. *)
Class Platform : Type := {
  world : Type;
  (** link-time addresses of the static objects *)
  msr_bitmap_addr : Z;
  apic_access_page_addr : Z;
  vm_exit_addr : Z;
  root_entry_table_addr : Z;
  hv_page_table : Z;
  (** paging.c *)
  page_map_hvirt2phys : Z -> Z;
  page_map_phys2hvirt : Z -> Z;
  page_alloc : page_pool -> Z -> world -> Z * world;
  page_free : page_pool -> Z -> Z -> world -> world;
  page_map_create :
    Z -> Z -> Z -> Z -> Z -> Z -> Z -> Z -> world -> Z * world;
  page_map_destroy : Z -> Z -> Z -> Z -> Z -> world -> world;
  flush_cache : Z -> Z -> world -> world;
  (** device registers *)
  mmio_read32 : Z -> world -> Z * world;
  mmio_read64 : Z -> world -> Z * world;
  mmio_write32 : Z -> Z -> world -> world;
  mmio_write64 : Z -> Z -> world -> world;
  acpi_find_table : string -> world -> option acpi_dmar_table;
  (** processor: [cpuid eax ecx] and the VMX instructions; the boolean is
      the success flag the inline assembly extracts *)
  cpuid : Z -> Z -> Z * Z * Z * Z;
  hw_vmxon : Z -> world -> bool * world;
  hw_vmclear : Z -> world -> bool * world;
  hw_vmptrld : Z -> world -> bool * world;
  hw_vmwrite_ok : Z -> world -> bool;
  hw_vmxoff : world -> world;
  hw_invept : Z -> Z -> world -> bool * world;
  hw_xsetbv : Z -> world -> world;
  (** [int $NMI_VECTOR] runs the host's NMI handler *)
  hw_int : Z -> state world -> state world;
  (** apic.c *)
  apic_handle_events : state world -> Z * state world;
  apic_mmio_access :
    Z -> Z -> Z -> bool -> state world -> Z * state world;
  apic_handle_icr_write : Z -> Z -> state world -> state world;
  x2apic_handle_read : state world -> state world;
  x2apic_handle_write : state world -> state world;
  (** control.c and setup code *)
  shutdown : state world -> Z * state world;
  cell_create : Z -> state world -> Z * state world;
  cell_destroy : Z -> state world -> Z * state world;
  arch_cpu_restore : state world -> state world
}.

(** ** The monad

    A run either returns a value and a state, or never returns to its
    caller. *)
Inductive abort : Type :=
| Stopped      (** [panic_stop()]: the processor is halted for good *)
| Left_vmm     (** [vmx_cpu_deactivate_vmm()]: back in Linux, VMX off *)
| Spinning     (** a busy-wait loop outlived its fuel *)
| Undefined.   (** an access outside an object *)

Inductive result {W A : Type} : Type :=
| Done (a : A) (s : state W)
| Abort (why : abort) (s : state W).
Arguments result : clear implicits.

Definition M (W A : Type) : Type := state W -> result W A.

#[global] Instance M_ret {W} : MRet (M W) := fun A a s => Done a s.
#[global] Instance M_bind {W} : MBind (M W) := fun A B k m s =>
  match m s with
  | Done a s' => k a s'
  | Abort why s' => Abort why s'
  end.

Definition bind {W A B} (m : M W A) (k : A -> M W B) : M W B := mbind k m.

Notation "'let*' x ':=' m 'in' k" := (bind m (fun x => k))
  (at level 10, x name, m at level 100, k at level 200,
   format "'[v' 'let*'  x  ':='  m  'in' '/' k ']'").
Notation "'let*' ' p ':=' m 'in' k" :=
  (bind m (fun x => match x with p => k end))
  (at level 10, p pattern, m at level 100, k at level 200, only parsing).

Section Actions.
Context {W : Type}.

Definition gets {A} (f : state W -> A) : M W A := fun s => Done (f s) s.
Definition modify (f : state W -> state W) : M W unit :=
  fun s => Done tt (f s).
Definition stop {A} (why : abort) : M W A := fun s => Abort why s.
Definition log (e : event) : M W unit :=
  modify (fun s => set_trace (trace s ++ [e]) s).

(** A call into a collaborator that owns only [world]. *)
Definition on_world {A} (f : W -> A * W) : M W A :=
  fun s => let '(a, w) := f (ext s) in Done a (set_ext w s).
Definition call {A} (fn : string) (args : list Z) (f : W -> A * W)
  : M W A :=
  log (Call fn args);; on_world f.

(** A call into a collaborator that may change any data of the
    hypervisor; the trace is not its to rewrite. *)
Definition on_state {A} (f : state W -> A * state W) : M W A :=
  fun s => let '(a, s') := f s in Done a (set_trace (trace s) s').
Definition call_any {A} (fn : string) (args : list Z)
    (f : state W -> A * state W) : M W A :=
  log (Call fn args);; on_state f.

Definition printk (fmt : string) (args : list Z) : M W unit :=
  log (Printk fmt args).
Definition panic_printk (fmt : string) (args : list Z) : M W unit :=
  log (Panic_printk fmt args).
Definition panic_stop {A} : M W A := log Panic_stop;; stop Stopped.
(** An instruction whose effect is the hardware's. *)
Definition insn {A} (mnemonic : string) (operands : list Z)
    (f : W -> A * W) : M W A :=
  log (Insn mnemonic operands);; on_world f.

(** [ok &= m] *)
Definition and_ok (ok : bool) (m : M W bool) : M W bool :=
  let* b := m in mret (ok && b).

(** A loop whose body returns an error code and that returns the first
    nonzero one: [for (...) { err = body(x); if (err) return err; }],
    [0] when it runs to its end. *)
Fixpoint for_each_err {A} (l : list A) (body : A -> M W Z) : M W Z :=
  match l with
  | [] => mret 0
  | x :: l' =>
      let* err := body x in
      if truthy err then mret err else for_each_err l' body
  end.

(** [for (n = 0; n < count; n++) body(&array[n])] *)
Fixpoint for_each {A} (l : list A) (body : A -> M W unit) : M W unit :=
  match l with
  | [] => mret tt
  | x :: l' => body x;; for_each l' body
  end.

(** [while (cond()) cpu_relax();] *)
Fixpoint spin_while (fuel : nat) (cond : M W bool) : M W unit :=
  match fuel with
  | O => stop Spinning
  | S fuel' => let* c := cond in if c then spin_while fuel' cond else mret tt
  end.
End Actions.

(** * vmx.c *)

Section Vmx.
Context {gd : Generic_defs} {pd : Processor_defs} {vd : Vmx_defs}
        {plat : Platform}.

#[local] Open Scope string_scope.
#[local] Open Scope list_scope.
#[local] Open Scope Z_scope.
#[local] Abbreviation M := (M world).

(** ** Registers of the processor *)

Definition read_cr0 : M Z := gets cr0.
Definition read_cr3 : M Z := gets cr3.
Definition read_cr4 : M Z := gets cr4.
Definition write_cr4 (val : Z) : M unit := modify (set_cr4 val).
Definition read_gdtr : M desc_table_reg := gets gdtr.
Definition read_idtr : M desc_table_reg := gets idtr.
Definition read_msr (msr : Z) : M Z :=
  gets (fun s => default 0 (msrs s !! msr)).
Definition write_msr (msr val : Z) : M unit :=
  modify (fun s => set_msrs (<[msr := val]> (msrs s)) s).
Definition cpuid_eax (op : Z) : Z := (cpuid op 0).1.1.1.
Definition cpuid_ecx (op : Z) : Z := (cpuid op 0).1.2.

(** ** Cells behind pointers *)

Definition load_cell (p : cell_ptr) : M cell := fun s =>
  match p with
  | Linux_cell => Done (linux_cell s) s
  | Cell_at a =>
      match cells s !! a with
      | Some c => Done c s
      | None => Abort Undefined s
      end
  end.

Definition store_cell (p : cell_ptr) (c : cell) : M unit :=
  modify (fun s =>
    match p with
    | Linux_cell => set_linux_cell c s
    | Cell_at a => set_cells (<[a := c]> (cells s)) s
    end).

(** ** VMX instructions *)

Definition vmxon : M bool :=
  let* cpu := gets cpu_data in
  let vmxon_addr := page_map_hvirt2phys (region_addr (vmxon_region cpu)) in
  insn "vmxon" [vmxon_addr] (hw_vmxon vmxon_addr).

Definition vmcs_clear : M bool :=
  let* cpu := gets cpu_data in
  let vmcs_addr := page_map_hvirt2phys (region_addr (vmcs_region cpu)) in
  insn "vmclear" [vmcs_addr] (hw_vmclear vmcs_addr).

Definition vmcs_load : M bool :=
  let* cpu := gets cpu_data in
  let vmcs_addr := page_map_hvirt2phys (region_addr (vmcs_region cpu)) in
  insn "vmptrld" [vmcs_addr] (hw_vmptrld vmcs_addr).

Definition vmcs_read64 (field : Z) : M Z :=
  gets (fun s => default 0 (vmcs s !! field)).
Definition vmcs_read16 (field : Z) : M Z :=
  let* v := vmcs_read64 field in mret (u16 v).
Definition vmcs_read32 (field : Z) : M Z :=
  let* v := vmcs_read64 field in mret (u32 v).

Definition vmcs_write64 (field val : Z) : M bool :=
  log (Insn "vmwrite" [field; val]);;
  let* ok := gets (fun s => hw_vmwrite_ok field (ext s)) in
  if ok : bool then
    modify (fun s => set_vmcs (<[field := val]> (vmcs s)) s);;
    mret true
  else
    let* err := vmcs_read32 VM_INSTRUCTION_ERROR in
    printk "FATAL: vmwrite %08lx failed, error %d, caller %p"
           [field; err];;
    mret false.

Definition vmcs_write16 (field value : Z) : M bool :=
  vmcs_write64 field (u16 value).
Definition vmcs_write32 (field value : Z) : M bool :=
  vmcs_write64 field (u32 value).

(** ** EPT and I/O bitmap of a cell *)

Definition vmx_map_memory_region (cell : cell_ptr)
    (mem : jailhouse_memory) : M Z :=
  let page_flags := EPT_FLAG_WB_TYPE in
  let page_flags :=
    if truthy (Z.land (access_flags mem) JAILHOUSE_MEM_READ)
    then Z.lor page_flags EPT_FLAG_READ else page_flags in
  let page_flags :=
    if truthy (Z.land (access_flags mem) JAILHOUSE_MEM_WRITE)
    then Z.lor page_flags EPT_FLAG_WRITE else page_flags in
  let page_flags :=
    if truthy (Z.land (access_flags mem) JAILHOUSE_MEM_EXECUTE)
    then Z.lor page_flags EPT_FLAG_EXECUTE else page_flags in
  let table_flags := Z.land page_flags (not32 EPT_FLAG_WB_TYPE) in
  let* c := load_cell cell in
  call "page_map_create"
       [vmx_ept c; phys_start mem; mem_size mem; virt_start mem;
        page_flags; table_flags; PAGE_DIR_LEVELS; PAGE_MAP_NON_COHERENT]
       (page_map_create (vmx_ept c) (phys_start mem) (mem_size mem)
          (virt_start mem) page_flags table_flags PAGE_DIR_LEVELS
          PAGE_MAP_NON_COHERENT).

Definition vmx_unmap_memory_region (cell : cell_ptr)
    (mem : jailhouse_memory) : M unit :=
  let* c := load_cell cell in
  call "page_map_destroy"
       [vmx_ept c; virt_start mem; mem_size mem; PAGE_DIR_LEVELS;
        PAGE_MAP_NON_COHERENT]
       (fun w => (tt, page_map_destroy (vmx_ept c) (virt_start mem)
                        (mem_size mem) PAGE_DIR_LEVELS
                        PAGE_MAP_NON_COHERENT w)).

(** [memcpy(dst + off, src, length src)]; [None] when the copy leaves
    [dst]. *)
Definition memcpy_at (dst : list Z) (off : nat) (src : list Z)
  : option (list Z) :=
  if decide (off + length src <= length dst)%nat
  then Some (take off dst ++ src ++ drop (off + length src) dst)
  else None.

Definition vmx_invept : M unit :=
  let* ept_cap := read_msr MSR_IA32_VMX_EPT_VPID_CAP in
  let* '(type, eptp) :=
    (if truthy (Z.land ept_cap EPT_INVEPT_SINGLE)
     then let* p := vmcs_read64 EPT_POINTER in mret (VMX_INVEPT_SINGLE, p)
     else mret (VMX_INVEPT_GLOBAL, 0)) in
  let* ok := insn "invept" [type; eptp] (hw_invept type eptp) in
  if ok : bool then mret tt
  else
    let* err := vmcs_read32 VM_INSTRUCTION_ERROR in
    panic_printk "FATAL: invept failed, error %d" [err];;
    panic_stop.

Definition vmx_cell_init (cell : cell_ptr) : M Z :=
  let* c := load_cell cell in
  let cfg := config c in
  let mem := jailhouse_cell_mem_regions cfg in
  let pio_bitmap := jailhouse_cell_pio_bitmap cfg in
  (* build root cell EPT *)
  let* ept := call "page_alloc" [1] (page_alloc mem_pool 1) in
  store_cell cell (set_vmx_ept ept c);;
  if negb (truthy ept) then mret (- ENOMEM) else
  let* err := for_each_err mem (vmx_map_memory_region cell) in
  if truthy err then mret err else
  let* err :=
    call "page_map_create"
         [ept; page_map_hvirt2phys apic_access_page_addr; PAGE_SIZE;
          XAPIC_BASE;
          Z.lor (Z.lor EPT_FLAG_READ EPT_FLAG_WRITE) EPT_FLAG_WB_TYPE;
          Z.lor EPT_FLAG_READ EPT_FLAG_WRITE;
          PAGE_DIR_LEVELS; PAGE_MAP_NON_COHERENT]
         (page_map_create ept (page_map_hvirt2phys apic_access_page_addr)
            PAGE_SIZE XAPIC_BASE
            (Z.lor (Z.lor EPT_FLAG_READ EPT_FLAG_WRITE) EPT_FLAG_WB_TYPE)
            (Z.lor EPT_FLAG_READ EPT_FLAG_WRITE)
            PAGE_DIR_LEVELS PAGE_MAP_NON_COHERENT) in
  if truthy err then mret err else
  let* c := load_cell cell in
  let io_bitmap := replicate (length (vmx_io_bitmap c)) (u8 (-1)) in
  let size0 := Z.to_nat (Z.min (pio_bitmap_size cfg) PAGE_SIZE) in
  let size1 :=
    Z.to_nat (Z.min (pio_bitmap_size cfg - Z.of_nat size0) PAGE_SIZE) in
  match memcpy_at io_bitmap 0 (take size0 pio_bitmap) with
  | None => stop Undefined
  | Some io_bitmap =>
      match memcpy_at io_bitmap (Z.to_nat PAGE_SIZE)
              (take size1 (drop size0 pio_bitmap)) with
      | None => stop Undefined
      | Some io_bitmap =>
          store_cell cell (set_vmx_io_bitmap io_bitmap c);;
          mret 0
      end
  end.

(** [for (b = io_bitmap; size > 0; b++, pio_bitmap++, size--)
      *b |= ~*pio_bitmap;] with [size] the length of [pio_bitmap]. *)
Fixpoint shrink_io_bitmap (b pio_bitmap : list Z) : option (list Z) :=
  match pio_bitmap with
  | [] => Some b
  | p :: pio_bitmap' =>
      match b with
      | [] => None
      | x :: b' =>
          cons (u8 (Z.lor x (Z.lnot p))) <$> shrink_io_bitmap b' pio_bitmap'
      end
  end.

Definition vmx_linux_cell_shrink (config : jailhouse_cell_desc) : M unit :=
  let mem := jailhouse_cell_mem_regions config in
  let pio_bitmap := jailhouse_cell_pio_bitmap config in
  for_each mem (fun mem =>
    let* linux := gets linux_cell in
    call "page_map_destroy"
         [vmx_ept linux; phys_start mem; mem_size mem; PAGE_DIR_LEVELS;
          PAGE_MAP_NON_COHERENT]
         (fun w => (tt, page_map_destroy (vmx_ept linux) (phys_start mem)
                          (mem_size mem) PAGE_DIR_LEVELS
                          PAGE_MAP_NON_COHERENT w)));;
  let* linux := gets linux_cell in
  match shrink_io_bitmap (vmx_io_bitmap linux) pio_bitmap with
  | None => stop Undefined
  | Some b =>
      modify (set_linux_cell (set_vmx_io_bitmap b linux));;
      vmx_invept
  end.

(** [for (b = io_bitmap; size > 0;
          b++, pio_bitmap++, linux_pio_bitmap++, size--)
      *b &= *pio_bitmap | *linux_pio_bitmap;] *)
Fixpoint restore_io_bitmap (size : nat) (b pio_bitmap linux_pio_bitmap : list Z)
  : option (list Z) :=
  match size with
  | O => Some b
  | S size' =>
      match b, pio_bitmap, linux_pio_bitmap with
      | x :: b', p :: pio_bitmap', l :: linux_pio_bitmap' =>
          cons (Z.land x (Z.lor p l))
            <$> restore_io_bitmap size' b' pio_bitmap' linux_pio_bitmap'
      | _, _, _ => None
      end
  end.

Definition vmx_cell_exit (cell : cell_ptr) : M unit :=
  let* linux := gets linux_cell in
  let linux_pio_bitmap := jailhouse_cell_pio_bitmap (config linux) in
  let* c := load_cell cell in
  let cfg := config c in
  let pio_bitmap := jailhouse_cell_pio_bitmap cfg in
  let size := pio_bitmap_size cfg in
  call "page_map_destroy"
       [vmx_ept c; XAPIC_BASE; PAGE_SIZE; PAGE_DIR_LEVELS;
        PAGE_MAP_NON_COHERENT]
       (fun w => (tt, page_map_destroy (vmx_ept c) XAPIC_BASE PAGE_SIZE
                        PAGE_DIR_LEVELS PAGE_MAP_NON_COHERENT w));;
  let size :=
    if pio_bitmap_size (config linux) <? size
    then pio_bitmap_size (config linux) else size in
  match restore_io_bitmap (Z.to_nat size)
          (vmx_io_bitmap linux) pio_bitmap linux_pio_bitmap with
  | None => stop Undefined
  | Some b =>
      modify (fun s =>
        set_linux_cell (set_vmx_io_bitmap b (linux_cell s)) s);;
      call "page_free" [vmx_ept c; 1]
           (fun w => (tt, page_free mem_pool (vmx_ept c) 1 w))
  end.

(** ** Guest state *)

Definition invalid_seg : segment :=
  {| selector := 0; seg_base := 0; seg_limit := 0;
     access_rights := 0x10000 |}.

Definition vmx_set_guest_cr (cr val : Z) : M bool :=
  let ok := true in
  let* fixed0 := read_msr (if truthy cr then MSR_IA32_VMX_CR4_FIXED0
                           else MSR_IA32_VMX_CR0_FIXED0) in
  let* fixed1 := read_msr (if truthy cr then MSR_IA32_VMX_CR4_FIXED1
                           else MSR_IA32_VMX_CR0_FIXED1) in
  let required1 := Z.land fixed0 fixed1 in
  let '(fixed1, required1, val) :=
    if cr =? 0 then
      (Z.land fixed1 (not64 (Z.lor X86_CR0_NW X86_CR0_CD)),
       Z.lor (Z.land required1 (not64 (Z.lor X86_CR0_PE X86_CR0_PG)))
             X86_CR0_ET,
       val)
    else
      (* keeps the hypervisor visible *)
      (fixed1, required1, Z.lor val X86_CR4_VMXE) in
  let* ok := and_ok ok (vmcs_write64 (if truthy cr then GUEST_CR4
                                      else GUEST_CR0)
                          (Z.lor (Z.land val fixed1) required1)) in
  let* ok := and_ok ok (vmcs_write64 (if truthy cr then CR4_READ_SHADOW
                                      else CR0_READ_SHADOW) val) in
  let* ok := and_ok ok (vmcs_write64 (if truthy cr then CR4_GUEST_HOST_MASK
                                      else CR0_GUEST_HOST_MASK)
                          (Z.lor required1 (not64 fixed1))) in
  mret ok.

Definition vmx_set_cell_config (cell : cell_ptr) : M bool :=
  let ok := true in
  let* c := load_cell cell in
  let io_bitmap := io_bitmap_addr c in
  let* ok := and_ok ok (vmcs_write64 IO_BITMAP_A
                          (page_map_hvirt2phys io_bitmap)) in
  let* ok := and_ok ok (vmcs_write64 IO_BITMAP_B
                          (page_map_hvirt2phys
                             (u64 (io_bitmap + PAGE_SIZE)))) in
  let* ok := and_ok ok (vmcs_write64 EPT_POINTER
                          (Z.lor (Z.lor (page_map_hvirt2phys (vmx_ept c))
                                        EPT_TYPE_WRITEBACK)
                                 EPT_PAGE_WALK_LEN)) in
  mret ok.

Definition vmx_set_guest_segment (seg : segment) (selector_field : Z)
  : M bool :=
  let ok := true in
  let* ok := and_ok ok (vmcs_write16 selector_field (selector seg)) in
  let* ok := and_ok ok (vmcs_write64 (selector_field + GUEST_SEG_BASE)
                          (seg_base seg)) in
  let* ok := and_ok ok (vmcs_write32 (selector_field + GUEST_SEG_LIMIT)
                          (seg_limit seg)) in
  let* ok := and_ok ok (vmcs_write32 (selector_field + GUEST_SEG_AR_BYTES)
                          (access_rights seg)) in
  mret ok.

Definition vmcs_setup : M bool :=
  let ok := true in
  let* cpu := gets cpu_data in
  let* v := read_cr0 in
  let* ok := and_ok ok (vmcs_write64 HOST_CR0 v) in
  let* v := read_cr3 in
  let* ok := and_ok ok (vmcs_write64 HOST_CR3 v) in
  let* v := read_cr4 in
  let* ok := and_ok ok (vmcs_write64 HOST_CR4 v) in

  let* ok := and_ok ok (vmcs_write16 HOST_CS_SELECTOR (GDT_DESC_CODE * 8)) in
  let* ok := and_ok ok (vmcs_write16 HOST_DS_SELECTOR 0) in
  let* ok := and_ok ok (vmcs_write16 HOST_ES_SELECTOR 0) in
  let* ok := and_ok ok (vmcs_write16 HOST_SS_SELECTOR 0) in
  let* ok := and_ok ok (vmcs_write16 HOST_FS_SELECTOR 0) in
  let* ok := and_ok ok (vmcs_write16 HOST_GS_SELECTOR 0) in
  let* ok := and_ok ok (vmcs_write16 HOST_TR_SELECTOR (GDT_DESC_TSS * 8)) in

  let* ok := and_ok ok (vmcs_write64 HOST_FS_BASE 0) in
  let* ok := and_ok ok (vmcs_write64 HOST_GS_BASE 0) in
  let* ok := and_ok ok (vmcs_write64 HOST_TR_BASE 0) in

  let* dtr := read_gdtr in
  let* ok := and_ok ok (vmcs_write64 HOST_GDTR_BASE (dtr_base dtr)) in
  let* dtr := read_idtr in
  let* ok := and_ok ok (vmcs_write64 HOST_IDTR_BASE (dtr_base dtr)) in

  let* ok := and_ok ok (vmcs_write64 HOST_IA32_EFER
                          (Z.lor EFER_LMA EFER_LME)) in

  let* ok := and_ok ok (vmcs_write32 HOST_IA32_SYSENTER_CS 0) in
  let* ok := and_ok ok (vmcs_write64 HOST_IA32_SYSENTER_EIP 0) in
  let* ok := and_ok ok (vmcs_write64 HOST_IA32_SYSENTER_ESP 0) in

  let* ok := and_ok ok (vmcs_write64 HOST_RSP
                          (u64 (stack cpu + sizeof_stack))) in
  let* ok := and_ok ok (vmcs_write64 HOST_RIP vm_exit_addr) in

  let* v := read_cr0 in
  let* ok := and_ok ok (vmx_set_guest_cr 0 v) in
  let* v := read_cr4 in
  let* ok := and_ok ok (vmx_set_guest_cr 4 v) in

  let* ok := and_ok ok (vmcs_write64 GUEST_CR3 (linux_cr3 cpu)) in

  let* ok := and_ok ok (vmx_set_guest_segment (linux_cs cpu)
                          GUEST_CS_SELECTOR) in
  let* ok := and_ok ok (vmx_set_guest_segment (linux_ds cpu)
                          GUEST_DS_SELECTOR) in
  let* ok := and_ok ok (vmx_set_guest_segment (linux_es cpu)
                          GUEST_ES_SELECTOR) in
  let* ok := and_ok ok (vmx_set_guest_segment (linux_fs cpu)
                          GUEST_FS_SELECTOR) in
  let* ok := and_ok ok (vmx_set_guest_segment (linux_gs cpu)
                          GUEST_GS_SELECTOR) in
  let* ok := and_ok ok (vmx_set_guest_segment invalid_seg
                          GUEST_SS_SELECTOR) in
  let* ok := and_ok ok (vmx_set_guest_segment (linux_tss cpu)
                          GUEST_TR_SELECTOR) in
  let* ok := and_ok ok (vmx_set_guest_segment invalid_seg
                          GUEST_LDTR_SELECTOR) in

  let* ok := and_ok ok (vmcs_write64 GUEST_GDTR_BASE
                          (dtr_base (linux_gdtr cpu))) in
  let* ok := and_ok ok (vmcs_write32 GUEST_GDTR_LIMIT
                          (dtr_limit (linux_gdtr cpu))) in
  let* ok := and_ok ok (vmcs_write64 GUEST_IDTR_BASE
                          (dtr_base (linux_idtr cpu))) in
  let* ok := and_ok ok (vmcs_write32 GUEST_IDTR_LIMIT
                          (dtr_limit (linux_idtr cpu))) in

  let* ok := and_ok ok (vmcs_write64 GUEST_RFLAGS 0x02) in
  let* ok := and_ok ok (vmcs_write64 GUEST_RSP
                          (u64 (linux_sp cpu + (NUM_ENTRY_REGS + 1) * 8))) in
  let* ok := and_ok ok (vmcs_write64 GUEST_RIP (linux_ip cpu)) in

  let* v := read_msr MSR_IA32_SYSENTER_CS in
  let* ok := and_ok ok (vmcs_write32 GUEST_SYSENTER_CS v) in
  let* v := read_msr MSR_IA32_SYSENTER_EIP in
  let* ok := and_ok ok (vmcs_write64 GUEST_SYSENTER_EIP v) in
  let* v := read_msr MSR_IA32_SYSENTER_ESP in
  let* ok := and_ok ok (vmcs_write64 GUEST_SYSENTER_ESP v) in

  let* ok := and_ok ok (vmcs_write64 GUEST_DR7 0x00000400) in

  let* ok := and_ok ok (vmcs_write32 GUEST_ACTIVITY_STATE
                          GUEST_ACTIVITY_ACTIVE) in
  let* ok := and_ok ok (vmcs_write32 GUEST_INTERRUPTIBILITY_INFO 0) in
  let* ok := and_ok ok (vmcs_write64 GUEST_PENDING_DBG_EXCEPTIONS 0) in

  let* ok := and_ok ok (vmcs_write64 GUEST_IA32_EFER (linux_efer cpu)) in

  let* ok := and_ok ok (vmcs_write64 VMCS_LINK_POINTER (u64 (-1))) in
  let* ok := and_ok ok (vmcs_write32 VM_ENTRY_INTR_INFO_FIELD 0) in

  let* offs := gets vmx_true_msr_offs in
  let* val := read_msr (MSR_IA32_VMX_PINBASED_CTLS + offs) in
  let val := Z.lor val PIN_BASED_NMI_EXITING in
  let* ok := and_ok ok (vmcs_write32 PIN_BASED_VM_EXEC_CONTROL val) in

  let* ok := and_ok ok (vmcs_write32 VMX_PREEMPTION_TIMER_VALUE 0) in

  let* val := read_msr (MSR_IA32_VMX_PROCBASED_CTLS + offs) in
  let val := Z.lor val (Z.lor (Z.lor CPU_BASED_USE_IO_BITMAPS
                                     CPU_BASED_USE_MSR_BITMAPS)
                              CPU_BASED_ACTIVATE_SECONDARY_CONTROLS) in
  let* ok := and_ok ok (vmcs_write32 CPU_BASED_VM_EXEC_CONTROL val) in

  let* ok := and_ok ok (vmcs_write64 MSR_BITMAP
                          (page_map_hvirt2phys msr_bitmap_addr)) in

  let* val := read_msr MSR_IA32_VMX_PROCBASED_CTLS2 in
  let val := Z.lor val (Z.lor (Z.lor SECONDARY_EXEC_VIRTUALIZE_APIC_ACCESSES
                                     SECONDARY_EXEC_ENABLE_EPT)
                              SECONDARY_EXEC_UNRESTRICTED_GUEST) in
  let* ok := and_ok ok (vmcs_write32 SECONDARY_VM_EXEC_CONTROL val) in

  let* ok := and_ok ok (vmcs_write64 APIC_ACCESS_ADDR
                          (page_map_hvirt2phys apic_access_page_addr)) in

  let* ok := and_ok ok (vmx_set_cell_config (cpu_cell cpu)) in

  let* ok := and_ok ok (vmcs_write32 EXCEPTION_BITMAP 0) in

  let* val := read_msr (MSR_IA32_VMX_EXIT_CTLS + offs) in
  let val := Z.lor val (Z.lor (Z.lor VM_EXIT_HOST_ADDR_SPACE_SIZE
                                     VM_EXIT_SAVE_IA32_EFER)
                              VM_EXIT_LOAD_IA32_EFER) in
  let* ok := and_ok ok (vmcs_write32 VM_EXIT_CONTROLS val) in

  let* ok := and_ok ok (vmcs_write32 VM_EXIT_MSR_STORE_COUNT 0) in
  let* ok := and_ok ok (vmcs_write32 VM_EXIT_MSR_LOAD_COUNT 0) in
  let* ok := and_ok ok (vmcs_write32 VM_ENTRY_MSR_LOAD_COUNT 0) in

  let* val := read_msr (MSR_IA32_VMX_ENTRY_CTLS + offs) in
  let val := Z.lor val (Z.lor VM_ENTRY_IA32E_MODE
                              VM_ENTRY_LOAD_IA32_EFER) in
  let* ok := and_ok ok (vmcs_write32 VM_ENTRY_CONTROLS val) in

  let* ok := and_ok ok (vmcs_write64 CR4_GUEST_HOST_MASK 0) in

  let* ok := and_ok ok (vmcs_write32 CR3_TARGET_COUNT 0) in

  mret ok.

(** ** Per-CPU enablement *)

(** A store to [cpu_data->vmx_state]; the transition goes to the trace. *)
Definition store_vmx_state (st : vmx_state_t) : M unit :=
  let* cpu := gets cpu_data in
  log (Vmx_state (vmx_state cpu) st);;
  modify (fun s => set_cpu_data (set_vmx_state st (cpu_data s)) s).

(** The capability tests of [vmx_cpu_init], one per [if] of the source;
    each is [true] when the test passes. *)
Definition vmcs_size_ok (vmx_basic : Z) : bool :=
  negb (Z.land (Z.shiftr vmx_basic 32) 0x1fff >? PAGE_SIZE).
Definition vmcs_memtype_ok (vmx_basic : Z) : bool :=
  Z.land (Z.shiftr vmx_basic 50) 0xf =? EPT_TYPE_WRITEBACK.
Definition pin_ctrl_ok (vmx_pin_ctrl : Z) : bool :=
  truthy (Z.land vmx_pin_ctrl PIN_BASED_NMI_EXITING) &&
  truthy (Z.land vmx_pin_ctrl PIN_BASED_VMX_PREEMPTION_TIMER).
Definition proc_ctrl_ok (vmx_proc_ctrl : Z) : bool :=
  truthy (Z.land vmx_proc_ctrl CPU_BASED_USE_IO_BITMAPS) &&
  truthy (Z.land vmx_proc_ctrl CPU_BASED_USE_MSR_BITMAPS) &&
  truthy (Z.land vmx_proc_ctrl CPU_BASED_ACTIVATE_SECONDARY_CONTROLS).
Definition proc_ctrl2_ok (vmx_proc_ctrl2 ept_cap : Z) : bool :=
  truthy (Z.land vmx_proc_ctrl2 SECONDARY_EXEC_VIRTUALIZE_APIC_ACCESSES) &&
  truthy (Z.land vmx_proc_ctrl2 SECONDARY_EXEC_ENABLE_EPT) &&
  (Z.land ept_cap EPT_MANDATORY_FEATURES =? EPT_MANDATORY_FEATURES) &&
  truthy (Z.land ept_cap (Z.lor EPT_INVEPT_SINGLE EPT_INVEPT_GLOBAL)) &&
  truthy (Z.land vmx_proc_ctrl2 SECONDARY_EXEC_UNRESTRICTED_GUEST).
Definition activity_hlt_ok (vmx_misc : Z) : bool :=
  truthy (Z.land vmx_misc VMX_MISC_ACTIVITY_HLT).

(** The rest of [vmx_cpu_init] once the feature-control MSR allows VMXON;
    [cr4] is the value read at the start. *)
Definition vmx_cpu_init_enable (cr4 : Z) : M Z :=
  write_cr4 (Z.lor cr4 X86_CR4_VMXE);;
  (* TODO: validate CR4 *)
  let* ok := vmxon in
  if negb ok then
    write_cr4 cr4;;
    mret (- EIO)
  else
  store_vmx_state VMXON;;
  let* ok := vmcs_clear in
  if negb ok then mret (- EIO) else
  let* ok := vmcs_load in
  if negb ok then mret (- EIO) else
  let* ok := vmcs_setup in
  if negb ok then mret (- EIO) else
  store_vmx_state VMCS_READY;;
  mret 0.

Definition vmx_cpu_init : M Z :=
  if negb (truthy (Z.land (cpuid_ecx 1) X86_FEATURE_VMX)) then
    mret (- ENODEV)
  else
  let* cr4 := read_cr4 in
  if truthy (Z.land cr4 X86_CR4_VMXE) then mret (- EBUSY) else
  let* vmx_basic := read_msr MSR_IA32_VMX_BASIC in
  (* require VMCS size <= PAGE_SIZE *)
  if negb (vmcs_size_ok vmx_basic) then mret (- EIO) else
  (* require VMCS memory access type == write back *)
  if negb (vmcs_memtype_ok vmx_basic) then mret (- EIO) else
  (if truthy (Z.land vmx_basic (Z.shiftl 1 55)) then
     modify (set_vmx_true_msr_offs
               (u32 (MSR_IA32_VMX_TRUE_PINBASED_CTLS -
                     MSR_IA32_VMX_PINBASED_CTLS)))
   else mret tt);;
  let* offs := gets vmx_true_msr_offs in
  (* require NMI exiting and preemption timer support *)
  let* v := read_msr (MSR_IA32_VMX_PINBASED_CTLS + offs) in
  let vmx_pin_ctrl := Z.shiftr v 32 in
  if negb (pin_ctrl_ok vmx_pin_ctrl) then mret (- EIO) else
  (* require I/O and MSR bitmap as well as secondary controls support *)
  let* v := read_msr (MSR_IA32_VMX_PROCBASED_CTLS + offs) in
  let vmx_proc_ctrl := Z.shiftr v 32 in
  if negb (proc_ctrl_ok vmx_proc_ctrl) then mret (- EIO) else
  (* require APIC access, EPT and unrestricted guest mode support *)
  let* v := read_msr MSR_IA32_VMX_PROCBASED_CTLS2 in
  let vmx_proc_ctrl2 := Z.shiftr v 32 in
  let* ept_cap := read_msr MSR_IA32_VMX_EPT_VPID_CAP in
  if negb (proc_ctrl2_ok vmx_proc_ctrl2 ept_cap) then mret (- EIO) else
  (* require activity state HLT *)
  let* vmx_misc := read_msr MSR_IA32_VMX_MISC in
  if negb (activity_hlt_ok vmx_misc) then mret (- EIO) else
  let revision_id := u32 vmx_basic in
  modify (fun s =>
    let cpu := cpu_data s in
    let region r :=
      {| region_addr := region_addr r; revision_id := revision_id;
         shadow_indicator := 0 |} in
    set_cpu_data
      (set_vmcs_region (region (vmcs_region cpu))
         (set_vmxon_region (region (vmxon_region cpu)) cpu)) s);;
  (* Note: We assume that TXT is off *)
  let* feature_ctrl := read_msr MSR_IA32_FEATURE_CONTROL in
  let mask := Z.lor FEATURE_CONTROL_LOCKED
                    FEATURE_CONTROL_VMXON_ENABLED_OUTSIDE_SMX in
  if negb (Z.land feature_ctrl mask =? mask) then
    if truthy (Z.land feature_ctrl FEATURE_CONTROL_LOCKED) then
      mret (- ENODEV)
    else
      write_msr MSR_IA32_FEATURE_CONTROL (Z.lor feature_ctrl mask);;
      vmx_cpu_init_enable cr4
  else vmx_cpu_init_enable cr4.

Definition vmx_cpu_exit : M unit :=
  let* cpu := gets cpu_data in
  if decide (vmx_state cpu = VMXOFF) then mret tt else
  store_vmx_state VMXOFF;;
  vmcs_clear;;
  insn "vmxoff" [] (fun w => (tt, hw_vmxoff w));;
  let* cr4 := read_cr4 in
  write_cr4 (Z.land cr4 (not64 X86_CR4_VMXE)).

(** ** Leaving and resetting the guest *)

Definition vmx_cpu_deactivate_vmm {A} : M A :=
  let* stack := vmcs_read64 GUEST_RSP in
  let* linux_ip := vmcs_read64 GUEST_RIP in
  let upd (f : per_cpu -> per_cpu) : M unit :=
    modify (fun s => set_cpu_data (f (cpu_data s)) s) in
  let sel (v : Z) (seg : segment) : segment :=
    {| selector := u16 v; seg_base := seg_base seg;
       seg_limit := seg_limit seg; access_rights := access_rights seg |} in
  let bas (v : Z) (seg : segment) : segment :=
    {| selector := selector seg; seg_base := v;
       seg_limit := seg_limit seg; access_rights := access_rights seg |} in
  let* v := vmcs_read64 GUEST_CR3 in
  upd (set_linux_cr3 v);;
  let* b := vmcs_read64 GUEST_GDTR_BASE in
  let* l := vmcs_read64 GUEST_GDTR_LIMIT in
  upd (set_linux_gdtr {| dtr_limit := l; dtr_base := b |});;
  let* b := vmcs_read64 GUEST_IDTR_BASE in
  let* l := vmcs_read64 GUEST_IDTR_LIMIT in
  upd (set_linux_idtr {| dtr_limit := l; dtr_base := b |});;
  let* v := vmcs_read32 GUEST_CS_SELECTOR in
  upd (fun c => set_linux_cs (sel v (linux_cs c)) c);;
  let* v := vmcs_read32 GUEST_TR_SELECTOR in
  upd (fun c => set_linux_tss (sel v (linux_tss c)) c);;
  let* v := vmcs_read64 GUEST_IA32_EFER in
  upd (set_linux_efer v);;
  let* v := vmcs_read64 GUEST_FS_BASE in
  upd (fun c => set_linux_fs (bas v (linux_fs c)) c);;
  let* v := vmcs_read64 GUEST_GS_BASE in
  upd (fun c => set_linux_gs (bas v (linux_gs c)) c);;
  let* v := vmcs_read32 GUEST_SYSENTER_CS in
  upd (set_linux_sysenter_cs v);;
  let* v := vmcs_read64 GUEST_SYSENTER_EIP in
  upd (set_linux_sysenter_eip v);;
  let* v := vmcs_read64 GUEST_SYSENTER_ESP in
  upd (set_linux_sysenter_esp v);;
  let* v := vmcs_read16 GUEST_DS_SELECTOR in
  upd (fun c => set_linux_ds (sel v (linux_ds c)) c);;
  let* v := vmcs_read16 GUEST_ES_SELECTOR in
  upd (fun c => set_linux_es (sel v (linux_es c)) c);;
  let* v := vmcs_read16 GUEST_FS_SELECTOR in
  upd (fun c => set_linux_fs (sel v (linux_fs c)) c);;
  let* v := vmcs_read16 GUEST_GS_SELECTOR in
  upd (fun c => set_linux_gs (sel v (linux_gs c)) c);;
  call_any "arch_cpu_restore" [] (fun s => (tt, arch_cpu_restore s));;
  (* stack--; *stack = linux_ip; *)
  let stack := u64 (stack - 8) in
  modify (fun s => set_mem (<[stack := linux_ip]> (mem s)) s);;
  (* the assembly restores the guest's registers and returns to
     [linux_ip] on [stack] *)
  stop Left_vmm.

Definition zero_registers : registers :=
  {| r15 := 0; r14 := 0; r13 := 0; r12 := 0; r11 := 0; r10 := 0; r9 := 0;
     r8 := 0; rdi := 0; rsi := 0; rbp := 0; unused := 0; rbx := 0;
     rdx := 0; rcx := 0; rax := 0 |}.

Definition vmx_cpu_reset (sipi_vector : Z) : M unit :=
  let ok := true in
  let* ok := and_ok ok (vmx_set_guest_cr 0
               (Z.lor (Z.lor X86_CR0_NW X86_CR0_CD) X86_CR0_ET)) in
  let* ok := and_ok ok (vmx_set_guest_cr 4 0) in

  let* ok := and_ok ok (vmcs_write64 GUEST_CR3 0) in

  let* ok := and_ok ok (vmcs_write64 GUEST_RFLAGS 0x02) in
  let* ok := and_ok ok (vmcs_write64 GUEST_RSP 0) in

  let '(val, sipi_vector) :=
    if sipi_vector =? APIC_BSP_PSEUDO_SIPI then (0xfff0, 0xf0)
    else (0, sipi_vector) in
  let* ok := and_ok ok (vmcs_write64 GUEST_RIP val) in

  let* ok := and_ok ok (vmcs_write16 GUEST_CS_SELECTOR
                          (u32 (Z.shiftl sipi_vector 8))) in
  let* ok := and_ok ok (vmcs_write64 GUEST_CS_BASE
                          (u32 (Z.shiftl sipi_vector 12))) in
  let* ok := and_ok ok (vmcs_write32 GUEST_CS_LIMIT 0xffff) in
  let* ok := and_ok ok (vmcs_write32 GUEST_CS_AR_BYTES 0x0009b) in

  let* ok := and_ok ok (vmcs_write16 GUEST_DS_SELECTOR 0) in
  let* ok := and_ok ok (vmcs_write64 GUEST_DS_BASE 0) in
  let* ok := and_ok ok (vmcs_write32 GUEST_DS_LIMIT 0xffff) in
  let* ok := and_ok ok (vmcs_write32 GUEST_DS_AR_BYTES 0x00093) in

  let* ok := and_ok ok (vmcs_write16 GUEST_ES_SELECTOR 0) in
  let* ok := and_ok ok (vmcs_write64 GUEST_ES_BASE 0) in
  let* ok := and_ok ok (vmcs_write32 GUEST_ES_LIMIT 0xffff) in
  let* ok := and_ok ok (vmcs_write32 GUEST_ES_AR_BYTES 0x00093) in

  let* ok := and_ok ok (vmcs_write16 GUEST_FS_SELECTOR 0) in
  let* ok := and_ok ok (vmcs_write64 GUEST_FS_BASE 0) in
  let* ok := and_ok ok (vmcs_write32 GUEST_FS_LIMIT 0xffff) in
  let* ok := and_ok ok (vmcs_write32 GUEST_FS_AR_BYTES 0x00093) in

  let* ok := and_ok ok (vmcs_write16 GUEST_GS_SELECTOR 0) in
  let* ok := and_ok ok (vmcs_write64 GUEST_GS_BASE 0) in
  let* ok := and_ok ok (vmcs_write32 GUEST_GS_LIMIT 0xffff) in
  let* ok := and_ok ok (vmcs_write32 GUEST_GS_AR_BYTES 0x00093) in

  let* ok := and_ok ok (vmcs_write16 GUEST_SS_SELECTOR 0) in
  let* ok := and_ok ok (vmcs_write64 GUEST_SS_BASE 0) in
  let* ok := and_ok ok (vmcs_write32 GUEST_SS_LIMIT 0xffff) in
  let* ok := and_ok ok (vmcs_write32 GUEST_SS_AR_BYTES 0x00093) in

  let* ok := and_ok ok (vmcs_write16 GUEST_TR_SELECTOR 0) in
  let* ok := and_ok ok (vmcs_write64 GUEST_TR_BASE 0) in
  let* ok := and_ok ok (vmcs_write32 GUEST_TR_LIMIT 0xffff) in
  let* ok := and_ok ok (vmcs_write32 GUEST_TR_AR_BYTES 0x0008b) in

  let* ok := and_ok ok (vmcs_write16 GUEST_LDTR_SELECTOR 0) in
  let* ok := and_ok ok (vmcs_write64 GUEST_LDTR_BASE 0) in
  let* ok := and_ok ok (vmcs_write32 GUEST_LDTR_LIMIT 0xffff) in
  let* ok := and_ok ok (vmcs_write32 GUEST_LDTR_AR_BYTES 0x00082) in

  let* ok := and_ok ok (vmcs_write64 GUEST_GDTR_BASE 0) in
  let* ok := and_ok ok (vmcs_write32 GUEST_GDTR_LIMIT 0xffff) in
  let* ok := and_ok ok (vmcs_write64 GUEST_IDTR_BASE 0) in
  let* ok := and_ok ok (vmcs_write32 GUEST_IDTR_LIMIT 0xffff) in

  let* ok := and_ok ok (vmcs_write64 GUEST_IA32_EFER 0) in

  let* ok := and_ok ok (vmcs_write32 GUEST_SYSENTER_CS 0) in
  let* ok := and_ok ok (vmcs_write64 GUEST_SYSENTER_EIP 0) in
  let* ok := and_ok ok (vmcs_write64 GUEST_SYSENTER_ESP 0) in

  let* ok := and_ok ok (vmcs_write64 GUEST_DR7 0x00000400) in

  let* ok := and_ok ok (vmcs_write32 GUEST_ACTIVITY_STATE
                          GUEST_ACTIVITY_ACTIVE) in
  let* ok := and_ok ok (vmcs_write32 GUEST_INTERRUPTIBILITY_INFO 0) in
  let* ok := and_ok ok (vmcs_write64 GUEST_PENDING_DBG_EXCEPTIONS 0) in

  let* val := vmcs_read32 VM_ENTRY_CONTROLS in
  let val := Z.land val (not64 VM_ENTRY_IA32E_MODE) in
  let* ok := and_ok ok (vmcs_write32 VM_ENTRY_CONTROLS val) in

  let* cpu := gets cpu_data in
  let* ok := and_ok ok (vmx_set_cell_config (cpu_cell cpu)) in

  modify (set_guest_regs zero_registers);;

  if negb ok then
    panic_printk "FATAL: CPU reset failed" [];;
    panic_stop
  else mret tt.

Definition vmx_cpu_park : M unit :=
  vmcs_write64 GUEST_RFLAGS 0x02;;
  vmcs_write32 GUEST_ACTIVITY_STATE GUEST_ACTIVITY_HLT;;
  mret tt.

Definition vmx_disable_preemption_timer : M unit :=
  let* pin_based_ctrl := vmcs_read32 PIN_BASED_VM_EXEC_CONTROL in
  let pin_based_ctrl :=
    Z.land pin_based_ctrl (not32 PIN_BASED_VMX_PREEMPTION_TIMER) in
  vmcs_write32 PIN_BASED_VM_EXEC_CONTROL pin_based_ctrl;;
  mret tt.

Definition vmx_skip_emulated_instruction (inst_len : Z) : M unit :=
  let* rip := vmcs_read64 GUEST_RIP in
  vmcs_write64 GUEST_RIP (u64 (rip + inst_len));;
  mret tt.

Definition update_efer : M unit :=
  let* efer := vmcs_read64 GUEST_IA32_EFER in
  if negb (Z.land efer (Z.lor EFER_LME EFER_LMA) =? EFER_LME) then mret tt
  else
  let efer := Z.lor efer EFER_LMA in
  vmcs_write64 GUEST_IA32_EFER efer;;
  let* ctl := vmcs_read32 VM_ENTRY_CONTROLS in
  vmcs_write32 VM_ENTRY_CONTROLS (Z.lor ctl VM_ENTRY_IA32E_MODE);;
  mret tt.

(** ** Hypercalls *)

Definition set_guest_rax (v : Z) : M unit :=
  modify (fun s => set_guest_regs (set_rax v (guest_regs s)) s).

Definition vmx_handle_hypercall : M unit :=
  vmx_skip_emulated_instruction X86_INST_LEN_VMCALL;;
  let* efer := vmcs_read64 GUEST_IA32_EFER in
  let* rflags := vmcs_read64 GUEST_RFLAGS in
  let* cs := vmcs_read16 GUEST_CS_SELECTOR in
  if (negb (truthy (Z.land efer EFER_LMA)) &&
      truthy (Z.land rflags X86_RFLAGS_VM)) ||
     negb (Z.land cs 3 =? 0)
  then set_guest_rax (u64 (- EPERM))
  else
  let* regs := gets guest_regs in
  if rax regs =? JAILHOUSE_HC_DISABLE then
    let* r := call_any "shutdown" [] shutdown in
    set_guest_rax (u64 r);;
    if u64 r =? 0 then vmx_cpu_deactivate_vmm else mret tt
  else if rax regs =? JAILHOUSE_HC_CELL_CREATE then
    let* r := call_any "cell_create" [rdi regs] (cell_create (rdi regs)) in
    set_guest_rax (u64 r)
  else if rax regs =? JAILHOUSE_HC_CELL_DESTROY then
    let* r := call_any "cell_destroy" [rdi regs] (cell_destroy (rdi regs)) in
    set_guest_rax (u64 r)
  else
    let* cpu := gets cpu_data in
    let* rip := vmcs_read64 GUEST_RIP in
    printk "CPU %d: Unknown vmcall %d, RIP: %p"
           [cpu_id cpu; rax regs; u64 (rip - X86_INST_LEN_VMCALL)];;
    set_guest_rax (u64 (- ENOSYS)).

(** ** Control-register and APIC-access exits *)

(** [((unsigned long * )guest_regs)[index]] *)
Definition register_at (regs : registers) (index : Z) : Z :=
  match index with
  | 0 => r15 regs | 1 => r14 regs | 2 => r13 regs | 3 => r12 regs
  | 4 => r11 regs | 5 => r10 regs | 6 => r9 regs | 7 => r8 regs
  | 8 => rdi regs | 9 => rsi regs | 10 => rbp regs | 11 => unused regs
  | 12 => rbx regs | 13 => rdx regs | 14 => rcx regs | 15 => rax regs
  | _ => 0
  end.

Definition vmx_handle_cr : M bool :=
  let* exit_qualification := vmcs_read64 EXIT_QUALIFICATION in
  let cr := Z.land exit_qualification 0xf in
  let reg := Z.land (Z.shiftr exit_qualification 8) 0xf in
  let unhandled : M bool :=
    panic_printk "FATAL: Unhandled CR access, qualification %x"
                 [exit_qualification];;
    mret false in
  if Z.land (Z.shiftr exit_qualification 4) 3 =? 0 then
    (* move to cr *)
    let* val :=
      (if reg =? 4 then vmcs_read64 GUEST_RSP
       else let* regs := gets guest_regs in
            mret (register_at regs (15 - reg))) in
    if (cr =? 0) || (cr =? 4) then
      vmx_skip_emulated_instruction X86_INST_LEN_MOV_TO_CR;;
      (* TODO: check for #GP reasons *)
      vmx_set_guest_cr cr val;;
      (if (cr =? 0) && truthy (Z.land val X86_CR0_PG)
       then update_efer else mret tt);;
      mret true
    else unhandled
  else unhandled.

Definition vmx_handle_apic_access : M bool :=
  let* qualification := vmcs_read64 EXIT_QUALIFICATION in
  let unhandled : M bool :=
    panic_printk "FATAL: Unhandled APIC access, qualification %x"
                 [qualification];;
    mret false in
  let type := Z.land qualification APIC_ACCESS_TYPE_MASK in
  if (type =? APIC_ACCESS_TYPE_LINEAR_READ) ||
     (type =? APIC_ACCESS_TYPE_LINEAR_WRITE) then
    let is_write :=
      truthy (Z.land qualification APIC_ACCESS_TYPE_LINEAR_WRITE) in
    let offset := u32 (Z.land qualification APIC_ACCESS_OFFET_MASK) in
    if truthy (Z.land offset 0x00f) then unhandled else
    let* cr3 := vmcs_read64 GUEST_CR3 in
    let page_table_addr := Z.land cr3 PAGE_ADDR_MASK in
    let* rip := vmcs_read64 GUEST_RIP in
    let* inst_len :=
      call_any "apic_mmio_access"
               [rip; page_table_addr; Z.shiftr offset 4;
                Z.b2z is_write]
               (apic_mmio_access rip page_table_addr (Z.shiftr offset 4)
                                 is_write) in
    if negb (truthy inst_len) then mret false else
    vmx_skip_emulated_instruction inst_len;;
    mret true
  else unhandled.

(** ** Diagnostics *)

Definition dump_vm_exit_details (reason : Z) : M unit :=
  let* q := vmcs_read64 EXIT_QUALIFICATION in
  panic_printk "qualification %x" [q];;
  let* vi := vmcs_read32 IDT_VECTORING_INFO_FIELD in
  let* ii := vmcs_read32 VM_EXIT_INTR_INFO in
  panic_printk "vectoring info: %x interrupt info: %x" [vi; ii];;
  if (reason =? EXIT_REASON_EPT_VIOLATION) ||
     (reason =? EXIT_REASON_EPT_MISCONFIG) then
    let* pa := vmcs_read64 GUEST_PHYSICAL_ADDRESS in
    let* la := vmcs_read64 GUEST_LINEAR_ADDRESS in
    panic_printk "guest phys addr %p guest linear addr: %p" [pa; la]
  else mret tt.

Definition dump_guest_regs : M unit :=
  let* regs := gets guest_regs in
  let* rip := vmcs_read64 GUEST_RIP in
  let* rsp := vmcs_read64 GUEST_RSP in
  let* flags := vmcs_read64 GUEST_RFLAGS in
  panic_printk "RIP: %p RSP: %p FLAGS: %x" [rip; rsp; flags];;
  panic_printk "RAX: %p RBX: %p RCX: %p" [rax regs; rbx regs; rcx regs];;
  panic_printk "RDX: %p RSI: %p RDI: %p" [rdx regs; rsi regs; rdi regs];;
  let* cs := vmcs_read64 GUEST_CS_SELECTOR in
  let* cs_base := vmcs_read64 GUEST_CS_BASE in
  let* cs_ar := vmcs_read32 GUEST_CS_AR_BYTES in
  let* entry := vmcs_read32 VM_ENTRY_CONTROLS in
  panic_printk "CS: %x BASE: %p AR-BYTES: %x EFER.LMA %d"
               [cs; cs_base; cs_ar;
                Z.b2z (truthy (Z.land entry VM_ENTRY_IA32E_MODE))];;
  let* cr0 := vmcs_read64 GUEST_CR0 in
  let* cr3 := vmcs_read64 GUEST_CR3 in
  let* cr4 := vmcs_read64 GUEST_CR4 in
  panic_printk "CR0: %p CR3: %p CR4: %p" [cr0; cr3; cr4];;
  let* efer := vmcs_read64 GUEST_IA32_EFER in
  panic_printk "EFER: %p" [efer].

(** ** The VM-exit dispatcher

    Returning means [vm_exit] resumes the guest. *)
Definition vmx_handle_exit : M unit :=
  let* reason := vmcs_read32 VM_EXIT_REASON in
  let dump_and_stop : M unit :=
    dump_guest_regs;;
    panic_stop in
  if truthy (Z.land reason EXIT_REASONS_FAILED_VMENTRY) then
    panic_printk "FATAL: VM-Entry failure, reason %d" [u16 reason];;
    dump_and_stop
  else
  let timer : M unit :=
    vmx_disable_preemption_timer;;
    let* sipi_vector := call_any "apic_handle_events" [] apic_handle_events in
    if sipi_vector >=? 0 then
      let* cpu := gets cpu_data in
      printk "CPU %d received SIPI, vector %x" [cpu_id cpu; sipi_vector];;
      vmx_cpu_reset sipi_vector
    else mret tt in
  if reason =? EXIT_REASON_EXCEPTION_NMI then
    call_any "int" [NMI_VECTOR] (fun s => (tt, hw_int NMI_VECTOR s));;
    (* fall through *)
    timer
  else if reason =? EXIT_REASON_PREEMPTION_TIMER then
    timer
  else if reason =? EXIT_REASON_CPUID then
    vmx_skip_emulated_instruction X86_INST_LEN_CPUID;;
    let* regs := gets guest_regs in
    let a := Z.land (rax regs) 0xffffffff in
    let b := Z.land (rbx regs) 0xffffffff in
    let c := Z.land (rcx regs) 0xffffffff in
    let d := Z.land (rdx regs) 0xffffffff in
    let '(a', b', c', d') := cpuid a c in
    modify (set_guest_regs
              (set_rax (u32 a') (set_rbx (u32 b')
                 (set_rcx (u32 c') (set_rdx (u32 d') regs)))))
  else if reason =? EXIT_REASON_VMCALL then
    vmx_handle_hypercall
  else if reason =? EXIT_REASON_CR_ACCESS then
    let* handled := vmx_handle_cr in
    if handled : bool then mret tt else dump_and_stop
  else if reason =? EXIT_REASON_MSR_READ then
    vmx_skip_emulated_instruction X86_INST_LEN_RDMSR;;
    let* regs := gets guest_regs in
    if (rcx regs >=? MSR_X2APIC_BASE) && (rcx regs <=? MSR_X2APIC_END) then
      call_any "x2apic_handle_read" []
               (fun s => (tt, x2apic_handle_read s))
    else
      panic_printk "FATAL: Unhandled MSR read: %08x" [rcx regs];;
      dump_and_stop
  else if reason =? EXIT_REASON_MSR_WRITE then
    vmx_skip_emulated_instruction X86_INST_LEN_WRMSR;;
    let* regs := gets guest_regs in
    if rcx regs =? MSR_X2APIC_ICR then
      call_any "apic_handle_icr_write" [rax regs; rdx regs]
               (fun s => (tt, apic_handle_icr_write (rax regs) (rdx regs) s))
    else if (rcx regs >=? MSR_X2APIC_BASE) &&
            (rcx regs <=? MSR_X2APIC_END) then
      call_any "x2apic_handle_write" []
               (fun s => (tt, x2apic_handle_write s))
    else
      panic_printk "FATAL: Unhandled MSR write: %08x" [rcx regs];;
      dump_and_stop
  else if reason =? EXIT_REASON_APIC_ACCESS then
    let* handled := vmx_handle_apic_access in
    if handled : bool then mret tt else dump_and_stop
  else if reason =? EXIT_REASON_XSETBV then
    vmx_skip_emulated_instruction X86_INST_LEN_XSETBV;;
    let* regs := gets guest_regs in
    if truthy (Z.land (rax regs) X86_XCR0_FP) &&
       (Z.land (rax regs) (not32 (cpuid_eax 0x0d)) =? 0) &&
       (rcx regs =? 0) && (rdx regs =? 0) then
      insn "xsetbv" [rax regs; 0; 0]
           (fun w => (tt, hw_xsetbv (rax regs) w))
    else
      panic_printk "FATAL: Invalid xsetbv parameters: xcr[%d] = %08x:%08x"
                   [rcx regs; rdx regs; rax regs];;
      dump_and_stop
  else
    panic_printk "FATAL: Unhandled VM-Exit, reason %d, " [u16 reason];;
    dump_vm_exit_details reason;;
    dump_and_stop.

Definition vmx_entry_failure : M unit :=
  let* err := vmcs_read32 VM_INSTRUCTION_ERROR in
  panic_printk "FATAL: vmresume failed, error %d" [err];;
  panic_stop.
End Vmx.

(** * vmx.c: the MSR bitmap and the preemption timer *)

(** [enum vmx_state] of [asm/percpu.h]: the integer each enumerator stands
    for. *)
Class Percpu_defs : Type := { vmx_state_value : vmx_state_t -> Z }.

(** The row indices of [msr_bitmap], [asm/vmx.h]. *)
Class Msr_bitmap_defs : Type := {
  VMX_MSR_BITMAP_0000_READ : Z; VMX_MSR_BITMAP_C000_READ : Z;
  VMX_MSR_BITMAP_0000_WRITE : Z; VMX_MSR_BITMAP_C000_WRITE : Z
}.

Section Vmx_rest.
Context {gd : Generic_defs} {pd : Processor_defs} {vd : Vmx_defs}
        {cd : Percpu_defs} {md : Msr_bitmap_defs} {plat : Platform}.

#[local] Open Scope string_scope.
#[local] Open Scope list_scope.
#[local] Open Scope Z_scope.
#[local] Abbreviation M := (M world).

(** ** The MSR bitmap

    [msr_bitmap[row][byte]]: the rows by their index, [0x2000/8] bytes
    each; bit [msr mod 8] of byte [msr / 8] set makes the access to [msr]
    exit. *)

(** One row of the initializer: all zero, then every range designator
    [[lo ... hi] = v] in the order of the source. *)
Definition msr_bitmap_row (ranges : list (Z * Z * Z)) : list Z :=
  foldl (fun row '(lo, hi, v) =>
           list_inserts (Z.to_nat lo)
                        (replicate (Z.to_nat (hi - lo + 1)) v) row)
        (replicate (Z.to_nat (0x2000 / 8)) 0) ranges.

(** The initializer of [msr_bitmap]. *)
Definition msr_bitmap_init : gmap Z (list Z) :=
  <[VMX_MSR_BITMAP_C000_WRITE :=
      msr_bitmap_row [(0 / 8, 0x1fff / 8, 0)]]>
  (<[VMX_MSR_BITMAP_0000_WRITE :=
      msr_bitmap_row
        [(0 / 8, 0x807 / 8, 0);
         (0x808 / 8, 0x80f / 8, 0x89); (* 0x808, 0x80b, 0x80f *)
         (0x810 / 8, 0x827 / 8, 0);
         (0x828 / 8, 0x82f / 8, 0x81); (* 0x828, 0x82f *)
         (0x830 / 8, 0x837 / 8, 0xfd); (* 0x830, 0x832 - 0x837 *)
         (0x838 / 8, 0x83f / 8, 0xc1); (* 0x838, 0x83e, 0x83f *)
         (0x840 / 8, 0x1fff / 8, 0)]]>
  (<[VMX_MSR_BITMAP_C000_READ :=
      msr_bitmap_row [(0 / 8, 0x1fff / 8, 0)]]>
  (<[VMX_MSR_BITMAP_0000_READ :=
      msr_bitmap_row
        [(0 / 8, 0x7ff / 8, 0);
         (0x800 / 8, 0x807 / 8, 0x0c); (* 0x802, 0x803 *)
         (0x808 / 8, 0x80f / 8, 0xa5); (* 0x808, 0x80a, 0x80d *)
         (0x810 / 8, 0x817 / 8, 0xff); (* 0x810 - 0x817 *)
         (0x818 / 8, 0x81f / 8, 0xff); (* 0x818 - 0x81f *)
         (0x820 / 8, 0x827 / 8, 0xff); (* 0x820 - 0x827 *)
         (0x828 / 8, 0x82f / 8, 0x81); (* 0x828, 0x82f *)
         (0x830 / 8, 0x837 / 8, 0xfd); (* 0x830, 0x832 - 0x837 *)
         (0x838 / 8, 0x83f / 8, 0x43); (* 0x838, 0x839, 0x83e *)
         (0x840 / 8, 0x1fff / 8, 0)]]> ∅))).

(** [memset(&row[off], val, n)]; [None] when it leaves the row. *)
Definition memset_at (row : list Z) (off val n : Z) : option (list Z) :=
  if decide (0 <= off /\ 0 <= n /\ off + n <= Z.of_nat (length row))
  then Some (list_inserts (Z.to_nat off) (replicate (Z.to_nat n) val) row)
  else None.

(** [vmx_init] on the bitmap it edits; [using_x2apic] is a global of
    apic.c. *)
Definition vmx_init (using_x2apic : bool) (msr_bitmap : gmap Z (list Z))
  : option (gmap Z (list Z)) :=
  if negb using_x2apic then Some msr_bitmap else
  (* allow direct x2APIC access except for ICR writes *)
  row ← msr_bitmap !! VMX_MSR_BITMAP_0000_READ;
  row ← memset_at row (MSR_X2APIC_BASE / 8) 0
                  ((MSR_X2APIC_END - MSR_X2APIC_BASE + 1) / 8);
  let msr_bitmap := <[VMX_MSR_BITMAP_0000_READ := row]> msr_bitmap in
  row ← msr_bitmap !! VMX_MSR_BITMAP_0000_WRITE;
  row ← memset_at row (MSR_X2APIC_BASE / 8) 0
                  ((MSR_X2APIC_END - MSR_X2APIC_BASE + 1) / 8);
  let msr_bitmap := <[VMX_MSR_BITMAP_0000_WRITE := row]> msr_bitmap in
  row ← msr_bitmap !! VMX_MSR_BITMAP_0000_WRITE;
  if decide (0 <= MSR_X2APIC_ICR / 8 < Z.of_nat (length row))
  then Some (<[VMX_MSR_BITMAP_0000_WRITE :=
                 <[Z.to_nat (MSR_X2APIC_ICR / 8) := 0x01]> row]>
               msr_bitmap)
  else None.

(** ** Forcing a VM exit *)

Definition vmx_schedule_vmexit : M unit :=
  let* cpu := gets cpu_data in
  (* [!cpu_data->vmx_state == VMCS_READY]: the negation binds to
     [cpu_data->vmx_state] alone *)
  if Z.b2z (negb (truthy (vmx_state_value (vmx_state cpu))))
       =? vmx_state_value VMCS_READY
  then mret tt else
  let* pin_based_ctrl := vmcs_read32 PIN_BASED_VM_EXEC_CONTROL in
  let pin_based_ctrl :=
    Z.lor pin_based_ctrl PIN_BASED_VMX_PREEMPTION_TIMER in
  vmcs_write32 PIN_BASED_VM_EXEC_CONTROL pin_based_ctrl;;
  mret tt.
End Vmx_rest.

(** * vtd.c *)

Section Vtd.
Context {gd : Generic_defs} {td : Vtd_defs} {plat : Platform}.

#[local] Open Scope string_scope.
#[local] Open Scope list_scope.
#[local] Open Scope Z_scope.
#[local] Abbreviation M := (M world).

(** ** Device registers and raw memory *)

Definition mmio_read32' (addr : Z) : M Z :=
  call "mmio_read32" [addr] (mmio_read32 addr).
Definition mmio_read64' (addr : Z) : M Z :=
  call "mmio_read64" [addr] (mmio_read64 addr).
Definition mmio_write32' (addr val : Z) : M unit :=
  call "mmio_write32" [addr; val] (fun w => (tt, mmio_write32 addr val w)).
Definition mmio_write64' (addr val : Z) : M unit :=
  call "mmio_write64" [addr; val] (fun w => (tt, mmio_write64 addr val w)).
Definition flush_cache' (addr size : Z) : M unit :=
  call "flush_cache" [addr; size] (fun w => (tt, flush_cache addr size w)).

Definition load64 (addr : Z) : M Z :=
  gets (fun s => default 0 (mem s !! addr)).
Definition store64 (addr val : Z) : M unit :=
  modify (fun s => set_mem (<[addr := val]> (mem s)) s).

(** [root_entry_table[bus].lo_word]; [bus] is a [u8] in the source, an
    index past the table is an access outside the object. *)
Definition root_entry_lo_word (bus : Z) : M Z := fun s =>
  match root_entry_table s !! Z.to_nat bus with
  | Some e => Done (lo_word e) s
  | None => Abort Undefined s
  end.
Definition set_root_entry_lo_word (bus val : Z) : M unit := fun s =>
  match root_entry_table s !! Z.to_nat bus with
  | Some e =>
      Done tt (set_root_entry_table
                 (<[Z.to_nat bus := {| lo_word := val;
                                       hi_word := hi_word e |}]>
                    (root_entry_table s)) s)
  | None => Abort Undefined s
  end.
(** [&root_entry_table[bus].lo_word] *)
Definition root_entry_addr (bus : Z) : Z := root_entry_table_addr + bus * 16.
(** [&context_entry_table[devfn]]; [lo_word] first, [hi_word] 8 bytes on. *)
Definition context_entry_addr (context_entry_table devfn : Z) : Z :=
  context_entry_table + devfn * 16.

(** ** Cache invalidation *)

Definition vtd_iotlb_reg_base (reg_base : Z) : M Z :=
  let* ecap := mmio_read64' (reg_base + VTD_ECAP_REG) in
  mret (reg_base +
        Z.shiftr (Z.land ecap VTD_ECAP_IRO_MASK) VTD_ECAP_IRO_SHIFT * 16).

Definition vtd_flush_dmar_caches (fuel : nat)
    (reg_base ctx_scope iotlb_scope : Z) : M unit :=
  mmio_write64' (reg_base + VTD_CCMD_REG) (Z.lor ctx_scope VTD_CCMD_ICC);;
  spin_while fuel
    (let* v := mmio_read64' (reg_base + VTD_CCMD_REG) in
     mret (truthy (Z.land v VTD_CCMD_ICC)));;
  let* iotlb_reg_base := vtd_iotlb_reg_base reg_base in
  mmio_write64' (iotlb_reg_base + VTD_IOTLB_REG)
    (Z.lor (Z.lor (Z.lor iotlb_scope VTD_IOTLB_DW) VTD_IOTLB_DR)
           VTD_IOTLB_IVT);;
  spin_while fuel
    (let* v := mmio_read64' (iotlb_reg_base + VTD_IOTLB_REG) in
     mret (truthy (Z.land v VTD_IOTLB_IVT))).

(** [for (n = 0; n < dmar_units; n++, reg_base += PAGE_SIZE) body(reg_base)] *)
Definition for_each_unit (body : Z -> M unit) : M unit :=
  let* reg_base := gets dmar_reg_base in
  let* units := gets dmar_units in
  for_each (seqZ 0 units) (fun n => body (reg_base + n * PAGE_SIZE)).

Definition vtd_flush_domain_caches (fuel : nat) (did : Z) : M unit :=
  let iotlb_scope :=
    Z.lor VTD_IOTLB_IIRG_DOMAIN (u64 (Z.shiftl did VTD_IOTLB_DID_SHIFT)) in
  for_each_unit (fun reg_base =>
    vtd_flush_dmar_caches fuel reg_base (Z.lor VTD_CCMD_CIRG_DOMAIN did)
                          iotlb_scope).

(** ** Discovery *)

(** The [do ... while] loop of [vtd_init], entered with [drhd] the record
    at [offset]. *)
Fixpoint vtd_init_units (fuel : nat) (dmar : acpi_dmar_table) (offset : Z)
  : M Z :=
  match fuel with
  | O => stop Spinning
  | S fuel' =>
    let drhd := remap_struct_at dmar offset in
    if (drhd_length drhd <? sizeof_acpi_dmar_drhd) ||
       (offset + drhd_length drhd >? dmar_length dmar) then mret (- EIO)
    else
    (* TODO: support multiple segments *)
    if negb (drhd_segment drhd =? 0) then mret (- EIO) else
    printk "Found DMAR @%p" [register_base_addr drhd];;
    let* reg_base := call "page_alloc" [1] (page_alloc remap_pool 1) in
    if negb (truthy reg_base) then mret (- ENOMEM) else
    let* units := gets dmar_units in
    let* base := gets dmar_reg_base in
    (if units =? 0 then modify (set_dmar_reg_base reg_base) else mret tt);;
    if negb (units =? 0) && negb (reg_base =? base + units * PAGE_SIZE)
    then mret (- ENOMEM) else
    let* err :=
      call "page_map_create"
           [hv_page_table; register_base_addr drhd; PAGE_SIZE; reg_base;
            Z.lor PAGE_DEFAULT_FLAGS PAGE_FLAG_UNCACHED; PAGE_DEFAULT_FLAGS;
            PAGE_DIR_LEVELS; PAGE_MAP_NON_COHERENT]
           (page_map_create hv_page_table (register_base_addr drhd)
              PAGE_SIZE reg_base
              (Z.lor PAGE_DEFAULT_FLAGS PAGE_FLAG_UNCACHED)
              PAGE_DEFAULT_FLAGS PAGE_DIR_LEVELS PAGE_MAP_NON_COHERENT) in
    if truthy err then mret err else
    let* caps := mmio_read64' (reg_base + VTD_CAP_REG) in
    if negb (truthy (Z.land caps VTD_CAP_SAGAW39)) &&
       negb (truthy (Z.land caps VTD_CAP_SAGAW48)) then mret (- EIO) else
    let pt_levels := if truthy (Z.land caps VTD_CAP_SAGAW39) then 3 else 4 in
    let* levels := gets dmar_pt_levels in
    if (levels >? 0) && negb (levels =? pt_levels) then mret (- EIO) else
    modify (set_dmar_pt_levels pt_levels);;
    if truthy (Z.land caps VTD_CAP_CM) then mret (- EIO) else
    (* We only support IOTLB registers withing the first page. *)
    let* iotlb := vtd_iotlb_reg_base reg_base in
    if iotlb >=? reg_base + PAGE_SIZE then mret (- EIO) else
    let* gsts := mmio_read32' (reg_base + VTD_GSTS_REG) in
    if truthy (Z.land gsts VTD_GSTS_TES) then mret (- EBUSY) else
    let num_did :=
      u32 (Z.shiftl 1 (4 + Z.land caps VTD_CAP_NUM_DID_MASK * 2)) in
    let* cap := gets dmar_num_did in
    (if num_did <? cap then modify (set_dmar_num_did num_did)
     else mret tt);;
    modify (fun s => set_dmar_units (u32 (dmar_units s + 1)) s);;
    let offset := offset + drhd_length drhd in
    let drhd := remap_struct_at dmar offset in
    if (offset <? dmar_length dmar) && (drhd_type drhd =? ACPI_DMAR_DRHD)
    then vtd_init_units fuel' dmar offset
    else mret 0
  end.

Definition vtd_init (fuel : nat) : M Z :=
  let* dmar := call "acpi_find_table" []
                    (fun w => (acpi_find_table "DMAR" w, w)) in
  match dmar with
  | None =>
      printk "WARNING: No VT-d support found!" [];;
      mret 0
  | Some dmar =>
      if sizeof_acpi_dmar_table + sizeof_acpi_dmar_drhd >? dmar_length dmar
      then mret (- EIO) else
      let drhd := remap_struct_at dmar offsetof_remap_structs in
      if negb (drhd_type drhd =? ACPI_DMAR_DRHD) then mret (- EIO) else
      vtd_init_units fuel dmar offsetof_remap_structs
  end.

(** ** Devices *)

Definition vtd_add_device_to_cell (cell : cell_ptr)
    (device : jailhouse_pci_device) : M bool :=
  let* root_entry_lo := root_entry_lo_word (bus device) in
  printk "Adding PCI device %02x:%02x.%x to cell %s"
         [bus device; Z.shiftr (devfn device) 3; Z.land (devfn device) 7];;
  (* [None]: the allocation failed and the function returns [false] *)
  let* context_entry_table :=
    (if truthy (Z.land root_entry_lo VTD_ROOT_PRESENT) then
       mret (Some (page_map_phys2hvirt (Z.land root_entry_lo PAGE_MASK)))
     else
       let* t := call "page_alloc" [1] (page_alloc mem_pool 1) in
       if negb (truthy t) then mret None else
       set_root_entry_lo_word (bus device)
         (Z.lor VTD_ROOT_PRESENT (page_map_hvirt2phys t));;
       flush_cache' (root_entry_addr (bus device)) 8;;
       mret (Some t)) in
  match context_entry_table with
  | None => mret false
  | Some context_entry_table =>
      let context_entry :=
        context_entry_addr context_entry_table (devfn device) in
      let* c := load_cell cell in
      let* levels := gets dmar_pt_levels in
      store64 context_entry
        (Z.lor (Z.lor (Z.lor VTD_CTX_PRESENT VTD_CTX_FPD)
                      VTD_CTX_TTYPE_MLP_UNTRANS)
               (page_map_hvirt2phys (vtd_page_table c)));;
      store64 (context_entry + 8)
        (Z.lor (if levels =? 3 then VTD_CTX_AGAW_39 else VTD_CTX_AGAW_48)
               (u32 (Z.shiftl (cell_id c) VTD_CTX_DID_SHIFT)));;
      flush_cache' context_entry 16;;
      mret true
  end.

Definition vtd_map_memory_region (cell : cell_ptr)
    (mem : jailhouse_memory) : M Z :=
  (* HACK for QEMU *)
  let* units := gets dmar_units in
  if units =? 0 then mret 0 else
  if negb (truthy (Z.land (access_flags mem) JAILHOUSE_MEM_DMA)) then mret 0
  else
  let page_flags := 0 in
  let page_flags :=
    if truthy (Z.land (access_flags mem) JAILHOUSE_MEM_READ)
    then Z.lor page_flags VTD_PAGE_READ else page_flags in
  let page_flags :=
    if truthy (Z.land (access_flags mem) JAILHOUSE_MEM_WRITE)
    then Z.lor page_flags VTD_PAGE_WRITE else page_flags in
  let* c := load_cell cell in
  let* levels := gets dmar_pt_levels in
  call "page_map_create"
       [vtd_page_table c; phys_start mem; mem_size mem; virt_start mem;
        page_flags; Z.lor VTD_PAGE_READ VTD_PAGE_WRITE; levels;
        PAGE_MAP_COHERENT]
       (page_map_create (vtd_page_table c) (phys_start mem) (mem_size mem)
          (virt_start mem) page_flags (Z.lor VTD_PAGE_READ VTD_PAGE_WRITE)
          levels PAGE_MAP_COHERENT).

Definition vtd_unmap_memory_region (cell : cell_ptr)
    (mem : jailhouse_memory) : M unit :=
  (* HACK for QEMU *)
  let* units := gets dmar_units in
  if units =? 0 then mret tt else
  if truthy (Z.land (access_flags mem) JAILHOUSE_MEM_DMA) then
    let* c := load_cell cell in
    let* levels := gets dmar_pt_levels in
    call "page_map_destroy"
         [vtd_page_table c; virt_start mem; mem_size mem; levels;
          PAGE_MAP_COHERENT]
         (fun w => (tt, page_map_destroy (vtd_page_table c) (virt_start mem)
                          (mem_size mem) levels PAGE_MAP_COHERENT w))
  else mret tt.

(** The tail of [vtd_cell_init]: hand the root table to every unit and
    switch translation on. *)
Definition vtd_enable_units (fuel : nat) : M unit :=
  for_each_unit (fun reg_base =>
    mmio_write64' (reg_base + VTD_RTADDR_REG)
                  (page_map_hvirt2phys root_entry_table_addr);;
    mmio_write32' (reg_base + VTD_GCMD_REG) VTD_GCMD_SRTP;;
    spin_while fuel
      (let* v := mmio_read32' (reg_base + VTD_GSTS_REG) in
       mret (negb (truthy (Z.land v VTD_GSTS_SRTP))));;
    vtd_flush_dmar_caches fuel reg_base VTD_CCMD_CIRG_GLOBAL
                          VTD_IOTLB_IIRG_GLOBAL;;
    mmio_write32' (reg_base + VTD_GCMD_REG) VTD_GCMD_TE;;
    spin_while fuel
      (let* v := mmio_read32' (reg_base + VTD_GSTS_REG) in
       mret (negb (truthy (Z.land v VTD_GSTS_TES))))).

Definition vtd_cell_init (fuel : nat) (cell : cell_ptr) : M Z :=
  let* c := load_cell cell in
  let cfg := config c in
  let mem := jailhouse_cell_mem_regions cfg in
  let dev := jailhouse_cell_pci_devices cfg in
  let* reg_base := gets dmar_reg_base in
  (* HACK for QEMU *)
  let* units := gets dmar_units in
  if units =? 0 then mret 0 else
  let* num_did := gets dmar_num_did in
  if cell_id c >=? num_did then mret (- ERANGE) else
  let* page_table := call "page_alloc" [1] (page_alloc mem_pool 1) in
  store_cell cell (set_vtd_page_table page_table c);;
  if negb (truthy page_table) then mret (- ENOMEM) else
  let* err := for_each_err mem (vtd_map_memory_region cell) in
  if truthy err then mret err else
  let* err :=
    for_each_err dev (fun d =>
      let* ok := vtd_add_device_to_cell cell d in
      mret (if ok : bool then 0 else - ENOMEM)) in
  if truthy err then mret err else
  let* gsts := mmio_read32' (reg_base + VTD_GSTS_REG) in
  (if negb (truthy (Z.land gsts VTD_GSTS_TES)) then vtd_enable_units fuel
   else mret tt);;
  mret 0.

(** [for (n = 0; n < 256; n++)
      if (context_entry_table[n].lo_word & VTD_CTX_PRESENT) return;] *)
Definition any_context_present (context_entry_table : Z) : M bool :=
  gets (fun s =>
    existsb (fun n =>
      truthy (Z.land (default 0 (mem s !! context_entry_addr
                                             context_entry_table n))
                     VTD_CTX_PRESENT))
      (seqZ 0 256)).

Definition vtd_remove_device_from_cell (cell : cell_ptr)
    (device : jailhouse_pci_device) : M unit :=
  let* root_entry_lo := root_entry_lo_word (bus device) in
  let context_entry_table :=
    page_map_phys2hvirt (Z.land root_entry_lo PAGE_MASK) in
  let context_entry :=
    context_entry_addr context_entry_table (devfn device) in
  let* lo := load64 context_entry in
  if negb (truthy (Z.land lo VTD_CTX_PRESENT)) then mret tt else
  printk "Removing PCI device %02x:%02x.%x from cell %s"
         [bus device; Z.shiftr (devfn device) 3; Z.land (devfn device) 7];;
  store64 context_entry (Z.land lo (not64 VTD_CTX_PRESENT));;
  flush_cache' context_entry 8;;
  let* present := any_context_present context_entry_table in
  if present : bool then mret tt else
  let* root_entry_lo := root_entry_lo_word (bus device) in
  set_root_entry_lo_word (bus device)
    (Z.land root_entry_lo (not64 VTD_ROOT_PRESENT));;
  flush_cache' (root_entry_addr (bus device)) 8;;
  call "page_free" [context_entry_table; 1]
       (fun w => (tt, page_free mem_pool context_entry_table 1 w)).

Definition vtd_linux_cell_shrink (fuel : nat)
    (cfg : jailhouse_cell_desc) : M unit :=
  let mem := jailhouse_cell_mem_regions cfg in
  let dev := jailhouse_cell_pci_devices cfg in
  for_each mem (fun mem =>
    if truthy (Z.land (access_flags mem) JAILHOUSE_MEM_DMA) then
      let* linux := gets linux_cell in
      let* levels := gets dmar_pt_levels in
      call "page_map_destroy"
           [vtd_page_table linux; phys_start mem; mem_size mem; levels;
            PAGE_MAP_COHERENT]
           (fun w => (tt, page_map_destroy (vtd_page_table linux)
                            (phys_start mem) (mem_size mem) levels
                            PAGE_MAP_COHERENT w))
    else mret tt);;
  for_each dev (vtd_remove_device_from_cell Linux_cell);;
  let* linux := gets linux_cell in
  vtd_flush_domain_caches fuel (cell_id linux).

(** [for (n = 0; n < num; n++) if (linux_dev[n] matches dev)
      return vtd_add_device_to_cell(&linux_cell, &linux_dev[n]);] *)
Fixpoint return_first_match (dev : jailhouse_pci_device)
    (linux_dev : list jailhouse_pci_device) : M bool :=
  match linux_dev with
  | [] => mret true
  | d :: linux_dev' =>
      if (domain d =? domain dev) && (bus d =? bus dev) &&
         (devfn d =? devfn dev)
      then vtd_add_device_to_cell Linux_cell d
      else return_first_match dev linux_dev'
  end.

Definition vtd_return_device_to_linux (dev : jailhouse_pci_device)
  : M bool :=
  let* linux := gets linux_cell in
  return_first_match dev (jailhouse_cell_pci_devices (config linux)).

Definition vtd_cell_exit (fuel : nat) (cell : cell_ptr) : M unit :=
  let* c := load_cell cell in
  let dev := jailhouse_cell_pci_devices (config c) in
  for_each dev (fun d =>
    vtd_remove_device_from_cell cell d;;
    let* ok := vtd_return_device_to_linux d in
    if ok : bool then mret tt
    else printk "WARNING: Failed to re-assign PCI device to Linux cell" []);;
  let* c := load_cell cell in
  vtd_flush_domain_caches fuel (cell_id c);;
  let* linux := gets linux_cell in
  vtd_flush_domain_caches fuel (cell_id linux);;
  let* c := load_cell cell in
  call "page_free" [vtd_page_table c; 1]
       (fun w => (tt, page_free mem_pool (vtd_page_table c) 1 w)).

Definition vtd_shutdown (fuel : nat) : M unit :=
  for_each_unit (fun reg_base =>
    mmio_write32' (reg_base + VTD_GCMD_REG) 0;;
    spin_while fuel
      (let* v := mmio_read32' (reg_base + VTD_GSTS_REG) in
       mret (truthy (Z.land v VTD_GSTS_TES)))).
End Vtd.

(** * A concrete machine

    The constants with the values the Intel manuals (SDM volume 3,
    VT-d specification) and the usual errno numbering give them, and a small
    platform whose hardware answers are data.  They serve to run the model
    on explicit inputs. *)

Definition x86_generic : Generic_defs := {|
  EPERM := 1; EIO := 5; ENOMEM := 12; EBUSY := 16; ENODEV := 19;
  ERANGE := 34; ENOSYS := 38;
  PAGE_SIZE := 4096; PAGE_MASK := 0xfffffffffffff000;
  PAGE_ADDR_MASK := 0xffffffffff000; PAGE_DIR_LEVELS := 4;
  PAGE_MAP_COHERENT := 0; PAGE_MAP_NON_COHERENT := 1;
  PAGE_DEFAULT_FLAGS := 3; PAGE_FLAG_UNCACHED := 0x10;
  JAILHOUSE_HC_DISABLE := 0; JAILHOUSE_HC_CELL_CREATE := 1;
  JAILHOUSE_HC_CELL_DESTROY := 2;
  JAILHOUSE_MEM_READ := 1; JAILHOUSE_MEM_WRITE := 2;
  JAILHOUSE_MEM_EXECUTE := 4; JAILHOUSE_MEM_DMA := 8
|}.

Definition x86_processor : Processor_defs := {|
  X86_FEATURE_VMX := 0x20;
  X86_CR0_PE := 0x1; X86_CR0_ET := 0x10; X86_CR0_NW := 0x20000000;
  X86_CR0_CD := 0x40000000; X86_CR0_PG := 0x80000000;
  X86_CR4_VMXE := 0x2000;
  X86_RFLAGS_VM := 0x20000;
  X86_XCR0_FP := 0x1;
  EFER_LME := 0x100; EFER_LMA := 0x400;
  X86_INST_LEN_CPUID := 2; X86_INST_LEN_RDMSR := 2; X86_INST_LEN_WRMSR := 2;
  X86_INST_LEN_VMCALL := 3; X86_INST_LEN_MOV_TO_CR := 3;
  X86_INST_LEN_XSETBV := 3;
  MSR_IA32_SYSENTER_CS := 0x174; MSR_IA32_SYSENTER_ESP := 0x175;
  MSR_IA32_SYSENTER_EIP := 0x176;
  MSR_IA32_FEATURE_CONTROL := 0x3a;
  MSR_IA32_VMX_BASIC := 0x480; MSR_IA32_VMX_PINBASED_CTLS := 0x481;
  MSR_IA32_VMX_PROCBASED_CTLS := 0x482; MSR_IA32_VMX_EXIT_CTLS := 0x483;
  MSR_IA32_VMX_ENTRY_CTLS := 0x484; MSR_IA32_VMX_MISC := 0x485;
  MSR_IA32_VMX_CR0_FIXED0 := 0x486; MSR_IA32_VMX_CR0_FIXED1 := 0x487;
  MSR_IA32_VMX_CR4_FIXED0 := 0x488; MSR_IA32_VMX_CR4_FIXED1 := 0x489;
  MSR_IA32_VMX_PROCBASED_CTLS2 := 0x48b; MSR_IA32_VMX_EPT_VPID_CAP := 0x48c;
  MSR_IA32_VMX_TRUE_PINBASED_CTLS := 0x48d;
  MSR_X2APIC_BASE := 0x800; MSR_X2APIC_ICR := 0x830; MSR_X2APIC_END := 0x83f;
  FEATURE_CONTROL_LOCKED := 0x1;
  FEATURE_CONTROL_VMXON_ENABLED_OUTSIDE_SMX := 0x4;
  GDT_DESC_CODE := 1; GDT_DESC_TSS := 2;
  NMI_VECTOR := 2;
  NUM_ENTRY_REGS := 6;
  XAPIC_BASE := 0xfee00000;
  APIC_BSP_PSEUDO_SIPI := 0x100;
  sizeof_stack := 4096
|}.

Definition x86_vmx : Vmx_defs := {|
  GUEST_ES_SELECTOR := 0x800; GUEST_CS_SELECTOR := 0x802;
  GUEST_SS_SELECTOR := 0x804; GUEST_DS_SELECTOR := 0x806;
  GUEST_FS_SELECTOR := 0x808; GUEST_GS_SELECTOR := 0x80a;
  GUEST_LDTR_SELECTOR := 0x80c; GUEST_TR_SELECTOR := 0x80e;
  HOST_ES_SELECTOR := 0xc00; HOST_CS_SELECTOR := 0xc02;
  HOST_SS_SELECTOR := 0xc04; HOST_DS_SELECTOR := 0xc06;
  HOST_FS_SELECTOR := 0xc08; HOST_GS_SELECTOR := 0xc0a;
  HOST_TR_SELECTOR := 0xc0c;
  IO_BITMAP_A := 0x2000; IO_BITMAP_B := 0x2002; MSR_BITMAP := 0x2004;
  APIC_ACCESS_ADDR := 0x2014; EPT_POINTER := 0x201a;
  GUEST_PHYSICAL_ADDRESS := 0x2400;
  VMCS_LINK_POINTER := 0x2800; GUEST_IA32_EFER := 0x2806;
  HOST_IA32_EFER := 0x2c02;
  PIN_BASED_VM_EXEC_CONTROL := 0x4000; CPU_BASED_VM_EXEC_CONTROL := 0x4002;
  EXCEPTION_BITMAP := 0x4004; CR3_TARGET_COUNT := 0x400a;
  VM_EXIT_CONTROLS := 0x400c;
  VM_EXIT_MSR_STORE_COUNT := 0x400e; VM_EXIT_MSR_LOAD_COUNT := 0x4010;
  VM_ENTRY_CONTROLS := 0x4012; VM_ENTRY_MSR_LOAD_COUNT := 0x4014;
  VM_ENTRY_INTR_INFO_FIELD := 0x4016; SECONDARY_VM_EXEC_CONTROL := 0x401e;
  VM_INSTRUCTION_ERROR := 0x4400; VM_EXIT_REASON := 0x4402;
  VM_EXIT_INTR_INFO := 0x4404;
  IDT_VECTORING_INFO_FIELD := 0x4408;
  GUEST_CS_LIMIT := 0x4802; GUEST_SS_LIMIT := 0x4804;
  GUEST_DS_LIMIT := 0x4806;
  GUEST_ES_LIMIT := 0x4800; GUEST_FS_LIMIT := 0x4808;
  GUEST_GS_LIMIT := 0x480a;
  GUEST_LDTR_LIMIT := 0x480c; GUEST_TR_LIMIT := 0x480e;
  GUEST_GDTR_LIMIT := 0x4810; GUEST_IDTR_LIMIT := 0x4812;
  GUEST_CS_AR_BYTES := 0x4816; GUEST_SS_AR_BYTES := 0x4818;
  GUEST_DS_AR_BYTES := 0x481a;
  GUEST_ES_AR_BYTES := 0x4814; GUEST_FS_AR_BYTES := 0x481c;
  GUEST_GS_AR_BYTES := 0x481e;
  GUEST_LDTR_AR_BYTES := 0x4820; GUEST_TR_AR_BYTES := 0x4822;
  GUEST_INTERRUPTIBILITY_INFO := 0x4824; GUEST_ACTIVITY_STATE := 0x4826;
  GUEST_SYSENTER_CS := 0x482a; VMX_PREEMPTION_TIMER_VALUE := 0x482e;
  HOST_IA32_SYSENTER_CS := 0x4c00;
  CR0_GUEST_HOST_MASK := 0x6000; CR4_GUEST_HOST_MASK := 0x6002;
  CR0_READ_SHADOW := 0x6004; CR4_READ_SHADOW := 0x6006;
  EXIT_QUALIFICATION := 0x6400; GUEST_LINEAR_ADDRESS := 0x640a;
  GUEST_CR0 := 0x6800; GUEST_CR3 := 0x6802; GUEST_CR4 := 0x6804;
  GUEST_CS_BASE := 0x6808; GUEST_SS_BASE := 0x680a; GUEST_DS_BASE := 0x680c;
  GUEST_ES_BASE := 0x6806; GUEST_FS_BASE := 0x680e; GUEST_GS_BASE := 0x6810;
  GUEST_LDTR_BASE := 0x6812; GUEST_TR_BASE := 0x6814;
  GUEST_GDTR_BASE := 0x6816; GUEST_IDTR_BASE := 0x6818;
  GUEST_DR7 := 0x681a; GUEST_RSP := 0x681c; GUEST_RIP := 0x681e;
  GUEST_RFLAGS := 0x6820;
  GUEST_PENDING_DBG_EXCEPTIONS := 0x6822;
  GUEST_SYSENTER_ESP := 0x6824; GUEST_SYSENTER_EIP := 0x6826;
  HOST_CR0 := 0x6c00; HOST_CR3 := 0x6c02; HOST_CR4 := 0x6c04;
  HOST_FS_BASE := 0x6c06; HOST_GS_BASE := 0x6c08; HOST_TR_BASE := 0x6c0a;
  HOST_GDTR_BASE := 0x6c0c; HOST_IDTR_BASE := 0x6c0e;
  HOST_IA32_SYSENTER_ESP := 0x6c10; HOST_IA32_SYSENTER_EIP := 0x6c12;
  HOST_RSP := 0x6c14; HOST_RIP := 0x6c16;
  GUEST_SEG_LIMIT := 0x4000; GUEST_SEG_AR_BYTES := 0x4014;
  GUEST_SEG_BASE := 0x6006;
  GUEST_ACTIVITY_ACTIVE := 0; GUEST_ACTIVITY_HLT := 1;
  PIN_BASED_NMI_EXITING := 0x8; PIN_BASED_VMX_PREEMPTION_TIMER := 0x40;
  CPU_BASED_USE_IO_BITMAPS := 0x2000000;
  CPU_BASED_USE_MSR_BITMAPS := 0x10000000;
  CPU_BASED_ACTIVATE_SECONDARY_CONTROLS := 0x80000000;
  SECONDARY_EXEC_VIRTUALIZE_APIC_ACCESSES := 0x1;
  SECONDARY_EXEC_ENABLE_EPT := 0x2; SECONDARY_EXEC_UNRESTRICTED_GUEST := 0x80;
  VM_EXIT_HOST_ADDR_SPACE_SIZE := 0x200; VM_EXIT_SAVE_IA32_EFER := 0x100000;
  VM_EXIT_LOAD_IA32_EFER := 0x200000;
  VM_ENTRY_IA32E_MODE := 0x200; VM_ENTRY_LOAD_IA32_EFER := 0x8000;
  VMX_MISC_ACTIVITY_HLT := 0x40;
  EPT_FLAG_READ := 0x1; EPT_FLAG_WRITE := 0x2; EPT_FLAG_EXECUTE := 0x4;
  EPT_FLAG_WB_TYPE := 0x30;
  EPT_TYPE_WRITEBACK := 6; EPT_PAGE_WALK_LEN := 0x18;
  EPT_MANDATORY_FEATURES := 0x4040;
  EPT_INVEPT_SINGLE := 0x2000000; EPT_INVEPT_GLOBAL := 0x4000000;
  VMX_INVEPT_SINGLE := 1; VMX_INVEPT_GLOBAL := 2;
  EXIT_REASONS_FAILED_VMENTRY := 0x80000000;
  EXIT_REASON_EXCEPTION_NMI := 0; EXIT_REASON_CPUID := 10;
  EXIT_REASON_VMCALL := 18; EXIT_REASON_CR_ACCESS := 28;
  EXIT_REASON_MSR_READ := 31; EXIT_REASON_MSR_WRITE := 32;
  EXIT_REASON_APIC_ACCESS := 44; EXIT_REASON_EPT_VIOLATION := 48;
  EXIT_REASON_EPT_MISCONFIG := 49; EXIT_REASON_PREEMPTION_TIMER := 52;
  EXIT_REASON_XSETBV := 55;
  APIC_ACCESS_OFFET_MASK := 0xfff; APIC_ACCESS_TYPE_MASK := 0xf000;
  APIC_ACCESS_TYPE_LINEAR_READ := 0x0; APIC_ACCESS_TYPE_LINEAR_WRITE := 0x1000
|}.

Definition x86_vtd : Vtd_defs := {|
  ACPI_DMAR_DRHD := 0;
  sizeof_acpi_dmar_table := 48;
  sizeof_acpi_dmar_drhd := 16;
  offsetof_remap_structs := 48;
  VTD_ROOT_PRESENT := 0x1;
  VTD_CTX_PRESENT := 0x1; VTD_CTX_FPD := 0x2; VTD_CTX_TTYPE_MLP_UNTRANS := 0x0;
  VTD_CTX_AGAW_39 := 0x1; VTD_CTX_AGAW_48 := 0x2; VTD_CTX_DID_SHIFT := 8;
  VTD_PAGE_READ := 0x1; VTD_PAGE_WRITE := 0x2;
  VTD_CAP_REG := 0x08; VTD_CAP_NUM_DID_MASK := 0x7; VTD_CAP_CM := 0x80;
  VTD_CAP_SAGAW39 := 0x200; VTD_CAP_SAGAW48 := 0x400;
  VTD_ECAP_REG := 0x10; VTD_ECAP_IRO_MASK := 0x3ff00; VTD_ECAP_IRO_SHIFT := 8;
  VTD_GCMD_REG := 0x18; VTD_GCMD_SRTP := 0x40000000; VTD_GCMD_TE := 0x80000000;
  VTD_GSTS_REG := 0x1c; VTD_GSTS_SRTP := 0x40000000; VTD_GSTS_TES := 0x80000000;
  VTD_RTADDR_REG := 0x20;
  VTD_CCMD_REG := 0x28; VTD_CCMD_CIRG_GLOBAL := 0x2000000000000000;
  VTD_CCMD_CIRG_DOMAIN := 0x4000000000000000;
  VTD_CCMD_ICC := 0x8000000000000000;
  VTD_IOTLB_REG := 0x8; VTD_IOTLB_DID_SHIFT := 32;
  VTD_IOTLB_DW := 0x1000000000000; VTD_IOTLB_DR := 0x2000000000000;
  VTD_IOTLB_IIRG_GLOBAL := 0x1000000000000000;
  VTD_IOTLB_IIRG_DOMAIN := 0x2000000000000000;
  VTD_IOTLB_IVT := 0x8000000000000000
|}.

(** What the simulated hardware and firmware answer. *)
Record sim_world : Type := {
  sim_vmxon_ok : bool;
  sim_vmclear_ok : bool;
  sim_vmptrld_ok : bool;
  (** VMCS fields this processor does not implement *)
  sim_unsupported : list Z;
  (** the DMAR table the firmware publishes, if any *)
  sim_dmar : option acpi_dmar_table;
  (** pages handed out so far *)
  sim_allocated : Z;
  (** pages given back, latest first *)
  sim_freed : list Z
}.

Definition sim : Platform := {|
  world := sim_world;
  msr_bitmap_addr := 0x100000;
  apic_access_page_addr := 0x104000;
  vm_exit_addr := 0x108000;
  root_entry_table_addr := 0x10a000;
  hv_page_table := 0x10c000;
  page_map_hvirt2phys := fun a => a;
  page_map_phys2hvirt := fun a => a;
  page_alloc := fun _ n w =>
    (0x200000 + sim_allocated w * 4096,
     {| sim_vmxon_ok := sim_vmxon_ok w; sim_vmclear_ok := sim_vmclear_ok w;
        sim_vmptrld_ok := sim_vmptrld_ok w;
        sim_unsupported := sim_unsupported w; sim_dmar := sim_dmar w;
        sim_allocated := sim_allocated w + n; sim_freed := sim_freed w |});
  page_free := fun _ p _ w =>
    {| sim_vmxon_ok := sim_vmxon_ok w; sim_vmclear_ok := sim_vmclear_ok w;
       sim_vmptrld_ok := sim_vmptrld_ok w;
       sim_unsupported := sim_unsupported w; sim_dmar := sim_dmar w;
       sim_allocated := sim_allocated w; sim_freed := p :: sim_freed w |};
  page_map_create := fun _ _ _ _ _ _ _ _ w => (0, w);
  page_map_destroy := fun _ _ _ _ _ w => w;
  flush_cache := fun _ _ w => w;
  mmio_read32 := fun _ w => (0, w);
  mmio_read64 := fun _ w => (0, w);
  mmio_write32 := fun _ _ w => w;
  mmio_write64 := fun _ _ w => w;
  acpi_find_table := fun _ w => sim_dmar w;
  cpuid := fun eax _ => if eax =? 1 then (0, 0, 0x20, 0) else (0, 0, 0, 0);
  hw_vmxon := fun _ w => (sim_vmxon_ok w, w);
  hw_vmclear := fun _ w => (sim_vmclear_ok w, w);
  hw_vmptrld := fun _ w => (sim_vmptrld_ok w, w);
  hw_vmwrite_ok := fun f w => negb (bool_decide (f ∈ sim_unsupported w));
  hw_vmxoff := fun w => w;
  hw_invept := fun _ _ w => (true, w);
  hw_xsetbv := fun _ w => w;
  hw_int := fun _ s => s;
  apic_handle_events := fun s => (-1, s);
  apic_mmio_access := fun _ _ _ _ s => (0, s);
  apic_handle_icr_write := fun _ _ s => s;
  x2apic_handle_read := fun s => s;
  x2apic_handle_write := fun s => s;
  shutdown := fun s => (0, s);
  cell_create := fun _ s => (0, s);
  cell_destroy := fun _ s => (0, s);
  arch_cpu_restore := fun s => s
|}.

Definition sim_world0 : sim_world := {|
  sim_vmxon_ok := true; sim_vmclear_ok := true; sim_vmptrld_ok := true;
  sim_unsupported := []; sim_dmar := None;
  sim_allocated := 0; sim_freed := []
|}.

Definition null_segment : segment :=
  {| selector := 0; seg_base := 0; seg_limit := 0; access_rights := 0 |}.

Definition sim_cell (id : Z) (cfg : jailhouse_cell_desc) (io : list Z)
  : cell :=
  {| cell_id := id; config := cfg; vmx_ept := 0; io_bitmap_addr := 0x110000;
     vmx_io_bitmap := io; vtd_page_table := 0 |}.

Definition no_config : jailhouse_cell_desc :=
  {| name := "linux"; mem_regions := []; pci_devices := []; pio_bitmap := [] |}.

(** A CPU before bring-up: VMX off, CR4.VMXE clear, every VMX capability
    reported, the feature-control MSR clear, an empty VMCS. *)
Definition sim_state0 : state sim_world := {|
  cr0 := 0x80050033; cr3 := 0x1000; cr4 := 0x20;
  gdtr := {| dtr_limit := 0x7f; dtr_base := 0x2000 |};
  idtr := {| dtr_limit := 0xfff; dtr_base := 0x3000 |};
  msrs := list_to_map
            [(0x480, 0x18100000000012); (0x481, 0x4800000000);
             (0x482, 0x9200000000000000); (0x48b, 0x8300000000);
             (0x48c, 0x6004040); (0x485, 0x40)];
  vmcs := ∅;
  vmx_true_msr_offs := 0;
  cpu_data := {|
    cpu_id := 0; stack := 0x120000; linux_sp := 0x7000; linux_ip := 0x8000;
    linux_cr3 := 0x1000;
    linux_gdtr := {| dtr_limit := 0x7f; dtr_base := 0x2000 |};
    linux_idtr := {| dtr_limit := 0xfff; dtr_base := 0x3000 |};
    linux_cs := null_segment; linux_ds := null_segment;
    linux_es := null_segment; linux_fs := null_segment;
    linux_gs := null_segment; linux_tss := null_segment;
    linux_efer := 0x500; linux_sysenter_cs := 0; linux_sysenter_eip := 0;
    linux_sysenter_esp := 0;
    cpu_cell := Linux_cell; vmx_state := VMXOFF;
    vmxon_region := {| region_addr := 0x121000; revision_id := 0;
                       shadow_indicator := 0 |};
    vmcs_region := {| region_addr := 0x122000; revision_id := 0;
                      shadow_indicator := 0 |} |};
  guest_regs := {| r15 := 0; r14 := 0; r13 := 0; r12 := 0; r11 := 0;
                   r10 := 0; r9 := 0; r8 := 0; rdi := 0; rsi := 0; rbp := 0;
                   unused := 0; rbx := 0; rdx := 0; rcx := 0; rax := 0 |};
  linux_cell := sim_cell (u32 (-1)) no_config [];
  cells := ∅;
  root_entry_table := replicate 256 {| lo_word := 0; hi_word := 0 |};
  dmar_reg_base := 0; dmar_units := 0; dmar_pt_levels := 0;
  dmar_num_did := u32 (-1);
  mem := ∅;
  ext := sim_world0;
  trace := []
|}.

(** * Vocabulary of the properties *)

Definition state_of {W A} (r : result W A) : state W :=
  match r with Done _ s => s | Abort _ s => s end.

(** The events a run from [s] added to the trace. *)
Definition events_of {W A} (s : state W) (r : result W A) : list event :=
  drop (length (trace s)) (trace (state_of r)).

(** The stores to [cpu_data->vmx_state] among some events. *)
Definition transitions (evs : list event)
  : list (vmx_state_t * vmx_state_t) :=
  omap (fun e => match e with
                 | Vmx_state a b => Some (a, b)
                 | _ => None
                 end) evs.

(** Bit [port mod 8] of byte [port / 8] clear: the port is open. *)
Definition port_accessible (bitmap : list Z) (port : Z) : bool :=
  match bitmap !! Z.to_nat (port / 8) with
  | Some b => negb (Z.testbit b (port mod 8))
  | None => false
  end.

Inductive cpu_call : Type := Cpu_init | Cpu_exit.

Section Vocabulary.
Context {gd : Generic_defs} {pd : Processor_defs} {vd : Vmx_defs}
        {plat : Platform}.
Implicit Types s : state world.

#[local] Open Scope string_scope.
#[local] Open Scope list_scope.
#[local] Open Scope Z_scope.

(** What [vmread] returns for a field. *)
Definition vmread s (field : Z) : Z := default 0 (vmcs s !! field).

(** The console output of [dump_guest_regs]. *)
Definition guest_regs_dump s : list event :=
  let regs := guest_regs s in
  [ Panic_printk "RIP: %p RSP: %p FLAGS: %x"
      [vmread s GUEST_RIP; vmread s GUEST_RSP; vmread s GUEST_RFLAGS];
    Panic_printk "RAX: %p RBX: %p RCX: %p" [rax regs; rbx regs; rcx regs];
    Panic_printk "RDX: %p RSI: %p RDI: %p" [rdx regs; rsi regs; rdi regs];
    Panic_printk "CS: %x BASE: %p AR-BYTES: %x EFER.LMA %d"
      [vmread s GUEST_CS_SELECTOR; vmread s GUEST_CS_BASE;
       u32 (vmread s GUEST_CS_AR_BYTES);
       Z.b2z (truthy (Z.land (u32 (vmread s VM_ENTRY_CONTROLS))
                             VM_ENTRY_IA32E_MODE))];
    Panic_printk "CR0: %p CR3: %p CR4: %p"
      [vmread s GUEST_CR0; vmread s GUEST_CR3; vmread s GUEST_CR4];
    Panic_printk "EFER: %p" [vmread s GUEST_IA32_EFER] ].

(** A sequence of [vmx_cpu_init] and [vmx_cpu_exit] calls on one CPU. *)
Definition run_call (c : cpu_call) : M world unit :=
  match c with
  | Cpu_init => vmx_cpu_init;; mret tt
  | Cpu_exit => vmx_cpu_exit
  end.

Fixpoint run_calls (calls : list cpu_call) : M world unit :=
  match calls with
  | [] => mret tt
  | c :: calls' => run_call c;; run_calls calls'
  end.

(** CR4.VMXE is set whenever the CPU's state says VMX is on. *)
Definition vmxe_consistent s : Prop :=
  vmx_state (cpu_data s) <> VMXOFF -> Z.land (cr4 s) X86_CR4_VMXE <> 0.

(** The [case] labels of the dispatcher's [switch] are pairwise
    different, as C demands of them. *)
Definition exit_reasons_distinct : Prop :=
  NoDup [EXIT_REASON_EXCEPTION_NMI; EXIT_REASON_PREEMPTION_TIMER;
         EXIT_REASON_CPUID; EXIT_REASON_VMCALL; EXIT_REASON_CR_ACCESS;
         EXIT_REASON_MSR_READ; EXIT_REASON_MSR_WRITE;
         EXIT_REASON_APIC_ACCESS; EXIT_REASON_XSETBV].

(** The offset into the APIC page that an APIC-access exit reports. *)
Definition apic_offset s : Z :=
  u32 (Z.land (vmread s EXIT_QUALIFICATION) APIC_ACCESS_OFFET_MASK).

(** The call by which [vmx_handle_apic_access] hands an access to the
    APIC model: the guest's RIP, the root of its page tables, the
    register the offset selects and the direction of the access. *)
Definition apic_call s : event :=
  Call "apic_mmio_access"
       [vmread s GUEST_RIP;
        Z.land (vmread s GUEST_CR3) PAGE_ADDR_MASK;
        Z.shiftr (apic_offset s) 4;
        Z.b2z (truthy (Z.land (vmread s EXIT_QUALIFICATION)
                              APIC_ACCESS_TYPE_LINEAR_WRITE))].

(** The APIC model's answer to that call, made in [s] with the call on
    the trace: the instruction length it returns, and the state it leaves
    (the trace is not the model's to change). *)
Definition apic_delegation s : Z * state world :=
  let s_call := set_trace (trace s ++ [apic_call s]) s in
  let r :=
    apic_mmio_access
      (vmread s GUEST_RIP)
      (Z.land (vmread s GUEST_CR3) PAGE_ADDR_MASK)
      (Z.shiftr (apic_offset s) 4)
      (truthy (Z.land (vmread s EXIT_QUALIFICATION)
                      APIC_ACCESS_TYPE_LINEAR_WRITE))
      s_call in
  (r.1, set_trace (trace s_call) r.2).

(** The privilege test of [vmx_handle_hypercall]: the caller is in
    virtual-8086 mode, or not in ring 0. *)
Definition hypercall_denied s : bool :=
  (negb (truthy (Z.land (vmread s GUEST_IA32_EFER) EFER_LMA)) &&
   truthy (Z.land (vmread s GUEST_RFLAGS) X86_RFLAGS_VM)) ||
  negb (Z.land (u16 (vmread s GUEST_CS_SELECTOR)) 3 =? 0).
Definition hypercall_permitted s : bool := negb (hypercall_denied s).

(** Console output, or a [vmwrite] to the guest's RIP. *)
Definition console_or_rip (e : event) : Prop :=
  match e with
  | Printk _ _ => True
  | Insn mnemonic (field :: _) => mnemonic = "vmwrite" /\ field = GUEST_RIP
  | _ => False
  end.

(** The fields the privilege test reads are not the RIP field. *)
Definition rip_field_distinct : Prop :=
  GUEST_RIP <> GUEST_IA32_EFER /\ GUEST_RIP <> GUEST_RFLAGS /\
  GUEST_RIP <> GUEST_CS_SELECTOR.

Definition known_hypercall (code : Z) : bool :=
  (code =? JAILHOUSE_HC_DISABLE) || (code =? JAILHOUSE_HC_CELL_CREATE) ||
  (code =? JAILHOUSE_HC_CELL_DESTROY).

(** The offset [vmx_true_msr_offs] has once [vmx_cpu_init] has looked at
    bit 55 of the basic VMX capabilities. *)
Definition true_msr_offs s : Z :=
  if truthy (Z.land (default 0 (msrs s !! MSR_IA32_VMX_BASIC))
                    (Z.shiftl 1 55))
  then u32 (MSR_IA32_VMX_TRUE_PINBASED_CTLS - MSR_IA32_VMX_PINBASED_CTLS)
  else vmx_true_msr_offs s.

(** Every capability [vmx_cpu_init] requires is reported. *)
Definition capabilities_ok s : bool :=
  let msr i := default 0 (msrs s !! i) in
  vmcs_size_ok (msr MSR_IA32_VMX_BASIC) &&
  vmcs_memtype_ok (msr MSR_IA32_VMX_BASIC) &&
  pin_ctrl_ok
    (Z.shiftr (msr (MSR_IA32_VMX_PINBASED_CTLS + true_msr_offs s)) 32) &&
  proc_ctrl_ok
    (Z.shiftr (msr (MSR_IA32_VMX_PROCBASED_CTLS + true_msr_offs s)) 32) &&
  proc_ctrl2_ok (Z.shiftr (msr MSR_IA32_VMX_PROCBASED_CTLS2) 32)
                (msr MSR_IA32_VMX_EPT_VPID_CAP) &&
  activity_hlt_ok (msr MSR_IA32_VMX_MISC).

(** The feature-control MSR is locked with VMXON outside SMX disabled. *)
Definition feature_control_locked_out s : bool :=
  let feature_ctrl := default 0 (msrs s !! MSR_IA32_FEATURE_CONTROL) in
  let mask := Z.lor FEATURE_CONTROL_LOCKED
                    FEATURE_CONTROL_VMXON_ENABLED_OUTSIDE_SMX in
  negb (Z.land feature_ctrl mask =? mask) &&
  truthy (Z.land feature_ctrl FEATURE_CONTROL_LOCKED).
End Vocabulary.

(** The transitions the enablement state makes: the three of a normal life
    cycle, and the teardown of a CPU whose VMCS setup failed. *)
Definition life_cycle : list (vmx_state_t * vmx_state_t) :=
  [(VMXOFF, VMXON); (VMXON, VMCS_READY); (VMCS_READY, VMXOFF)].
Definition vmx_transitions : list (vmx_state_t * vmx_state_t) :=
  life_cycle ++ [(VMXON, VMXOFF)].

(** What one call may add to the trace: nothing, or the steps of the life
    cycle it performs. *)
Definition steps_from (st : vmx_state_t) (evs : list event) : Prop :=
  transitions evs = [] \/
  (st = VMXOFF /\ transitions evs = [(VMXOFF, VMXON)]) \/
  (st = VMXOFF /\
   transitions evs = [(VMXOFF, VMXON); (VMXON, VMCS_READY)]) \/
  (st <> VMXOFF /\ transitions evs = [(st, VMXOFF)]).

(** Events that are no store to [vmx_state]. *)
Definition quiet (e : event) : Prop :=
  match e with Vmx_state _ _ => False | _ => True end.

(** [s'] extends the trace of [s] by quiet events and agrees with it on
    CR4 and on the enablement state. *)
Definition vmx_frame {W} (s s' : state W) : Prop :=
  cr4 s' = cr4 s /\
  vmx_state (cpu_data s') = vmx_state (cpu_data s) /\
  exists evs, trace s' = trace s ++ evs /\ Forall quiet evs.

Definition keeps {W A} (m : M W A) : Prop :=
  forall s, vmx_frame s (state_of (m s)).

(** A computation only adds events that satisfy [P] to the trace. *)
Definition emits {W A} (P : event -> Prop) (m : M W A) : Prop :=
  forall s, exists evs,
    trace (state_of (m s)) = trace s ++ evs /\ Forall P evs.

Section Vocabulary_enable.
Context {gd : Generic_defs} {pd : Processor_defs} {vd : Vmx_defs}
        {plat : Platform}.
Implicit Types s : state world.

#[local] Open Scope list_scope.
#[local] Open Scope Z_scope.

(** The fields [vmx_set_guest_cr] writes for CR0 ([cr] zero) or CR4. *)
Definition guest_cr_writes (cr : Z) : list Z :=
  if truthy cr then [GUEST_CR4; CR4_READ_SHADOW; CR4_GUEST_HOST_MASK]
  else [GUEST_CR0; CR0_READ_SHADOW; CR0_GUEST_HOST_MASK].

(** The fields [vmx_set_guest_segment] writes for a selector field. *)
Definition guest_segment_writes (selector_field : Z) : list Z :=
  [selector_field; selector_field + GUEST_SEG_BASE;
   selector_field + GUEST_SEG_LIMIT; selector_field + GUEST_SEG_AR_BYTES].

(** The fields [vmx_set_cell_config] writes. *)
Definition cell_config_writes : list Z :=
  [IO_BITMAP_A; IO_BITMAP_B; EPT_POINTER].

(** The fields [vmcs_setup] writes: one entry for each [vmwrite], in the
    order of the source. *)
Definition setup_writes : list Z :=
  [HOST_CR0; HOST_CR3; HOST_CR4;
   HOST_CS_SELECTOR; HOST_DS_SELECTOR; HOST_ES_SELECTOR; HOST_SS_SELECTOR;
   HOST_FS_SELECTOR; HOST_GS_SELECTOR; HOST_TR_SELECTOR;
   HOST_FS_BASE; HOST_GS_BASE; HOST_TR_BASE;
   HOST_GDTR_BASE; HOST_IDTR_BASE; HOST_IA32_EFER;
   HOST_IA32_SYSENTER_CS; HOST_IA32_SYSENTER_EIP; HOST_IA32_SYSENTER_ESP;
   HOST_RSP; HOST_RIP] ++
  guest_cr_writes 0 ++ guest_cr_writes 4 ++
  [GUEST_CR3] ++
  guest_segment_writes GUEST_CS_SELECTOR ++
  guest_segment_writes GUEST_DS_SELECTOR ++
  guest_segment_writes GUEST_ES_SELECTOR ++
  guest_segment_writes GUEST_FS_SELECTOR ++
  guest_segment_writes GUEST_GS_SELECTOR ++
  guest_segment_writes GUEST_SS_SELECTOR ++
  guest_segment_writes GUEST_TR_SELECTOR ++
  guest_segment_writes GUEST_LDTR_SELECTOR ++
  [GUEST_GDTR_BASE; GUEST_GDTR_LIMIT; GUEST_IDTR_BASE; GUEST_IDTR_LIMIT;
   GUEST_RFLAGS; GUEST_RSP; GUEST_RIP;
   GUEST_SYSENTER_CS; GUEST_SYSENTER_EIP; GUEST_SYSENTER_ESP;
   GUEST_DR7;
   GUEST_ACTIVITY_STATE; GUEST_INTERRUPTIBILITY_INFO;
   GUEST_PENDING_DBG_EXCEPTIONS;
   GUEST_IA32_EFER;
   VMCS_LINK_POINTER; VM_ENTRY_INTR_INFO_FIELD;
   PIN_BASED_VM_EXEC_CONTROL; VMX_PREEMPTION_TIMER_VALUE;
   CPU_BASED_VM_EXEC_CONTROL; MSR_BITMAP; SECONDARY_VM_EXEC_CONTROL;
   APIC_ACCESS_ADDR] ++
  cell_config_writes ++
  [EXCEPTION_BITMAP; VM_EXIT_CONTROLS;
   VM_EXIT_MSR_STORE_COUNT; VM_EXIT_MSR_LOAD_COUNT;
   VM_ENTRY_MSR_LOAD_COUNT; VM_ENTRY_CONTROLS;
   CR4_GUEST_HOST_MASK; CR3_TARGET_COUNT].

(** [cpu_data->cell] points to a cell: the root cell, or an address that
    holds one. *)
Definition cell_loads s : bool :=
  match cpu_cell (cpu_data s) with
  | Linux_cell => true
  | Cell_at a => bool_decide (is_Some (cells s !! a))
  end.

(** The tests [vmx_cpu_init] makes before it touches CR4: the VMX
    feature is there, CR4.VMXE is clear, every capability is reported
    and the feature-control MSR does not lock VMXON out. *)
Definition init_checks_pass s : bool :=
  truthy (Z.land (cpuid_ecx 1) X86_FEATURE_VMX) &&
  negb (truthy (Z.land (cr4 s) X86_CR4_VMXE)) &&
  capabilities_ok s && negb (feature_control_locked_out s).

(** What the processor answers to the instructions of the enable phase,
    each on the hardware state its predecessor left: VMXON on the VMXON
    region, then VMCLEAR and VMPTRLD on the VMCS. *)
Definition vmxon_answer s : bool * world :=
  hw_vmxon (page_map_hvirt2phys (region_addr (vmxon_region (cpu_data s))))
           (ext s).
Definition vmclear_answer s : bool * world :=
  hw_vmclear (page_map_hvirt2phys (region_addr (vmcs_region (cpu_data s))))
             (vmxon_answer s).2.
Definition vmptrld_answer s : bool * world :=
  hw_vmptrld (page_map_hvirt2phys (region_addr (vmcs_region (cpu_data s))))
             (vmclear_answer s).2.

(** VMCLEAR and VMPTRLD succeed after VMXON, the CPU's cell is there,
    and the processor accepts every [vmwrite] of [vmcs_setup]. *)
Definition vmcs_made_ready s : bool :=
  (vmclear_answer s).1 && (vmptrld_answer s).1 && cell_loads s &&
  forallb (fun f => hw_vmwrite_ok f (vmptrld_answer s).2) setup_writes.

(** The stores to the enablement state that a call of [vmx_cpu_init] in
    [s] makes: none unless every test passes and VMXON succeeds; then
    OFF to ON, followed by ON to READY exactly when the VMCS was made
    ready. *)
Definition init_transitions s : list (vmx_state_t * vmx_state_t) :=
  if init_checks_pass s && (vmxon_answer s).1 then
    (VMXOFF, VMXON) ::
    (if vmcs_made_ready s then [(VMXON, VMCS_READY)] else [])
  else [].

(** The store that a call of [vmx_cpu_exit] in [s] makes: none when the
    state is OFF, else one from the state the CPU is in to OFF. *)
Definition exit_transitions s : list (vmx_state_t * vmx_state_t) :=
  if decide (vmx_state (cpu_data s) = VMXOFF) then []
  else [(vmx_state (cpu_data s), VMXOFF)].

Definition call_transitions (c : cpu_call) s
  : list (vmx_state_t * vmx_state_t) :=
  match c with
  | Cpu_init => init_transitions s
  | Cpu_exit => exit_transitions s
  end.

(** The state a CPU in state [st] has after the stores [trs]. *)
Definition end_state (st : vmx_state_t)
    (trs : list (vmx_state_t * vmx_state_t)) : vmx_state_t :=
  default st (last (map snd trs)).

(** [s'] has the hardware, the per-CPU data and the cells of [s]. *)
Definition same_setup s s' : Prop :=
  ext s' = ext s /\ cpu_data s' = cpu_data s /\ cells s' = cells s.

(** On the CPU [cpu], the run [m] makes the [vmwrite]s to [fs] and no
    other step that can fail but the load of the CPU's cell (which it
    makes when [loads] is set): it returns whether [b] holds and the
    processor accepted every write, and it is cut short only when the
    cell is not there. *)
Definition accepts (cpu : per_cpu) (loads b : bool) (m : M world bool)
    (fs : list Z) : Prop :=
  forall s, cpu_data s = cpu ->
    match m s with
    | Done r s' =>
        r = b && forallb (fun f => hw_vmwrite_ok f (ext s)) fs /\
        same_setup s s' /\
        (loads = true -> cell_loads s = true)
    | Abort _ _ => cell_loads s = false
    end.
End Vocabulary_enable.

Arguments setup_writes : simpl never.

(** ** Concrete inputs *)

(** A VM exit whose reason has bit 31 set on top of reason 33. *)
Definition failed_entry_state : state sim_world :=
  set_vmcs (<[0x4402 := 0x80000021]> ∅) sim_state0.

(** An APIC-access exit (reason 44), linear read, offset 0x22. *)
Definition misaligned_apic_state : state sim_world :=
  set_vmcs (<[0x4402 := 44]> (<[0x6400 := 0x022]> ∅)) sim_state0.

(** An APIC-access exit, linear read, offset 0x304: 4-byte-aligned and
    not 16-byte-aligned. *)
Definition aligned4_apic_state : state sim_world :=
  set_vmcs (<[0x4402 := 44]> (<[0x6400 := 0x304]> ∅)) sim_state0.

(** An APIC-access exit, linear read, offset 0x300, from an instruction
    at 0x1000 of a guest whose page tables are at 0x5000. *)
Definition aligned16_apic_state : state sim_world :=
  set_vmcs (<[0x4402 := 44]> (<[0x6400 := 0x300]>
              (<[0x681e := 0x1000]> (<[0x6802 := 0x5000]> ∅)))) sim_state0.

(** The machine of [sim] with an APIC model that answers reads: it puts
    the register's value (here its index) into RAX and reports a
    three-byte instruction; writes it refuses. *)
Definition sim_apic : Platform := {|
  world := sim_world;
  msr_bitmap_addr := @msr_bitmap_addr sim;
  apic_access_page_addr := @apic_access_page_addr sim;
  vm_exit_addr := @vm_exit_addr sim;
  root_entry_table_addr := @root_entry_table_addr sim;
  hv_page_table := @hv_page_table sim;
  page_map_hvirt2phys := @page_map_hvirt2phys sim;
  page_map_phys2hvirt := @page_map_phys2hvirt sim;
  page_alloc := @page_alloc sim;
  page_free := @page_free sim;
  page_map_create := @page_map_create sim;
  page_map_destroy := @page_map_destroy sim;
  flush_cache := @flush_cache sim;
  mmio_read32 := @mmio_read32 sim;
  mmio_read64 := @mmio_read64 sim;
  mmio_write32 := @mmio_write32 sim;
  mmio_write64 := @mmio_write64 sim;
  acpi_find_table := @acpi_find_table sim;
  cpuid := @cpuid sim;
  hw_vmxon := @hw_vmxon sim;
  hw_vmclear := @hw_vmclear sim;
  hw_vmptrld := @hw_vmptrld sim;
  hw_vmwrite_ok := @hw_vmwrite_ok sim;
  hw_vmxoff := @hw_vmxoff sim;
  hw_invept := @hw_invept sim;
  hw_xsetbv := @hw_xsetbv sim;
  hw_int := @hw_int sim;
  apic_handle_events := @apic_handle_events sim;
  apic_mmio_access := fun _ _ reg is_write s =>
    if is_write : bool then (0, s)
    else (3, set_guest_regs (set_rax reg (guest_regs s)) s);
  apic_handle_icr_write := @apic_handle_icr_write sim;
  x2apic_handle_read := @x2apic_handle_read sim;
  x2apic_handle_write := @x2apic_handle_write sim;
  shutdown := @shutdown sim;
  cell_create := @cell_create sim;
  cell_destroy := @cell_destroy sim;
  arch_cpu_restore := @arch_cpu_restore sim
|}.

(** A VMCALL with the unknown code 99 in RAX, guest RIP 0x1000, long mode
    active, issued from ring 3 and from ring 0. *)
Definition hypercall_state (cs : Z) : state sim_world :=
  set_guest_regs (set_rax 99 (guest_regs sim_state0))
    (set_vmcs (<[0x681e := 0x1000]> (<[0x2806 := 0x500]>
                 (<[0x802 := cs]> ∅))) sim_state0).
Definition user_call_state : state sim_world := hypercall_state 0x33.
Definition kernel_call_state : state sim_world := hypercall_state 0x10.

(** A processor that does not implement the HOST_IA32_EFER field: the
    [vmwrite] to it in [vmcs_setup] fails. *)
Definition setup_fails_state : state sim_world :=
  set_ext {| sim_vmxon_ok := true; sim_vmclear_ok := true;
             sim_vmptrld_ok := true; sim_unsupported := [0x2c02];
             sim_dmar := None; sim_allocated := 0; sim_freed := [] |}
          sim_state0.

(** A CPU on which VMX is already on (CR4.VMXE set) and whose basic
    capabilities report a VMCS of 0x1fff bytes, more than a page. *)
Definition busy_state : state sim_world :=
  set_cr4 0x2020
    (set_msrs (<[0x480 := 0x181fff00000012]> (msrs sim_state0)) sim_state0).

(** The same CPU with VMX off. *)
Definition oversized_vmcs_state : state sim_world :=
  set_msrs (<[0x480 := 0x181fff00000012]> (msrs sim_state0)) sim_state0.

(** A CPU with all capabilities whose feature-control MSR is locked with
    VMXON disabled. *)
Definition locked_state : state sim_world :=
  set_msrs (<[0x3a := 0x1]> (msrs sim_state0)) sim_state0.

(** A cell at 0x300000 that closes ports 4..7 of its first byte; the root
    cell's configuration closes ports 0..1 and 8..15, its live bitmap has
    ports 0..7 closed and 8..15 open. *)
Definition exiting_cell : cell :=
  sim_cell 1 {| name := "cell"; mem_regions := []; pci_devices := [];
                pio_bitmap := [0xf0] |} [].
Definition ports_state : state sim_world :=
  set_cells (<[0x300000 := exiting_cell]> ∅)
    (set_linux_cell
       (sim_cell (u32 (-1))
          {| name := "linux"; mem_regions := []; pci_devices := [];
             pio_bitmap := [0x03; 0xff] |}
          [0xff; 0x00])
       sim_state0).

(** One remapping unit with 16 domain ids, and a cell whose id is 16. *)
Definition one_unit_state : state sim_world :=
  set_cells (<[0x300000 := sim_cell 16 no_config []]> ∅)
    (set_dmar_num_did 16 (set_dmar_units 1 sim_state0)).

(** A DMAR table that is present and holds no remapping structure at all:
    its length is that of the table header. *)
Definition no_drhd_table : acpi_dmar_table :=
  {| dmar_length := 48;
     remap_struct_at := fun _ =>
       {| drhd_type := 0; drhd_length := 0; drhd_segment := 0;
          register_base_addr := 0 |} |}.
Definition no_drhd_state : state sim_world :=
  set_ext {| sim_vmxon_ok := true; sim_vmclear_ok := true;
             sim_vmptrld_ok := true; sim_unsupported := [];
             sim_dmar := Some no_drhd_table; sim_allocated := 0;
             sim_freed := [] |}
          sim_state0.

(** No remapping unit, and a cell without devices at 0x300000. *)
Definition no_unit_state : state sim_world :=
  set_cells (<[0x300000 := sim_cell 1 no_config []]> ∅) sim_state0.

(** * Vocabulary of the further properties *)

Section Vocabulary_exits.
Context {gd : Generic_defs} {pd : Processor_defs} {vd : Vmx_defs}
        {plat : Platform}.
Implicit Types s : state world.

#[local] Open Scope string_scope.
#[local] Open Scope list_scope.
#[local] Open Scope Z_scope.

(** The exit reasons the dispatcher's [switch] has a [case] for. *)
Definition handled_exit_reasons : list Z :=
  [EXIT_REASON_EXCEPTION_NMI; EXIT_REASON_PREEMPTION_TIMER;
   EXIT_REASON_CPUID; EXIT_REASON_VMCALL; EXIT_REASON_CR_ACCESS;
   EXIT_REASON_MSR_READ; EXIT_REASON_MSR_WRITE;
   EXIT_REASON_APIC_ACCESS; EXIT_REASON_XSETBV].

(** The console output of [dump_vm_exit_details]. *)
Definition vm_exit_details s (reason : Z) : list event :=
  [ Panic_printk "qualification %x" [vmread s EXIT_QUALIFICATION];
    Panic_printk "vectoring info: %x interrupt info: %x"
      [u32 (vmread s IDT_VECTORING_INFO_FIELD);
       u32 (vmread s VM_EXIT_INTR_INFO)] ] ++
  (if (reason =? EXIT_REASON_EPT_VIOLATION) ||
      (reason =? EXIT_REASON_EPT_MISCONFIG)
   then [ Panic_printk "guest phys addr %p guest linear addr: %p"
            [vmread s GUEST_PHYSICAL_ADDRESS;
             vmread s GUEST_LINEAR_ADDRESS] ]
   else []).

(** The test the XSETBV exit applies to the guest's registers. *)
Definition xsetbv_valid s : bool :=
  let regs := guest_regs s in
  truthy (Z.land (rax regs) X86_XCR0_FP) &&
  (Z.land (rax regs) (not32 (cpuid_eax 0x0d)) =? 0) &&
  (rcx regs =? 0) && (rdx regs =? 0).

(** The source operand of a MOV to a control register: general-purpose
    register number [reg] of the instruction encoding. *)
Definition mov_cr_operand s (reg : Z) : Z :=
  if reg =? 4 then vmread s GUEST_RSP
  else register_at (guest_regs s) (15 - reg).

(** No call into a collaborator. *)
Definition no_call (e : event) : Prop := forall fn args, e <> Call fn args.
End Vocabulary_exits.

(** [s'] differs from [s] at most in what the collaborators own and in
    the trace. *)
Definition world_step {W} (s s' : state W) : Prop :=
  s' = set_trace (trace s') (set_ext (ext s') s).

(** Every run of [m] is related to its start by [R]. *)
Definition frame {W A} (R : state W -> state W -> Prop) (m : M W A)
  : Prop :=
  forall s, R s (state_of (m s)).

(** A byte. *)
Definition is_byte (b : Z) : Prop := 0 <= b < 256.

(** [s'] differs from [s] at most in the VMCS, in what the collaborators
    own and in the trace: the footprint of the VMX instructions. *)
Definition hw_step {W} (s s' : state W) : Prop :=
  s' = set_trace (trace s') (set_ext (ext s') (set_vmcs (vmcs s') s)).

(** The MSR bitmap makes an access to [msr] exit: bit [msr mod 8] of byte
    [msr / 8] of the row is set. *)
Definition msr_intercepted (msr_bitmap : gmap Z (list Z)) (row msr : Z)
  : bool :=
  match msr_bitmap !! row with
  | Some r =>
      match r !! Z.to_nat (msr / 8) with
      | Some b => Z.testbit b (msr mod 8)
      | None => false
      end
  | None => false
  end.

Section Vocabulary_vtd.
Context {gd : Generic_defs} {td : Vtd_defs} {plat : Platform}.
Implicit Types s : state world.

#[local] Open Scope string_scope.
#[local] Open Scope list_scope.
#[local] Open Scope Z_scope.

(** The region is flagged for device access. *)
Definition is_dma_region (mem : jailhouse_memory) : bool :=
  truthy (Z.land (access_flags mem) JAILHOUSE_MEM_DMA).

(** The access a device gets to a region: read and write as the region's
    flags say, nothing else. *)
Definition vtd_page_flags (mem : jailhouse_memory) : Z :=
  let r := if truthy (Z.land (access_flags mem) JAILHOUSE_MEM_READ)
           then VTD_PAGE_READ else 0 in
  if truthy (Z.land (access_flags mem) JAILHOUSE_MEM_WRITE)
  then Z.lor r VTD_PAGE_WRITE else r.

(** The call by which [vtd_map_memory_region] enters a region into the
    page table [page_table] of [levels] levels. *)
Definition vtd_map_call (page_table levels : Z) (mem : jailhouse_memory)
  : event :=
  Call "page_map_create"
       [page_table; phys_start mem; mem_size mem; virt_start mem;
        vtd_page_flags mem; Z.lor VTD_PAGE_READ VTD_PAGE_WRITE; levels;
        PAGE_MAP_COHERENT].

(** [dev] names the same device as [d]: the comparison of
    [vtd_return_device_to_linux]. *)
Definition same_device (d dev : jailhouse_pci_device) : bool :=
  (domain d =? domain dev) && (bus d =? bus dev) && (devfn d =? devfn dev).

(** The register windows [virt] that a run mapped for remapping units:
    the fourth argument of its [page_map_create] calls. *)
Definition unit_windows (evs : list event) : list Z :=
  omap (fun e => match e with
                 | Call "page_map_create" [_; _; _; virt; _; _; _; _] =>
                     Some virt
                 | _ => None
                 end) evs.
End Vocabulary_vtd.

Section Vocabulary_writes.
Context {gd : Generic_defs} {pd : Processor_defs} {vd : Vmx_defs}
        {plat : Platform}.
Implicit Types s : state world.

#[local] Open Scope string_scope.
#[local] Open Scope list_scope.
#[local] Open Scope Z_scope.

(** The processor accepts a [vmwrite] to every field. *)
Definition writes_ok s : Prop := forall f, hw_vmwrite_ok f (ext s) = true.

(** The state after the accepted [vmwrite]s [ws] (field and value), in
    this order. *)
Definition apply_writes (ws : list (Z * Z)) s : state world :=
  set_trace (trace s ++ map (fun w => Insn "vmwrite" [w.1; w.2]) ws)
    (set_vmcs (foldl (fun m w => <[w.1 := w.2]> m) (vmcs s) ws) s).

(** The VMCS fields [vmx_cpu_reset] writes, in the order of their first
    write. *)
Definition reset_fields : list Z :=
  [GUEST_CR0; CR0_READ_SHADOW; CR0_GUEST_HOST_MASK;
   GUEST_CR4; CR4_READ_SHADOW; CR4_GUEST_HOST_MASK;
   GUEST_CR3; GUEST_RFLAGS; GUEST_RSP; GUEST_RIP;
   GUEST_CS_SELECTOR; GUEST_CS_BASE; GUEST_CS_LIMIT; GUEST_CS_AR_BYTES;
   GUEST_DS_SELECTOR; GUEST_DS_BASE; GUEST_DS_LIMIT; GUEST_DS_AR_BYTES;
   GUEST_ES_SELECTOR; GUEST_ES_BASE; GUEST_ES_LIMIT; GUEST_ES_AR_BYTES;
   GUEST_FS_SELECTOR; GUEST_FS_BASE; GUEST_FS_LIMIT; GUEST_FS_AR_BYTES;
   GUEST_GS_SELECTOR; GUEST_GS_BASE; GUEST_GS_LIMIT; GUEST_GS_AR_BYTES;
   GUEST_SS_SELECTOR; GUEST_SS_BASE; GUEST_SS_LIMIT; GUEST_SS_AR_BYTES;
   GUEST_TR_SELECTOR; GUEST_TR_BASE; GUEST_TR_LIMIT; GUEST_TR_AR_BYTES;
   GUEST_LDTR_SELECTOR; GUEST_LDTR_BASE; GUEST_LDTR_LIMIT;
   GUEST_LDTR_AR_BYTES;
   GUEST_GDTR_BASE; GUEST_GDTR_LIMIT; GUEST_IDTR_BASE; GUEST_IDTR_LIMIT;
   GUEST_IA32_EFER;
   GUEST_SYSENTER_CS; GUEST_SYSENTER_EIP; GUEST_SYSENTER_ESP;
   GUEST_DR7;
   GUEST_ACTIVITY_STATE; GUEST_INTERRUPTIBILITY_INFO;
   GUEST_PENDING_DBG_EXCEPTIONS;
   VM_ENTRY_CONTROLS;
   IO_BITMAP_A; IO_BITMAP_B; EPT_POINTER].
End Vocabulary_writes.

Arguments apply_writes : simpl never.

(** ** Further concrete inputs *)

(** [enum vmx_state { VMXOFF = 0, VMXON, VMCS_READY }]. *)
Definition x86_percpu : Percpu_defs := {|
  vmx_state_value := fun st =>
    match st with VMXOFF => 0 | VMXON => 1 | VMCS_READY => 2 end
|}.

Definition x86_msr_bitmap : Msr_bitmap_defs := {|
  VMX_MSR_BITMAP_0000_READ := 0; VMX_MSR_BITMAP_C000_READ := 1;
  VMX_MSR_BITMAP_0000_WRITE := 2; VMX_MSR_BITMAP_C000_WRITE := 3
|}.

(** The machine of [sim] on a processor whose CPUID leaf 0xd reports the
    x87, SSE and AVX state components. *)
Definition sim_xsave : Platform := {|
  world := sim_world;
  msr_bitmap_addr := @msr_bitmap_addr sim;
  apic_access_page_addr := @apic_access_page_addr sim;
  vm_exit_addr := @vm_exit_addr sim;
  root_entry_table_addr := @root_entry_table_addr sim;
  hv_page_table := @hv_page_table sim;
  page_map_hvirt2phys := @page_map_hvirt2phys sim;
  page_map_phys2hvirt := @page_map_phys2hvirt sim;
  page_alloc := @page_alloc sim;
  page_free := @page_free sim;
  page_map_create := @page_map_create sim;
  page_map_destroy := @page_map_destroy sim;
  flush_cache := @flush_cache sim;
  mmio_read32 := @mmio_read32 sim;
  mmio_read64 := @mmio_read64 sim;
  mmio_write32 := @mmio_write32 sim;
  mmio_write64 := @mmio_write64 sim;
  acpi_find_table := @acpi_find_table sim;
  cpuid := fun eax ecx =>
    if eax =? 0xd then (7, 0, 0, 0) else @cpuid sim eax ecx;
  hw_vmxon := @hw_vmxon sim;
  hw_vmclear := @hw_vmclear sim;
  hw_vmptrld := @hw_vmptrld sim;
  hw_vmwrite_ok := @hw_vmwrite_ok sim;
  hw_vmxoff := @hw_vmxoff sim;
  hw_invept := @hw_invept sim;
  hw_xsetbv := @hw_xsetbv sim;
  hw_int := @hw_int sim;
  apic_handle_events := @apic_handle_events sim;
  apic_mmio_access := @apic_mmio_access sim;
  apic_handle_icr_write := @apic_handle_icr_write sim;
  x2apic_handle_read := @x2apic_handle_read sim;
  x2apic_handle_write := @x2apic_handle_write sim;
  shutdown := @shutdown sim;
  cell_create := @cell_create sim;
  cell_destroy := @cell_destroy sim;
  arch_cpu_restore := @arch_cpu_restore sim
|}.

(** A HLT exit (reason 12), which the dispatcher has no case for. *)
Definition hlt_exit_state : state sim_world :=
  set_vmcs (<[0x4402 := 12]> ∅) sim_state0.


(** A control-register exit (reason 28) for a MOV from CR0 to RAX:
    access type 1 in bits 5:4 of the qualification. *)
Definition mov_from_cr_state : state sim_world :=
  set_vmcs (<[0x4402 := 28]> (<[0x6400 := 0x10]> ∅)) sim_state0.

(** An XSETBV exit (reason 55) asking for XCR0 = [xcr0]. *)
Definition xsetbv_state (xcr0 : Z) : state sim_world :=
  set_guest_regs (set_rax xcr0 (guest_regs sim_state0))
    (set_vmcs (<[0x4402 := 55]> ∅) sim_state0).

(** A CPUID exit (reason 10) for leaf 1 with garbage in the high half of
    RAX, guest RIP 0x1000. *)
Definition cpuid_exit_state : state sim_world :=
  set_guest_regs (set_rax 0xdead00000001 (guest_regs sim_state0))
    (set_vmcs (<[0x4402 := 10]> (<[0x681e := 0x1000]> ∅)) sim_state0).

(** A MOV of RAX = PG | PE to CR0 (qualification 0) while the guest's
    EFER has LME set and LMA clear, guest RIP 0x1000. *)
Definition enable_paging_state : state sim_world :=
  set_guest_regs (set_rax 0x80000001 (guest_regs sim_state0))
    (set_vmcs (<[0x681e := 0x1000]> (<[0x2806 := 0x100]> ∅)) sim_state0).

(** A new cell at 0x300000 with two pages of I/O bitmap, whose
    configuration opens ports 0..3 and closes ports 4..7. *)
Definition new_cell_state : state sim_world :=
  set_cells
    (<[0x300000 :=
         sim_cell 1 {| name := "cell"; mem_regions := [];
                       pci_devices := []; pio_bitmap := [0xf0] |}
                  (replicate (Z.to_nat 8192) 0)]> ∅)
    sim_state0.

(** The root cell with its configured bitmap live (ports 0..1 and 8..15
    closed), and the cell [exiting_cell] at 0x300000. *)
Definition fresh_ports_state : state sim_world :=
  set_cells (<[0x300000 := exiting_cell]> ∅)
    (set_linux_cell
       (sim_cell (u32 (-1))
          {| name := "linux"; mem_regions := []; pci_devices := [];
             pio_bitmap := [0x03; 0xff] |}
          [0x03; 0xff])
       sim_state0).

(** A processor that refuses VMXON. *)
Definition vmxon_refused_state : state sim_world :=
  set_ext {| sim_vmxon_ok := false; sim_vmclear_ok := true;
             sim_vmptrld_ok := true; sim_unsupported := [];
             sim_dmar := None; sim_allocated := 0; sim_freed := [] |}
          sim_state0.

(** Three regions: RAM open to DMA for reading and writing, a region
    without DMA, and a read-only DMA region. *)
Definition three_regions : list jailhouse_memory :=
  [ {| phys_start := 0x1000000; virt_start := 0; mem_size := 0x100000;
       access_flags := 0xb |};
    {| phys_start := 0x2000000; virt_start := 0x100000;
       mem_size := 0x1000; access_flags := 0x3 |};
    {| phys_start := 0x3000000; virt_start := 0x200000;
       mem_size := 0x2000; access_flags := 0x9 |} ].

(** Device 00:1f.2, and the state in which it has been given to the cell
    at 0x300000 of [one_unit_state] with three-level page tables. *)
Definition sata_device : jailhouse_pci_device :=
  {| domain := 0; bus := 0; devfn := 0xfa |}.
Definition unit_ready_state : state sim_world :=
  set_dmar_pt_levels 3
    (set_cells (<[0x300000 := sim_cell 5 no_config []]> ∅)
       (set_dmar_num_did 16 (set_dmar_units 1 sim_state0))).
Definition device_added_state : state sim_world :=
  state_of (vtd_add_device_to_cell (gd:=x86_generic) (td:=x86_vtd)
              (plat:=sim) (Cell_at 0x300000) sata_device unit_ready_state).

(** The machine of [sim] with remapping units whose capability register
    (offset 8 of a unit's register page) reads 0x202: three-level page
    tables (SAGAW bit 9) and 256 domain ids (ND = 2); every other
    register reads 0. *)
Definition sim_vtd : Platform := {|
  world := sim_world;
  msr_bitmap_addr := @msr_bitmap_addr sim;
  apic_access_page_addr := @apic_access_page_addr sim;
  vm_exit_addr := @vm_exit_addr sim;
  root_entry_table_addr := @root_entry_table_addr sim;
  hv_page_table := @hv_page_table sim;
  page_map_hvirt2phys := @page_map_hvirt2phys sim;
  page_map_phys2hvirt := @page_map_phys2hvirt sim;
  page_alloc := @page_alloc sim;
  page_free := @page_free sim;
  page_map_create := @page_map_create sim;
  page_map_destroy := @page_map_destroy sim;
  flush_cache := @flush_cache sim;
  mmio_read32 := @mmio_read32 sim;
  mmio_read64 := fun addr w =>
    (if Z.land addr 0xfff =? 0x8 then 0x202 else 0, w);
  mmio_write32 := @mmio_write32 sim;
  mmio_write64 := @mmio_write64 sim;
  acpi_find_table := @acpi_find_table sim;
  cpuid := @cpuid sim;
  hw_vmxon := @hw_vmxon sim;
  hw_vmclear := @hw_vmclear sim;
  hw_vmptrld := @hw_vmptrld sim;
  hw_vmwrite_ok := @hw_vmwrite_ok sim;
  hw_vmxoff := @hw_vmxoff sim;
  hw_invept := @hw_invept sim;
  hw_xsetbv := @hw_xsetbv sim;
  hw_int := @hw_int sim;
  apic_handle_events := @apic_handle_events sim;
  apic_mmio_access := @apic_mmio_access sim;
  apic_handle_icr_write := @apic_handle_icr_write sim;
  x2apic_handle_read := @x2apic_handle_read sim;
  x2apic_handle_write := @x2apic_handle_write sim;
  shutdown := @shutdown sim;
  cell_create := @cell_create sim;
  cell_destroy := @cell_destroy sim;
  arch_cpu_restore := @arch_cpu_restore sim
|}.

(** A DMAR table with two 16-byte DRHD records behind its 48-byte
    header, for the units at 0xfed90000 and 0xfed91000, and the machine
    whose firmware publishes it. *)
Definition two_unit_table : acpi_dmar_table :=
  {| dmar_length := 80;
     remap_struct_at := fun offset =>
       {| drhd_type := 0; drhd_length := 16; drhd_segment := 0;
          register_base_addr :=
            if offset =? 48 then 0xfed90000 else 0xfed91000 |} |}.
Definition two_unit_state : state sim_world :=
  set_ext {| sim_vmxon_ok := true; sim_vmclear_ok := true;
             sim_vmptrld_ok := true; sim_unsupported := [];
             sim_dmar := Some two_unit_table; sim_allocated := 0;
             sim_freed := [] |}
          sim_state0.

(** A malformed table of the same length: its second record claims a
    length of 4 bytes. *)
Definition short_record_table : acpi_dmar_table :=
  {| dmar_length := 80;
     remap_struct_at := fun offset =>
       {| drhd_type := 0; drhd_length := if offset =? 48 then 16 else 4;
          drhd_segment := 0; register_base_addr := 0xfed90000 |} |}.
Definition short_record_state : state sim_world :=
  set_ext {| sim_vmxon_ok := true; sim_vmclear_ok := true;
             sim_vmptrld_ok := true; sim_unsupported := [];
             sim_dmar := Some short_record_table; sim_allocated := 0;
             sim_freed := [] |}
          sim_state0.


(** A VMCS that still holds the state of a 64-bit guest: RIP, a flat
    code segment, EFER with LME and LMA, IA-32e mode in the entry
    controls, and general-purpose registers in use. *)
Definition long_mode_state : state sim_world :=
  set_guest_regs (set_rax 0x1234 (set_rcx 0x5678 (guest_regs sim_state0)))
    (set_vmcs (<[0x681e := 0xffffffff81000000]>
                 (<[0x802 := 0x10]>
                    (<[0x2806 := 0x500]> (<[0x4012 := 0x200]> ∅))))
       sim_state0).

(** A processor whose CR0 fixed-bit MSRs demand PE, NE and PG
    (IA32_VMX_CR0_FIXED0 = 0x80000021) and allow the low 32 bits
    (IA32_VMX_CR0_FIXED1 = 0xffffffff). *)
Definition fixed_bits_state : state sim_world :=
  set_msrs (<[0x486 := 0x80000021]>
              (<[0x487 := 0xffffffff]> (msrs sim_state0)))
           sim_state0.

(** * Properties *)

(** Unfold the plumbing of the monad, leaving the functions of the model
    folded. *)
Ltac munfold :=
  unfold bind, mbind, M_bind, mret, M_ret, gets, modify, stop, log, call,
    call_any, insn, on_world, on_state, printk, panic_printk, panic_stop,
    and_ok in *;
  cbn beta iota zeta in *.
Ltac mrun := repeat progress munfold.

(** Expose a state built by setters as a record of its fields. *)
Ltac norm_state :=
  unfold set_cr4, set_msrs, set_vmcs, set_vmx_true_msr_offs, set_cpu_data,
    set_guest_regs, set_linux_cell, set_cells, set_root_entry_table,
    set_dmar_reg_base, set_dmar_units, set_dmar_pt_levels, set_dmar_num_did,
    set_mem, set_ext, set_trace;
  cbn.

Create HintDb keeps.

Section Vmx_facts.
Context {gd : Generic_defs} {pd : Processor_defs} {vd : Vmx_defs}
        {plat : Platform}.
Implicit Types s : state world.

Lemma vmx_cpu_exit_off s :
  vmx_state (cpu_data s) = VMXOFF -> vmx_cpu_exit s = Done tt s.
Proof.
  intros Hoff. unfold vmx_cpu_exit. mrun. rewrite Hoff.
  by destruct (decide (VMXOFF = VMXOFF)).
Qed.

Lemma vmx_cpu_exit_on s :
  vmx_state (cpu_data s) <> VMXOFF ->
  exists s1, vmx_cpu_exit s = Done tt s1 /\
    vmx_state (cpu_data s1) = VMXOFF /\
    events_of s (vmx_cpu_exit s) =
      [Vmx_state (vmx_state (cpu_data s)) VMXOFF;
       Insn "vmclear"
         [page_map_hvirt2phys (region_addr (vmcs_region (cpu_data s)))];
       Insn "vmxoff" []].
Proof.
  intros Hon. unfold vmx_cpu_exit, store_vmx_state, vmcs_clear, read_cr4,
    write_cr4. mrun.
  destruct (decide (vmx_state (cpu_data s) = VMXOFF)) as [|_]; [done|].
  destruct (hw_vmclear _ _) as [ok w] eqn:Hclear. cbn.
  eexists; split; [reflexivity|]. split; [done|].
  unfold events_of. cbn. rewrite <- !app_assoc. by rewrite drop_app_length.
Qed.

(** ** The failed-entry gate of the dispatcher *)

Lemma dump_guest_regs_run s :
  dump_guest_regs s = Done tt (set_trace (trace s ++ guest_regs_dump s) s).
Proof.
  unfold dump_guest_regs, vmcs_read32, vmcs_read64, guest_regs_dump, vmread.
  mrun. cbn. by rewrite <- !app_assoc.
Qed.

(** C1: a VM exit whose reason has the failed-VM-entry bit set prints the
    fatal diagnostic, dumps the guest registers and halts; the state is
    otherwise untouched and nothing but console output happens, whatever
    the remaining bits of the reason are. *)
Theorem failed_vmentry_halts s :
  Z.land (u32 (vmread s VM_EXIT_REASON)) EXIT_REASONS_FAILED_VMENTRY <> 0 ->
  vmx_handle_exit s =
    Abort Stopped
      (set_trace
         (trace s ++
          Panic_printk "FATAL: VM-Entry failure, reason %d"
                       [u16 (u32 (vmread s VM_EXIT_REASON))] ::
          guest_regs_dump s ++ [Panic_stop]) s).
Proof.
  intros Hbit. unfold vmx_handle_exit, vmcs_read32, vmcs_read64. mrun.
  fold (vmread s VM_EXIT_REASON).
  unfold truthy. destruct (Z.eqb_spec (Z.land (u32 (vmread s VM_EXIT_REASON)) EXIT_REASONS_FAILED_VMENTRY) 0) as [|_]; [done|].
  cbn. rewrite dump_guest_regs_run. cbn.
  by rewrite <- !app_assoc.
Qed.

(** ** APIC-access exits *)

Lemma land_15_mod_4 x : Z.land x 0x00f = 0 -> x mod 4 = 0.
Proof.
  change 0x00f with (Z.ones 4). rewrite Z.land_ones by lia.
  change (2 ^ 4) with 16. intros H.
  assert (x = 4 * (x / 16) * 4) as ->
    by (pose proof (Z.div_mod x 16); lia).
  by rewrite Z.mod_mul.
Qed.

Lemma vmx_handle_exit_apic_access s :
  exit_reasons_distinct ->
  u32 (vmread s VM_EXIT_REASON) = EXIT_REASON_APIC_ACCESS ->
  Z.land EXIT_REASON_APIC_ACCESS EXIT_REASONS_FAILED_VMENTRY = 0 ->
  vmx_handle_exit s =
    (let* handled := vmx_handle_apic_access in
     if handled : bool then mret tt else dump_guest_regs;; panic_stop) s.
Proof.
  intros Hnd Hreason Hgate. unfold exit_reasons_distinct in Hnd.
  rewrite !NoDup_cons, !not_elem_of_cons in Hnd. destruct_and!.
  unfold vmx_handle_exit, vmcs_read32, vmcs_read64. mrun.
  fold (vmread s VM_EXIT_REASON). rewrite Hreason, Hgate. cbn.
  repeat match goal with
         | |- context [EXIT_REASON_APIC_ACCESS =? ?c] =>
             lazymatch c with
             | EXIT_REASON_APIC_ACCESS => rewrite Z.eqb_refl
             | _ => rewrite (proj2 (Z.eqb_neq EXIT_REASON_APIC_ACCESS c))
                      by congruence
             end
         end.
  done.
Qed.

(** C7 (amended): on an APIC-access exit of linear read or write type
    the handler asks for 16-byte alignment, the stride of the APIC
    registers.  An offset with one of its low four bits set (every offset
    that is not 4-byte-aligned is one) is reported as unhandled and the
    CPU dumps and halts; the APIC model is called only for a 16-byte
    aligned offset.  Such an offset is delegated: the APIC model is called
    once, before anything else, with the guest's RIP, the root of its page
    tables from GUEST_CR3, the register index [offset >> 4] and the
    direction; if it returns a nonzero instruction length the guest
    resumes with RIP moved by that length, if it returns 0 the CPU dumps
    and halts. *)
Theorem apic_access_alignment s :
  let q := vmread s EXIT_QUALIFICATION in
  let offset := apic_offset s in
  let inst_len := (apic_delegation s).1 in
  let s1 := (apic_delegation s).2 in
  exit_reasons_distinct ->
  u32 (vmread s VM_EXIT_REASON) = EXIT_REASON_APIC_ACCESS ->
  Z.land EXIT_REASON_APIC_ACCESS EXIT_REASONS_FAILED_VMENTRY = 0 ->
  Z.land q APIC_ACCESS_TYPE_MASK = APIC_ACCESS_TYPE_LINEAR_READ \/
  Z.land q APIC_ACCESS_TYPE_MASK = APIC_ACCESS_TYPE_LINEAR_WRITE ->
  (offset mod 4 <> 0 -> Z.land offset 0xf <> 0) /\
  (Z.land offset 0xf <> 0 ->
   vmx_handle_exit s =
     Abort Stopped
       (set_trace
          (trace s ++
           Panic_printk "FATAL: Unhandled APIC access, qualification %x"
                        [q] ::
           guest_regs_dump s ++ [Panic_stop]) s)) /\
  (forall args,
     Call "apic_mmio_access" args ∈ events_of s (vmx_handle_exit s) ->
     Z.land offset 0xf = 0) /\
  (Z.land offset 0xf = 0 ->
   (exists evs,
      events_of s (vmx_handle_exit s) = apic_call s :: evs /\
      Forall no_call evs) /\
   (inst_len <> 0 ->
    vmx_handle_exit s = vmx_skip_emulated_instruction inst_len s1 /\
    exists s',
      vmx_handle_exit s = Done tt s' /\
      guest_regs s' = guest_regs s1 /\
      (hw_vmwrite_ok GUEST_RIP (ext s1) = true ->
       vmread s' GUEST_RIP = u64 (vmread s1 GUEST_RIP + inst_len))) /\
   (inst_len = 0 ->
    vmx_handle_exit s =
      Abort Stopped
        (set_trace (trace s1 ++ guest_regs_dump s1 ++ [Panic_stop]) s1))).
Proof.
  intros q offset inst_len s1 Hnd Hreason Hgate Hty.
  assert ((Z.land q APIC_ACCESS_TYPE_MASK =? APIC_ACCESS_TYPE_LINEAR_READ)
          || (Z.land q APIC_ACCESS_TYPE_MASK =? APIC_ACCESS_TYPE_LINEAR_WRITE)
          = true) as Hty'.
  { apply orb_true_iff. destruct Hty; [left | right]; by apply Z.eqb_eq. }
  assert (Z.land offset 0xf <> 0 ->
          vmx_handle_exit s =
            Abort Stopped
              (set_trace
                 (trace s ++
                  Panic_printk
                    "FATAL: Unhandled APIC access, qualification %x" [q] ::
                  guest_regs_dump s ++ [Panic_stop]) s)) as Hhalt.
  { intros Hal. rewrite vmx_handle_exit_apic_access by done.
    unfold vmx_handle_apic_access, vmcs_read64. mrun.
    fold (vmread s EXIT_QUALIFICATION). fold (apic_offset s).
    fold q offset. rewrite Hty'.
    unfold truthy at 1. rewrite (proj2 (Z.eqb_neq _ _) Hal). cbn.
    rewrite dump_guest_regs_run. unfold panic_stop. mrun. cbn.
    by rewrite <- !app_assoc. }
  split; [|split; [|split]].
  - intros Hmis Hal. by apply Hmis, land_15_mod_4.
  - exact Hhalt.
  - intros args Hin.
    destruct (decide (Z.land offset 0xf = 0)) as [|Hal]; [done|]. exfalso.
    rewrite (Hhalt Hal) in Hin.
    unfold events_of in Hin. cbn in Hin.
    rewrite drop_app_length in Hin.
    unfold guest_regs_dump in Hin. cbn in Hin.
    repeat (apply elem_of_cons in Hin as [?|Hin]; [done|]).
    by apply elem_of_nil in Hin.
  - intros Hal. clear Hhalt.
    rewrite vmx_handle_exit_apic_access by done.
    subst q offset inst_len s1.
    unfold apic_delegation, apic_call, apic_offset in *.
    unfold vmx_handle_apic_access, vmx_skip_emulated_instruction,
      vmcs_write64, vmcs_read32, vmcs_read64. mrun.
    unfold vmread, truthy in *. cbn. rewrite Hty', Hal. cbn.
    destruct (apic_mmio_access _ _ _ _ _) as [len s2]. cbn.
    destruct (Z.eqb_spec len 0) as [->|Hlen]; cbn.
    + rewrite dump_guest_regs_run. unfold panic_stop. mrun. cbn.
      split; [|split; [done|]].
      * unfold events_of. cbn. rewrite <- !app_assoc, drop_app_length.
        eexists. split; [reflexivity|].
        unfold guest_regs_dump. repeat constructor; done.
      * intros _. by rewrite <- !app_assoc.
    + destruct (hw_vmwrite_ok GUEST_RIP (ext s2)) eqn:Hok; cbn.
      all: split; [|split; [intros _|done]].
      all: try (unfold events_of; cbn;
                rewrite <- ?app_assoc, drop_app_length;
                eexists; split; [reflexivity|]; repeat constructor; done).
      * split; [done|]. eexists. split; [reflexivity|]. split; [done|].
        intros _. cbn. by rewrite lookup_insert_eq.
      * split; [done|]. eexists. split; [reflexivity|]. split; done.
Qed.

(** ** CPU teardown *)

(** C8: [vmx_cpu_exit] always returns with the enablement state OFF, a
    second call right after it changes nothing, and two calls in a row
    leave exactly the state and trace of one. *)
Theorem vmx_cpu_exit_idempotent s :
  exists s1,
    vmx_cpu_exit s = Done tt s1 /\
    vmx_state (cpu_data s1) = VMXOFF /\
    vmx_cpu_exit s1 = Done tt s1 /\
    (vmx_cpu_exit;; vmx_cpu_exit) s = vmx_cpu_exit s.
Proof.
  destruct (decide (vmx_state (cpu_data s) = VMXOFF)) as [Hoff|Hon].
  - exists s. pose proof (vmx_cpu_exit_off s Hoff) as Hrun.
    repeat split; try done.
    unfold mbind, M_bind. by rewrite Hrun.
  - destruct (vmx_cpu_exit_on s Hon) as (s1 & Hrun & Hoff & _).
    exists s1. pose proof (vmx_cpu_exit_off s1 Hoff) as Hrun1.
    repeat split; try done.
    unfold mbind, M_bind. by rewrite Hrun, Hrun1.
Qed.

(** ** Hypercalls *)

(** Events of [vmx_cpu_deactivate_vmm]: it calls out, it never writes
    the VMCS. *)
Lemma emits_ret {A} P (a : A) : emits P (mret a : M world A).
Proof. intros s. exists []. by rewrite app_nil_r. Qed.

Lemma emits_bind {A B} P (m : M world A) (k : A -> M world B) :
  emits P m -> (forall a, emits P (k a)) -> emits P (mbind k m).
Proof.
  intros Hm Hk s. unfold mbind, M_bind. destruct (Hm s) as (evs & Htr & Hev).
  destruct (m s) as [a s'|why s']; [|by exists evs].
  destruct (Hk a s') as (evs' & Htr' & Hev').
  exists (evs ++ evs'). split; [|by apply Forall_app].
  cbn in Htr. by rewrite Htr', Htr, app_assoc.
Qed.

Lemma emits_gets {A} P (f : state world -> A) : emits P (gets f).
Proof. intros s. exists []. by rewrite app_nil_r. Qed.

Lemma emits_stop {A} P why : emits P (stop why : M world A).
Proof. intros s. exists []. by rewrite app_nil_r. Qed.

Lemma emits_log (P : event -> Prop) e : P e -> emits P (log e : M world unit).
Proof. intros He s. exists [e]. by repeat constructor. Qed.

Lemma emits_on_state {A} P (f : state world -> A * state world) :
  emits P (on_state f).
Proof.
  intros s. unfold on_state. destruct (f s) as [a s']. cbn.
  exists []. by rewrite app_nil_r.
Qed.

Lemma emits_modify P (f : state world -> state world) :
  (forall s, trace (f s) = trace s) -> emits P (modify f).
Proof. intros Hf s. exists []. cbn. by rewrite Hf, app_nil_r. Qed.

Lemma emits_vmx_cpu_deactivate_vmm {A} :
  emits (fun e => forall f v, e <> Insn "vmwrite" [f; v])
        (vmx_cpu_deactivate_vmm : M world A).
Proof.
  unfold vmx_cpu_deactivate_vmm, vmcs_read16, vmcs_read32, vmcs_read64,
    call_any, bind.
  repeat first
    [ apply emits_bind; [|intros]
    | apply emits_ret | apply emits_gets | apply emits_stop
    | apply emits_on_state
    | apply emits_modify; done
    | apply emits_log; done ].
Qed.

Ltac hypercall_start s :=
  unfold vmx_handle_hypercall, vmx_skip_emulated_instruction, vmcs_write64,
    set_guest_rax, vmcs_read16, vmcs_read32, vmcs_read64;
  mrun; cbn; fold (vmread s GUEST_RIP).

Ltac hypercall_test s Hdist :=
  try (rewrite !lookup_insert_ne by apply Hdist);
  fold (vmread s GUEST_IA32_EFER) (vmread s GUEST_RFLAGS)
    (vmread s GUEST_CS_SELECTOR);
  fold (hypercall_denied s).

Ltac done_events :=
  cbn; rewrite <- ?app_assoc, drop_app_length;
  eexists; (split; [reflexivity|]); repeat constructor; done.

(** C9: the handler's first action is the one [vmwrite] that moves the
    guest RIP past the VMCALL instruction, and it never writes RIP again;
    a call rejected for its privilege level and a call with an unknown
    code both return with RIP advanced. *)
Theorem hypercall_skips_vmcall_first s :
  let rip' := u64 (vmread s GUEST_RIP + X86_INST_LEN_VMCALL) in
  hw_vmwrite_ok GUEST_RIP (ext s) = true ->
  rip_field_distinct ->
  (exists evs,
     events_of s (vmx_handle_hypercall s) =
       Insn "vmwrite" [GUEST_RIP; rip'] :: evs /\
     Forall (fun e => forall v, e <> Insn "vmwrite" [GUEST_RIP; v]) evs) /\
  (hypercall_permitted s = false ->
   exists s', vmx_handle_hypercall s = Done tt s' /\
     vmread s' GUEST_RIP = rip' /\
     rax (guest_regs s') = u64 (- EPERM)) /\
  (hypercall_permitted s = true ->
   known_hypercall (rax (guest_regs s)) = false ->
   exists s', vmx_handle_hypercall s = Done tt s' /\
     vmread s' GUEST_RIP = rip' /\
     rax (guest_regs s') = u64 (- ENOSYS)).
Proof.
  intros rip' Hok Hdist. unfold hypercall_permitted, events_of.
  hypercall_start s. rewrite Hok. cbn. fold rip'.
  hypercall_test s Hdist.
  destruct (hypercall_denied s) eqn:Hp; cbn.
  - split; [|split; [|done]].
    + done_events.
    + intros _. eexists; split; [reflexivity|]. split; [|done].
      unfold vmread. cbn. by rewrite lookup_insert_eq.
  - split; [|split; [done|]].
    + destruct (rax (guest_regs s) =? JAILHOUSE_HC_DISABLE).
      { destruct (shutdown _) as [r s2]. cbn.
        destruct (u64 r =? 0); [|done_events].
        match goal with
        | |- context [vmx_cpu_deactivate_vmm ?s3] =>
            destruct (emits_vmx_cpu_deactivate_vmm (A:=unit) s3)
              as (evs & -> & Hev)
        end.
        cbn. rewrite <- !app_assoc, drop_app_length.
        eexists; split; [reflexivity|].
        constructor; [done|].
        eapply Forall_impl; [exact Hev|]. intros e He v. apply He. }
      destruct (rax (guest_regs s) =? JAILHOUSE_HC_CELL_CREATE).
      { destruct (cell_create _ _) as [r s2]. done_events. }
      destruct (rax (guest_regs s) =? JAILHOUSE_HC_CELL_DESTROY).
      { destruct (cell_destroy _ _) as [r s2]. done_events. }
      done_events.
    + intros _ Hunknown. unfold known_hypercall in Hunknown.
      apply orb_false_iff in Hunknown as [Hunknown ?].
      apply orb_false_iff in Hunknown as [? ?].
      repeat match goal with H : (_ =? _) = false |- _ => rewrite H end.
      cbn. eexists; split; [reflexivity|]. split; [|done].
      unfold vmread. cbn. by rewrite lookup_insert_eq.
Qed.

(** C3 (amended): a hypercall that passes the privilege test and carries
    none of the three known codes returns [-ENOSYS] in RAX; the resulting
    state is the initial one with RAX set, the guest RIP moved past the
    VMCALL instruction when its [vmwrite] succeeds, and console output and
    that [vmwrite] added to the trace.  Nothing else changes. *)
Theorem unknown_hypercall_enosys s :
  rip_field_distinct ->
  hypercall_permitted s = true ->
  known_hypercall (rax (guest_regs s)) = false ->
  exists evs,
    vmx_handle_hypercall s =
      Done tt
        (set_guest_regs (set_rax (u64 (- ENOSYS)) (guest_regs s))
           (set_vmcs
              (if hw_vmwrite_ok GUEST_RIP (ext s)
               then <[GUEST_RIP :=
                        u64 (vmread s GUEST_RIP + X86_INST_LEN_VMCALL)]>
                      (vmcs s)
               else vmcs s)
              (set_trace (trace s ++ evs) s))) /\
    Forall console_or_rip evs.
Proof.
  intros Hdist Hp Hunknown.
  unfold hypercall_permitted in Hp. apply negb_true_iff in Hp.
  unfold known_hypercall in Hunknown.
  apply orb_false_iff in Hunknown as [Hunknown ?].
  apply orb_false_iff in Hunknown as [? ?].
  hypercall_start s.
  destruct (hw_vmwrite_ok GUEST_RIP (ext s)); cbn;
    hypercall_test s Hdist; rewrite Hp; cbn;
    repeat match goal with H : (_ =? _) = false |- _ => rewrite H end;
    norm_state; rewrite <- ?app_assoc;
    (eexists; split; [reflexivity|]); repeat constructor; done.
Qed.

(** ** Capability checks of [vmx_cpu_init] *)

(** C6 (amended): on a CPU that reports VMX, [vmx_cpu_init] tests in this
    order and returns at the first test that fails: CR4.VMXE already set
    gives [-EBUSY]; otherwise a missing capability gives [-EIO]; otherwise
    a feature-control MSR that is locked without VMXON enabled gives
    [-ENODEV].  In all three cases CR4, the enablement state and the trace
    are as before. *)
Theorem vmx_cpu_init_errors s :
  truthy (Z.land (cpuid_ecx 1) X86_FEATURE_VMX) = true ->
  (truthy (Z.land (cr4 s) X86_CR4_VMXE) = true ->
   vmx_cpu_init s = Done (- EBUSY) s) /\
  (truthy (Z.land (cr4 s) X86_CR4_VMXE) = false ->
   capabilities_ok s = false ->
   exists s', vmx_cpu_init s = Done (- EIO) s' /\
     cr4 s' = cr4 s /\ cpu_data s' = cpu_data s /\ trace s' = trace s) /\
  (truthy (Z.land (cr4 s) X86_CR4_VMXE) = false ->
   capabilities_ok s = true ->
   feature_control_locked_out s = true ->
   exists s', vmx_cpu_init s = Done (- ENODEV) s' /\
     cr4 s' = cr4 s /\
     vmx_state (cpu_data s') = vmx_state (cpu_data s) /\
     trace s' = trace s).
Proof.
  intros Hvmx.
  unfold capabilities_ok, true_msr_offs, feature_control_locked_out.
  unfold vmx_cpu_init, read_cr4, read_msr, write_msr, write_cr4.
  mrun; cbn. rewrite Hvmx. cbn.
  destruct (truthy (Z.land (cr4 s) X86_CR4_VMXE)); cbn.
  { split; [done|]. split; intros; done. }
  split; [done|].
  destruct (vmcs_size_ok _); cbn;
    [|split; [eauto 10|intros; done]].
  destruct (vmcs_memtype_ok _); cbn;
    [|split; [eauto 10|intros; done]].
  destruct (truthy (Z.land _ (Z.shiftl 1 55))); cbn.
  all: destruct (pin_ctrl_ok _); cbn;
    [|split; [eauto 10|intros; done]].
  all: destruct (proc_ctrl_ok _); cbn;
    [|split; [eauto 10|intros; done]].
  all: destruct (proc_ctrl2_ok _ _); cbn;
    [|split; [eauto 10|intros; done]].
  all: destruct (activity_hlt_ok _); cbn;
    [|split; [eauto 10|intros; done]].
  all: split; [intros; done|].
  all: intros _ _ Hlock; apply andb_true_iff in Hlock as [-> ->]; cbn.
  all: eauto 10.
Qed.

(** ** The enablement state machine *)

Lemma vmx_frame_refl s : vmx_frame s s.
Proof.
  repeat split. exists []. by rewrite app_nil_r.
Qed.

Lemma vmx_frame_trans s1 s2 s3 :
  vmx_frame s1 s2 -> vmx_frame s2 s3 -> vmx_frame s1 s3.
Proof.
  intros (Hcr & Hst & evs & Htr & Hq) (Hcr' & Hst' & evs' & Htr' & Hq').
  split; [congruence|]. split; [congruence|].
  exists (evs ++ evs'). split; [|by apply Forall_app].
  by rewrite Htr', Htr, app_assoc.
Qed.

Lemma vmx_frame_log s e : quiet e -> vmx_frame s (set_trace (trace s ++ [e]) s).
Proof. intros He. repeat split. exists [e]. by repeat constructor. Qed.

Lemma keeps_ret {A} (a : A) : keeps (mret a : M world A).
Proof. intros s. apply vmx_frame_refl. Qed.

Lemma keeps_bind {A B} (m : M world A) (k : A -> M world B) :
  keeps m -> (forall a, keeps (k a)) -> keeps (mbind k m).
Proof.
  intros Hm Hk s. unfold mbind, M_bind. specialize (Hm s).
  destruct (m s) as [a s'|why s']; [|done].
  eapply vmx_frame_trans; [exact Hm | apply Hk].
Qed.

Lemma keeps_gets {A} (f : state world -> A) : keeps (gets f).
Proof. intros s. apply vmx_frame_refl. Qed.

Lemma keeps_stop {A} why : keeps (stop why : M world A).
Proof. intros s. apply vmx_frame_refl. Qed.

Lemma keeps_log e : quiet e -> keeps (log e : M world unit).
Proof. intros He s. by apply vmx_frame_log. Qed.

Lemma keeps_on_world {A} (f : world -> A * world) : keeps (on_world f).
Proof.
  intros s. unfold on_world. destruct (f (ext s)) as [a w]. cbn.
  repeat split. exists []. by rewrite app_nil_r.
Qed.

Lemma keeps_set_vmcs v :
  keeps (modify (fun s => set_vmcs (v s) s) : M world unit).
Proof.
  intros s. cbn. repeat split. exists []. by rewrite app_nil_r.
Qed.

Lemma keeps_load_cell p : keeps (load_cell p).
Proof.
  intros s. unfold load_cell. destruct p; [apply vmx_frame_refl|].
  destruct (cells s !! addr); apply vmx_frame_refl.
Qed.

Ltac keeps_step :=
  first
    [ apply keeps_bind; [|intros]
    | apply keeps_ret
    | apply keeps_gets
    | apply keeps_stop
    | apply keeps_on_world
    | apply keeps_load_cell
    | apply keeps_set_vmcs
    | apply keeps_log; exact I
    | match goal with
      | |- keeps (if ?c then _ else _) => destruct c
      | |- keeps (let '(_, _) := ?x in _) => destruct x
      end
    | solve [auto with keeps] ].
Ltac keeps_tac := unfold bind, and_ok; repeat keeps_step.

Lemma keeps_vmcs_read64 f : keeps (vmcs_read64 f).
Proof. unfold vmcs_read64. keeps_tac. Qed.
Lemma keeps_vmcs_read32 f : keeps (vmcs_read32 f).
Proof. unfold vmcs_read32, vmcs_read64. keeps_tac. Qed.
Hint Resolve keeps_vmcs_read64 keeps_vmcs_read32 : keeps.

Lemma keeps_vmcs_write64 f v : keeps (vmcs_write64 f v).
Proof. unfold vmcs_write64, printk. keeps_tac. Qed.
Hint Resolve keeps_vmcs_write64 : keeps.
Lemma keeps_vmcs_write16 f v : keeps (vmcs_write16 f v).
Proof. unfold vmcs_write16. keeps_tac. Qed.
Lemma keeps_vmcs_write32 f v : keeps (vmcs_write32 f v).
Proof. unfold vmcs_write32. keeps_tac. Qed.
Hint Resolve keeps_vmcs_write16 keeps_vmcs_write32 : keeps.

Lemma keeps_read_msr i : keeps (read_msr i).
Proof. unfold read_msr. keeps_tac. Qed.
Hint Resolve keeps_read_msr : keeps.

Lemma keeps_vmx_set_guest_cr cr v : keeps (vmx_set_guest_cr cr v).
Proof.
  unfold vmx_set_guest_cr. keeps_tac.
Qed.
Lemma keeps_vmx_set_guest_segment seg f : keeps (vmx_set_guest_segment seg f).
Proof. unfold vmx_set_guest_segment. keeps_tac. Qed.
Lemma keeps_vmx_set_cell_config c : keeps (vmx_set_cell_config c).
Proof. unfold vmx_set_cell_config. keeps_tac. Qed.
Hint Resolve keeps_vmx_set_guest_cr keeps_vmx_set_guest_segment
  keeps_vmx_set_cell_config : keeps.

Lemma keeps_vmcs_setup : keeps vmcs_setup.
Proof.
  unfold vmcs_setup, read_cr0, read_cr3, read_cr4, read_gdtr, read_idtr.
  keeps_tac.
Qed.

Lemma keeps_vmxon : keeps vmxon.
Proof. unfold vmxon, insn. keeps_tac. Qed.
Lemma keeps_vmcs_clear : keeps vmcs_clear.
Proof. unfold vmcs_clear, insn. keeps_tac. Qed.
Lemma keeps_vmcs_load : keeps vmcs_load.
Proof. unfold vmcs_load, insn. keeps_tac. Qed.

Lemma land_lor_same a b : Z.land (Z.lor a b) b = b.
Proof.
  apply Z.bits_inj'. intros n _.
  rewrite Z.land_spec, Z.lor_spec. by destruct (Z.testbit a n), (Z.testbit b n).
Qed.

Lemma transitions_app evs evs' :
  transitions (evs ++ evs') = transitions evs ++ transitions evs'.
Proof. apply omap_app. Qed.

Lemma transitions_quiet evs : Forall quiet evs -> transitions evs = [].
Proof.
  induction 1 as [|e evs He _ IH]; [done|].
  unfold transitions in *. cbn. by destruct e.
Qed.

Lemma vmx_cpu_init_enable_step s cr :
  X86_CR4_VMXE <> 0 ->
  vmx_state (cpu_data s) = VMXOFF ->
  vmxe_consistent (state_of (vmx_cpu_init_enable cr s)) /\
  exists evs,
    trace (state_of (vmx_cpu_init_enable cr s)) = trace s ++ evs /\
    steps_from VMXOFF evs.
Proof.
  intros Hvmxe Hoff.
  unfold vmx_cpu_init_enable, write_cr4, vmxon, store_vmx_state.
  mrun; cbn.
  destruct (hw_vmxon _ _) as [[] w]; cbn.
  2: { split; [by intros ?|]. eexists; split; [reflexivity|]. by left. }
  rewrite Hoff.
  match goal with
  | |- context [vmcs_clear ?x] =>
      destruct (keeps_vmcs_clear x) as (Hcr & Hst & evs1 & Htr1 & Hq1);
      destruct (vmcs_clear x) as [ok1 s1|why s1]
  end; cbn in *.
  2: { split; [intros _; by rewrite Hcr, land_lor_same|].
       rewrite Htr1, <- !app_assoc. eexists; split; [reflexivity|].
       right; left. split; [done|].
       rewrite !transitions_app, (transitions_quiet evs1) by done. done. }
  destruct ok1; cbn.
  2: { split; [intros _; by rewrite Hcr, land_lor_same|].
       rewrite Htr1, <- !app_assoc. eexists; split; [reflexivity|].
       right; left. split; [done|].
       rewrite !transitions_app, (transitions_quiet evs1) by done. done. }
  destruct (keeps_vmcs_load s1) as (Hcr2 & Hst2 & evs2 & Htr2 & Hq2).
  destruct (vmcs_load s1) as [ok2 s2|why s2]; cbn in *.
  2: { split; [intros _; by rewrite Hcr2, Hcr, land_lor_same|].
       rewrite Htr2, Htr1, <- !app_assoc. eexists; split; [reflexivity|].
       right; left. split; [done|].
       rewrite !transitions_app, (transitions_quiet evs1),
         (transitions_quiet evs2) by done. done. }
  destruct ok2; cbn.
  2: { split; [intros _; by rewrite Hcr2, Hcr, land_lor_same|].
       rewrite Htr2, Htr1, <- !app_assoc. eexists; split; [reflexivity|].
       right; left. split; [done|].
       rewrite !transitions_app, (transitions_quiet evs1),
         (transitions_quiet evs2) by done. done. }
  destruct (keeps_vmcs_setup s2) as (Hcr3 & Hst3 & evs3 & Htr3 & Hq3).
  destruct (vmcs_setup s2) as [ok3 s3|why s3]; cbn in *.
  2: { split; [intros _; by rewrite Hcr3, Hcr2, Hcr, land_lor_same|].
       rewrite Htr3, Htr2, Htr1, <- !app_assoc.
       eexists; split; [reflexivity|].
       right; left. split; [done|].
       rewrite !transitions_app, (transitions_quiet evs1),
         (transitions_quiet evs2), (transitions_quiet evs3) by done.
       done. }
  destruct ok3; cbn.
  2: { split; [intros _; by rewrite Hcr3, Hcr2, Hcr, land_lor_same|].
       rewrite Htr3, Htr2, Htr1, <- !app_assoc.
       eexists; split; [reflexivity|].
       right; left. split; [done|].
       rewrite !transitions_app, (transitions_quiet evs1),
         (transitions_quiet evs2), (transitions_quiet evs3) by done.
       done. }
  split; [intros _; cbn; by rewrite Hcr3, Hcr2, Hcr, land_lor_same|].
  rewrite Hst3, Hst2, Hst, Htr3, Htr2, Htr1, <- !app_assoc.
  eexists; split; [reflexivity|].
  right; right; left. split; [done|].
  rewrite !transitions_app, (transitions_quiet evs1),
    (transitions_quiet evs2), (transitions_quiet evs3) by done.
  done.
Qed.

Ltac use_same H :=
  lazymatch goal with
  | |- vmxe_consistent ?s' /\ _ => exact (H s' eq_refl eq_refl eq_refl)
  end.

Lemma vmx_cpu_init_step s :
  X86_CR4_VMXE <> 0 ->
  vmxe_consistent s ->
  vmxe_consistent (state_of (vmx_cpu_init s)) /\
  exists evs,
    trace (state_of (vmx_cpu_init s)) = trace s ++ evs /\
    steps_from (vmx_state (cpu_data s)) evs.
Proof.
  intros Hvmxe Hcons.
  assert (forall s', cr4 s' = cr4 s ->
            vmx_state (cpu_data s') = vmx_state (cpu_data s) ->
            trace s' = trace s ->
            vmxe_consistent s' /\
            exists evs, trace s' = trace s ++ evs /\
              steps_from (vmx_state (cpu_data s)) evs) as Hsame.
  { intros s' Hcr Hst Htr. split.
    - unfold vmxe_consistent. rewrite Hcr, Hst. apply Hcons.
    - exists []. rewrite app_nil_r. split; [done|]. by left. }
  unfold vmx_cpu_init, read_cr4, read_msr, write_msr.
  mrun; cbn.
  destruct (truthy (Z.land (cpuid_ecx 1) X86_FEATURE_VMX)); cbn;
    [|use_same Hsame].
  destruct (truthy (Z.land (cr4 s) X86_CR4_VMXE)) eqn:Hbusy; cbn;
    [use_same Hsame|].
  assert (vmx_state (cpu_data s) = VMXOFF) as Hoff.
  { destruct (decide (vmx_state (cpu_data s) = VMXOFF)) as [|Hon]; [done|].
    apply Hcons in Hon. unfold truthy in Hbusy.
    apply negb_false_iff, Z.eqb_eq in Hbusy. done. }
  destruct (vmcs_size_ok _); cbn; [|use_same Hsame].
  destruct (vmcs_memtype_ok _); cbn; [|use_same Hsame].
  destruct (truthy (Z.land _ (Z.shiftl 1 55))); cbn.
  all: destruct (pin_ctrl_ok _); cbn; [|use_same Hsame].
  all: destruct (proc_ctrl_ok _); cbn; [|use_same Hsame].
  all: destruct (proc_ctrl2_ok _ _); cbn; [|use_same Hsame].
  all: destruct (activity_hlt_ok _); cbn; [|use_same Hsame].
  all: destruct (negb (Z.land _ _ =? _)); cbn.
  all: try (destruct (truthy (Z.land _ FEATURE_CONTROL_LOCKED)); cbn;
            [use_same Hsame|]).
  all: rewrite Hoff.
  all: match goal with
       | |- context [vmx_cpu_init_enable ?cr ?x] =>
           exact (vmx_cpu_init_enable_step x cr Hvmxe Hoff)
       end.
Qed.

Lemma vmx_cpu_exit_step s :
  vmxe_consistent (state_of (vmx_cpu_exit s)) /\
  exists evs,
    trace (state_of (vmx_cpu_exit s)) = trace s ++ evs /\
    steps_from (vmx_state (cpu_data s)) evs.
Proof.
  destruct (decide (vmx_state (cpu_data s) = VMXOFF)) as [Hoff|Hon].
  - rewrite (vmx_cpu_exit_off s Hoff). cbn. split; [by intros ?|].
    exists []. rewrite app_nil_r. split; [done|]. by left.
  - unfold vmx_cpu_exit, store_vmx_state, vmcs_clear, read_cr4, write_cr4.
    mrun; cbn.
    destruct (decide (vmx_state (cpu_data s) = VMXOFF)) as [|_]; [done|].
    destruct (hw_vmclear _ _) as [ok w]. cbn.
    split; [by intros ?|]. rewrite <- !app_assoc.
    eexists; split; [reflexivity|]. right; right; right. done.
Qed.

Lemma steps_from_allowed st evs :
  steps_from st evs -> Forall (.∈ vmx_transitions) (transitions evs).
Proof.
  intros [->|[[_ ->]|[[_ ->]|[Hst ->]]]];
    cbn; repeat apply Forall_cons_2; try apply Forall_nil_2;
    apply list_elem_of_In; cbn; try tauto.
  destruct st; [done| |]; tauto.
Qed.

Lemma run_calls_step calls s :
  X86_CR4_VMXE <> 0 ->
  vmxe_consistent s ->
  exists evs,
    trace (state_of (run_calls calls s)) = trace s ++ evs /\
    Forall (.∈ vmx_transitions) (transitions evs).
Proof.
  intros Hvmxe. revert s.
  induction calls as [|c calls IH]; intros s Hcons.
  - exists []. cbn. rewrite app_nil_r. split; [done|]. constructor.
  - assert (vmxe_consistent (state_of (run_call c s)) /\
            exists evs,
              trace (state_of (run_call c s)) = trace s ++ evs /\
              steps_from (vmx_state (cpu_data s)) evs) as [Hc (evs & Htr & Hst)].
    { destruct c; cbn.
      - destruct (vmx_cpu_init_step s Hvmxe Hcons) as [Hc He].
        unfold mbind, M_bind. by destruct (vmx_cpu_init s).
      - apply vmx_cpu_exit_step. }
    apply steps_from_allowed in Hst.
    cbn. unfold mbind, M_bind.
    destruct (run_call c s) as [[] s1|why s1]; cbn in *.
    + destruct (IH s1 Hc) as (evs' & Htr' & Hall).
      exists (evs ++ evs'). rewrite Htr', Htr, app_assoc. split; [done|].
      rewrite transitions_app. by apply Forall_app.
    + by exists evs.
Qed.

(** *** What gates each store *)

Lemma same_setup_refl s : same_setup s s.
Proof. done. Qed.

Lemma cell_loads_same s s' : same_setup s s' -> cell_loads s' = cell_loads s.
Proof. intros (_ & Hcpu & Hcells). unfold cell_loads. by rewrite Hcpu, Hcells. Qed.

Lemma accepts_eq cpu l l' b m fs fs' :
  accepts cpu l b m fs -> l = l' -> fs = fs' -> accepts cpu l' b m fs'.
Proof. by intros ? <- <-. Qed.

Lemma accepts_ret cpu b : accepts cpu false b (mret b) [].
Proof. intros s _. cbn. by rewrite andb_true_r. Qed.

Lemma accepts_gets {A} cpu l b (f : state world -> A) k fs :
  (forall a, accepts cpu l b (k a) fs) ->
  accepts cpu l b (bind (gets f) k) fs.
Proof. intros Hk s Hcpu. apply (Hk (f s) s Hcpu). Qed.

Lemma accepts_cpu_data cpu l b k fs :
  accepts cpu l b (k cpu) fs ->
  accepts cpu l b (bind (gets cpu_data) k) fs.
Proof. intros Hk s Hcpu. unfold bind, mbind, M_bind, gets. rewrite Hcpu. by apply Hk. Qed.

Lemma accepts_load_cell cpu l b k fs :
  (forall c, accepts cpu l b (k c) fs) ->
  accepts cpu true b (bind (load_cell (cpu_cell cpu)) k) fs.
Proof.
  intros Hk s Hcpu. unfold bind, mbind, M_bind, load_cell.
  assert (cell_loads s =
          match cpu_cell cpu with
          | Linux_cell => true
          | Cell_at a => bool_decide (is_Some (cells s !! a))
          end) as Hloads by (unfold cell_loads; by rewrite Hcpu).
  destruct (cpu_cell cpu) as [|a].
  - specialize (Hk (linux_cell s) s Hcpu).
    destruct (k (linux_cell s) s); [|done].
    destruct Hk as (? & ? & _). done.
  - destruct (cells s !! a) as [c|]; [|done].
    specialize (Hk c s Hcpu).
    destruct (k c s); [|done].
    destruct Hk as (? & ? & _). done.
Qed.

Lemma accepts_and_ok cpu l1 l2 b m k fs1 fs2 :
  accepts cpu l1 true m fs1 ->
  (forall b', accepts cpu l2 b' (k b') fs2) ->
  accepts cpu (l1 || l2) b (bind (and_ok b m) k) (fs1 ++ fs2).
Proof.
  intros Hm Hk s Hcpu. repeat unfold bind, and_ok, mbind, M_bind, mret, M_ret.
  specialize (Hm s Hcpu).
  destruct (m s) as [r s1|why s1]; cbn; [|exact Hm].
  destruct Hm as (-> & Hsame & Hl1).
  pose proof Hsame as (Hext & Hcpu1 & Hcells).
  specialize (Hk (b && (true && forallb (fun f => hw_vmwrite_ok f (ext s)) fs1))
                 s1 (eq_trans Hcpu1 Hcpu)).
  pose proof (cell_loads_same _ _ Hsame) as Hloads.
  destruct (k _ s1) as [r2 s2|why s2]; cbn; [|congruence].
  destruct Hk as (-> & (Hext2 & Hcpu2 & Hcells2) & Hl2).
  split; [|split].
  - rewrite forallb_app, Hext. cbn. by rewrite andb_assoc.
  - repeat split; congruence.
  - intros [->| ->]%orb_true_iff; [by apply Hl1|].
    rewrite <- Hloads. by apply Hl2.
Qed.

Lemma accepts_vmcs_write64 cpu f v : accepts cpu false true (vmcs_write64 f v) [f].
Proof.
  intros s _. unfold vmcs_write64, vmcs_read32, vmcs_read64. mrun. cbn.
  destruct (hw_vmwrite_ok f (ext s)); cbn; done.
Qed.
Lemma accepts_vmcs_write16 cpu f v : accepts cpu false true (vmcs_write16 f v) [f].
Proof. apply accepts_vmcs_write64. Qed.
Lemma accepts_vmcs_write32 cpu f v : accepts cpu false true (vmcs_write32 f v) [f].
Proof. apply accepts_vmcs_write64. Qed.

Ltac accepts_step :=
  first
    [ apply accepts_ret
    | apply accepts_cpu_data
    | eapply accepts_load_cell; intros
    | apply accepts_gets; intros
    | eapply accepts_and_ok;
      [ first [ apply accepts_vmcs_write64 | apply accepts_vmcs_write16
              | apply accepts_vmcs_write32 | solve [eauto with accepts] ]
      | intros ] ].

Lemma accepts_vmx_set_guest_cr cpu cr v :
  accepts cpu false true (vmx_set_guest_cr cr v) (guest_cr_writes cr).
Proof.
  unfold vmx_set_guest_cr, guest_cr_writes, read_msr. cbv zeta.
  eapply accepts_eq.
  - apply accepts_gets; intros fixed0. apply accepts_gets; intros fixed1.
    destruct (cr =? 0); repeat accepts_step.
  - done.
  - by destruct (truthy cr).
Qed.

Lemma accepts_vmx_set_guest_segment cpu seg f :
  accepts cpu false true (vmx_set_guest_segment seg f)
          (guest_segment_writes f).
Proof.
  unfold vmx_set_guest_segment, guest_segment_writes. cbv zeta.
  eapply accepts_eq; [repeat accepts_step|done..].
Qed.

Lemma accepts_vmx_set_cell_config cpu :
  accepts cpu true true (vmx_set_cell_config (cpu_cell cpu))
          cell_config_writes.
Proof.
  unfold vmx_set_cell_config, cell_config_writes. cbv zeta.
  eapply accepts_eq; [repeat accepts_step|done..].
Qed.

Create HintDb accepts.
Hint Resolve accepts_vmx_set_guest_cr accepts_vmx_set_guest_segment
  accepts_vmx_set_cell_config : accepts.

(** [vmcs_setup] reports success exactly when the processor accepted every
    one of its writes; it never returns when the CPU's cell is not
    there. *)
Lemma accepts_vmcs_setup cpu : accepts cpu true true vmcs_setup setup_writes.
Proof.
  unfold vmcs_setup, setup_writes, read_cr0, read_cr3, read_cr4, read_gdtr,
    read_idtr, read_msr.
  cbv zeta.
  eapply accepts_eq; [repeat accepts_step|done..].
Qed.

Lemma events_of_app {A} s (r : result world A) evs :
  trace (state_of r) = trace s ++ evs -> events_of s r = evs.
Proof. intros Htr. unfold events_of. by rewrite Htr, drop_app_length. Qed.

(** The stores of the enable phase. *)
Lemma vmx_cpu_init_enable_transitions cr s :
  vmx_state (cpu_data s) = VMXOFF ->
  let r := vmx_cpu_init_enable cr s in
  let trs := if (vmxon_answer s).1
             then (VMXOFF, VMXON) ::
                  (if vmcs_made_ready s then [(VMXON, VMCS_READY)] else [])
             else [] in
  transitions (events_of s r) = trs /\
  vmx_state (cpu_data (state_of r)) = end_state VMXOFF trs.
Proof.
  intros Hoff r trs. subst r trs.
  unfold vmcs_made_ready, vmptrld_answer, vmclear_answer, vmxon_answer.
  unfold vmx_cpu_init_enable, write_cr4, vmxon, store_vmx_state, vmcs_clear,
    vmcs_load.
  mrun; cbn.
  destruct (hw_vmxon _ (ext s)) as [[] w1]; cbn.
  2: { split; [|done]. erewrite events_of_app; [|cbn; reflexivity]. done. }
  rewrite Hoff.
  destruct (hw_vmclear _ w1) as [[] w2]; cbn.
  2: { split; [|done].
       erewrite events_of_app; [|cbn; rewrite <- !app_assoc; reflexivity].
       done. }
  destruct (hw_vmptrld _ w2) as [[] w3]; cbn.
  2: { split; [|done].
       erewrite events_of_app; [|cbn; rewrite <- !app_assoc; reflexivity].
       done. }
  match goal with
  | |- context [vmcs_setup ?x] =>
      pose proof (keeps_vmcs_setup x) as (Hcr & Hst & evs & Htr & Hq);
      pose proof (accepts_vmcs_setup (cpu_data x) x eq_refl) as Hacc;
      destruct (vmcs_setup x) as [ok s4|why s4]
  end; cbn in *.
  - destruct Hacc as (-> & _ & Hloads).
    change (cell_loads _) with (cell_loads s) in Hloads.
    rewrite (Hloads eq_refl). cbn.
    destruct (forallb _ setup_writes); cbn.
    + split; [|done].
      erewrite events_of_app;
        [|cbn; rewrite Htr; cbn; rewrite <- !app_assoc; reflexivity].
      rewrite !transitions_app, (transitions_quiet evs), Hst by done.
      done.
    + split; [|by rewrite Hst].
      erewrite events_of_app;
        [|cbn; rewrite Htr; cbn; rewrite <- !app_assoc; reflexivity].
      rewrite !transitions_app, (transitions_quiet evs) by done. done.
  - change (cell_loads _) with (cell_loads s) in Hacc. rewrite Hacc. cbn.
    split; [|by rewrite Hst].
    erewrite events_of_app;
      [|cbn; rewrite Htr; cbn; rewrite <- !app_assoc; reflexivity].
    rewrite !transitions_app, (transitions_quiet evs) by done. done.
Qed.

(** The stores of one call of [vmx_cpu_init]. *)
Lemma vmx_cpu_init_transitions s :
  vmxe_consistent s ->
  let r := vmx_cpu_init s in
  transitions (events_of s r) = init_transitions s /\
  vmx_state (cpu_data (state_of r))
    = end_state (vmx_state (cpu_data s)) (init_transitions s).
Proof.
  intros Hcons r. subst r.
  assert (forall e s', trace s' = trace s ->
            vmx_state (cpu_data s') = vmx_state (cpu_data s) ->
            transitions (events_of s (Done e s' : result world Z)) = [] /\
            vmx_state (cpu_data (state_of (Done e s' : result world Z)))
              = end_state (vmx_state (cpu_data s)) []) as Hsame.
  { intros e s' Htr Hst. cbn. rewrite Hst. split; [|done].
    erewrite events_of_app; [|cbn; rewrite Htr, app_nil_r; reflexivity].
    done. }
  unfold init_transitions, init_checks_pass, capabilities_ok, true_msr_offs,
    feature_control_locked_out.
  unfold vmx_cpu_init, read_cr4, read_msr, write_msr.
  mrun; cbn.
  destruct (truthy (Z.land (cpuid_ecx 1) X86_FEATURE_VMX)); cbn;
    [|by apply Hsame].
  destruct (truthy (Z.land (cr4 s) X86_CR4_VMXE)) eqn:Hbusy; cbn;
    [by apply Hsame|].
  assert (vmx_state (cpu_data s) = VMXOFF) as Hoff.
  { destruct (decide (vmx_state (cpu_data s) = VMXOFF)) as [|Hon]; [done|].
    apply Hcons in Hon. unfold truthy in Hbusy.
    apply negb_false_iff, Z.eqb_eq in Hbusy. done. }
  destruct (vmcs_size_ok _); cbn; [|by apply Hsame].
  destruct (vmcs_memtype_ok _); cbn; [|by apply Hsame].
  destruct (truthy (Z.land _ (Z.shiftl 1 55))); cbn.
  all: destruct (pin_ctrl_ok _); cbn; [|by apply Hsame].
  all: destruct (proc_ctrl_ok _); cbn; [|by apply Hsame].
  all: destruct (proc_ctrl2_ok _ _); cbn; [|by apply Hsame].
  all: destruct (activity_hlt_ok _); cbn; [|by apply Hsame].
  all: destruct (negb (Z.land _ _ =? _)); cbn.
  all: try (destruct (truthy (Z.land _ FEATURE_CONTROL_LOCKED)); cbn;
            [by apply Hsame|]).
  all: rewrite Hoff.
  all: match goal with
       | |- context [vmx_cpu_init_enable ?cr ?x] =>
           exact (vmx_cpu_init_enable_transitions cr x Hoff)
       end.
Qed.

(** The store of one call of [vmx_cpu_exit]. *)
Lemma vmx_cpu_exit_transitions s :
  let r := vmx_cpu_exit s in
  transitions (events_of s r) = exit_transitions s /\
  vmx_state (cpu_data (state_of r))
    = end_state (vmx_state (cpu_data s)) (exit_transitions s).
Proof.
  unfold exit_transitions.
  destruct (decide (vmx_state (cpu_data s) = VMXOFF)) as [Hoff|Hon].
  - rewrite (vmx_cpu_exit_off s Hoff). cbn. split; [|done].
    unfold events_of. cbn. by rewrite drop_all.
  - unfold vmx_cpu_exit, store_vmx_state, vmcs_clear, read_cr4, write_cr4.
    mrun; cbn.
    destruct (decide (vmx_state (cpu_data s) = VMXOFF)) as [|_]; [done|].
    destruct (hw_vmclear _ _) as [ok w]. cbn. split; [|done].
    erewrite events_of_app; [|cbn; rewrite <- !app_assoc; reflexivity].
    done.
Qed.

Lemma run_call_transitions c s :
  vmxe_consistent s ->
  let r := run_call c s in
  transitions (events_of s r) = call_transitions c s /\
  vmx_state (cpu_data (state_of r))
    = end_state (vmx_state (cpu_data s)) (call_transitions c s).
Proof.
  intros Hcons. destruct c; cbn.
  - pose proof (vmx_cpu_init_transitions s Hcons) as Hinit. cbn in Hinit.
    unfold mbind, M_bind. unfold events_of in *.
    by destruct (vmx_cpu_init s).
  - apply vmx_cpu_exit_transitions.
Qed.

Lemma run_calls_consistent calls s s' :
  X86_CR4_VMXE <> 0 ->
  vmxe_consistent s ->
  run_calls calls s = Done tt s' ->
  vmxe_consistent s'.
Proof.
  intros Hvmxe. revert s.
  induction calls as [|c calls IH]; intros s Hcons Hrun.
  - cbn in Hrun. by injection Hrun as <-.
  - assert (vmxe_consistent (state_of (run_call c s))) as Hc.
    { destruct c; cbn.
      - destruct (vmx_cpu_init_step s Hvmxe Hcons) as [Hc _].
        unfold mbind, M_bind. by destruct (vmx_cpu_init s).
      - apply vmx_cpu_exit_step. }
    cbn in Hrun. unfold mbind, M_bind in Hrun.
    destruct (run_call c s) as [[] s1|why s1]; [|done].
    by apply (IH s1).
Qed.

Lemma run_calls_app pre calls s s_i :
  run_calls pre s = Done tt s_i ->
  run_calls (pre ++ calls) s = run_calls calls s_i.
Proof.
  revert s. induction pre as [|c pre IH]; intros s Hrun.
  - cbn in Hrun. by injection Hrun as <-.
  - cbn in *. unfold mbind, M_bind in *.
    destruct (run_call c s) as [[] s1|why s1]; [|done].
    by apply IH.
Qed.

(** C2 (amended): starting from a CPU whose CR4.VMXE is set whenever its
    enablement state is not OFF, every store to the enablement state that
    any sequence of [vmx_cpu_init] and [vmx_cpu_exit] calls performs is
    OFF to ON, ON to READY, READY to OFF, or ON to OFF.  At every call of
    the sequence the stores are gated: [vmx_cpu_init] stores OFF to ON
    exactly when all its tests pass and VMXON succeeds, and then ON to
    READY exactly when VMCLEAR and VMPTRLD succeed, the CPU's cell is
    there and the processor accepts every [vmwrite] of [vmcs_setup];
    [vmx_cpu_exit] stores the step to OFF exactly when the CPU is not
    OFF, from the state the CPU is in.  After each call the enablement
    state is the target of the call's last store, or unchanged when there
    was none; so ON to OFF is the teardown of a CPU that a bring-up left
    ON, its VMCS not made ready after VMXON. *)
Theorem vmx_state_transitions calls s :
  X86_CR4_VMXE <> 0 ->
  vmxe_consistent s ->
  Forall (.∈ vmx_transitions)
         (transitions (events_of s (run_calls calls s))) /\
  forall pre c post s_i,
    calls = pre ++ c :: post ->
    run_calls pre s = Done tt s_i ->
    transitions (events_of s_i (run_call c s_i)) = call_transitions c s_i /\
    vmx_state (cpu_data (state_of (run_call c s_i)))
      = end_state (vmx_state (cpu_data s_i)) (call_transitions c s_i).
Proof.
  intros Hvmxe Hcons. split.
  - destruct (run_calls_step calls s Hvmxe Hcons) as (evs & Htr & Hall).
    unfold events_of. by rewrite Htr, drop_app_length.
  - intros pre c post s_i _ Hrun.
    apply run_call_transitions.
    by apply (run_calls_consistent pre s).
Qed.

(** ** I/O ports handed back to the root cell *)

Lemma restore_io_bitmap_spec size (b pio lpio : list Z) :
  (size <= length b)%nat -> (size <= length pio)%nat ->
  (size <= length lpio)%nat ->
  exists b',
    restore_io_bitmap size b pio lpio = Some b' /\
    forall i x y z,
      (i < size)%nat ->
      b !! i = Some x -> pio !! i = Some y -> lpio !! i = Some z ->
      b' !! i = Some (Z.land x (Z.lor y z)).
Proof.
  revert b pio lpio.
  induction size as [|size IH]; intros b pio lpio Hb Hp Hl.
  - exists b. split; [done|]. intros; lia.
  - destruct b as [|x0 b]; [cbn in Hb; lia|].
    destruct pio as [|y0 pio]; [cbn in Hp; lia|].
    destruct lpio as [|z0 lpio]; [cbn in Hl; lia|].
    cbn in Hb, Hp, Hl.
    destruct (IH b pio lpio) as (b' & Hrun & Hget); [lia..|].
    exists (Z.land x0 (Z.lor y0 z0) :: b'). cbn. rewrite Hrun.
    split; [done|].
    intros [|i] x y z Hi Hx Hy Hz; cbn in *.
    + congruence.
    + apply Hget; [lia|done..].
Qed.

Lemma port_accessible_byte bitmap port x :
  bitmap !! Z.to_nat (port / 8) = Some x ->
  port_accessible bitmap port = negb (Z.testbit x (port mod 8)).
Proof. intros H. unfold port_accessible. by rewrite H. Qed.

(** C5: after [vmx_cell_exit], a port inside the compared range (eight
    ports per byte of the shorter of the two configured bitmaps) is open
    in the root cell's live bitmap exactly when it was open before, or
    both the exiting cell's and the root cell's configured bitmaps leave
    it open. *)
Theorem vmx_cell_exit_ports cell c s :
  let size := Z.min (pio_bitmap_size (config c))
                    (pio_bitmap_size (config (linux_cell s))) in
  load_cell cell s = Done c s ->
  size <= Z.of_nat (length (vmx_io_bitmap (linux_cell s))) ->
  exists s',
    vmx_cell_exit cell s = Done tt s' /\
    forall port,
      0 <= port < 8 * size ->
      port_accessible (vmx_io_bitmap (linux_cell s')) port =
        port_accessible (vmx_io_bitmap (linux_cell s)) port ||
        (port_accessible (pio_bitmap (config c)) port &&
         port_accessible (pio_bitmap (config (linux_cell s))) port).
Proof.
  intros size Hload Hlen.
  assert (size = Z.min (Z.of_nat (length (pio_bitmap (config c))))
            (Z.of_nat (length (pio_bitmap (config (linux_cell s))))))
    as Hsize by done.
  clearbody size.
  destruct (restore_io_bitmap_spec (Z.to_nat size)
              (vmx_io_bitmap (linux_cell s)) (pio_bitmap (config c))
              (pio_bitmap (config (linux_cell s))))
    as (b' & Hrun & Hget); [lia..|].
  unfold vmx_cell_exit. mrun. rewrite Hload. cbn.
  unfold jailhouse_cell_pio_bitmap, pio_bitmap_size.
  assert ((if Z.of_nat (length (pio_bitmap (config (linux_cell s)))) <?
              Z.of_nat (length (pio_bitmap (config c)))
           then Z.of_nat (length (pio_bitmap (config (linux_cell s))))
           else Z.of_nat (length (pio_bitmap (config c)))) = size) as ->.
  { destruct (Z.ltb_spec
      (Z.of_nat (length (pio_bitmap (config (linux_cell s)))))
      (Z.of_nat (length (pio_bitmap (config c))))); lia. }
  rewrite Hrun. cbn.
  eexists; split; [reflexivity|]. cbn.
  intros port Hport.
  assert (0 <= port / 8 < size) as Hidx.
  { split; [apply Z.div_pos; lia|]. apply Z.div_lt_upper_bound; lia. }
  destruct (lookup_lt_is_Some_2 (vmx_io_bitmap (linux_cell s))
              (Z.to_nat (port / 8))) as [x Hx]; [lia|].
  destruct (lookup_lt_is_Some_2 (pio_bitmap (config c))
              (Z.to_nat (port / 8))) as [y Hy]; [lia|].
  destruct (lookup_lt_is_Some_2 (pio_bitmap (config (linux_cell s)))
              (Z.to_nat (port / 8))) as [z Hz]; [lia|].
  assert (Z.to_nat (port / 8) < Z.to_nat size)%nat as Hi by lia.
  rewrite (port_accessible_byte _ _ _ (Hget _ x y z Hi Hx Hy Hz)).
  rewrite (port_accessible_byte _ _ _ Hx), (port_accessible_byte _ _ _ Hy),
    (port_accessible_byte _ _ _ Hz).
  rewrite Z.land_spec, Z.lor_spec.
  by destruct (Z.testbit x _), (Z.testbit y _), (Z.testbit z _).
Qed.
End Vmx_facts.

Section Vtd_facts.
Context {gd : Generic_defs} {td : Vtd_defs} {plat : Platform}.
Implicit Types s : state world.

(** C10: with at least one remapping unit discovered, [vtd_cell_init] on a
    cell whose id is not below the domain-id cap returns [-ERANGE] and
    leaves the state and the trace as they were: no page is allocated, no
    root or context entry is written. *)
Theorem vtd_cell_init_erange fuel cell c s :
  load_cell cell s = Done c s ->
  dmar_units s <> 0 ->
  dmar_num_did s <= cell_id c ->
  vtd_cell_init fuel cell s = Done (- ERANGE) s.
Proof.
  intros Hload Hunits Hid. unfold vtd_cell_init. mrun. rewrite Hload. cbn.
  destruct (Z.eqb_spec (dmar_units s) 0) as [|_]; [done|].
  destruct (Z.geb_spec (cell_id c) (dmar_num_did s)) as [_|]; [done|lia].
Qed.

(** C4 (amended): while no remapping unit is known ([dmar_units] is 0, as
    it is at boot), a discovery that finds no DMAR table returns 0 and
    only writes its warning to the console, and [vtd_cell_init],
    [vtd_map_memory_region] and [vtd_unmap_memory_region] return success
    without changing the state or the trace. *)
Theorem vtd_noop_without_units fuel cell c mem s :
  dmar_units s = 0 ->
  load_cell cell s = Done c s ->
  (acpi_find_table "DMAR" (ext s) = None ->
   vtd_init fuel s =
     Done 0 (set_trace
               (trace s ++ [Call "acpi_find_table" [];
                            Printk "WARNING: No VT-d support found!" []])
               s)) /\
  vtd_cell_init fuel cell s = Done 0 s /\
  vtd_map_memory_region cell mem s = Done 0 s /\
  vtd_unmap_memory_region cell mem s = Done tt s.
Proof.
  intros Hunits Hload. repeat split.
  - intros Habsent. unfold vtd_init. mrun. cbn. rewrite Habsent. cbn.
    f_equal. destruct s. norm_state. by rewrite <- app_assoc.
  - unfold vtd_cell_init. mrun. rewrite Hload. cbn. by rewrite Hunits.
  - unfold vtd_map_memory_region. mrun. by rewrite Hunits.
  - unfold vtd_unmap_memory_region. mrun. by rewrite Hunits.
Qed.
End Vtd_facts.

(** * Further properties of the VM-exit dispatcher *)

Section Exit_facts.
Context {gd : Generic_defs} {pd : Processor_defs} {vd : Vmx_defs}
        {plat : Platform}.
Implicit Types s : state world.

#[local] Open Scope string_scope.
#[local] Open Scope list_scope.
#[local] Open Scope Z_scope.

(** Enter the dispatcher with the failed-entry gate passed. *)
Ltac exit_dispatch s Hgate :=
  unfold vmx_handle_exit, vmcs_read32, vmcs_read64; mrun;
  fold (vmread s VM_EXIT_REASON);
  repeat match goal with r := _ : Z |- _ => progress fold r end;
  rewrite Hgate; change (truthy 0) with false; cbn.

(** Decide the comparisons of the exit reason [r] with the [case]
    labels. *)
Ltac exit_cases r :=
  repeat match goal with
         | |- context [r =? ?c] =>
             first [ rewrite (Z.eqb_refl r)
                   | rewrite (proj2 (Z.eqb_neq r c)) by congruence ]
         end;
  cbn beta iota.

Lemma dump_vm_exit_details_run s reason :
  dump_vm_exit_details reason s =
    Done tt (set_trace (trace s ++ vm_exit_details s reason) s).
Proof.
  unfold dump_vm_exit_details, vmcs_read32, vmcs_read64, vm_exit_details,
    vmread.
  mrun. cbn.
  destruct ((reason =? EXIT_REASON_EPT_VIOLATION) ||
            (reason =? EXIT_REASON_EPT_MISCONFIG)); cbn;
    by rewrite <- ?app_assoc.
Qed.

(** X1: an exit for a reason the dispatcher has no case for (an EPT
    violation, an I/O instruction, HLT, ...) is fatal: the CPU prints the
    reason, the exit details and the guest registers and halts; nothing
    but the console changes, the guest is never resumed. *)
Theorem unhandled_exit_halts s :
  let reason := u32 (vmread s VM_EXIT_REASON) in
  Z.land reason EXIT_REASONS_FAILED_VMENTRY = 0 ->
  reason ∉ handled_exit_reasons ->
  vmx_handle_exit s =
    Abort Stopped
      (set_trace
         (trace s ++
          Panic_printk "FATAL: Unhandled VM-Exit, reason %d, "
                       [u16 reason] ::
          vm_exit_details s reason ++ guest_regs_dump s ++ [Panic_stop])
         s).
Proof.
  intros reason Hgate Hnot. unfold handled_exit_reasons in Hnot.
  rewrite !not_elem_of_cons in Hnot. destruct_and!.
  exit_dispatch s Hgate. exit_cases reason.
  rewrite dump_vm_exit_details_run. cbn.
  rewrite dump_guest_regs_run. unfold panic_stop. mrun. cbn.
  f_equal. destruct s. norm_state. by rewrite <- !app_assoc.
Qed.

Lemma events_of_done {A} s (a : A) s' evs :
  trace s' = trace s ++ evs -> events_of s (Done a s') = evs.
Proof. intros H. unfold events_of. cbn. by rewrite H, drop_app_length. Qed.

Lemma events_of_abort {A} s why s' evs :
  trace s' = trace s ++ evs ->
  events_of s (Abort why s' : result world A) = evs.
Proof. intros H. unfold events_of. cbn. by rewrite H, drop_app_length. Qed.



(** X3: a control-register exit that is not a MOV to CR0 or CR4 (a MOV
    from a control register, CLTS, LMSW, or a MOV to CR3 or CR8) is fatal:
    the CPU reports it and halts without having written the VMCS, the
    guest's RIP included. *)
Theorem unhandled_cr_access_halts s :
  let q := vmread s EXIT_QUALIFICATION in
  exit_reasons_distinct ->
  Z.land EXIT_REASON_CR_ACCESS EXIT_REASONS_FAILED_VMENTRY = 0 ->
  u32 (vmread s VM_EXIT_REASON) = EXIT_REASON_CR_ACCESS ->
  Z.land (Z.shiftr q 4) 3 <> 0 \/
  (Z.land q 0xf <> 0 /\ Z.land q 0xf <> 4) ->
  vmx_handle_exit s =
    Abort Stopped
      (set_trace
         (trace s ++
          Panic_printk "FATAL: Unhandled CR access, qualification %x" [q] ::
          guest_regs_dump s ++ [Panic_stop])
         s).
Proof.
  intros q Hnd Hgate Hreason Hcase. unfold exit_reasons_distinct in Hnd.
  rewrite !NoDup_cons, !not_elem_of_cons in Hnd. destruct_and!.
  unfold vmx_handle_exit, vmcs_read32, vmcs_read64; mrun.
  fold (vmread s VM_EXIT_REASON). rewrite Hreason, Hgate.
  change (truthy 0) with false. cbn.
  exit_cases EXIT_REASON_CR_ACCESS.
  assert (vmx_handle_cr s =
            Done false
              (set_trace
                 (trace s ++
                  [Panic_printk
                     "FATAL: Unhandled CR access, qualification %x" [q]])
                 s)) as ->.
  { unfold vmx_handle_cr, vmcs_read64. mrun.
    fold (vmread s EXIT_QUALIFICATION). fold q.
    destruct Hcase as [Hty|[Hcr0 Hcr4]].
    - by rewrite (proj2 (Z.eqb_neq _ 0) Hty).
    - rewrite (proj2 (Z.eqb_neq _ 0) Hcr0), (proj2 (Z.eqb_neq _ 4) Hcr4).
      cbn. destruct (Z.land (Z.shiftr q 4) 3 =? 0); [|done].
      destruct (Z.land (Z.shiftr q 8) 15 =? 4); done. }
  rewrite dump_guest_regs_run. unfold panic_stop. mrun. cbn.
  f_equal. destruct s. norm_state. by rewrite <- !app_assoc.
Qed.

(** X4: on an XSETBV exit the instruction is executed for the guest only
    when the requested XCR0 keeps the x87 bit, asks for no feature CPUID
    leaf 0xd does not report, and ECX and EDX are zero; any other request
    halts the CPU and XSETBV is not executed. *)
Theorem xsetbv_validated s :
  exit_reasons_distinct ->
  Z.land EXIT_REASON_XSETBV EXIT_REASONS_FAILED_VMENTRY = 0 ->
  u32 (vmread s VM_EXIT_REASON) = EXIT_REASON_XSETBV ->
  (xsetbv_valid s = true ->
   exists s',
     vmx_handle_exit s = Done tt s' /\
     guest_regs s' = guest_regs s /\
     Insn "xsetbv" [rax (guest_regs s); 0; 0]
       ∈ events_of s (vmx_handle_exit s)) /\
  (xsetbv_valid s = false ->
   exists s',
     vmx_handle_exit s = Abort Stopped s' /\
     Forall (fun e => forall ops, e <> Insn "xsetbv" ops)
            (events_of s (vmx_handle_exit s))).
Proof.
  intros Hnd Hgate Hreason. unfold exit_reasons_distinct in Hnd.
  rewrite !NoDup_cons, !not_elem_of_cons in Hnd. destruct_and!.
  unfold vmx_handle_exit, vmcs_read32, vmcs_read64; mrun.
  fold (vmread s VM_EXIT_REASON). rewrite Hreason, Hgate.
  change (truthy 0) with false. cbn.
  exit_cases EXIT_REASON_XSETBV.
  unfold vmx_skip_emulated_instruction, vmcs_write64, vmcs_read32,
    vmcs_read64. mrun. cbn.
  assert (Forall (fun e => forall ops, e <> Insn "xsetbv" ops)
                 (guest_regs_dump s)) as Hdump.
  { unfold guest_regs_dump. repeat constructor; done. }
  split; intros Hvalid.
  - destruct (hw_vmwrite_ok GUEST_RIP (ext s)); cbn;
      fold (xsetbv_valid s); unfold xsetbv_valid in Hvalid |- *;
      cbn in Hvalid |- *; rewrite Hvalid; cbn;
      (eexists; split; [reflexivity|]); (split; [done|]);
      (erewrite events_of_done;
       [|cbn; rewrite <- !app_assoc; reflexivity]);
      set_solver.
  - destruct (hw_vmwrite_ok GUEST_RIP (ext s)); cbn;
      unfold xsetbv_valid in Hvalid; cbn in Hvalid |- *; rewrite Hvalid;
      cbn; rewrite dump_guest_regs_run; cbn;
      (eexists; split; [reflexivity|]);
      (erewrite events_of_abort;
       [|cbn; rewrite <- !app_assoc; reflexivity]);
      repeat first [ apply Forall_nil_2
                   | apply Forall_cons_2; [done|]
                   | apply Forall_app_2; [apply Hdump|] ].
Qed.

(** X5: a CPUID exit moves the guest past the instruction, runs CPUID on
    the low halves of the guest's RAX and RCX and hands the four results
    back zero-extended in RAX, RBX, RCX and RDX; the other twelve
    registers keep their values and the guest resumes. *)
Theorem cpuid_exit_emulated s :
  let regs := guest_regs s in
  exit_reasons_distinct ->
  Z.land EXIT_REASON_CPUID EXIT_REASONS_FAILED_VMENTRY = 0 ->
  u32 (vmread s VM_EXIT_REASON) = EXIT_REASON_CPUID ->
  exists s',
    vmx_handle_exit s = Done tt s' /\
    (let '(a, b, c, d) := cpuid (Z.land (rax regs) 0xffffffff)
                                (Z.land (rcx regs) 0xffffffff) in
     guest_regs s' =
       set_rax (u32 a) (set_rbx (u32 b) (set_rcx (u32 c)
                  (set_rdx (u32 d) regs)))) /\
    (hw_vmwrite_ok GUEST_RIP (ext s) = true ->
     vmread s' GUEST_RIP = u64 (vmread s GUEST_RIP + X86_INST_LEN_CPUID)).
Proof.
  intros regs Hnd Hgate Hreason. unfold exit_reasons_distinct in Hnd.
  rewrite !NoDup_cons, !not_elem_of_cons in Hnd. destruct_and!.
  unfold vmx_handle_exit, vmcs_read32, vmcs_read64; mrun.
  fold (vmread s VM_EXIT_REASON). rewrite Hreason, Hgate.
  change (truthy 0) with false. cbn.
  exit_cases EXIT_REASON_CPUID.
  unfold vmx_skip_emulated_instruction, vmcs_write64, vmcs_read32,
    vmcs_read64. mrun. cbn. subst regs. cbn.
  destruct (hw_vmwrite_ok GUEST_RIP (ext s)); cbn;
    destruct (cpuid _ _) as [[[a b] c] d];
    (eexists; split; [reflexivity|]); (split; [done|]); [|done].
  intros _. unfold vmread. cbn. by rewrite lookup_insert_eq.
Qed.

Lemma testbit_not64 x i :
  0 <= i < 64 -> Z.testbit (not64 x) i = negb (Z.testbit x i).
Proof.
  intros Hi. unfold not64, u64.
  rewrite Z.mod_pow2_bits_low by lia. apply Z.lnot_spec. lia.
Qed.

(** X6: [vmx_set_guest_cr] keeps what the guest reads consistent with
    what it wrote: the read shadow holds the value written (with VMXE
    added for CR4, which keeps the hypervisor visible), and every bit in
    which the register the processor really uses may differ from the
    shadow is owned by the host in the guest/host mask. *)
Theorem guest_cr_reads_back cr val s :
  let real := if truthy cr then GUEST_CR4 else GUEST_CR0 in
  let shadow := if truthy cr then CR4_READ_SHADOW else CR0_READ_SHADOW in
  let mask :=
    if truthy cr then CR4_GUEST_HOST_MASK else CR0_GUEST_HOST_MASK in
  (forall f, hw_vmwrite_ok f (ext s) = true) ->
  NoDup [real; shadow; mask] ->
  exists s',
    vmx_set_guest_cr cr val s = Done true s' /\
    vmread s' shadow = (if cr =? 0 then val else Z.lor val X86_CR4_VMXE) /\
    forall i, 0 <= i < 64 ->
      Z.testbit (vmread s' mask) i = false ->
      Z.testbit (vmread s' real) i = Z.testbit (vmread s' shadow) i.
Proof.
  intros real shadow mask Hok Hnd.
  rewrite !NoDup_cons, !not_elem_of_cons in Hnd. destruct_and!.
  unfold vmx_set_guest_cr, vmcs_write64, read_msr. mrun. cbn.
  fold real shadow mask.
  destruct (cr =? 0) eqn:Hcr; cbn; repeat (rewrite Hok; cbn);
    (eexists; split; [reflexivity|]); unfold vmread; cbn;
    rewrite lookup_insert_eq;
    rewrite (lookup_insert_ne _ mask shadow) by done;
    rewrite lookup_insert_eq;
    rewrite (lookup_insert_ne _ mask real),
      (lookup_insert_ne _ shadow real) by done;
    rewrite lookup_insert_eq; cbn;
    (split; [done|]); intros i Hi;
    rewrite Z.lor_spec, testbit_not64 by done;
    intros [Hreq Hfix]%orb_false_iff; apply negb_false_iff in Hfix;
    rewrite Z.lor_spec, Z.land_spec, Hfix, Hreq;
    by rewrite andb_true_r, orb_false_r.
Qed.

(** X7: a MOV to CR0 exit moves the guest past the instruction, records
    the operand (register [reg] of the encoding; RSP comes from the VMCS)
    as what the guest reads back from CR0, and activates long mode
    exactly when the operand switches paging on while EFER has LME set and
    LMA clear: then LMA and the IA-32e entry control are set; otherwise
    EFER and the entry controls are left alone. *)
Theorem mov_to_cr0_long_mode s :
  let q := vmread s EXIT_QUALIFICATION in
  let val := mov_cr_operand s (Z.land (Z.shiftr q 8) 0xf) in
  let efer := vmread s GUEST_IA32_EFER in
  let activates :=
    truthy (Z.land val X86_CR0_PG) &&
    (Z.land efer (Z.lor EFER_LME EFER_LMA) =? EFER_LME) in
  (forall f, hw_vmwrite_ok f (ext s) = true) ->
  NoDup [GUEST_RIP; GUEST_CR0; CR0_READ_SHADOW; CR0_GUEST_HOST_MASK;
         GUEST_IA32_EFER; VM_ENTRY_CONTROLS] ->
  Z.land (Z.shiftr q 4) 3 = 0 ->
  Z.land q 0xf = 0 ->
  exists s',
    vmx_handle_cr s = Done true s' /\
    vmread s' GUEST_RIP =
      u64 (vmread s GUEST_RIP + X86_INST_LEN_MOV_TO_CR) /\
    vmread s' CR0_READ_SHADOW = val /\
    vmread s' GUEST_IA32_EFER =
      (if activates then Z.lor efer EFER_LMA else efer) /\
    vmread s' VM_ENTRY_CONTROLS =
      (if activates
       then u32 (Z.lor (u32 (vmread s VM_ENTRY_CONTROLS))
                       VM_ENTRY_IA32E_MODE)
       else vmread s VM_ENTRY_CONTROLS).
Proof.
  intros q val efer activates Hok Hnd Hty Hcr.
  rewrite !NoDup_cons, !not_elem_of_cons in Hnd. destruct_and!.
  unfold vmx_handle_cr, vmcs_read64. mrun.
  fold (vmread s EXIT_QUALIFICATION). fold q. rewrite Hty, Hcr. cbn.
  assert (val = if Z.land (Z.shiftr q 8) 15 =? 4
                then default 0 (vmcs s !! GUEST_RSP)
                else register_at (guest_regs s)
                       (15 - Z.land (Z.shiftr q 8) 15)) as Hval by done.
  destruct (Z.land (Z.shiftr q 8) 15 =? 4); cbn; rewrite <- Hval;
    clear Hval.
  all: unfold vmx_skip_emulated_instruction, vmx_set_guest_cr, update_efer,
    vmcs_write32, vmcs_write64, vmcs_read32, vmcs_read64, read_msr.
  all: mrun; change (truthy 0) with false; cbn; repeat (rewrite Hok; cbn).
  all: unfold activates.
  all: destruct (truthy (Z.land val X86_CR0_PG)); cbn.
  all: repeat (rewrite (lookup_insert_ne _ _ GUEST_IA32_EFER) by congruence).
  all: fold (vmread s GUEST_IA32_EFER); fold efer.
  all: try destruct (Z.land efer (Z.lor EFER_LME EFER_LMA) =? EFER_LME);
    cbn; repeat (rewrite Hok; cbn);
    (eexists; split; [reflexivity|]); unfold vmread; cbn;
    repeat first [ rewrite lookup_insert_eq
                 | rewrite lookup_insert_ne by congruence ];
    done.
Qed.
End Exit_facts.

(** * Further properties of the cells' I/O bitmaps *)

Section Frames.
Context {W : Type} (R : state W -> state W -> Prop) `{!PreOrder R}.

Lemma frame_ret {A} (a : A) : frame R (mret a : M W A).
Proof. intros s. cbn. reflexivity. Qed.

Lemma frame_bind {A B} (m : M W A) (k : A -> M W B) :
  frame R m -> (forall a, frame R (k a)) -> frame R (mbind k m).
Proof.
  intros Hm Hk s. unfold mbind, M_bind. specialize (Hm s).
  destruct (m s) as [a s'|why s']; [|done].
  etrans; [exact Hm | apply Hk].
Qed.

Lemma frame_gets {A} (f : state W -> A) : frame R (gets f).
Proof. intros s. cbn. reflexivity. Qed.

Lemma frame_stop {A} why : frame R (stop why : M W A).
Proof. intros s. cbn. reflexivity. Qed.

Lemma frame_modify (f : state W -> state W) :
  (forall s, R s (f s)) -> frame R (modify f).
Proof. intros Hf s. apply Hf. Qed.

Lemma frame_for_each {A} (l : list A) (body : A -> M W unit) :
  (forall x, frame R (body x)) -> frame R (for_each l body).
Proof.
  intros Hbody. induction l as [|x l IH]; cbn.
  - apply frame_ret.
  - apply frame_bind; [apply Hbody | intros; apply IH].
Qed.

Lemma frame_for_each_err {A} (l : list A) (body : A -> M W Z) :
  (forall x, frame R (body x)) -> frame R (for_each_err l body).
Proof.
  intros Hbody. induction l as [|x l IH]; cbn.
  - apply frame_ret.
  - apply frame_bind; [apply Hbody | intros err].
    destruct (truthy err); [apply frame_ret | apply IH].
Qed.
End Frames.

Section World_steps.
Context {W : Type}.
Implicit Types s : state W.

#[global] Instance world_step_preorder : PreOrder (@world_step W).
Proof.
  split.
  - intros s. unfold world_step. by destruct s.
  - intros s1 s2 s3 H12 H23. unfold world_step in *.
    rewrite H23 at 1. rewrite H12 at 1. by destruct s1.
Qed.

Lemma world_step_log s e : world_step s (set_trace (trace s ++ [e]) s).
Proof. unfold world_step. by destruct s. Qed.

Lemma frame_log e : frame world_step (log e : M W unit).
Proof. intros s. apply world_step_log. Qed.

Lemma frame_on_world {A} (f : W -> A * W) : frame world_step (on_world f).
Proof.
  intros s. unfold on_world. destruct (f (ext s)) as [a w]. cbn.
  unfold world_step. by destruct s.
Qed.

Lemma frame_call {A} fn args (f : W -> A * W) :
  frame world_step (call fn args f).
Proof.
  unfold call. apply frame_bind; [apply _ | apply frame_log |].
  intros _. apply frame_on_world.
Qed.

Lemma world_step_linux_cell s s' :
  world_step s s' -> linux_cell s' = linux_cell s.
Proof. intros ->. done. Qed.

Lemma world_step_cells s s' : world_step s s' -> cells s' = cells s.
Proof. intros ->. done. Qed.
End World_steps.

Section Cell_facts.
Context {gd : Generic_defs} {pd : Processor_defs} {vd : Vmx_defs}
        {plat : Platform}.
Implicit Types s : state world.

#[local] Open Scope string_scope.
#[local] Open Scope list_scope.
#[local] Open Scope Z_scope.

Lemma load_cell_world_step p c s s' :
  world_step s s' -> load_cell p s = Done c s -> load_cell p s' = Done c s'.
Proof.
  intros Hstep. pose proof (world_step_linux_cell _ _ Hstep) as Hl.
  pose proof (world_step_cells _ _ Hstep) as Hc.
  unfold load_cell. destruct p as [|a].
  - intros [= <-]. by rewrite Hl.
  - rewrite Hc. destruct (cells s !! a); [|done]. by intros [= <-].
Qed.

Lemma load_store_cell p c s :
  load_cell p (state_of (store_cell p c s))
    = Done c (state_of (store_cell p c s)).
Proof.
  unfold store_cell, load_cell. destruct p as [|a]; cbn; [done|].
  by rewrite lookup_insert_eq.
Qed.

Lemma frame_load_cell (R : state world -> state world -> Prop)
    `{!PreOrder R} p :
  frame R (load_cell p).
Proof.
  intros s. unfold load_cell. destruct p as [|a]; cbn; [reflexivity|].
  destruct (cells s !! a); cbn; reflexivity.
Qed.

Lemma frame_vmx_map_memory_region cell mem :
  frame world_step (vmx_map_memory_region cell mem).
Proof.
  unfold vmx_map_memory_region, bind.
  apply frame_bind; [apply _ | apply frame_load_cell, _ |].
  intros c. apply frame_call.
Qed.

(** ** Bytes and bits *)

Lemma memcpy_at_lookup (dst : list Z) off src dst' i :
  memcpy_at dst off src = Some dst' ->
  dst' !! i =
    if decide (off <= i < off + length src)%nat
    then src !! (i - off)%nat else dst !! i.
Proof.
  unfold memcpy_at. case_decide as Hfit; [|done]. intros [= <-].
  case_decide as Hin.
  - rewrite lookup_app_r by (rewrite length_take; lia).
    rewrite length_take, Nat.min_l by lia.
    by rewrite lookup_app_l by lia.
  - destruct (decide (i < off)%nat).
    + rewrite lookup_app_l by (rewrite length_take; lia).
      by rewrite lookup_take_lt by lia.
    + rewrite lookup_app_r by (rewrite length_take; lia).
      rewrite length_take, Nat.min_l by lia.
      rewrite lookup_app_r by lia.
      rewrite lookup_drop. f_equal. lia.
Qed.

Lemma testbit_255 k : 0 <= k < 8 -> Z.testbit 255 k = true.
Proof.
  intros Hk. change 255 with (Z.ones 8). apply Z.ones_spec_low. lia.
Qed.

Lemma testbit_u8 x k : 0 <= k < 8 -> Z.testbit (u8 x) k = Z.testbit x k.
Proof. intros Hk. unfold u8. apply Z.mod_pow2_bits_low. lia. Qed.

Lemma testbit_u8_high x k : 8 <= k -> Z.testbit (u8 x) k = false.
Proof. intros Hk. unfold u8. apply Z.mod_pow2_bits_high. lia. Qed.

Lemma testbit_byte_high x k : is_byte x -> 8 <= k -> Z.testbit x k = false.
Proof.
  intros Hx Hk. rewrite <- (Z.mod_small x (2 ^ 8)) by (unfold is_byte in Hx; lia).
  apply Z.mod_pow2_bits_high. lia.
Qed.

Lemma port_bit_range port : 0 <= port mod 8 < 8.
Proof. apply Z.mod_pos_bound. lia. Qed.

(** ** The I/O bitmap [vmx_cell_init] builds *)

(** The two [memcpy] calls of [vmx_cell_init] lay the configured bitmap
    over an all-ones bitmap of [2 * page] bytes. *)
Lemma cell_io_bitmap_lookup (page : nat) (pio io1 io2 : list Z) i :
  let n := length pio in
  let size0 := Nat.min n page in
  let size1 := Nat.min (n - size0) page in
  memcpy_at (replicate (2 * page) 255) 0 (take size0 pio) = Some io1 ->
  memcpy_at io1 page (take size1 (drop size0 pio)) = Some io2 ->
  (i < 2 * page)%nat ->
  io2 !! i = Some (default 255 (pio !! i)).
Proof.
  intros n size0 size1 H1 H2 Hi.
  rewrite (memcpy_at_lookup _ _ _ _ i H2), (memcpy_at_lookup _ _ _ _ i H1).
  rewrite !length_take, length_drop.
  destruct (decide (n <= page)%nat) as [Hsmall|Hbig].
  - assert (size0 = n) as -> by lia. assert (size1 = 0%nat) as -> by lia.
    case_decide; [lia|]. case_decide.
    + rewrite lookup_take_lt by lia. rewrite Nat.sub_0_r.
      destruct (lookup_lt_is_Some_2 pio i) as [x Hx]; [lia|].
      by rewrite Hx.
    + rewrite lookup_replicate_2 by lia.
      by rewrite (lookup_ge_None_2 pio i) by lia.
  - assert (size0 = page) as -> by lia.
    case_decide as Hin.
    + rewrite lookup_take_lt by lia. rewrite lookup_drop.
      replace (page + (i - page))%nat with i by lia.
      destruct (lookup_lt_is_Some_2 pio i) as [x Hx]; [lia|].
      by rewrite Hx.
    + case_decide.
      * rewrite lookup_take_lt by lia. rewrite Nat.sub_0_r.
        destruct (lookup_lt_is_Some_2 pio i) as [x Hx]; [lia|].
        by rewrite Hx.
      * rewrite lookup_replicate_2 by lia.
        by rewrite (lookup_ge_None_2 pio i) by lia.
Qed.

(** X8: when [vmx_cell_init] returns 0, the cell's I/O bitmap grants
    exactly the ports its configuration grants: every port below
    [16 * PAGE_SIZE] is open in the VMCS bitmap if and only if the
    configured bitmap has a byte for it with the port's bit clear; ports
    the configuration has no byte for are closed. *)
Theorem vmx_cell_init_ports cell c s s' :
  load_cell cell s = Done c s ->
  Z.of_nat (length (vmx_io_bitmap c)) = 2 * PAGE_SIZE ->
  ENOMEM <> 0 ->
  vmx_cell_init cell s = Done 0 s' ->
  exists c',
    load_cell cell s' = Done c' s' /\
    config c' = config c /\
    forall port,
      0 <= port < 16 * PAGE_SIZE ->
      port_accessible (vmx_io_bitmap c') port =
        port_accessible (pio_bitmap (config c)) port.
Proof.
  intros Hload Hlen Henomem.
  unfold vmx_cell_init. mrun. rewrite Hload. cbn.
  destruct (page_alloc mem_pool 1 (ext s)) as [ept w1]. cbn.
  destruct (truthy ept); cbn; [|intros [= H]; lia].
  match goal with
  | |- context [for_each_err _ _ ?s0] => set (s1 := s0)
  end.
  assert (load_cell cell s1 = Done (set_vmx_ept ept c) s1) as Hload1.
  { subst s1. unfold load_cell.
    destruct cell; cbn; [done | by rewrite lookup_insert_eq]. }
  pose proof (frame_for_each_err world_step
                (jailhouse_cell_mem_regions (config c))
                (vmx_map_memory_region cell)
                (frame_vmx_map_memory_region cell) s1) as Hstep.
  destruct (for_each_err _ _ s1) as [err s2|why s2]; cbn in Hstep |- *;
    [|done].
  destruct (truthy err) eqn:Herr; cbn.
  { intros [= -> _]. by vm_compute in Herr. }
  destruct (page_map_create _ _ _ _ _ _ _ _ _) as [err' w3]. cbn.
  destruct (truthy err') eqn:Herr'; cbn.
  { intros [= -> _]. by vm_compute in Herr'. }
  match goal with
  | |- context [load_cell cell ?s3] =>
      assert (world_step s1 s3) as Hstep3
  end.
  { etrans; [exact Hstep|]. unfold world_step. by destruct s2. }
  rewrite (load_cell_world_step _ _ _ _ Hstep3 Hload1). cbn.
  unfold jailhouse_cell_pio_bitmap, pio_bitmap_size.
  change (u8 (-1)) with 255.
  set (pio := pio_bitmap (config c)).
  set (page := Z.to_nat PAGE_SIZE).
  assert (length (vmx_io_bitmap c) = (2 * page)%nat) as -> by lia.
  assert (Z.to_nat (Z.min (Z.of_nat (length pio)) PAGE_SIZE)
          = Nat.min (length pio) page) as -> by lia.
  assert (Z.to_nat (Z.min (Z.of_nat (length pio)
                           - Z.of_nat (Nat.min (length pio) page))
                          PAGE_SIZE)
          = Nat.min (length pio - Nat.min (length pio) page) page)
    as -> by lia.
  destruct (memcpy_at (replicate (2 * page) 255) 0 _) as [io1|] eqn:H1;
    [|done].
  destruct (memcpy_at io1 page _) as [io2|] eqn:H2; [|done].
  cbn. intros [= <-].
  exists (set_vmx_io_bitmap io2 (set_vmx_ept ept c)).
  split.
  { unfold load_cell.
    destruct cell; cbn; [done | by rewrite lookup_insert_eq]. }
  split; [done|].
  intros port Hport. cbn.
  assert (0 <= port / 8 < 2 * PAGE_SIZE) as Hidx.
  { split; [apply Z.div_pos; lia|]. apply Z.div_lt_upper_bound; lia. }
  pose proof (cell_io_bitmap_lookup page pio io1 io2
                (Z.to_nat (port / 8)) H1 H2 ltac:(lia)) as Hget.
  rewrite (port_accessible_byte _ _ _ Hget).
  unfold port_accessible. destruct (pio !! _); cbn; [done|].
  by rewrite testbit_255 by apply port_bit_range.
Qed.

(** ** Ports taken from and handed back to the root cell *)

Lemma shrink_io_bitmap_lookup (b pio b' : list Z) i :
  shrink_io_bitmap b pio = Some b' ->
  b' !! i =
    match pio !! i with
    | Some p => (fun x => u8 (Z.lor x (Z.lnot p))) <$> b !! i
    | None => b !! i
    end.
Proof.
  revert b b' i. induction pio as [|p pio IH]; intros b b' i.
  - destruct b; cbn; intros ?; simplify_eq; by rewrite lookup_nil.
  - destruct b as [|x b]; cbn; [done|].
    destruct (shrink_io_bitmap b pio) as [b1|] eqn:Hrec; [|done].
    cbn. intros ?. simplify_eq. destruct i as [|i]; [done|]. cbn.
    by apply IH.
Qed.

Lemma shrink_io_bitmap_length (b pio b' : list Z) :
  shrink_io_bitmap b pio = Some b' ->
  length b' = length b /\ (length pio <= length b)%nat.
Proof.
  revert b b'. induction pio as [|p pio IH]; intros b b'.
  - destruct b; cbn; intros ?; simplify_eq; (split; [done|lia]).
  - destruct b as [|x b]; cbn; [done|].
    destruct (shrink_io_bitmap b pio) as [b1|] eqn:Hrec; [|done].
    cbn. intros ?. simplify_eq. destruct (IH _ _ Hrec). cbn. split; lia.
Qed.

(** X9: when [vmx_linux_cell_shrink] returns, the root cell has lost
    every port the new cell's configuration grants and gained none: a
    port is open to the root cell afterwards exactly when it was open
    before and the new cell's configured bitmap does not grant it. *)
Theorem vmx_linux_cell_shrink_ports cfg s s' :
  vmx_linux_cell_shrink cfg s = Done tt s' ->
  forall port,
    0 <= port ->
    port_accessible (vmx_io_bitmap (linux_cell s')) port =
      port_accessible (vmx_io_bitmap (linux_cell s)) port &&
      negb (port_accessible (pio_bitmap cfg) port).
Proof.
  unfold vmx_linux_cell_shrink. mrun.
  match goal with
  | |- context [for_each ?l ?body s] =>
      assert (frame world_step (for_each l body)) as Hframe
  end.
  { apply frame_for_each; [apply _|]. intros mem s0. cbn.
    unfold world_step. by destruct s0. }
  specialize (Hframe s).
  destruct (for_each _ _ s) as [[] s1|why s1]; cbn in Hframe |- *; [|done].
  rewrite (world_step_linux_cell _ _ Hframe).
  unfold jailhouse_cell_pio_bitmap.
  destruct (shrink_io_bitmap _ _) as [b'|] eqn:Hshrink; [|done].
  cbn. intros Hrun port Hport.
  assert (vmx_io_bitmap (linux_cell s') = b') as ->.
  { unfold vmx_invept, read_msr, vmcs_read32, vmcs_read64 in Hrun.
    revert Hrun. mrun.
    destruct (truthy (Z.land _ EPT_INVEPT_SINGLE)); cbn;
      destruct (hw_invept _ _ _) as [[] w]; cbn; by intros [= <-]. }
  unfold port_accessible.
  rewrite (shrink_io_bitmap_lookup _ _ _ (Z.to_nat (port / 8)) Hshrink).
  pose proof (port_bit_range port) as Hbit.
  destruct (pio_bitmap cfg !! _) as [p|];
    destruct (vmx_io_bitmap (linux_cell s) !! _) as [x|]; cbn; try done.
  - rewrite testbit_u8, Z.lor_spec, Z.lnot_spec by lia.
    by destruct (Z.testbit x _), (Z.testbit p _).
  - by rewrite andb_true_r.
Qed.

Lemma shrink_restore_byte l p :
  is_byte l -> Z.land (u8 (Z.lor l (Z.lnot p))) (Z.lor p l) = l.
Proof.
  intros Hl. apply Z.bits_inj'. intros k Hk.
  rewrite Z.land_spec, Z.lor_spec.
  destruct (decide (k < 8)).
  - rewrite testbit_u8, Z.lor_spec, Z.lnot_spec by lia.
    by destruct (Z.testbit l k), (Z.testbit p k).
  - rewrite testbit_u8_high, (testbit_byte_high l) by (done || lia). done.
Qed.

Lemma shrink_restore (pre rest lrest pio b1 : list Z) :
  length pre = length pio ->
  Forall is_byte pre ->
  shrink_io_bitmap (pre ++ rest) pio = Some b1 ->
  restore_io_bitmap (length pio) b1 pio (pre ++ lrest)
    = Some (pre ++ rest).
Proof.
  revert pre b1. induction pio as [|p pio IH]; intros pre b1 Hlen Hbytes.
  - destruct pre; [|done]. destruct rest; cbn; intros ?; by simplify_eq.
  - destruct pre as [|x pre]; [done|]. cbn in Hlen |- *.
    apply Forall_cons in Hbytes as [Hx Hbytes].
    destruct (shrink_io_bitmap (pre ++ rest) pio) as [b2|] eqn:Hrec;
      [|done].
    cbn. intros ?. simplify_eq. rewrite (IH pre b2) by (done || lia). cbn.
    by rewrite shrink_restore_byte.
Qed.

(** X10: taking a cell's ports from the root cell and giving them back
    is a round trip.  If the root cell's live I/O bitmap is its configured
    one over the range of the new cell's bitmap, then
    [vmx_linux_cell_shrink] for the new cell followed by [vmx_cell_exit]
    of that cell leaves the root cell's I/O bitmap exactly as it was. *)
Theorem shrink_exit_restores_ports a c s s1 s2 :
  let pio := pio_bitmap (config c) in
  let lpio := pio_bitmap (config (linux_cell s)) in
  let io := vmx_io_bitmap (linux_cell s) in
  cells s !! a = Some c ->
  (length pio <= length lpio)%nat ->
  (length pio <= length io)%nat ->
  take (length pio) io = take (length pio) lpio ->
  Forall is_byte lpio ->
  vmx_linux_cell_shrink (config c) s = Done tt s1 ->
  vmx_cell_exit (Cell_at a) s1 = Done tt s2 ->
  vmx_io_bitmap (linux_cell s2) = io.
Proof.
  intros pio lpio io Hcell Hlen Hlen' Hsame Hbytes.
  unfold vmx_linux_cell_shrink. mrun.
  match goal with
  | |- context [for_each ?l ?body s] =>
      assert (frame world_step (for_each l body)) as Hframe
  end.
  { apply frame_for_each; [apply _|]. intros mem s0. cbn.
    unfold world_step. by destruct s0. }
  specialize (Hframe s).
  destruct (for_each _ _ s) as [[] s0|why s0]; cbn in Hframe |- *; [|done].
  pose proof (world_step_cells _ _ Hframe) as Hcells.
  rewrite (world_step_linux_cell _ _ Hframe).
  unfold jailhouse_cell_pio_bitmap. fold pio io.
  destruct (shrink_io_bitmap io pio) as [b1|] eqn:Hshrink; [|done].
  cbn. intros Hrun.
  assert (linux_cell s1 = set_vmx_io_bitmap b1 (linux_cell s) /\
          cells s1 = cells s) as [Hl1 Hc1].
  { unfold vmx_invept, read_msr, vmcs_read32, vmcs_read64 in Hrun.
    revert Hrun. mrun.
    destruct (truthy (Z.land _ EPT_INVEPT_SINGLE)); cbn;
      destruct (hw_invept _ _ _) as [[] w]; cbn; intros [= <-]; cbn;
      by rewrite Hcells. }
  clear Hrun.
  unfold vmx_cell_exit. mrun. unfold load_cell. rewrite Hc1, Hcell. cbn.
  rewrite Hl1. cbn. unfold jailhouse_cell_pio_bitmap, pio_bitmap_size.
  fold pio lpio.
  assert ((if Z.of_nat (length lpio) <? Z.of_nat (length pio)
           then Z.of_nat (length lpio) else Z.of_nat (length pio))
          = Z.of_nat (length pio)) as ->.
  { destruct (Z.ltb_spec (Z.of_nat (length lpio)) (Z.of_nat (length pio)));
      lia. }
  rewrite Nat2Z.id.
  assert (length (take (length pio) io) = length pio) as Hpre
    by (rewrite length_take; lia).
  assert (Forall is_byte (take (length pio) io)) as Hb
    by (rewrite Hsame; by apply Forall_take).
  rewrite <- (take_drop (length pio) io) in Hshrink.
  pose proof (shrink_restore _ _ (drop (length pio) lpio) _ _
                Hpre Hb Hshrink) as Hres.
  assert (lpio = take (length pio) io ++ drop (length pio) lpio) as Hl
    by (rewrite Hsame; symmetry; apply take_drop).
  rewrite Hl, Hres, take_drop. cbn. by intros [= <-].
Qed.
End Cell_facts.

(** * Further properties of the per-CPU enablement *)

Section Hw_steps.
Context {W : Type}.
Implicit Types s : state W.

#[global] Instance hw_step_preorder : PreOrder (@hw_step W).
Proof.
  split.
  - intros s. unfold hw_step. by destruct s.
  - intros s1 s2 s3 H12 H23. unfold hw_step in *.
    rewrite H23 at 1. rewrite H12 at 1. by destruct s1.
Qed.

Lemma hw_bind {A B} (m : M W A) (k : A -> M W B) :
  frame hw_step m -> (forall a, frame hw_step (k a)) ->
  frame hw_step (mbind k m).
Proof. apply frame_bind, _. Qed.

Lemma hw_ret {A} (a : A) : frame hw_step (mret a : M W A).
Proof. apply frame_ret, _. Qed.

Lemma hw_gets {A} (f : state W -> A) : frame hw_step (gets f).
Proof. apply frame_gets, _. Qed.

Lemma hw_stop {A} why : frame hw_step (stop why : M W A).
Proof. apply frame_stop, _. Qed.

Lemma hw_log e : frame hw_step (log e : M W unit).
Proof. intros s. cbn. unfold hw_step. by destruct s. Qed.

Lemma hw_on_world {A} (f : W -> A * W) : frame hw_step (on_world f).
Proof.
  intros s. unfold on_world. destruct (f (ext s)) as [a w]. cbn.
  unfold hw_step. by destruct s.
Qed.

Lemma hw_set_vmcs v :
  frame hw_step (modify (fun s => set_vmcs (v s) s) : M W unit).
Proof. intros s. cbn. unfold hw_step. by destruct s. Qed.

Lemma hw_step_cr4 s s' : hw_step s s' -> cr4 s' = cr4 s.
Proof. by intros ->. Qed.
Lemma hw_step_msrs s s' : hw_step s s' -> msrs s' = msrs s.
Proof. by intros ->. Qed.
Lemma hw_step_cpu_data s s' : hw_step s s' -> cpu_data s' = cpu_data s.
Proof. by intros ->. Qed.
Lemma hw_step_guest_regs s s' :
  hw_step s s' -> guest_regs s' = guest_regs s.
Proof. by intros ->. Qed.
End Hw_steps.

Section Cpu_facts.
Context {gd : Generic_defs} {pd : Processor_defs} {vd : Vmx_defs}
        {plat : Platform}.
Implicit Types s : state world.

#[local] Open Scope string_scope.
#[local] Open Scope list_scope.
#[local] Open Scope Z_scope.

Ltac hw_step_tac :=
  first
    [ apply hw_bind; [|intros]
    | apply hw_ret
    | apply hw_gets
    | apply hw_stop
    | apply hw_on_world
    | apply hw_log
    | apply hw_set_vmcs
    | apply (frame_load_cell hw_step)
    | match goal with
      | |- frame _ (if ?c then _ else _) => destruct c
      | |- frame _ (let '(_, _) := ?x in _) => destruct x
      end
    | assumption ].
Ltac hw_tac := unfold bind, and_ok, insn, printk; repeat hw_step_tac.

Lemma hw_vmcs_read64 f : frame hw_step (vmcs_read64 f).
Proof. unfold vmcs_read64. hw_tac. Qed.
Lemma hw_vmcs_read32 f : frame hw_step (vmcs_read32 f).
Proof. unfold vmcs_read32, vmcs_read64. hw_tac. Qed.
Lemma hw_vmcs_write64 f v : frame hw_step (vmcs_write64 f v).
Proof. unfold vmcs_write64, vmcs_read32, vmcs_read64. hw_tac. Qed.
Lemma hw_vmcs_write16 f v : frame hw_step (vmcs_write16 f v).
Proof. apply hw_vmcs_write64. Qed.
Lemma hw_vmcs_write32 f v : frame hw_step (vmcs_write32 f v).
Proof. apply hw_vmcs_write64. Qed.
Lemma hw_read_msr i : frame hw_step (read_msr i).
Proof. unfold read_msr. hw_tac. Qed.

Lemma hw_vmx_set_guest_cr cr v : frame hw_step (vmx_set_guest_cr cr v).
Proof.
  pose proof hw_vmcs_write64. pose proof hw_read_msr.
  unfold vmx_set_guest_cr. hw_tac; auto.
Qed.
Lemma hw_vmx_set_guest_segment seg f :
  frame hw_step (vmx_set_guest_segment seg f).
Proof.
  pose proof hw_vmcs_write64. pose proof hw_vmcs_write16.
  pose proof hw_vmcs_write32.
  unfold vmx_set_guest_segment. hw_tac; auto.
Qed.
Lemma hw_vmx_set_cell_config c : frame hw_step (vmx_set_cell_config c).
Proof.
  pose proof hw_vmcs_write64.
  unfold vmx_set_cell_config. hw_tac; auto.
Qed.

Lemma frame_vmcs_setup : frame hw_step vmcs_setup.
Proof.
  pose proof hw_vmcs_write64. pose proof hw_vmcs_write16.
  pose proof hw_vmcs_write32. pose proof hw_read_msr.
  pose proof hw_vmx_set_guest_cr. pose proof hw_vmx_set_guest_segment.
  pose proof hw_vmx_set_cell_config.
  unfold vmcs_setup, read_cr0, read_cr3, read_cr4, read_gdtr, read_idtr.
  hw_tac; auto.
Qed.

Lemma frame_vmxon : frame hw_step vmxon.
Proof. unfold vmxon. hw_tac. Qed.
Lemma frame_vmcs_clear : frame hw_step vmcs_clear.
Proof. unfold vmcs_clear. hw_tac. Qed.
Lemma frame_vmcs_load : frame hw_step vmcs_load.
Proof. unfold vmcs_load. hw_tac. Qed.

(** ** The enable phase of [vmx_cpu_init] *)

(** Carry the fields a hardware step leaves alone back to its start. *)
Ltac hw_rw :=
  repeat match goal with
         | H : hw_step _ ?x |- _ =>
             progress rewrite ?(hw_step_msrs _ _ H), ?(hw_step_cr4 _ _ H),
               ?(hw_step_cpu_data _ _ H), ?(hw_step_guest_regs _ _ H)
         end.

Lemma set_vmx_state_twice a b (cpu : per_cpu) :
  set_vmx_state b (set_vmx_state a cpu) = set_vmx_state b cpu.
Proof. by destruct cpu. Qed.

(** The three ways the enable phase ends: VMXON refused, a failure after
    VMXON, success. *)
Lemma vmx_cpu_init_enable_outcome cr s :
  let vmxon_addr :=
    page_map_hvirt2phys (region_addr (vmxon_region (cpu_data s))) in
  let r := vmx_cpu_init_enable cr s in
  let s1 := state_of r in
  msrs s1 = msrs s /\
  (((hw_vmxon vmxon_addr (ext s)).1 = false /\
   r = Done (- EIO) s1 /\ cr4 s1 = cr /\ cpu_data s1 = cpu_data s /\
   transitions (events_of s r) = []) \/
   ((hw_vmxon vmxon_addr (ext s)).1 = true /\
    (r = Done (- EIO) s1 \/ exists why, r = Abort why s1) /\
    cr4 s1 = Z.lor cr X86_CR4_VMXE /\
    cpu_data s1 = set_vmx_state VMXON (cpu_data s)) \/
   ((hw_vmxon vmxon_addr (ext s)).1 = true /\
    r = Done 0 s1 /\
    cr4 s1 = Z.lor cr X86_CR4_VMXE /\
    cpu_data s1 = set_vmx_state VMCS_READY (cpu_data s))).
Proof.
  intros vmxon_addr r s1. subst r s1.
  unfold vmx_cpu_init_enable, write_cr4, vmxon, store_vmx_state.
  mrun; cbn. fold vmxon_addr.
  destruct (hw_vmxon vmxon_addr (ext s)) as [[] w]; cbn.
  2: { split; [done|]. left. repeat split; try done.
       unfold events_of. cbn. by rewrite drop_app_length. }
  match goal with
  | |- context [vmcs_clear ?x] =>
      pose proof (frame_vmcs_clear x) as H1;
      destruct (vmcs_clear x) as [ok1 s1|why s1]
  end; cbn in *.
  2: { hw_rw. cbn. split; [done|]. right. left. eauto 10. }
  destruct ok1; cbn.
  2: { hw_rw. cbn. split; [done|]. right. left. eauto 10. }
  pose proof (frame_vmcs_load s1) as H2.
  destruct (vmcs_load s1) as [ok2 s2|why s2]; cbn in *.
  2: { hw_rw. cbn. split; [done|]. right. left. eauto 10. }
  destruct ok2; cbn.
  2: { hw_rw. cbn. split; [done|]. right. left. eauto 10. }
  pose proof (frame_vmcs_setup s2) as H3.
  destruct (vmcs_setup s2) as [ok3 s3|why s3]; cbn in *.
  2: { hw_rw. cbn. split; [done|]. right. left. eauto 10. }
  destruct ok3; cbn; hw_rw; cbn.
  - split; [done|]. right. right. rewrite set_vmx_state_twice. done.
  - split; [done|]. right. left. eauto 10.
Qed.

(** Every way [vmx_cpu_init] ends.  When a test of the processor fails the
    call returns its error with CR4 and the enablement state untouched;
    when all tests pass it has stored the revision id, made sure the
    feature-control MSR allows VMXON, and ends as the enable phase does. *)
Lemma vmx_cpu_init_outcome s :
  let vmxon_addr :=
    page_map_hvirt2phys (region_addr (vmxon_region (cpu_data s))) in
  let mask := Z.lor FEATURE_CONTROL_LOCKED
                    FEATURE_CONTROL_VMXON_ENABLED_OUTSIDE_SMX in
  let revision := u32 (default 0 (msrs s !! MSR_IA32_VMX_BASIC)) in
  let r := vmx_cpu_init s in
  let s1 := state_of r in
  if truthy (Z.land (cpuid_ecx 1) X86_FEATURE_VMX) &&
     negb (truthy (Z.land (cr4 s) X86_CR4_VMXE)) &&
     capabilities_ok s && negb (feature_control_locked_out s)
  then
    Z.land (default 0 (msrs s1 !! MSR_IA32_FEATURE_CONTROL)) mask = mask /\
    revision_id (vmxon_region (cpu_data s1)) = revision /\
    revision_id (vmcs_region (cpu_data s1)) = revision /\
    (((hw_vmxon vmxon_addr (ext s)).1 = false /\
      r = Done (- EIO) s1 /\ cr4 s1 = cr4 s /\
      vmx_state (cpu_data s1) = vmx_state (cpu_data s) /\
      transitions (events_of s r) = []) \/
     ((hw_vmxon vmxon_addr (ext s)).1 = true /\
      (r = Done (- EIO) s1 \/ exists why, r = Abort why s1) /\
      cr4 s1 = Z.lor (cr4 s) X86_CR4_VMXE /\
      vmx_state (cpu_data s1) = VMXON) \/
     ((hw_vmxon vmxon_addr (ext s)).1 = true /\
      r = Done 0 s1 /\
      cr4 s1 = Z.lor (cr4 s) X86_CR4_VMXE /\
      vmx_state (cpu_data s1) = VMCS_READY))
  else
    exists e, r = Done e s1 /\ e ∈ [- ENODEV; - EBUSY; - EIO] /\
      cr4 s1 = cr4 s /\
      vmx_state (cpu_data s1) = vmx_state (cpu_data s).
Proof.
  intros vmxon_addr mask revision r s1. subst r s1.
  unfold capabilities_ok, true_msr_offs, feature_control_locked_out.
  unfold vmx_cpu_init, read_cr4, read_msr, write_msr.
  mrun; cbn.
  destruct (truthy (Z.land (cpuid_ecx 1) X86_FEATURE_VMX)); cbn;
    [|eexists; split; [done|]; split; [set_solver|done]].
  destruct (truthy (Z.land (cr4 s) X86_CR4_VMXE)); cbn;
    [eexists; split; [done|]; split; [set_solver|done]|].
  destruct (vmcs_size_ok _); cbn;
    [|eexists; split; [done|]; split; [set_solver|done]].
  destruct (vmcs_memtype_ok _); cbn;
    [|eexists; split; [done|]; split; [set_solver|done]].
  destruct (truthy (Z.land _ (Z.shiftl 1 55))); cbn.
  all: destruct (pin_ctrl_ok _); cbn;
    [|eexists; split; [done|]; split; [set_solver|done]].
  all: destruct (proc_ctrl_ok _); cbn;
    [|eexists; split; [done|]; split; [set_solver|done]].
  all: destruct (proc_ctrl2_ok _ _); cbn;
    [|eexists; split; [done|]; split; [set_solver|done]].
  all: destruct (activity_hlt_ok _); cbn;
    [|eexists; split; [done|]; split; [set_solver|done]].
  all: fold mask.
  all: destruct (Z.eqb_spec
                   (Z.land (default 0 (msrs s !! MSR_IA32_FEATURE_CONTROL))
                           mask) mask) as [Hfc|Hfc]; cbn.
  all: try (destruct (truthy (Z.land _ FEATURE_CONTROL_LOCKED)); cbn;
            [eexists; split; [done|]; split; [set_solver|done]|]).
  all: match goal with
       | |- context [vmx_cpu_init_enable ?cr ?x] =>
           pose proof (vmx_cpu_init_enable_outcome cr x) as (Hmsr & Hen);
           assert (events_of s (vmx_cpu_init_enable cr x)
                   = events_of x (vmx_cpu_init_enable cr x)) as Hev by done;
           rewrite Hev; clear Hev;
           destruct (vmx_cpu_init_enable cr x) as [ret s1|why s1]
       end.
  all: cbn in Hmsr, Hen |- *; fold vmxon_addr in Hen; rewrite Hmsr.
  all: repeat match goal with
              | |- _ /\ _ => split
              end.
  all: try (rewrite ?lookup_insert_eq; cbn; by rewrite ?land_lor_same).
  all: try (by destruct Hen as [(?&?&?&->&?)|[(?&?&?&->)|(?&?&?&->)]]).
  all: destruct Hen as [(?&?&?&Hcpu&?)|[(?&?&?&Hcpu)|(?&?&?&Hcpu)]];
    [left|right; left|right; right]; rewrite Hcpu; cbn; done.
Qed.

(** X11: a call of [vmx_cpu_init] that returns 0 found the VMX feature,
    CR4.VMXE clear, every required capability and a feature-control MSR
    that is not locked against VMXON; it leaves the CPU in state
    VMCS_READY with CR4.VMXE set, the feature-control MSR locked with
    VMXON enabled, and the revision id of the processor (the low word of
    the basic capability MSR) in both the VMXON region and the VMCS. *)
Theorem vmx_cpu_init_success s s' :
  let mask := Z.lor FEATURE_CONTROL_LOCKED
                    FEATURE_CONTROL_VMXON_ENABLED_OUTSIDE_SMX in
  let revision := u32 (default 0 (msrs s !! MSR_IA32_VMX_BASIC)) in
  EIO <> 0 -> ENODEV <> 0 -> EBUSY <> 0 ->
  vmx_cpu_init s = Done 0 s' ->
  truthy (Z.land (cpuid_ecx 1) X86_FEATURE_VMX) = true /\
  truthy (Z.land (cr4 s) X86_CR4_VMXE) = false /\
  capabilities_ok s = true /\
  feature_control_locked_out s = false /\
  vmx_state (cpu_data s') = VMCS_READY /\
  cr4 s' = Z.lor (cr4 s) X86_CR4_VMXE /\
  Z.land (default 0 (msrs s' !! MSR_IA32_FEATURE_CONTROL)) mask = mask /\
  revision_id (vmxon_region (cpu_data s')) = revision /\
  revision_id (vmcs_region (cpu_data s')) = revision.
Proof.
  intros mask revision Heio Henodev Hebusy Hrun.
  pose proof (vmx_cpu_init_outcome s) as Hout. cbv zeta in Hout.
  rewrite Hrun in Hout. cbn in Hout.
  destruct (truthy (Z.land (cpuid_ecx 1) X86_FEATURE_VMX));
    destruct (truthy (Z.land (cr4 s) X86_CR4_VMXE));
    destruct (capabilities_ok s);
    destruct (feature_control_locked_out s); cbn in Hout.
  all: try (destruct Hout as (e & [= <-] & He & _);
            rewrite !elem_of_cons, elem_of_nil in He; lia).
  destruct Hout as (Hfc & Hrev1 & Hrev2 & Hen).
  destruct Hen as [(_ & [= ?] & _)|[(_ & [[= ?]|[? [=]]] & _)|
                   (_ & _ & Hcr & Hst)]]; try lia.
  done.
Qed.

(** X12: when every test passes but the processor refuses VMXON,
    [vmx_cpu_init] returns [-EIO] with CR4 restored to its value at
    entry and the enablement state as it was; the state is never
    stored. *)
Theorem vmx_cpu_init_vmxon_refused s :
  truthy (Z.land (cpuid_ecx 1) X86_FEATURE_VMX) = true ->
  truthy (Z.land (cr4 s) X86_CR4_VMXE) = false ->
  capabilities_ok s = true ->
  feature_control_locked_out s = false ->
  (hw_vmxon (page_map_hvirt2phys
               (region_addr (vmxon_region (cpu_data s)))) (ext s)).1
    = false ->
  exists s',
    vmx_cpu_init s = Done (- EIO) s' /\
    cr4 s' = cr4 s /\
    vmx_state (cpu_data s') = vmx_state (cpu_data s) /\
    transitions (events_of s (vmx_cpu_init s)) = [].
Proof.
  intros Hvmx Hbusy Hcaps Hlock Hrefused.
  pose proof (vmx_cpu_init_outcome s) as Hout. cbv zeta in Hout.
  rewrite Hvmx, Hbusy, Hcaps, Hlock in Hout. cbn in Hout.
  destruct Hout as (_ & _ & _ & Hen).
  destruct Hen as [(_ & Hrun & Hcr & Hst & Htr)|[(Hon & _)|(Hon & _)]];
    [|congruence..].
  eexists. split; [exact Hrun|]. done.
Qed.

Lemma vmx_cpu_exit_cr4 s :
  vmx_state (cpu_data s) <> VMXOFF ->
  exists s1,
    vmx_cpu_exit s = Done tt s1 /\
    vmx_state (cpu_data s1) = VMXOFF /\
    cr4 s1 = Z.land (cr4 s) (not64 X86_CR4_VMXE).
Proof.
  intros Hon. unfold vmx_cpu_exit, store_vmx_state, vmcs_clear, read_cr4,
    write_cr4. mrun.
  destruct (decide (vmx_state (cpu_data s) = VMXOFF)) as [|_]; [done|].
  destruct (hw_vmclear _ _) as [ok w]. cbn. eauto.
Qed.

Lemma clear_after_set c v :
  0 <= c < 2 ^ 64 -> Z.land c v = 0 ->
  Z.land (Z.lor c v) (not64 v) = c.
Proof.
  intros Hc Hcv. apply Z.bits_inj'. intros i Hi.
  pose proof (f_equal (fun x => Z.testbit x i) Hcv) as Hbit. cbn in Hbit.
  rewrite Z.land_spec, Z.bits_0 in Hbit.
  rewrite Z.land_spec, Z.lor_spec.
  destruct (decide (i < 64)).
  - rewrite testbit_not64 by lia.
    by destruct (Z.testbit c i), (Z.testbit v i).
  - unfold not64, u64. rewrite Z.mod_pow2_bits_high by lia.
    rewrite andb_false_r.
    rewrite <- (Z.mod_small c (2 ^ 64)) by lia.
    by rewrite Z.mod_pow2_bits_high by lia.
Qed.

(** X13: enabling and disabling VMX on a CPU is a round trip for CR4.
    From the state OFF, whatever [vmx_cpu_init] does (fail a test, fail at
    VMXON, fail during the VMCS setup, or succeed), a following
    [vmx_cpu_exit] returns with the enablement state OFF and CR4 exactly
    as it was before [vmx_cpu_init]. *)
Theorem vmx_cpu_init_exit_round_trip s :
  let s1 := state_of (vmx_cpu_init s) in
  vmx_state (cpu_data s) = VMXOFF ->
  0 <= cr4 s < 2 ^ 64 ->
  exists s2,
    vmx_cpu_exit s1 = Done tt s2 /\
    vmx_state (cpu_data s2) = VMXOFF /\
    cr4 s2 = cr4 s.
Proof.
  intros s1 Hoff Hcr4.
  pose proof (vmx_cpu_init_outcome s) as Hout. cbv zeta in Hout.
  fold s1 in Hout.
  assert (cr4 s1 = cr4 s /\ vmx_state (cpu_data s1) = VMXOFF \/
          Z.land (cr4 s) X86_CR4_VMXE = 0 /\
          cr4 s1 = Z.lor (cr4 s) X86_CR4_VMXE /\
          vmx_state (cpu_data s1) <> VMXOFF) as [[Hcr Hst]|(Hclr & Hcr & Hst)].
  { destruct (truthy (Z.land (cpuid_ecx 1) X86_FEATURE_VMX)); cbn in Hout;
      [|destruct Hout as (e & _ & _ & ? & ?); left; split; congruence].
    destruct (truthy (Z.land (cr4 s) X86_CR4_VMXE)) eqn:Hbusy; cbn in Hout;
      [destruct Hout as (e & _ & _ & ? & ?); left; split; congruence|].
    assert (Z.land (cr4 s) X86_CR4_VMXE = 0) as Hclr.
    { unfold truthy in Hbusy. by apply negb_false_iff, Z.eqb_eq in Hbusy. }
    destruct (capabilities_ok s); cbn in Hout;
      [|destruct Hout as (e & _ & _ & ? & ?); left; split; congruence].
    destruct (feature_control_locked_out s); cbn in Hout;
      [destruct Hout as (e & _ & _ & ? & ?); left; split; congruence|].
    destruct Hout as (_ & _ & _ & Hen).
    destruct Hen as [(_ & _ & ? & ? & _)|[(_ & _ & ? & Hst)|(_ & _ & ? & Hst)]].
    - left. split; congruence.
    - right. rewrite Hst. done.
    - right. rewrite Hst. done. }
  - exists s1. rewrite (vmx_cpu_exit_off s1 Hst). done.
  - destruct (vmx_cpu_exit_cr4 s1 Hst) as (s2 & Hrun & Hoff2 & Hcr2).
    exists s2. split; [done|]. split; [done|].
    rewrite Hcr2, Hcr. by apply clear_after_set.
Qed.
End Cpu_facts.

(** * The MSR bitmap and the preemption timer *)

Section Rest_facts.
Context {gd : Generic_defs} {pd : Processor_defs} {vd : Vmx_defs}
        {cd : Percpu_defs} {md : Msr_bitmap_defs} {plat : Platform}.
Implicit Types s : state world.

#[local] Open Scope string_scope.
#[local] Open Scope list_scope.
#[local] Open Scope Z_scope.

(** X14: [vmx_schedule_vmexit] means to do nothing unless the CPU is in
    state VMCS_READY, but its test negates the state before comparing it
    ([!cpu_data->vmx_state == VMCS_READY]).  With VMCS_READY numbered
    neither 0 nor 1 the early return is never taken: in every enablement
    state, OFF included, the function reads the pin-based controls and
    writes them back with the preemption-timer bit set. *)
Theorem vmx_schedule_vmexit_arms s :
  vmx_state_value VMCS_READY <> 0 ->
  vmx_state_value VMCS_READY <> 1 ->
  hw_vmwrite_ok PIN_BASED_VM_EXEC_CONTROL (ext s) = true ->
  exists s',
    vmx_schedule_vmexit s = Done tt s' /\
    vmread s' PIN_BASED_VM_EXEC_CONTROL =
      u32 (Z.lor (u32 (vmread s PIN_BASED_VM_EXEC_CONTROL))
                 PIN_BASED_VMX_PREEMPTION_TIMER) /\
    events_of s (vmx_schedule_vmexit s) =
      [Insn "vmwrite"
         [PIN_BASED_VM_EXEC_CONTROL;
          u32 (Z.lor (u32 (vmread s PIN_BASED_VM_EXEC_CONTROL))
                     PIN_BASED_VMX_PREEMPTION_TIMER)]].
Proof.
  intros H0 H1 Hok.
  unfold vmx_schedule_vmexit, vmcs_write32, vmcs_write64, vmcs_read32,
    vmcs_read64. mrun.
  assert ((Z.b2z (negb (truthy (vmx_state_value (vmx_state (cpu_data s)))))
             =? vmx_state_value VMCS_READY) = false) as ->.
  { apply Z.eqb_neq. destruct (negb _); cbn; congruence. }
  cbn. rewrite Hok. cbn. eexists. split; [reflexivity|].
  unfold vmread, events_of. cbn.
  by rewrite lookup_insert_eq, drop_app_length.
Qed.




(** ** [vmx_init] *)

Lemma memset_at_lookup row off val n row' i :
  memset_at row off val n = Some row' ->
  row' !! i =
    if decide (Z.to_nat off <= i < Z.to_nat (off + n))%nat
    then (fun _ => val) <$> row !! i else row !! i.
Proof.
  unfold memset_at. case_decide as Hfit; [|done]. intros [= <-].
  case_decide as Hin.
  - rewrite list_lookup_inserts
      by (rewrite ?length_replicate; lia).
    rewrite lookup_replicate_2 by lia.
    destruct (lookup_lt_is_Some_2 row i) as [x ->]; [lia|]. done.
  - destruct (decide (i < Z.to_nat off)%nat).
    + by rewrite list_lookup_inserts_lt by lia.
    + by rewrite list_lookup_inserts_ge by (rewrite length_replicate; lia).
Qed.

Lemma memset_at_length row off val n row' :
  memset_at row off val n = Some row' -> length row' = length row.
Proof.
  unfold memset_at. case_decide; [|done]. intros [= <-].
  apply length_inserts.
Qed.

(** X15: with the x2APIC in use, [vmx_init] opens the x2APIC registers
    to the guest except for writes of the ICR: afterwards no read of an
    MSR in [MSR_X2APIC_BASE .. MSR_X2APIC_END] exits, a write in that range
    exits exactly when it is a write of MSR_X2APIC_ICR, and the bitmap
    bits of all other MSRs are as before. *)
Theorem vmx_init_x2apic (msr_bitmap : gmap Z (list Z)) rrow wrow :
  msr_bitmap !! VMX_MSR_BITMAP_0000_READ = Some rrow ->
  msr_bitmap !! VMX_MSR_BITMAP_0000_WRITE = Some wrow ->
  VMX_MSR_BITMAP_0000_READ <> VMX_MSR_BITMAP_0000_WRITE ->
  0 <= MSR_X2APIC_BASE ->
  MSR_X2APIC_BASE mod 8 = 0 ->
  (MSR_X2APIC_END + 1) mod 8 = 0 ->
  MSR_X2APIC_BASE <= MSR_X2APIC_ICR <= MSR_X2APIC_END ->
  MSR_X2APIC_ICR mod 8 = 0 ->
  MSR_X2APIC_END / 8 < Z.of_nat (length rrow) ->
  MSR_X2APIC_END / 8 < Z.of_nat (length wrow) ->
  exists msr_bitmap',
    vmx_init true msr_bitmap = Some msr_bitmap' /\
    (forall msr,
       MSR_X2APIC_BASE <= msr <= MSR_X2APIC_END ->
       msr_intercepted msr_bitmap' VMX_MSR_BITMAP_0000_READ msr = false /\
       msr_intercepted msr_bitmap' VMX_MSR_BITMAP_0000_WRITE msr
         = bool_decide (msr = MSR_X2APIC_ICR)) /\
    (forall msr,
       0 <= msr -> ~ (MSR_X2APIC_BASE <= msr <= MSR_X2APIC_END) ->
       msr_intercepted msr_bitmap' VMX_MSR_BITMAP_0000_READ msr
         = msr_intercepted msr_bitmap VMX_MSR_BITMAP_0000_READ msr /\
       msr_intercepted msr_bitmap' VMX_MSR_BITMAP_0000_WRITE msr
         = msr_intercepted msr_bitmap VMX_MSR_BITMAP_0000_WRITE msr).
Proof.
  intros Hr Hw Hrows Hbase Hbase8 Hend8 Hicr Hicr8 Hlenr Hlenw.
  set (off := MSR_X2APIC_BASE / 8).
  set (n := (MSR_X2APIC_END - MSR_X2APIC_BASE + 1) / 8).
  assert (0 <= off /\ 0 <= n /\ off + n = MSR_X2APIC_END / 8 + 1 /\
          MSR_X2APIC_BASE = 8 * off /\ MSR_X2APIC_END = 8 * (off + n) - 1 /\
          off <= MSR_X2APIC_ICR / 8 < off + n /\
          MSR_X2APIC_ICR = 8 * (MSR_X2APIC_ICR / 8)) as Harith.
  { subst off n. Z.div_mod_to_equations. lia. }
  destruct Harith as (Hoff & Hn & Hsum & Hb & He & Hicr_idx & Hicr_eq).
  destruct (memset_at rrow off 0 n) as [rrow'|] eqn:Hmr.
  2: { unfold memset_at in Hmr. case_decide; [done|]. lia. }
  destruct (memset_at wrow off 0 n) as [wrow'|] eqn:Hmw.
  2: { unfold memset_at in Hmw. case_decide; [done|]. lia. }
  pose proof (memset_at_length _ _ _ _ _ Hmw) as Hlenw'.
  unfold vmx_init. cbn. rewrite Hr. cbn. fold off n. rewrite Hmr. cbn.
  rewrite lookup_insert_ne by done. rewrite Hw. cbn. rewrite Hmw. cbn.
  rewrite lookup_insert_eq. cbn.
  destruct (decide _) as [_|Hbad]; [|lia].
  eexists. split; [reflexivity|].
  assert (forall msr, 0 <= msr ->
            (MSR_X2APIC_BASE <= msr <= MSR_X2APIC_END <->
             (Z.to_nat off <= Z.to_nat (msr / 8) < Z.to_nat (off + n))%nat))
    as Hidx.
  { intros msr Hmsr. Z.div_mod_to_equations. lia. }
  split.
  - intros msr Hmsr.
    assert (0 <= msr) as Hpos by lia.
    pose proof (proj1 (Hidx msr Hpos) Hmsr) as Hin.
    unfold msr_intercepted.
    rewrite !(lookup_insert_ne _ VMX_MSR_BITMAP_0000_WRITE
                VMX_MSR_BITMAP_0000_READ) by done.
    rewrite !lookup_insert_eq.
    rewrite (memset_at_lookup _ _ _ _ _ (Z.to_nat (msr / 8)) Hmr).
    case_decide; [|lia].
    destruct (lookup_lt_is_Some_2 rrow (Z.to_nat (msr / 8))) as [x ->];
      [lia|].
    cbn. split; [apply Z.bits_0|].
    destruct (decide (msr / 8 = MSR_X2APIC_ICR / 8)) as [Hsame|Hdiff].
    + rewrite Hsame, list_lookup_insert_eq by lia.
      assert (msr = MSR_X2APIC_ICR + msr mod 8) as Hmod
        by (Z.div_mod_to_equations; lia).
      pose proof (Z.mod_pos_bound msr 8 ltac:(lia)) as Hbit.
      destruct (decide (msr mod 8 = 0)) as [Hz|Hnz].
      * rewrite Hz. rewrite bool_decide_eq_true_2 by lia. done.
      * rewrite bool_decide_eq_false_2 by lia.
        change 1 with (Z.ones 1). apply Z.ones_spec_high. lia.
    + rewrite list_lookup_insert_ne by (Z.div_mod_to_equations; lia).
      rewrite (memset_at_lookup _ _ _ _ _ (Z.to_nat (msr / 8)) Hmw).
      case_decide; [|lia].
      destruct (lookup_lt_is_Some_2 wrow (Z.to_nat (msr / 8))) as [y ->];
        [lia|].
      cbn. rewrite Z.bits_0. symmetry. apply bool_decide_eq_false_2.
      intros ->. done.
  - intros msr Hpos Hout.
    pose proof (Hidx msr Hpos) as Hiff.
    unfold msr_intercepted.
    rewrite !(lookup_insert_ne _ VMX_MSR_BITMAP_0000_WRITE
                VMX_MSR_BITMAP_0000_READ) by done.
    rewrite !lookup_insert_eq.
    rewrite Hr, Hw.
    rewrite (memset_at_lookup _ _ _ _ _ (Z.to_nat (msr / 8)) Hmr).
    case_decide; [tauto|]. split; [done|].
    rewrite list_lookup_insert_ne by (Z.div_mod_to_equations; lia).
    rewrite (memset_at_lookup _ _ _ _ _ (Z.to_nat (msr / 8)) Hmw).
    case_decide; [tauto|]. done.
Qed.
End Rest_facts.

(** * Further properties of the VT-d manager *)

Section Vtd_more.
Context {gd : Generic_defs} {td : Vtd_defs} {plat : Platform}.
Implicit Types s : state world.

#[local] Open Scope string_scope.
#[local] Open Scope list_scope.
#[local] Open Scope Z_scope.

Lemma world_step_dmar s s' :
  world_step s s' ->
  dmar_units s' = dmar_units s /\ dmar_pt_levels s' = dmar_pt_levels s.
Proof. by intros ->. Qed.

Lemma vtd_map_memory_region_run cell c mem s err s' :
  dmar_units s <> 0 ->
  load_cell cell s = Done c s ->
  vtd_map_memory_region cell mem s = Done err s' ->
  world_step s s' /\
  trace s' =
    trace s ++
    (if is_dma_region mem
     then [vtd_map_call (vtd_page_table c) (dmar_pt_levels s) mem]
     else []) /\
  (is_dma_region mem = false -> err = 0).
Proof.
  intros Hunits Hload. unfold vtd_map_memory_region, is_dma_region. mrun.
  destruct (Z.eqb_spec (dmar_units s) 0) as [|_]; [done|].
  destruct (truthy (Z.land (access_flags mem) JAILHOUSE_MEM_DMA)); cbn.
  - rewrite Hload. cbn.
    destruct (page_map_create _ _ _ _ _ _ _ _ _) as [err' w]. cbn.
    intros [= <- <-]. cbn. split; [|split; [|done]].
    + unfold world_step. by destruct s.
    + unfold vtd_map_call, vtd_page_flags.
      by destruct (truthy (Z.land _ JAILHOUSE_MEM_READ)),
        (truthy (Z.land _ JAILHOUSE_MEM_WRITE)).
  - intros [= <- <-]. rewrite app_nil_r. split; [reflexivity|done].
Qed.

(** X16: the first loop of [vtd_cell_init] gives devices access to the
    regions flagged JAILHOUSE_MEM_DMA and to no others.  When the loop
    over a cell's regions runs to its end, it has made exactly one
    [page_map_create] call per DMA region, in the order of the
    configuration, into the cell's IOMMU page table, with read and write
    access as the region's flags say; it has changed nothing but what the
    paging code owns. *)
Theorem vtd_maps_dma_regions_only cell c mems s s' :
  dmar_units s <> 0 ->
  load_cell cell s = Done c s ->
  for_each_err mems (vtd_map_memory_region cell) s = Done 0 s' ->
  world_step s s' /\
  trace s' =
    trace s ++
    map (vtd_map_call (vtd_page_table c) (dmar_pt_levels s))
        (filter (fun mem => is_dma_region mem = true) mems).
Proof.
  revert s. induction mems as [|mem mems IH]; intros s Hunits Hload Hrun.
  - cbn in Hrun. injection Hrun as <-. cbn. rewrite app_nil_r.
    split; reflexivity.
  - cbn [for_each_err] in Hrun. unfold bind, mbind, M_bind in Hrun.
    destruct (vtd_map_memory_region cell mem s) as [err x|] eqn:Hmap;
      [|done].
    destruct (vtd_map_memory_region_run _ _ _ _ _ _ Hunits Hload Hmap)
      as (Hstep & Htr & _).
    destruct (truthy err) eqn:Herr.
    { cbn in Hrun. injection Hrun as -> _. by vm_compute in Herr. }
    destruct (world_step_dmar _ _ Hstep) as [Hu Hl].
    destruct (IH x ltac:(by rewrite Hu)
                (load_cell_world_step _ _ _ _ Hstep Hload) Hrun)
      as [Hstep' Htr'].
    split; [by etrans|].
    rewrite Htr', Htr, Hl, filter_cons, <- app_assoc.
    destruct (is_dma_region mem) eqn:Hdma.
    + by rewrite decide_True by done.
    + by rewrite decide_False by done.
Qed.

(** X17: [vtd_return_device_to_linux] hands a device back under the
    first entry of the root cell's configuration that names it (same
    domain, bus and devfn), by [vtd_add_device_to_cell] for the root cell;
    a device the configuration does not list is handed to no one: the
    function returns true and changes nothing. *)
Theorem vtd_return_device_first_match dev s :
  vtd_return_device_to_linux dev s =
    match find (fun d => same_device d dev)
               (pci_devices (config (linux_cell s))) with
    | Some d => vtd_add_device_to_cell Linux_cell d s
    | None => Done true s
    end.
Proof.
  unfold vtd_return_device_to_linux, jailhouse_cell_pci_devices. mrun.
  generalize (pci_devices (config (linux_cell s))).
  induction l as [|d l IH]; cbn; [done|].
  unfold same_device at 1. by destruct (_ && _).
Qed.

Lemma land_not64_same x p : Z.land (Z.land x (not64 p)) p = 0.
Proof.
  apply Z.bits_inj'. intros i Hi. rewrite !Z.land_spec, Z.bits_0.
  destruct (decide (i < 64)).
  - rewrite testbit_not64 by lia.
    by destruct (Z.testbit x i), (Z.testbit p i).
  - unfold not64, u64. rewrite Z.mod_pow2_bits_high by lia.
    by rewrite andb_false_r.
Qed.

Lemma land_not64_other x p m :
  0 <= m < 2 ^ 64 -> Z.land p m = 0 ->
  Z.land (Z.land x (not64 p)) m = Z.land x m.
Proof.
  intros Hm Hpm. apply Z.bits_inj'. intros i Hi.
  pose proof (f_equal (fun y => Z.testbit y i) Hpm) as Hbit. cbn in Hbit.
  rewrite Z.land_spec, Z.bits_0 in Hbit.
  rewrite !Z.land_spec.
  destruct (decide (i < 64)).
  - rewrite testbit_not64 by lia.
    by destruct (Z.testbit x i), (Z.testbit p i), (Z.testbit m i).
  - rewrite <- (Z.mod_small m (2 ^ 64)) by lia.
    rewrite Z.mod_pow2_bits_high by lia. by rewrite !andb_false_r.
Qed.

(** X18: [vtd_remove_device_from_cell] is idempotent.  When it returns,
    the device's context entry is not present, and a second call for the
    same device returns at once, changing nothing - also when the first
    call freed the bus's context table and cleared the root entry. *)
Theorem vtd_remove_device_idempotent cell d e s s1 :
  let context_entry :=
    context_entry_addr
      (page_map_phys2hvirt (Z.land (lo_word e) PAGE_MASK)) (devfn d) in
  0 <= PAGE_MASK < 2 ^ 64 ->
  Z.land VTD_ROOT_PRESENT PAGE_MASK = 0 ->
  root_entry_table s !! Z.to_nat (bus d) = Some e ->
  vtd_remove_device_from_cell cell d s = Done tt s1 ->
  Z.land (default 0 (mem s1 !! context_entry)) VTD_CTX_PRESENT = 0 /\
  vtd_remove_device_from_cell cell d s1 = Done tt s1.
Proof.
  intros context_entry Hmask Hdisj Hroot.
  unfold vtd_remove_device_from_cell, root_entry_lo_word,
    set_root_entry_lo_word, load64, store64, flush_cache',
    any_context_present.
  mrun. rewrite Hroot. cbn. fold context_entry.
  destruct (truthy (Z.land (default 0 (mem s !! context_entry))
                           VTD_CTX_PRESENT)) eqn:Hpresent; cbn.
  2: { intros [= <-]. rewrite Hroot. cbn. fold context_entry.
       rewrite Hpresent. cbn. split; [|done].
       unfold truthy in Hpresent.
       by apply negb_false_iff, Z.eqb_eq in Hpresent. }
  destruct (existsb _ _); cbn.
  - intros [= <-]. cbn. rewrite Hroot. cbn. fold context_entry.
    rewrite lookup_insert_eq. cbn.
    rewrite land_not64_same. split; [done|]. done.
  - repeat (rewrite Hroot; cbn). intros [= <-]. cbn.
    rewrite list_lookup_insert_eq by (by eapply lookup_lt_Some).
    cbn. rewrite land_not64_other by done. fold context_entry.
    rewrite lookup_insert_eq. cbn.
    rewrite land_not64_same. split; [done|]. done.
Qed.

Lemma domain_id_decode agaw id n :
  0 <= n -> 0 <= id -> id * 2 ^ n < 2 ^ 32 -> 0 <= agaw < 2 ^ n ->
  Z.shiftr (Z.lor agaw (u32 (Z.shiftl id n))) n = id.
Proof.
  intros Hn Hid Hfit Hagaw. unfold u32.
  rewrite Z.shiftl_mul_pow2 by done.
  rewrite Z.mod_small by (split; [apply Z.mul_nonneg_nonneg; lia | done]).
  rewrite <- Z.shiftl_mul_pow2 by done.
  rewrite Z.shiftr_lor, Z.shiftr_shiftl_l, Z.sub_diag, Z.shiftl_0_r by lia.
  rewrite Z.shiftr_div_pow2, Z.div_small by lia. done.
Qed.

Lemma land_lor_absorb a b : Z.land (Z.lor b a) b = b.
Proof.
  apply Z.bits_inj'. intros n _.
  rewrite Z.land_spec, Z.lor_spec.
  by destruct (Z.testbit a n), (Z.testbit b n).
Qed.

(** X19: when [vtd_add_device_to_cell] returns true, the device's
    context entry, in the context table of the device's bus (the one the
    root entry named, or a page allocated now and entered into the root
    entry), is present, points at the cell's IOMMU page table and carries
    the cell's id as domain id: decoding the entry gives back the cell. *)
Theorem vtd_add_device_encodes cell c d e s s' :
  let table :=
    if truthy (Z.land (lo_word e) VTD_ROOT_PRESENT)
    then page_map_phys2hvirt (Z.land (lo_word e) PAGE_MASK)
    else (page_alloc mem_pool 1 (ext s)).1 in
  let context_entry := context_entry_addr table (devfn d) in
  root_entry_table s !! Z.to_nat (bus d) = Some e ->
  load_cell cell s = Done c s ->
  0 <= VTD_CTX_DID_SHIFT ->
  0 <= cell_id c ->
  cell_id c * 2 ^ VTD_CTX_DID_SHIFT < 2 ^ 32 ->
  0 <= VTD_CTX_AGAW_39 < 2 ^ VTD_CTX_DID_SHIFT ->
  0 <= VTD_CTX_AGAW_48 < 2 ^ VTD_CTX_DID_SHIFT ->
  vtd_add_device_to_cell cell d s = Done true s' ->
  let lo := default 0 (mem s' !! context_entry) in
  let hi := default 0 (mem s' !! (context_entry + 8)) in
  Z.land lo VTD_CTX_PRESENT = VTD_CTX_PRESENT /\
  lo = Z.lor (Z.lor (Z.lor VTD_CTX_PRESENT VTD_CTX_FPD)
                    VTD_CTX_TTYPE_MLP_UNTRANS)
             (page_map_hvirt2phys (vtd_page_table c)) /\
  Z.shiftr hi VTD_CTX_DID_SHIFT = cell_id c /\
  exists e',
    root_entry_table s' !! Z.to_nat (bus d) = Some e' /\
    (if truthy (Z.land (lo_word e) VTD_ROOT_PRESENT) then e' = e
     else lo_word e' = Z.lor VTD_ROOT_PRESENT (page_map_hvirt2phys table)).
Proof.
  intros table context_entry Hroot Hload Hshift Hid Hfit H39 H48.
  assert (forall levels,
            Z.shiftr
              (Z.lor (if levels =? 3 then VTD_CTX_AGAW_39
                      else VTD_CTX_AGAW_48)
                     (u32 (Z.shiftl (cell_id c) VTD_CTX_DID_SHIFT)))
              VTD_CTX_DID_SHIFT = cell_id c) as Hdid.
  { intros levels. apply domain_id_decode; try done.
    by destruct (levels =? 3). }
  assert (forall x y z,
            Z.land (Z.lor (Z.lor (Z.lor VTD_CTX_PRESENT x) y) z)
                   VTD_CTX_PRESENT = VTD_CTX_PRESENT) as Hp.
  { intros x y z. rewrite <- !Z.lor_assoc. apply land_lor_absorb. }
  assert (context_entry <> context_entry + 8) as Hne by lia.
  unfold vtd_add_device_to_cell, root_entry_lo_word, set_root_entry_lo_word,
    store64, flush_cache'.
  mrun. rewrite Hroot. cbn. subst context_entry table.
  destruct (truthy (Z.land (lo_word e) VTD_ROOT_PRESENT)); cbn.
  - pose proof (load_cell_world_step cell c s
                  (set_trace
                     (trace s ++
                      [Printk "Adding PCI device %02x:%02x.%x to cell %s"
                         [bus d; Z.shiftr (devfn d) 3;
                          Z.land (devfn d) 7]]) s)
                  ltac:(unfold world_step; by destruct s) Hload) as Hl.
    rewrite Hl. cbn. intros [= <-]. cbn.
    rewrite lookup_insert_ne by done. rewrite !lookup_insert_eq. cbn.
    rewrite Hdid, Hp. repeat split; eauto.
  - destruct (page_alloc mem_pool 1 (ext s)) as [t w] eqn:Halloc. cbn.
    destruct (truthy t); cbn; [|done].
    rewrite Hroot. cbn.
    match goal with
    | |- context [load_cell cell ?x] =>
        assert (load_cell cell x = Done c x) as Hl
    end.
    { revert Hload. unfold load_cell. destruct cell as [|a]; cbn.
      - by intros [= <-].
      - destruct (cells s !! a); [|done]. by intros [= <-]. }
    rewrite Hl. cbn. intros [= <-]. cbn.
    rewrite lookup_insert_ne by done. rewrite !lookup_insert_eq. cbn.
    rewrite Hdid, Hp.
    rewrite list_lookup_insert_eq by (by eapply lookup_lt_Some).
    repeat split; eauto.
Qed.
End Vtd_more.

(** * Discovery of the remapping units *)

Section Vtd_init_facts.
Context {gd : Generic_defs} {td : Vtd_defs} {plat : Platform}.
Implicit Types s : state world.

#[local] Open Scope string_scope.
#[local] Open Scope list_scope.
#[local] Open Scope Z_scope.

(** One round of the [do ... while] loop: it returns an error, or it
    registers one more unit and goes on to the next record or returns 0. *)
Lemma vtd_init_units_step fuel dmar offset s :
  let len := drhd_length (remap_struct_at dmar offset) in
  (exists r s1,
     vtd_init_units (S fuel) dmar offset s = Done r s1 /\
     (r = - EIO \/ r = - ENOMEM \/ r = - EBUSY \/ r <> 0)) \/
  (exists s1 page evs,
     sizeof_acpi_dmar_drhd <= len /\
     offset + len <= dmar_length dmar /\
     vtd_init_units (S fuel) dmar offset s =
       (if (offset + len <? dmar_length dmar) &&
           (drhd_type (remap_struct_at dmar (offset + len))
            =? ACPI_DMAR_DRHD)
        then vtd_init_units fuel dmar (offset + len) s1
        else Done 0 s1) /\
     (dmar_pt_levels s1 = 3 \/ dmar_pt_levels s1 = 4) /\
     dmar_num_did s1 <= dmar_num_did s /\
     dmar_units s1 = u32 (dmar_units s + 1) /\
     dmar_reg_base s1 =
       (if dmar_units s =? 0 then page else dmar_reg_base s) /\
     page = dmar_reg_base s1 + dmar_units s * PAGE_SIZE /\
     trace s1 = trace s ++ evs /\
     unit_windows evs = [page]).
Proof.
  intros len. subst len.
  cbn [vtd_init_units]. unfold vtd_iotlb_reg_base, mmio_read64', mmio_read32'.
  mrun.
  destruct (_ || _) eqn:Hchk; [left; do 2 eexists; split; [reflexivity|auto]|].
  apply orb_false_iff in Hchk as [Hlen Hend].
  apply Z.ltb_ge in Hlen. rewrite Z.gtb_ltb in Hend. apply Z.ltb_ge in Hend.
  destruct (negb _) eqn:Hseg; [left; do 2 eexists; split; [reflexivity|auto]|].
  cbn.
  destruct (page_alloc remap_pool 1 (ext s)) as [page w1] eqn:Halloc. cbn.
  destruct (negb (truthy page)) eqn:Hpage; cbn;
    [left; do 2 eexists; split; [reflexivity|auto]|].
  destruct (Z.eqb_spec (dmar_units s) 0) as [Hu|Hu]; cbn;
    [|destruct (Z.eqb_spec page (dmar_reg_base s + dmar_units s * PAGE_SIZE))
        as [Hcont|Hcont]; cbn;
      [|left; do 2 eexists; split; [reflexivity|auto]]].
  all: destruct (page_map_create _ _ _ _ _ _ _ _ _) as [err w2] eqn:Hmap; cbn.
  all: destruct (truthy err) eqn:Herr; cbn;
    [left; do 2 eexists; split; [reflexivity|];
     right; right; right; intros ->; discriminate Herr|].
  all: destruct (mmio_read64 (page + VTD_CAP_REG) _) as [caps w3] eqn:Hcaps;
    cbn.
  all: destruct (negb (truthy (Z.land caps VTD_CAP_SAGAW39)) && _) eqn:Hsagaw;
    cbn; [left; do 2 eexists; split; [reflexivity|auto]|].
  all: destruct ((dmar_pt_levels _ >? 0) && _) eqn:Hlevels;
    cbn; [left; do 2 eexists; split; [reflexivity|auto]|].
  all: destruct (truthy (Z.land caps VTD_CAP_CM)) eqn:Hcm;
    cbn; [left; do 2 eexists; split; [reflexivity|auto]|].
  all: destruct (mmio_read64 (page + VTD_ECAP_REG) _) as [ecap w4] eqn:Hecap;
    cbn.
  all: destruct (_ >=? _) eqn:Hiotlb;
    cbn; [left; do 2 eexists; split; [reflexivity|auto]|].
  all: destruct (mmio_read32 (page + VTD_GSTS_REG) _) as [gsts w5] eqn:Hgsts;
    cbn.
  all: destruct (truthy (Z.land gsts VTD_GSTS_TES)) eqn:Htes;
    cbn; [left; do 2 eexists; split; [reflexivity|auto]|].
  all: destruct (_ <? dmar_num_did _) eqn:Hdid; cbn.
  all: right; eexists _, page, _.
  all: split; [done|]; split; [done|].
  all: split; [by destruct ((_ <? dmar_length dmar) && _)|].
  all: destruct s; cbn in *.
  all: split; [by destruct (truthy (Z.land caps VTD_CAP_SAGAW39)); auto|].
  all: split; [lia|]; split; [reflexivity|].
  all: split; [first [done | by rewrite ?Hu, ?Z.eqb_refl | by case_match]|].
  all: split; [lia|].
  all: split; [by rewrite <- !app_assoc|reflexivity].
Qed.

Lemma vtd_init_units_returns dmar :
  0 < sizeof_acpi_dmar_drhd ->
  forall fuel offset s,
    Z.max 0 (dmar_length dmar - offset) < Z.of_nat fuel ->
    exists r s', vtd_init_units fuel dmar offset s = Done r s'.
Proof.
  intros Hsize. induction fuel as [|fuel IH]; intros offset s Hfuel; [lia|].
  destruct (vtd_init_units_step fuel dmar offset s)
    as [(r & s1 & -> & _)|(s1 & page & evs & Hlen & Hend & -> & _)];
    [eauto|].
  destruct (Z.ltb_spec (offset + drhd_length (remap_struct_at dmar offset))
                       (dmar_length dmar)); cbn; [|eauto].
  destruct (_ =? _); [|eauto]. apply IH. lia.
Qed.

(** X20: [vtd_init] returns for every DMAR table, however malformed: each
    round of its loop consumes at least [sizeof(struct acpi_dmar_drhd)]
    bytes of the table or ends the loop, so a run with more fuel than the
    table has bytes behind its header never outlives its fuel. *)
Theorem vtd_init_terminates fuel s :
  0 < sizeof_acpi_dmar_drhd ->
  (forall dmar,
     acpi_find_table "DMAR" (ext s) = Some dmar ->
     Z.max 0 (dmar_length dmar - offsetof_remap_structs) < Z.of_nat fuel) ->
  exists r s', vtd_init fuel s = Done r s'.
Proof.
  intros Hsize Hfuel. unfold vtd_init. mrun. cbn.
  destruct (acpi_find_table "DMAR" (ext s)) as [dmar|] eqn:Htable; cbn;
    [|eauto].
  destruct (_ >? _); [eauto|].
  destruct (negb _); [eauto|].
  apply vtd_init_units_returns; [done|]. by apply Hfuel.
Qed.

Lemma vtd_init_units_success dmar :
  EIO <> 0 -> ENOMEM <> 0 -> EBUSY <> 0 ->
  0 < sizeof_acpi_dmar_drhd ->
  forall fuel offset s s',
    0 <= dmar_units s ->
    dmar_units s + (dmar_length dmar - offset) < 2 ^ 32 ->
    vtd_init_units fuel dmar offset s = Done 0 s' ->
    dmar_units s < dmar_units s' < 2 ^ 32 /\
    (dmar_pt_levels s' = 3 \/ dmar_pt_levels s' = 4) /\
    dmar_num_did s' <= dmar_num_did s /\
    (dmar_units s <> 0 -> dmar_reg_base s' = dmar_reg_base s) /\
    exists evs,
      trace s' = trace s ++ evs /\
      unit_windows evs =
        map (fun n => dmar_reg_base s' + n * PAGE_SIZE)
            (seqZ (dmar_units s) (dmar_units s' - dmar_units s)).
Proof.
  intros Heio Henomem Hebusy Hsize.
  induction fuel as [|fuel IH]; intros offset s s' Hunits Hroom Hrun; [done|].
  destruct (vtd_init_units_step fuel dmar offset s)
    as [(r & s1 & Hstep & Hr)|
        (s1 & page & evs1 & Hlen & Hend & Hstep & Hlevels & Hdid & Hu &
         Hbase & Hpage & Htrace & Hwin)];
    rewrite Hstep in Hrun.
  { injection Hrun as -> ->. lia. }
  assert (dmar_units s1 = dmar_units s + 1) as Hu'.
  { rewrite Hu. unfold u32. apply Z.mod_small. lia. }
  assert (seqZ (dmar_units s) 1 = [dmar_units s]) as Hone.
  { rewrite seqZ_cons by lia. by rewrite seqZ_nil by lia. }
  destruct ((_ <? _) && _) eqn:Hmore.
  - apply andb_true_iff in Hmore as [Hlt%Z.ltb_lt _].
    apply IH in Hrun as (Hu2 & Hlevels2 & Hdid2 & Hbase2 & evs2 & Htrace2 &
                         Hwin2); [|lia..].
    assert (dmar_reg_base s' = dmar_reg_base s1) as Hb by (apply Hbase2; lia).
    split; [lia|]. split; [done|]. split; [lia|]. split.
    { intros Hne. rewrite Hb, Hbase.
      by destruct (Z.eqb_spec (dmar_units s) 0). }
    exists (evs1 ++ evs2). split.
    { by rewrite Htrace2, Htrace, app_assoc. }
    unfold unit_windows in *. rewrite omap_app, Hwin, Hwin2.
    rewrite (seqZ_cons (dmar_units s)) by lia. cbn.
    rewrite Hpage, Hb, Hu'. do 3 f_equal; lia.
  - injection Hrun as <-.
    split; [lia|]. split; [done|]. split; [done|]. split.
    { intros Hne. rewrite Hbase.
      by destruct (Z.eqb_spec (dmar_units s) 0). }
    exists evs1. split; [done|].
    rewrite Hwin, Hu'.
    replace (dmar_units s + 1 - dmar_units s) with 1 by lia.
    rewrite Hone. cbn. by rewrite Hpage.
Qed.

(** X21: when [vtd_init] finds a DMAR table and returns 0, at least one
    unit is registered, the recorded page-table depth is 3 or 4, the
    domain-id cap has not grown, and the register windows it mapped (one
    [page_map_create] per unit) lie on consecutive pages from
    [dmar_reg_base] on: window [n] is at [dmar_reg_base + n * PAGE_SIZE],
    which is where every later loop over the units looks for it. *)
Theorem vtd_init_windows_contiguous fuel dmar s s' :
  acpi_find_table "DMAR" (ext s) = Some dmar ->
  EIO <> 0 -> ENOMEM <> 0 -> EBUSY <> 0 ->
  0 < sizeof_acpi_dmar_drhd ->
  0 <= offsetof_remap_structs ->
  dmar_length dmar < 2 ^ 32 ->
  dmar_units s = 0 ->
  vtd_init fuel s = Done 0 s' ->
  0 < dmar_units s' /\
  (dmar_pt_levels s' = 3 \/ dmar_pt_levels s' = 4) /\
  dmar_num_did s' <= dmar_num_did s /\
  unit_windows (events_of s (vtd_init fuel s)) =
    map (fun n => dmar_reg_base s' + n * PAGE_SIZE)
        (seqZ 0 (dmar_units s')).
Proof.
  intros Htable Heio Henomem Hebusy Hsize Hoff Hlength Hunits Hrun.
  unfold events_of. rewrite Hrun. cbn [state_of].
  revert Hrun. unfold vtd_init. mrun. cbn. rewrite Htable. cbn.
  destruct (_ >? _); [intros [= ? _]; lia|].
  destruct (negb _); [intros [= ? _]; lia|].
  intros Hrun.
  apply (vtd_init_units_success dmar Heio Henomem Hebusy Hsize) in Hrun
    as (Hu & Hlevels & Hdid & _ & evs & Htrace & Hwin).
  2: { destruct s; cbn in *; lia. }
  2: { destruct s; cbn in *; lia. }
  rewrite Htrace. destruct s; cbn in *. rewrite Hunits in Hwin.
  rewrite <- app_assoc, drop_app_length. cbn.
  rewrite Z.sub_0_r in Hwin. fold (unit_windows evs). rewrite Hwin.
  repeat split; [lia|done|lia].
Qed.
End Vtd_init_facts.

(** * Runs of [vmwrite]s *)

Section Vmcs_writes.
Context {gd : Generic_defs} {pd : Processor_defs} {vd : Vmx_defs}
        {plat : Platform}.
Implicit Types s : state world.

#[local] Open Scope string_scope.
#[local] Open Scope list_scope.
#[local] Open Scope Z_scope.

Lemma apply_writes_nil s : apply_writes [] s = s.
Proof. unfold apply_writes. destruct s. cbn. by rewrite app_nil_r. Qed.

Lemma apply_writes_app ws ws' s :
  apply_writes ws' (apply_writes ws s) = apply_writes (ws ++ ws') s.
Proof.
  unfold apply_writes. destruct s. cbn.
  by rewrite foldl_app, map_app, app_assoc.
Qed.

Lemma writes_ok_apply_writes ws s : writes_ok s -> writes_ok (apply_writes ws s).
Proof. intros Hok f. apply Hok. Qed.

Lemma cpu_data_apply_writes ws s : cpu_data (apply_writes ws s) = cpu_data s.
Proof. done. Qed.
Lemma msrs_apply_writes ws s : msrs (apply_writes ws s) = msrs s.
Proof. done. Qed.
Lemma cr0_apply_writes ws s : cr0 (apply_writes ws s) = cr0 s.
Proof. done. Qed.
Lemma cr3_apply_writes ws s : cr3 (apply_writes ws s) = cr3 s.
Proof. done. Qed.
Lemma cr4_apply_writes ws s : cr4 (apply_writes ws s) = cr4 s.
Proof. done. Qed.
Lemma gdtr_apply_writes ws s : gdtr (apply_writes ws s) = gdtr s.
Proof. done. Qed.
Lemma idtr_apply_writes ws s : idtr (apply_writes ws s) = idtr s.
Proof. done. Qed.
Lemma true_msr_offs_apply_writes ws s :
  vmx_true_msr_offs (apply_writes ws s) = vmx_true_msr_offs s.
Proof. done. Qed.

Lemma load_cell_apply_writes cell c ws s :
  load_cell cell s = Done c s ->
  load_cell cell (apply_writes ws s) = Done c (apply_writes ws s).
Proof.
  unfold load_cell. destruct cell as [|a].
  - by intros [= <-].
  - change (cells (apply_writes ws s)) with (cells s).
    destruct (cells s !! a); [|done]. by intros [= <-].
Qed.

(** One accepted [vmwrite] more. *)
Lemma vmcs_write64_run f v ws s :
  writes_ok s ->
  vmcs_write64 f v (apply_writes ws s)
  = Done true (apply_writes (ws ++ [(f, v)]) s).
Proof.
  intros Hok. unfold vmcs_write64, apply_writes. mrun. cbn.
  rewrite (Hok f). cbn. f_equal.
  destruct s. cbn. by rewrite foldl_app, map_app, app_assoc.
Qed.

Lemma step_done {A B} (m : M world A) (k : A -> M world B) st a st' :
  m st = Done a st' -> bind m k st = k a st'.
Proof. unfold bind, mbind, M_bind. by intros ->. Qed.

Lemma step_gets {A B} (g : state world -> A) (k : A -> M world B) st :
  bind (gets g) k st = k (g st) st.
Proof. done. Qed.

Lemma step_write64 {A} ok f v (k : bool -> M world A) ws s :
  writes_ok s ->
  bind (and_ok ok (vmcs_write64 f v)) k (apply_writes ws s)
  = k ok (apply_writes (ws ++ [(f, v)]) s).
Proof.
  intros Hok. unfold and_ok, bind, mbind, M_bind.
  rewrite vmcs_write64_run by done. cbn. by rewrite andb_true_r.
Qed.

Lemma step_write32 {A} ok f v (k : bool -> M world A) ws s :
  writes_ok s ->
  bind (and_ok ok (vmcs_write32 f v)) k (apply_writes ws s)
  = k ok (apply_writes (ws ++ [(f, u32 v)]) s).
Proof. apply step_write64. Qed.

Lemma step_write16 {A} ok f v (k : bool -> M world A) ws s :
  writes_ok s ->
  bind (and_ok ok (vmcs_write16 f v)) k (apply_writes ws s)
  = k ok (apply_writes (ws ++ [(f, u16 v)]) s).
Proof. apply step_write64. Qed.

Lemma step_cpu_data {A} (k : per_cpu -> M world A) ws s :
  bind (gets cpu_data) k (apply_writes ws s)
  = k (cpu_data s) (apply_writes ws s).
Proof. done. Qed.
Lemma step_true_msr_offs {A} (k : Z -> M world A) ws s :
  bind (gets vmx_true_msr_offs) k (apply_writes ws s)
  = k (vmx_true_msr_offs s) (apply_writes ws s).
Proof. done. Qed.
Lemma step_read_cr0 {A} (k : Z -> M world A) ws s :
  bind read_cr0 k (apply_writes ws s) = k (cr0 s) (apply_writes ws s).
Proof. done. Qed.
Lemma step_read_cr3 {A} (k : Z -> M world A) ws s :
  bind read_cr3 k (apply_writes ws s) = k (cr3 s) (apply_writes ws s).
Proof. done. Qed.
Lemma step_read_cr4 {A} (k : Z -> M world A) ws s :
  bind read_cr4 k (apply_writes ws s) = k (cr4 s) (apply_writes ws s).
Proof. done. Qed.
Lemma step_read_gdtr {A} (k : desc_table_reg -> M world A) ws s :
  bind read_gdtr k (apply_writes ws s) = k (gdtr s) (apply_writes ws s).
Proof. done. Qed.
Lemma step_read_idtr {A} (k : desc_table_reg -> M world A) ws s :
  bind read_idtr k (apply_writes ws s) = k (idtr s) (apply_writes ws s).
Proof. done. Qed.
Lemma step_read_msr {A} msr (k : Z -> M world A) ws s :
  bind (read_msr msr) k (apply_writes ws s)
  = k (default 0 (msrs s !! msr)) (apply_writes ws s).
Proof. done. Qed.

Lemma step_read64 {A} f (k : Z -> M world A) st :
  bind (vmcs_read64 f) k st = k (vmread st f) st.
Proof. done. Qed.

Lemma step_read32 {A} f (k : Z -> M world A) st :
  bind (vmcs_read32 f) k st = k (u32 (vmread st f)) st.
Proof. done. Qed.

Lemma step_read16 {A} f (k : Z -> M world A) st :
  bind (vmcs_read16 f) k st = k (u16 (vmread st f)) st.
Proof. done. Qed.

(** [vmx_set_guest_cr]: the three fields of the register with the values
    the fixed-bit MSRs give. *)
Lemma step_set_guest_cr {A} ok cr val (k : bool -> M world A) ws s :
  writes_ok s ->
  bind (and_ok ok (vmx_set_guest_cr cr val)) k (apply_writes ws s)
  = let fixed0 :=
      default 0 (msrs s !! (if truthy cr then MSR_IA32_VMX_CR4_FIXED0
                            else MSR_IA32_VMX_CR0_FIXED0)) in
    let fixed1 :=
      default 0 (msrs s !! (if truthy cr then MSR_IA32_VMX_CR4_FIXED1
                            else MSR_IA32_VMX_CR0_FIXED1)) in
    let required1 := Z.land fixed0 fixed1 in
    let '(fixed1, required1, val) :=
      if cr =? 0 then
        (Z.land fixed1 (not64 (Z.lor X86_CR0_NW X86_CR0_CD)),
         Z.lor (Z.land required1 (not64 (Z.lor X86_CR0_PE X86_CR0_PG)))
               X86_CR0_ET,
         val)
      else (fixed1, required1, Z.lor val X86_CR4_VMXE) in
    k ok (apply_writes
            (ws ++
             [(if truthy cr then GUEST_CR4 else GUEST_CR0,
               Z.lor (Z.land val fixed1) required1);
              (if truthy cr then CR4_READ_SHADOW else CR0_READ_SHADOW, val);
              (if truthy cr then CR4_GUEST_HOST_MASK
               else CR0_GUEST_HOST_MASK,
               Z.lor required1 (not64 fixed1))])
            s).
Proof.
  intros Hok. unfold and_ok at 1. unfold vmx_set_guest_cr, read_msr.
  unfold bind at 1 2. unfold mbind, M_bind.
  rewrite !step_gets, !msrs_apply_writes. cbn zeta.
  destruct (cr =? 0); cbn iota beta;
    rewrite !step_write64 by done; cbn;
    by rewrite andb_true_r, <- !app_assoc.
Qed.

Lemma step_set_cell_config {A} ok cell c (k : bool -> M world A) ws s :
  writes_ok s ->
  load_cell cell s = Done c s ->
  bind (and_ok ok (vmx_set_cell_config cell)) k (apply_writes ws s)
  = k ok (apply_writes
            (ws ++
             [(IO_BITMAP_A, page_map_hvirt2phys (io_bitmap_addr c));
              (IO_BITMAP_B,
               page_map_hvirt2phys (u64 (io_bitmap_addr c + PAGE_SIZE)));
              (EPT_POINTER,
               Z.lor (Z.lor (page_map_hvirt2phys (vmx_ept c))
                            EPT_TYPE_WRITEBACK)
                     EPT_PAGE_WALK_LEN)])
            s).
Proof.
  intros Hok Hload. unfold and_ok at 1. unfold vmx_set_cell_config.
  unfold bind at 1 2. unfold mbind at 1 2, M_bind at 1 2.
  rewrite (step_done _ _ _ _ _ (load_cell_apply_writes _ _ ws _ Hload)).
  cbn zeta iota beta.
  rewrite !step_write64 by done. cbn.
  by rewrite andb_true_r, <- !app_assoc.
Qed.

Lemma step_set_guest_segment {A} ok seg field (k : bool -> M world A) ws s :
  writes_ok s ->
  bind (and_ok ok (vmx_set_guest_segment seg field)) k (apply_writes ws s)
  = k ok (apply_writes
            (ws ++
             [(field, u16 (selector seg));
              (field + GUEST_SEG_BASE, seg_base seg);
              (field + GUEST_SEG_LIMIT, u32 (seg_limit seg));
              (field + GUEST_SEG_AR_BYTES, u32 (access_rights seg))])
            s).
Proof.
  intros Hok. unfold and_ok at 1. unfold vmx_set_guest_segment.
  unfold bind at 1 2. unfold mbind, M_bind. cbn zeta.
  rewrite step_write16, step_write64, !step_write32 by done. cbn.
  by rewrite andb_true_r, <- !app_assoc.
Qed.

Lemma NoDup_ne {A} (l : list A) i j x y :
  NoDup l -> l !! i = Some x -> l !! j = Some y -> i <> j -> x <> y.
Proof.
  intros Hnd Hi Hj Hij ->. apply Hij. by eapply NoDup_lookup.
Qed.

Ltac index_of x l :=
  lazymatch l with
  | x :: _ => constr:(O)
  | _ :: ?l' => let n := index_of x l' in constr:(S n)
  end.

(** Two fields at different places of a duplicate-free list differ. *)
Ltac field_ne Hnd :=
  lazymatch goal with
  | |- ?a <> ?b =>
      lazymatch type of Hnd with
      | NoDup ?L =>
          let i := index_of a L in
          let j := index_of b L in
          exact (NoDup_ne L i j a b Hnd eq_refl eq_refl
                   ltac:(discriminate))
      end
  end.

(** The value of a field after a run of [vmwrite]s given one by one: the
    last write to it. *)
Ltac last_write Hnd :=
  unfold vmread, apply_writes;
  cbn [vmcs set_guest_regs set_trace set_vmcs foldl fst snd app];
  repeat (rewrite lookup_insert_ne by field_ne Hnd);
  rewrite lookup_insert_eq; cbn [default].

Ltac write_step Hok :=
  first
    [ rewrite (step_write64 _ _ _ _ _ _ Hok)
    | rewrite (step_write32 _ _ _ _ _ _ Hok)
    | rewrite (step_write16 _ _ _ _ _ _ Hok)
    | rewrite (step_set_guest_cr _ _ _ _ _ _ Hok)
    | rewrite (step_set_guest_segment _ _ _ _ _ _ Hok)
    | rewrite step_cpu_data
    | rewrite step_true_msr_offs
    | rewrite step_read_cr0
    | rewrite step_read_cr3
    | rewrite step_read_cr4
    | rewrite step_read_gdtr
    | rewrite step_read_idtr
    | rewrite step_read_msr
    | rewrite step_read32
    | rewrite step_read64
    | rewrite step_gets ];
  change (truthy 0) with false; change (truthy 4) with true;
  change (0 =? 0) with true; change (4 =? 0) with false;
  cbn beta zeta iota.

Lemma real_mode_cr0 fixed0 fixed1 :
  Z.land X86_CR0_ET (Z.lor X86_CR0_PE X86_CR0_PG) = 0 ->
  0 <= Z.lor X86_CR0_PE X86_CR0_PG < 2 ^ 64 ->
  Z.land
    (Z.lor
       (Z.land (Z.lor (Z.lor X86_CR0_NW X86_CR0_CD) X86_CR0_ET)
               (Z.land fixed1 (not64 (Z.lor X86_CR0_NW X86_CR0_CD))))
       (Z.lor (Z.land (Z.land fixed0 fixed1)
                      (not64 (Z.lor X86_CR0_PE X86_CR0_PG)))
              X86_CR0_ET))
    (Z.lor X86_CR0_PE X86_CR0_PG) = 0.
Proof.
  intros Het Hrange. apply Z.bits_inj'. intros i Hi.
  assert (Z.testbit X86_CR0_ET i &&
          Z.testbit (Z.lor X86_CR0_PE X86_CR0_PG) i = false) as Hbit.
  { by rewrite <- Z.land_spec, Het, Z.bits_0. }
  rewrite Z.bits_0, Z.land_spec.
  destruct (Z.ltb_spec i 64) as [Hlow|Hhigh].
  - rewrite !Z.lor_spec, !Z.land_spec, !testbit_not64, !Z.lor_spec by lia.
    rewrite Z.lor_spec in Hbit.
    destruct (Z.testbit X86_CR0_ET i), (Z.testbit X86_CR0_PE i),
      (Z.testbit X86_CR0_PG i), (Z.testbit X86_CR0_NW i),
      (Z.testbit X86_CR0_CD i), (Z.testbit fixed0 i),
      (Z.testbit fixed1 i); done.
  - assert (Z.testbit (Z.lor X86_CR0_PE X86_CR0_PG) i = false) as ->;
      [|apply andb_false_r].
    destruct (Z.eq_dec (Z.lor X86_CR0_PE X86_CR0_PG) 0) as [->|];
      [apply Z.bits_0|].
    assert (2 ^ 64 <= 2 ^ i) by (apply Z.pow_le_mono_r; lia).
    apply Z.bits_above_log2; [lia|]. apply Z.log2_lt_pow2; lia.
Qed.

Lemma real_mode_cs v :
  0 <= v < 256 ->
  u32 (Z.shiftl v 12) = 16 * u16 (u32 (Z.shiftl v 8)) /\
  u32 (Z.shiftl v 12) = v * 4096.
Proof.
  intros Hv. rewrite !Z.shiftl_mul_pow2 by lia. unfold u32, u16.
  change (2 ^ 12) with 4096. change (2 ^ 8) with 256.
  change (2 ^ 32) with 4294967296. change (2 ^ 16) with 65536.
  rewrite (Z.mod_small (v * 4096)) by lia.
  rewrite (Z.mod_small (v * 256) 4294967296) by lia.
  rewrite (Z.mod_small (v * 256)) by lia. lia.
Qed.

Lemma entry_control_cleared x mode :
  Z.land (u32 (Z.land x (not64 mode))) mode = 0.
Proof.
  apply Z.bits_inj'. intros i Hi. unfold u32.
  rewrite Z.bits_0, Z.land_spec.
  destruct (Z.ltb_spec i 32).
  - rewrite Z.mod_pow2_bits_low, Z.land_spec, testbit_not64 by lia.
    by destruct (Z.testbit x i), (Z.testbit mode i).
  - by rewrite Z.mod_pow2_bits_high by lia.
Qed.

(** X23: [vmx_cpu_reset] puts the guest CPU into the state in which a
    processor starts after INIT and SIPI.  When every [vmwrite] is
    accepted it returns with all guest registers zero, RFLAGS 2, EFER 0,
    the IA-32e entry control clear and protection and paging off in the
    guest's CR0; the guest starts at CS:IP = (vector << 8):0 with CS base
    vector << 12, that is in real-mode addressing (base = 16 * selector)
    at physical address vector * 4096; the pseudo vector of the boot
    processor starts it at F000:FFF0. *)
Theorem vmx_cpu_reset_start_state sipi_vector c s :
  let bsp := sipi_vector =? APIC_BSP_PSEUDO_SIPI in
  let vector := if bsp then 0xf0 else sipi_vector in
  writes_ok s ->
  NoDup reset_fields ->
  load_cell (cpu_cell (cpu_data s)) s = Done c s ->
  Z.land X86_CR0_ET (Z.lor X86_CR0_PE X86_CR0_PG) = 0 ->
  0 <= Z.lor X86_CR0_PE X86_CR0_PG < 2 ^ 64 ->
  exists s',
    vmx_cpu_reset sipi_vector s = Done tt s' /\
    guest_regs s' = zero_registers /\
    vmread s' GUEST_RIP = (if bsp then 0xfff0 else 0) /\
    vmread s' GUEST_CS_SELECTOR = u16 (u32 (Z.shiftl vector 8)) /\
    vmread s' GUEST_CS_BASE = u32 (Z.shiftl vector 12) /\
    (0 <= vector < 256 ->
     vmread s' GUEST_CS_BASE = 16 * vmread s' GUEST_CS_SELECTOR /\
     vmread s' GUEST_CS_BASE = vector * 4096) /\
    vmread s' GUEST_RFLAGS = 2 /\
    vmread s' GUEST_IA32_EFER = 0 /\
    Z.land (vmread s' VM_ENTRY_CONTROLS) VM_ENTRY_IA32E_MODE = 0 /\
    Z.land (vmread s' GUEST_CR0) (Z.lor X86_CR0_PE X86_CR0_PG) = 0.
Proof.
  intros bsp vector Hok Hnd Hload Het Hrange. unfold reset_fields in Hnd.
  subst vector bsp. unfold vmx_cpu_reset.
  destruct (sipi_vector =? APIC_BSP_PSEUDO_SIPI).
  all: eexists; split;
    [rewrite <- (apply_writes_nil s) at 1;
     cbn beta zeta iota; repeat write_step Hok;
     rewrite (step_set_cell_config _ _ c _ _ _ Hok Hload);
     reflexivity|].
  all: match goal with
       | |- context [set_guest_regs zero_registers ?st] =>
           set (s' := set_guest_regs zero_registers st)
       end.
  all: assert (vmread s' GUEST_RIP = _) as Hrip
    by (subst s'; last_write Hnd; reflexivity).
  all: assert (vmread s' GUEST_CS_SELECTOR = _) as Hsel
    by (subst s'; last_write Hnd; reflexivity).
  all: assert (vmread s' GUEST_CS_BASE = _) as Hbase
    by (subst s'; last_write Hnd; reflexivity).
  all: assert (vmread s' GUEST_RFLAGS = _) as Hflags
    by (subst s'; last_write Hnd; reflexivity).
  all: assert (vmread s' GUEST_IA32_EFER = _) as Hefer
    by (subst s'; last_write Hnd; reflexivity).
  all: assert (vmread s' VM_ENTRY_CONTROLS = _) as Hctl
    by (subst s'; last_write Hnd; reflexivity).
  all: assert (vmread s' GUEST_CR0 = _) as Hcr0
    by (subst s'; last_write Hnd; reflexivity).
  all: rewrite Hrip, Hsel, Hbase, Hflags, Hefer, Hctl, Hcr0.
  all: split; [reflexivity|]; split; [reflexivity|].
  all: split; [reflexivity|]; split; [reflexivity|].
  all: split; [by apply real_mode_cs|].
  all: split; [reflexivity|]; split; [reflexivity|].
  all: split; [apply entry_control_cleared|by apply real_mode_cr0].
Qed.
End Vmcs_writes.

(** * Runs on the concrete machine *)

Section Concrete.
#[local] Existing Instance x86_generic.
#[local] Existing Instance x86_processor.
#[local] Existing Instance x86_vmx.
#[local] Existing Instance x86_vtd.
#[local] Existing Instance sim.

(** C1 at an exit reason of 0x80000021: failed entry, basic reason 33. *)
Lemma failed_vmentry_halts_witness :
  Z.land (u32 (vmread (plat:=sim) failed_entry_state VM_EXIT_REASON))
         EXIT_REASONS_FAILED_VMENTRY <> 0 /\
  vmx_handle_exit (plat:=sim) failed_entry_state =
    Abort Stopped
      (set_trace
         (Panic_printk "FATAL: VM-Entry failure, reason %d" [0x21] ::
          guest_regs_dump (plat:=sim) failed_entry_state ++ [Panic_stop])
         failed_entry_state).
Proof.
  split; [by vm_compute|].
  rewrite (failed_vmentry_halts (plat:=sim) failed_entry_state)
    by (by vm_compute).
  by vm_compute.
Defined.

(** C7 as stated fails: offset 0x304 is 4-byte-aligned, and the access
    is neither resolved nor delegated; it is reported as unhandled and the
    CPU halts without a call of the APIC model. *)
Lemma apic_access_alignment_counterexample :
  u32 (vmread (plat:=sim) aligned4_apic_state VM_EXIT_REASON)
    = EXIT_REASON_APIC_ACCESS /\
  Z.land (vmread (plat:=sim) aligned4_apic_state EXIT_QUALIFICATION)
         APIC_ACCESS_TYPE_MASK = APIC_ACCESS_TYPE_LINEAR_READ /\
  apic_offset (plat:=sim) aligned4_apic_state = 0x304 /\
  apic_offset (plat:=sim) aligned4_apic_state mod 4 = 0 /\
  vmx_handle_exit (plat:=sim) aligned4_apic_state =
    Abort Stopped
      (set_trace
         (Panic_printk "FATAL: Unhandled APIC access, qualification %x"
                       [0x304] ::
          guest_regs_dump (plat:=sim) aligned4_apic_state ++ [Panic_stop])
         aligned4_apic_state) /\
  Forall (fun e => forall args, e <> Call "apic_mmio_access" args)
         (events_of aligned4_apic_state
            (vmx_handle_exit (plat:=sim) aligned4_apic_state)).
Proof.
  repeat (split; [by vm_compute|]).
  set (evs := events_of _ _). vm_compute in evs. subst evs.
  repeat constructor; done.
Qed.

(** C7 (amended) at two exits: offset 0x22 is refused; a read at offset
    0x300 is delegated with register index 0x30 and the guest resumes at
    0x1003 with the model's answer in RAX. *)
Lemma apic_access_alignment_witness :
  exit_reasons_distinct /\
  Z.land EXIT_REASON_APIC_ACCESS EXIT_REASONS_FAILED_VMENTRY = 0 /\
  u32 (vmread (plat:=sim) misaligned_apic_state VM_EXIT_REASON)
    = EXIT_REASON_APIC_ACCESS /\
  Z.land (vmread (plat:=sim) misaligned_apic_state EXIT_QUALIFICATION)
         APIC_ACCESS_TYPE_MASK = APIC_ACCESS_TYPE_LINEAR_READ /\
  apic_offset (plat:=sim) misaligned_apic_state mod 4 <> 0 /\
  u32 (vmread (plat:=sim_apic) aligned16_apic_state VM_EXIT_REASON)
    = EXIT_REASON_APIC_ACCESS /\
  Z.land (vmread (plat:=sim_apic) aligned16_apic_state EXIT_QUALIFICATION)
         APIC_ACCESS_TYPE_MASK = APIC_ACCESS_TYPE_LINEAR_READ /\
  Z.land (apic_offset (plat:=sim_apic) aligned16_apic_state) 0xf = 0 /\
  (apic_delegation (plat:=sim_apic) aligned16_apic_state).1 <> 0 /\
  hw_vmwrite_ok (Platform:=sim_apic) GUEST_RIP
    (ext (apic_delegation (plat:=sim_apic) aligned16_apic_state).2) = true /\
  vmx_handle_exit (plat:=sim) misaligned_apic_state =
    Abort Stopped
      (set_trace
         (Panic_printk "FATAL: Unhandled APIC access, qualification %x"
                       [0x22] ::
          guest_regs_dump (plat:=sim) misaligned_apic_state ++ [Panic_stop])
         misaligned_apic_state) /\
  apic_call (plat:=sim_apic) aligned16_apic_state =
    Call "apic_mmio_access" [0x1000; 0x5000; 0x30; 0] /\
  exists s',
    vmx_handle_exit (plat:=sim_apic) aligned16_apic_state = Done tt s' /\
    rax (guest_regs s') = 0x30 /\
    vmread (plat:=sim_apic) s' GUEST_RIP = 0x1003.
Proof.
  assert (exit_reasons_distinct) as Hnd
    by (apply (bool_decide_unpack _); by vm_compute).
  assert (Z.land EXIT_REASON_APIC_ACCESS EXIT_REASONS_FAILED_VMENTRY = 0)
    as Hgate by (by vm_compute).
  assert (u32 (vmread (plat:=sim) misaligned_apic_state VM_EXIT_REASON)
          = EXIT_REASON_APIC_ACCESS) as Hreason by (by vm_compute).
  assert (Z.land (vmread (plat:=sim) misaligned_apic_state
                    EXIT_QUALIFICATION)
                 APIC_ACCESS_TYPE_MASK = APIC_ACCESS_TYPE_LINEAR_READ)
    as Hty by (by vm_compute).
  assert (apic_offset (plat:=sim) misaligned_apic_state mod 4 <> 0)
    as Hmis by (by vm_compute).
  assert (u32 (vmread (plat:=sim_apic) aligned16_apic_state VM_EXIT_REASON)
          = EXIT_REASON_APIC_ACCESS) as Hreason' by (by vm_compute).
  assert (Z.land (vmread (plat:=sim_apic) aligned16_apic_state
                    EXIT_QUALIFICATION)
                 APIC_ACCESS_TYPE_MASK = APIC_ACCESS_TYPE_LINEAR_READ)
    as Hty' by (by vm_compute).
  assert (Z.land (apic_offset (plat:=sim_apic) aligned16_apic_state) 0xf = 0)
    as Hal by (by vm_compute).
  assert ((apic_delegation (plat:=sim_apic) aligned16_apic_state).1 <> 0)
    as Hlen by (by vm_compute).
  assert (hw_vmwrite_ok (Platform:=sim_apic) GUEST_RIP
            (ext (apic_delegation (plat:=sim_apic) aligned16_apic_state).2)
          = true) as Hok by (by vm_compute).
  split; [exact Hnd|]. split; [exact Hgate|]. split; [exact Hreason|].
  split; [exact Hty|]. split; [exact Hmis|]. split; [exact Hreason'|].
  split; [exact Hty'|]. split; [exact Hal|]. split; [exact Hlen|].
  split; [exact Hok|].
  destruct (apic_access_alignment (plat:=sim) misaligned_apic_state
              Hnd Hreason Hgate (or_introl Hty)) as (Hbits & Hrej & _).
  destruct (apic_access_alignment (plat:=sim_apic) aligned16_apic_state
              Hnd Hreason' Hgate (or_introl Hty')) as (_ & _ & _ & Hdel).
  destruct (Hdel Hal) as (_ & Hacc & _).
  destruct (Hacc Hlen) as (_ & s' & Hrun & Hregs & Hrip).
  split.
  { etrans; [exact (Hrej (Hbits Hmis))|]. vm_compute. reflexivity. }
  split; [vm_compute; reflexivity|].
  exists s'. split; [exact Hrun|]. split.
  - etrans; [exact (f_equal rax Hregs)|]. vm_compute. reflexivity.
  - etrans; [exact (Hrip Hok)|]. vm_compute. reflexivity.
Defined.

(** C9 at a VMCALL from ring 0 with the unknown code 99. *)
Lemma hypercall_skips_vmcall_first_witness :
  hw_vmwrite_ok GUEST_RIP (ext kernel_call_state) = true /\
  rip_field_distinct /\
  hypercall_permitted (plat:=sim) kernel_call_state = true /\
  known_hypercall (rax (guest_regs kernel_call_state)) = false /\
  exists s',
    vmx_handle_hypercall (plat:=sim) kernel_call_state = Done tt s' /\
    vmread (plat:=sim) s' GUEST_RIP =
      u64 (vmread (plat:=sim) kernel_call_state GUEST_RIP +
           X86_INST_LEN_VMCALL) /\
    rax (guest_regs s') = u64 (- ENOSYS).
Proof.
  assert (hw_vmwrite_ok GUEST_RIP (ext kernel_call_state) = true) as Hok
    by (by vm_compute).
  assert rip_field_distinct as Hdist by (by vm_compute).
  assert (hypercall_permitted (plat:=sim) kernel_call_state = true) as Hp
    by (by vm_compute).
  assert (known_hypercall (rax (guest_regs kernel_call_state)) = false)
    as Hunknown by (by vm_compute).
  repeat (split; [done|]).
  exact (proj2 (proj2 (hypercall_skips_vmcall_first (plat:=sim)
                         kernel_call_state Hok Hdist)) Hp Hunknown).
Defined.

(** C3 as stated fails twice.  Code 99 from ring 3 is answered with
    [-EPERM], not [-ENOSYS]; and from ring 0 the answer is [-ENOSYS] but the
    guest RIP has moved from 0x1000 to 0x1003. *)
Lemma unknown_hypercall_counterexample :
  known_hypercall (rax (guest_regs user_call_state)) = false /\
  (exists s',
     vmx_handle_hypercall (plat:=sim) user_call_state = Done tt s' /\
     rax (guest_regs s') = u64 (- EPERM) /\
     rax (guest_regs s') <> u64 (- ENOSYS)) /\
  (exists s',
     vmx_handle_hypercall (plat:=sim) kernel_call_state = Done tt s' /\
     rax (guest_regs s') = u64 (- ENOSYS) /\
     vmread (plat:=sim) kernel_call_state GUEST_RIP = 0x1000 /\
     vmread (plat:=sim) s' GUEST_RIP = 0x1003).
Proof.
  split; [by vm_compute|]. split.
  - set (r := vmx_handle_hypercall (plat:=sim) user_call_state). vm_compute in r.
    subst r. eexists; split; [reflexivity|]. by vm_compute.
  - set (r := vmx_handle_hypercall (plat:=sim) kernel_call_state). vm_compute in r.
    subst r. eexists; split; [reflexivity|]. by vm_compute.
Qed.

(** C3 (amended) at a VMCALL from ring 0 with the unknown code 99. *)
Lemma unknown_hypercall_enosys_witness :
  rip_field_distinct /\
  hypercall_permitted (plat:=sim) kernel_call_state = true /\
  known_hypercall (rax (guest_regs kernel_call_state)) = false /\
  exists evs,
    vmx_handle_hypercall (plat:=sim) kernel_call_state =
      Done tt
        (set_guest_regs
           (set_rax (u64 (- ENOSYS)) (guest_regs kernel_call_state))
           (set_vmcs
              (if hw_vmwrite_ok GUEST_RIP (ext kernel_call_state)
               then <[GUEST_RIP :=
                        u64 (vmread (plat:=sim) kernel_call_state GUEST_RIP
                             + X86_INST_LEN_VMCALL)]>
                      (vmcs kernel_call_state)
               else vmcs kernel_call_state)
              (set_trace (trace kernel_call_state ++ evs)
                         kernel_call_state))) /\
    Forall (console_or_rip (vd:=x86_vmx)) evs.
Proof.
  assert rip_field_distinct as Hdist by (by vm_compute).
  assert (hypercall_permitted (plat:=sim) kernel_call_state = true) as Hp
    by (by vm_compute).
  assert (known_hypercall (rax (guest_regs kernel_call_state)) = false)
    as Hunknown by (by vm_compute).
  repeat (split; [done|]).
  exact (unknown_hypercall_enosys (plat:=sim) kernel_call_state
           Hdist Hp Hunknown).
Defined.

(** C2 as stated fails: when [vmcs_setup] fails after VMXON, the CPU is
    left ON, and the teardown that follows takes it from ON to OFF, which
    is none of the three transitions of the claim. *)
Lemma vmx_state_transitions_counterexample :
  transitions
    (events_of setup_fails_state
       (run_calls (plat:=sim) [Cpu_init; Cpu_exit] setup_fails_state))
    = [(VMXOFF, VMXON); (VMXON, VMXOFF)] /\
  (VMXON, VMXOFF) ∉ life_cycle.
Proof.
  split; [by vm_compute|].
  apply (bool_decide_unpack _). by vm_compute.
Qed.

(** C2 (amended) on two processors.  On the one without HOST_IA32_EFER,
    bring-up, teardown, bring-up again: the bring-up stores OFF to ON
    only, since a write of [vmcs_setup] is refused, and the teardown that
    follows stores ON to OFF.  On the one that accepts every write, the
    bring-up stores OFF to ON and ON to READY, and the teardown READY to
    OFF. *)
Lemma vmx_state_transitions_witness :
  let failed := state_of (run_calls (plat:=sim) [Cpu_init] setup_fails_state) in
  let ready := state_of (run_calls (plat:=sim) [Cpu_init] sim_state0) in
  X86_CR4_VMXE <> 0 /\
  vmxe_consistent setup_fails_state /\
  vmxe_consistent sim_state0 /\
  run_calls (plat:=sim) [Cpu_init] setup_fails_state = Done tt failed /\
  run_calls (plat:=sim) [Cpu_init] sim_state0 = Done tt ready /\
  Forall (.∈ vmx_transitions)
    (transitions
       (events_of setup_fails_state
          (run_calls (plat:=sim) [Cpu_init; Cpu_exit; Cpu_init]
                     setup_fails_state))) /\
  vmcs_made_ready (plat:=sim) setup_fails_state = false /\
  transitions
    (events_of setup_fails_state
       (run_call (plat:=sim) Cpu_init setup_fails_state))
    = [(VMXOFF, VMXON)] /\
  vmx_state (cpu_data failed) = VMXON /\
  transitions (events_of failed (run_call (plat:=sim) Cpu_exit failed))
    = [(VMXON, VMXOFF)] /\
  vmcs_made_ready (plat:=sim) sim_state0 = true /\
  transitions
    (events_of sim_state0 (run_call (plat:=sim) Cpu_init sim_state0))
    = [(VMXOFF, VMXON); (VMXON, VMCS_READY)] /\
  vmx_state (cpu_data ready) = VMCS_READY /\
  transitions (events_of ready (run_call (plat:=sim) Cpu_exit ready))
    = [(VMCS_READY, VMXOFF)].
Proof.
  intros failed ready.
  assert (X86_CR4_VMXE <> 0) as Hvmxe by (by vm_compute).
  assert (vmxe_consistent setup_fails_state) as Hcons
    by (intros Hon; by vm_compute in Hon).
  assert (vmxe_consistent sim_state0) as Hcons0
    by (intros Hon; by vm_compute in Hon).
  assert (run_calls (plat:=sim) [Cpu_init] setup_fails_state
          = Done tt failed) as Hfailed by (vm_compute; reflexivity).
  assert (run_calls (plat:=sim) [Cpu_init] sim_state0 = Done tt ready)
    as Hready by (vm_compute; reflexivity).
  split; [exact Hvmxe|]. split; [exact Hcons|]. split; [exact Hcons0|].
  split; [exact Hfailed|]. split; [exact Hready|].
  destruct (vmx_state_transitions (plat:=sim)
              [Cpu_init; Cpu_exit; Cpu_init] setup_fails_state Hvmxe Hcons)
    as [Hall Hgate].
  destruct (vmx_state_transitions (plat:=sim)
              [Cpu_init; Cpu_exit] sim_state0 Hvmxe Hcons0)
    as [_ Hgate0].
  destruct (Hgate [] Cpu_init [Cpu_exit; Cpu_init] setup_fails_state
              eq_refl eq_refl) as [Hinit Hon].
  destruct (Hgate [Cpu_init] Cpu_exit [Cpu_init] failed eq_refl Hfailed)
    as [Hexit _].
  destruct (Hgate0 [] Cpu_init [Cpu_exit] sim_state0 eq_refl eq_refl)
    as [Hinit0 Hon0].
  destruct (Hgate0 [Cpu_init] Cpu_exit [] ready eq_refl Hready)
    as [Hexit0 _].
  split; [exact Hall|].
  split; [vm_compute; reflexivity|].
  split; [etrans; [exact Hinit|vm_compute; reflexivity]|].
  split; [vm_compute; reflexivity|].
  split; [etrans; [exact Hexit|vm_compute; reflexivity]|].
  split; [vm_compute; reflexivity|].
  split; [etrans; [exact Hinit0|vm_compute; reflexivity]|].
  split; [vm_compute; reflexivity|].
  etrans; [exact Hexit0|vm_compute; reflexivity].
Defined.

(** C6 as stated fails: with VMX already on and a VMCS larger than a
    page, the answer is [-EBUSY], not the [-EIO] of a missing
    capability. *)
Lemma vmx_cpu_init_errors_counterexample :
  capabilities_ok busy_state = false /\
  vmx_cpu_init (plat:=sim) busy_state = Done (- EBUSY) busy_state /\
  - EBUSY <> - EIO.
Proof. repeat split; by vm_compute. Qed.

(** C6 (amended) on three CPUs: VMX already on, a VMCS larger than a page,
    and a locked feature-control MSR. *)
Lemma vmx_cpu_init_errors_witness :
  truthy (Z.land (cpuid_ecx (plat:=sim) 1) X86_FEATURE_VMX) = true /\
  vmx_cpu_init (plat:=sim) busy_state = Done (- EBUSY) busy_state /\
  (exists s',
     vmx_cpu_init (plat:=sim) oversized_vmcs_state = Done (- EIO) s') /\
  (exists s', vmx_cpu_init (plat:=sim) locked_state = Done (- ENODEV) s').
Proof.
  assert (truthy (Z.land (cpuid_ecx (plat:=sim) 1) X86_FEATURE_VMX) = true)
    as Hvmx by (by vm_compute).
  split; [done|]. split; [|split].
  - apply (proj1 (vmx_cpu_init_errors (plat:=sim) busy_state Hvmx)).
    by vm_compute.
  - destruct (proj1 (proj2 (vmx_cpu_init_errors (plat:=sim)
                              oversized_vmcs_state Hvmx)))
      as (s' & Hrun & _); [by vm_compute..|].
    by exists s'.
  - destruct (proj2 (proj2 (vmx_cpu_init_errors (plat:=sim)
                              locked_state Hvmx)))
      as (s' & Hrun & _); [by vm_compute..|].
    by exists s'.
Defined.

(** C5 on a one-byte cell bitmap against a two-byte root bitmap. *)
Lemma vmx_cell_exit_ports_witness :
  load_cell (plat:=sim) (Cell_at 0x300000) ports_state = Done exiting_cell ports_state /\
  Z.min (pio_bitmap_size (config exiting_cell))
        (pio_bitmap_size (config (linux_cell ports_state)))
    <= Z.of_nat (length (vmx_io_bitmap (linux_cell ports_state))) /\
  exists s',
    vmx_cell_exit (plat:=sim) (Cell_at 0x300000) ports_state = Done tt s' /\
    forall port,
      0 <= port <
        8 * Z.min (pio_bitmap_size (config exiting_cell))
                  (pio_bitmap_size (config (linux_cell ports_state))) ->
      port_accessible (vmx_io_bitmap (linux_cell s')) port =
        port_accessible (vmx_io_bitmap (linux_cell ports_state)) port ||
        (port_accessible (pio_bitmap (config exiting_cell)) port &&
         port_accessible (pio_bitmap (config (linux_cell ports_state)))
                         port).
Proof.
  assert (load_cell (plat:=sim) (Cell_at 0x300000) ports_state
          = Done exiting_cell ports_state) as Hload by (by vm_compute).
  assert (Z.min (pio_bitmap_size (config exiting_cell))
                (pio_bitmap_size (config (linux_cell ports_state)))
          <= Z.of_nat (length (vmx_io_bitmap (linux_cell ports_state))))
    as Hlen by (by vm_compute).
  repeat (split; [done|]).
  exact (vmx_cell_exit_ports (plat:=sim) _ _ _ Hload Hlen).
Defined.

(** C10 with one unit, 16 domain ids and a cell of id 16. *)
Lemma vtd_cell_init_erange_witness :
  load_cell (plat:=sim) (Cell_at 0x300000) one_unit_state
    = Done (sim_cell 16 no_config []) one_unit_state /\
  dmar_units one_unit_state <> 0 /\
  dmar_num_did one_unit_state <= cell_id (sim_cell 16 no_config []) /\
  vtd_cell_init (plat:=sim) 8 (Cell_at 0x300000) one_unit_state
    = Done (- ERANGE) one_unit_state.
Proof.
  assert (load_cell (plat:=sim) (Cell_at 0x300000) one_unit_state
          = Done (sim_cell 16 no_config []) one_unit_state) as Hload
    by (by vm_compute).
  assert (dmar_units one_unit_state <> 0) as Hunits by (by vm_compute).
  assert (dmar_num_did one_unit_state <= cell_id (sim_cell 16 no_config []))
    as Hid by (by vm_compute).
  repeat (split; [done|]).
  exact (vtd_cell_init_erange (plat:=sim) 8 _ _ _ Hload Hunits Hid).
Defined.

(** C4 as stated fails: on a DMAR table that is present and lists no
    remapping hardware unit, discovery finds zero units and [vtd_init]
    returns [-EIO], not success. *)
Lemma vtd_noop_without_units_counterexample :
  acpi_find_table (Platform:=sim) "DMAR" (ext no_drhd_state)
    = Some no_drhd_table /\
  exists s',
    vtd_init (plat:=sim) 8 no_drhd_state = Done (- EIO) s' /\
    dmar_units s' = 0 /\
    - EIO <> 0.
Proof.
  split; [done|].
  set (r := vtd_init (plat:=sim) 8 no_drhd_state). vm_compute in r. subst r.
  eexists; split; [reflexivity|]. by vm_compute.
Qed.

(** With no unit discovered, [vtd_cell_exit] is not guarded the way
    [vtd_cell_init] is: it still hands the cell's domain page table, which
    was never allocated, to [page_free]. *)
Lemma vtd_cell_exit_without_units :
  dmar_units no_unit_state = 0 /\
  exists s',
    vtd_cell_exit (plat:=sim) 8 (Cell_at 0x300000) no_unit_state
      = Done tt s' /\
    sim_freed (ext s') = [0] /\
    events_of no_unit_state
      (vtd_cell_exit (plat:=sim) 8 (Cell_at 0x300000) no_unit_state)
      = [Call "page_free" [0; 1]].
Proof.
  split; [done|].
  set (r := vtd_cell_exit (plat:=sim) 8 (Cell_at 0x300000) no_unit_state).
  vm_compute in r. subst r.
  eexists; split; [reflexivity|]. by vm_compute.
Qed.

(** C4 (amended) on a machine without a DMAR table. *)
Lemma vtd_noop_without_units_witness :
  dmar_units no_unit_state = 0 /\
  load_cell (plat:=sim) (Cell_at 0x300000) no_unit_state
    = Done (sim_cell 1 no_config []) no_unit_state /\
  vtd_cell_init (plat:=sim) 8 (Cell_at 0x300000) no_unit_state
    = Done 0 no_unit_state /\
  vtd_init (plat:=sim) 8 no_unit_state =
    Done 0 (set_trace
              (trace no_unit_state ++
               [Call "acpi_find_table" [];
                Printk "WARNING: No VT-d support found!" []])
              no_unit_state).
Proof.
  assert (dmar_units no_unit_state = 0) as Hunits by done.
  assert (load_cell (plat:=sim) (Cell_at 0x300000) no_unit_state
          = Done (sim_cell 1 no_config []) no_unit_state) as Hload
    by (by vm_compute).
  repeat (split; [done|]).
  destruct (vtd_noop_without_units (plat:=sim) 8 (Cell_at 0x300000) _
              {| phys_start := 0; virt_start := 0; mem_size := 4096;
                 access_flags := 0 |} no_unit_state Hunits Hload)
    as (Hinit & Hcell & _).
  try (split; [exact Hcell|]). apply Hinit. by vm_compute.
Defined.
End Concrete.

(** * Further runs on the concrete machine *)

Section Concrete_more.
#[local] Existing Instance x86_generic.
#[local] Existing Instance x86_processor.
#[local] Existing Instance x86_vmx.
#[local] Existing Instance x86_vtd.
#[local] Existing Instance x86_percpu.
#[local] Existing Instance x86_msr_bitmap.

#[local] Open Scope string_scope.
#[local] Open Scope list_scope.
#[local] Open Scope Z_scope.

#[local] Ltac computed :=
  vm_compute; repeat split; first [reflexivity | discriminate].
#[local] Ltac by_decision := apply (bool_decide_unpack _); computed.
#[local] Tactic Notation "give" constr(H) := split; [exact H|].

(** X1 at a HLT exit, reason 12. *)
Lemma unhandled_exit_halts_witness :
  Z.land (u32 (vmread (plat:=sim) hlt_exit_state VM_EXIT_REASON))
         EXIT_REASONS_FAILED_VMENTRY = 0 /\
  (u32 (vmread (plat:=sim) hlt_exit_state VM_EXIT_REASON)
     ∉ handled_exit_reasons) /\
  vmx_handle_exit (plat:=sim) hlt_exit_state =
    Abort Stopped
      (set_trace
         (Panic_printk "FATAL: Unhandled VM-Exit, reason %d, " [12] ::
          vm_exit_details (plat:=sim) hlt_exit_state 12 ++
          guest_regs_dump (plat:=sim) hlt_exit_state ++ [Panic_stop])
         hlt_exit_state).
Proof.
  assert (Z.land (u32 (vmread (plat:=sim) hlt_exit_state VM_EXIT_REASON))
                 EXIT_REASONS_FAILED_VMENTRY = 0) as Hgate
    by computed.
  assert (u32 (vmread (plat:=sim) hlt_exit_state VM_EXIT_REASON)
            ∉ handled_exit_reasons) as Hnone by by_decision.
  give Hgate. give Hnone.
  rewrite (unhandled_exit_halts (plat:=sim) hlt_exit_state Hgate Hnone).
  computed.
Defined.


(** X3 at a MOV from CR0. *)
Lemma unhandled_cr_access_halts_witness :
  exit_reasons_distinct /\
  Z.land EXIT_REASON_CR_ACCESS EXIT_REASONS_FAILED_VMENTRY = 0 /\
  u32 (vmread (plat:=sim) mov_from_cr_state VM_EXIT_REASON)
    = EXIT_REASON_CR_ACCESS /\
  Z.land (Z.shiftr (vmread (plat:=sim) mov_from_cr_state
                      EXIT_QUALIFICATION) 4) 3 <> 0 /\
  vmx_handle_exit (plat:=sim) mov_from_cr_state =
    Abort Stopped
      (set_trace
         (Panic_printk "FATAL: Unhandled CR access, qualification %x"
                       [0x10] ::
          guest_regs_dump (plat:=sim) mov_from_cr_state ++ [Panic_stop])
         mov_from_cr_state).
Proof.
  assert exit_reasons_distinct as Hnd by by_decision.
  assert (Z.land EXIT_REASON_CR_ACCESS EXIT_REASONS_FAILED_VMENTRY = 0)
    as Hgate by computed.
  assert (u32 (vmread (plat:=sim) mov_from_cr_state VM_EXIT_REASON)
          = EXIT_REASON_CR_ACCESS) as Hreason by computed.
  assert (Z.land (Z.shiftr (vmread (plat:=sim) mov_from_cr_state
                              EXIT_QUALIFICATION) 4) 3 <> 0) as Hty
    by computed.
  give Hnd. give Hgate. give Hreason. give Hty.
  rewrite (unhandled_cr_access_halts (plat:=sim) mov_from_cr_state
             Hnd Hgate Hreason (or_introl Hty)).
  computed.
Defined.

(** X4 at XCR0 = 7 (x87, SSE, AVX) on a processor that reports these
    three, and at XCR0 = 6, which drops the x87 bit. *)
Lemma xsetbv_validated_witness :
  exit_reasons_distinct /\
  Z.land EXIT_REASON_XSETBV EXIT_REASONS_FAILED_VMENTRY = 0 /\
  u32 (vmread (plat:=sim_xsave) (xsetbv_state 7) VM_EXIT_REASON)
    = EXIT_REASON_XSETBV /\
  xsetbv_valid (plat:=sim_xsave) (xsetbv_state 7) = true /\
  u32 (vmread (plat:=sim_xsave) (xsetbv_state 6) VM_EXIT_REASON)
    = EXIT_REASON_XSETBV /\
  xsetbv_valid (plat:=sim_xsave) (xsetbv_state 6) = false /\
  (exists s',
     vmx_handle_exit (plat:=sim_xsave) (xsetbv_state 7) = Done tt s' /\
     guest_regs s' = guest_regs (xsetbv_state 7) /\
     Insn "xsetbv" [rax (guest_regs (xsetbv_state 7)); 0; 0]
       ∈ events_of (xsetbv_state 7)
           (vmx_handle_exit (plat:=sim_xsave) (xsetbv_state 7))) /\
  (exists s',
     vmx_handle_exit (plat:=sim_xsave) (xsetbv_state 6)
       = Abort Stopped s' /\
     Forall (fun e => forall ops, e <> Insn "xsetbv" ops)
            (events_of (xsetbv_state 6)
               (vmx_handle_exit (plat:=sim_xsave) (xsetbv_state 6)))).
Proof.
  assert exit_reasons_distinct as Hnd by by_decision.
  assert (Z.land EXIT_REASON_XSETBV EXIT_REASONS_FAILED_VMENTRY = 0)
    as Hgate by computed.
  assert (u32 (vmread (plat:=sim_xsave) (xsetbv_state 7) VM_EXIT_REASON)
          = EXIT_REASON_XSETBV) as Hr7 by computed.
  assert (xsetbv_valid (plat:=sim_xsave) (xsetbv_state 7) = true)
    as Hv7 by computed.
  assert (u32 (vmread (plat:=sim_xsave) (xsetbv_state 6) VM_EXIT_REASON)
          = EXIT_REASON_XSETBV) as Hr6 by computed.
  assert (xsetbv_valid (plat:=sim_xsave) (xsetbv_state 6) = false)
    as Hv6 by computed.
  give Hnd. give Hgate. give Hr7. give Hv7. give Hr6. give Hv6.
  split.
  - exact (proj1 (xsetbv_validated (plat:=sim_xsave) (xsetbv_state 7)
                    Hnd Hgate Hr7) Hv7).
  - exact (proj2 (xsetbv_validated (plat:=sim_xsave) (xsetbv_state 6)
                    Hnd Hgate Hr6) Hv6).
Defined.

(** X5 at CPUID leaf 1 with garbage in the high half of RAX. *)
Lemma cpuid_exit_emulated_witness :
  exit_reasons_distinct /\
  Z.land EXIT_REASON_CPUID EXIT_REASONS_FAILED_VMENTRY = 0 /\
  u32 (vmread (plat:=sim) cpuid_exit_state VM_EXIT_REASON)
    = EXIT_REASON_CPUID /\
  exists s',
    vmx_handle_exit (plat:=sim) cpuid_exit_state = Done tt s' /\
    guest_regs s' =
      set_rax 0 (set_rbx 0 (set_rcx 0x20
        (set_rdx 0 (guest_regs cpuid_exit_state)))) /\
    vmread (plat:=sim) s' GUEST_RIP = 0x1002.
Proof.
  assert exit_reasons_distinct as Hnd by by_decision.
  assert (Z.land EXIT_REASON_CPUID EXIT_REASONS_FAILED_VMENTRY = 0)
    as Hgate by computed.
  assert (u32 (vmread (plat:=sim) cpuid_exit_state VM_EXIT_REASON)
          = EXIT_REASON_CPUID) as Hreason by computed.
  give Hnd. give Hgate. give Hreason.
  destruct (cpuid_exit_emulated (plat:=sim) cpuid_exit_state
              Hnd Hgate Hreason) as (s' & Hrun & Hregs & Hrip).
  exists s'. split; [done|]. split.
  - exact Hregs.
  - rewrite Hrip by computed. computed.
Defined.

(** X6 at CR0 = PG | PE on a processor with fixed bits: the guest reads
    back 0x80000001, the processor runs with 0x80000031 (NE and ET
    added), and the two agree outside the host's mask, which owns NE, ET,
    NW, CD and the upper half. *)
Lemma guest_cr_reads_back_witness :
  (forall f, hw_vmwrite_ok (Platform:=sim) f (ext fixed_bits_state) = true) /\
  NoDup [GUEST_CR0; CR0_READ_SHADOW; CR0_GUEST_HOST_MASK] /\
  exists s',
    vmx_set_guest_cr (plat:=sim) 0 0x80000001 fixed_bits_state
      = Done true s' /\
    vmread (plat:=sim) s' CR0_READ_SHADOW = 0x80000001 /\
    vmread (plat:=sim) s' GUEST_CR0 = 0x80000031 /\
    vmread (plat:=sim) s' CR0_GUEST_HOST_MASK = 0xffffffff60000030 /\
    forall i, 0 <= i < 64 ->
      Z.testbit (vmread (plat:=sim) s' CR0_GUEST_HOST_MASK) i = false ->
      Z.testbit (vmread (plat:=sim) s' GUEST_CR0) i =
        Z.testbit (vmread (plat:=sim) s' CR0_READ_SHADOW) i.
Proof.
  assert (forall f,
            hw_vmwrite_ok (Platform:=sim) f (ext fixed_bits_state) = true)
    as Hok by (intros f; reflexivity).
  assert (NoDup [GUEST_CR0; CR0_READ_SHADOW; CR0_GUEST_HOST_MASK]) as Hnd
    by by_decision.
  give Hok. give Hnd.
  destruct (guest_cr_reads_back (plat:=sim) 0 0x80000001 fixed_bits_state
              Hok Hnd) as (s' & Hrun & Hshadow & Hbits).
  exists s'. give Hrun. give Hshadow.
  assert (Done true s'
          = vmx_set_guest_cr (plat:=sim) 0 0x80000001 fixed_bits_state)
    as Hs' by (symmetry; exact Hrun).
  split; [|split; [|exact Hbits]].
  all: vm_compute in Hs'; injection Hs' as ->; computed.
Defined.

(** X7 at a MOV of PG | PE to CR0 with EFER.LME set: long mode is
    activated. *)
Lemma mov_to_cr0_long_mode_witness :
  (forall f,
     hw_vmwrite_ok (Platform:=sim) f (ext enable_paging_state) = true) /\
  NoDup [GUEST_RIP; GUEST_CR0; CR0_READ_SHADOW; CR0_GUEST_HOST_MASK;
         GUEST_IA32_EFER; VM_ENTRY_CONTROLS] /\
  Z.land (Z.shiftr (vmread (plat:=sim) enable_paging_state
                      EXIT_QUALIFICATION) 4) 3 = 0 /\
  Z.land (vmread (plat:=sim) enable_paging_state EXIT_QUALIFICATION) 0xf
    = 0 /\
  exists s',
    vmx_handle_cr (plat:=sim) enable_paging_state = Done true s' /\
    vmread (plat:=sim) s' GUEST_RIP = 0x1003 /\
    vmread (plat:=sim) s' CR0_READ_SHADOW = 0x80000001 /\
    vmread (plat:=sim) s' GUEST_IA32_EFER = 0x500 /\
    vmread (plat:=sim) s' VM_ENTRY_CONTROLS = 0x200.
Proof.
  assert (forall f,
            hw_vmwrite_ok (Platform:=sim) f (ext enable_paging_state) = true)
    as Hok by (intros f; reflexivity).
  assert (NoDup [GUEST_RIP; GUEST_CR0; CR0_READ_SHADOW; CR0_GUEST_HOST_MASK;
                 GUEST_IA32_EFER; VM_ENTRY_CONTROLS]) as Hnd by by_decision.
  assert (Z.land (Z.shiftr (vmread (plat:=sim) enable_paging_state
                              EXIT_QUALIFICATION) 4) 3 = 0) as Hty
    by computed.
  assert (Z.land (vmread (plat:=sim) enable_paging_state EXIT_QUALIFICATION)
                 0xf = 0) as Hcr by computed.
  give Hok. give Hnd. give Hty. give Hcr.
  destruct (mov_to_cr0_long_mode (plat:=sim) enable_paging_state
              Hok Hnd Hty Hcr) as (s' & Hrun & Hrip & Hsh & Hefer & Hctl).
  exists s'. split; [done|].
  rewrite Hrip, Hsh, Hefer, Hctl. computed.
Defined.
(** X8 at a new cell whose configuration opens ports 0..3 only. *)
Lemma vmx_cell_init_ports_witness :
  let cell := Cell_at 0x300000 in
  let c := sim_cell 1 {| name := "cell"; mem_regions := [];
                         pci_devices := []; pio_bitmap := [0xf0] |}
                    (replicate (Z.to_nat 8192) 0) in
  let s' := state_of (vmx_cell_init (plat:=sim) cell new_cell_state) in
  load_cell (plat:=sim) cell new_cell_state = Done c new_cell_state /\
  Z.of_nat (length (vmx_io_bitmap c)) = 2 * PAGE_SIZE /\
  ENOMEM <> 0 /\
  vmx_cell_init (plat:=sim) cell new_cell_state = Done 0 s' /\
  exists c',
    load_cell (plat:=sim) cell s' = Done c' s' /\
    config c' = config c /\
    forall port,
      0 <= port < 16 * PAGE_SIZE ->
      port_accessible (vmx_io_bitmap c') port =
        port_accessible (pio_bitmap (config c)) port.
Proof.
  intros cell c s'.
  assert (load_cell (plat:=sim) cell new_cell_state = Done c new_cell_state) as Hload
    by computed.
  assert (Z.of_nat (length (vmx_io_bitmap c)) = 2 * PAGE_SIZE) as Hlen
    by computed.
  assert (ENOMEM <> 0) as Herr by computed.
  assert (vmx_cell_init (plat:=sim) cell new_cell_state = Done 0 s')
    as Hrun by computed.
  give Hload. give Hlen. give Herr. give Hrun.
  exact (vmx_cell_init_ports (plat:=sim) cell c new_cell_state s'
           Hload Hlen Herr Hrun).
Defined.

(** X9 at the root cell of [fresh_ports_state], which has ports 2..7
    open, giving up the ports 0..3 of [exiting_cell]: its first bitmap
    byte goes from 0x03 to 0x0f, so it loses ports 2 and 3 and keeps
    4..7. *)
Lemma vmx_linux_cell_shrink_ports_witness :
  let cfg := config exiting_cell in
  let s := fresh_ports_state in
  let s' := state_of (vmx_linux_cell_shrink (plat:=sim) cfg s) in
  vmx_linux_cell_shrink (plat:=sim) cfg s = Done tt s' /\
  vmx_io_bitmap (linux_cell s) = [0x03; 0xff] /\
  vmx_io_bitmap (linux_cell s') = [0x0f; 0xff] /\
  port_accessible (vmx_io_bitmap (linux_cell s)) 2 = true /\
  port_accessible (vmx_io_bitmap (linux_cell s')) 2 = false /\
  port_accessible (vmx_io_bitmap (linux_cell s')) 4 = true /\
  forall port,
    0 <= port ->
    port_accessible (vmx_io_bitmap (linux_cell s')) port =
      port_accessible (vmx_io_bitmap (linux_cell s)) port &&
      negb (port_accessible (pio_bitmap cfg) port).
Proof.
  intros cfg s s'.
  assert (vmx_linux_cell_shrink (plat:=sim) cfg s = Done tt s')
    as Hrun by computed.
  give Hrun.
  split; [computed|]. split; [computed|]. split; [computed|].
  pose proof (vmx_linux_cell_shrink_ports (plat:=sim) cfg s s' Hrun)
    as Hports.
  split; [etrans; [exact (Hports 2 ltac:(discriminate))|computed]|].
  split; [etrans; [exact (Hports 4 ltac:(discriminate))|computed]|].
  exact Hports.
Defined.

(** X10 at the root cell of [fresh_ports_state]: ports 2..3 go to the
    cell and come back. *)
Lemma shrink_exit_restores_ports_witness :
  let a := 0x300000 in
  let c := exiting_cell in
  let s := fresh_ports_state in
  let s1 := state_of (vmx_linux_cell_shrink (plat:=sim) (config c) s) in
  let s2 := state_of (vmx_cell_exit (plat:=sim) (Cell_at a) s1) in
  cells s !! a = Some c /\
  (length (pio_bitmap (config c))
   <= length (pio_bitmap (config (linux_cell s))))%nat /\
  (length (pio_bitmap (config c))
   <= length (vmx_io_bitmap (linux_cell s)))%nat /\
  take (length (pio_bitmap (config c))) (vmx_io_bitmap (linux_cell s)) =
    take (length (pio_bitmap (config c)))
         (pio_bitmap (config (linux_cell s))) /\
  Forall is_byte (pio_bitmap (config (linux_cell s))) /\
  vmx_linux_cell_shrink (plat:=sim) (config c) s = Done tt s1 /\
  vmx_cell_exit (plat:=sim) (Cell_at a) s1 = Done tt s2 /\
  vmx_io_bitmap (linux_cell s1) = [0x0f; 0xff] /\
  vmx_io_bitmap (linux_cell s2) = vmx_io_bitmap (linux_cell s).
Proof.
  intros a c s s1 s2.
  assert (cells s !! a = Some c) as Hcell by computed.
  assert (length (pio_bitmap (config c))
          <= length (pio_bitmap (config (linux_cell s))))%nat as Hl1
    by (vm_compute; lia).
  assert (length (pio_bitmap (config c))
          <= length (vmx_io_bitmap (linux_cell s)))%nat as Hl2
    by (vm_compute; lia).
  assert (take (length (pio_bitmap (config c)))
               (vmx_io_bitmap (linux_cell s)) =
          take (length (pio_bitmap (config c)))
               (pio_bitmap (config (linux_cell s)))) as Hsame
    by computed.
  assert (Forall is_byte (pio_bitmap (config (linux_cell s)))) as Hbytes
    by (repeat constructor; unfold is_byte; lia).
  assert (vmx_linux_cell_shrink (plat:=sim) (config c) s = Done tt s1)
    as Hshrink by computed.
  assert (vmx_cell_exit (plat:=sim) (Cell_at a) s1 = Done tt s2)
    as Hexit by computed.
  give Hcell. give Hl1. give Hl2. give Hsame. give Hbytes. give Hshrink.
  give Hexit.
  split; [computed|].
  exact (shrink_exit_restores_ports (plat:=sim) a c s s1 s2
           Hcell Hl1 Hl2 Hsame Hbytes Hshrink Hexit).
Defined.

(** X11 at the CPU of [sim_state0], on which every step succeeds. *)
Lemma vmx_cpu_init_success_witness :
  let s' := state_of (vmx_cpu_init (plat:=sim) sim_state0) in
  EIO <> 0 /\ ENODEV <> 0 /\ EBUSY <> 0 /\
  vmx_cpu_init (plat:=sim) sim_state0 = Done 0 s' /\
  vmx_state (cpu_data s') = VMCS_READY /\
  cr4 s' = 0x2020 /\
  default 0 (msrs s' !! MSR_IA32_FEATURE_CONTROL) = 5 /\
  revision_id (vmxon_region (cpu_data s')) = 0x12 /\
  revision_id (vmcs_region (cpu_data s')) = 0x12.
Proof.
  intros s'.
  assert (EIO <> 0) as H1 by computed.
  assert (ENODEV <> 0) as H2 by computed.
  assert (EBUSY <> 0) as H3 by computed.
  assert (vmx_cpu_init (plat:=sim) sim_state0 = Done 0 s') as Hrun
    by computed.
  give H1. give H2. give H3. give Hrun.
  destruct (vmx_cpu_init_success (plat:=sim) sim_state0 s' H1 H2 H3 Hrun)
    as (_ & _ & _ & _ & Hst & Hcr4 & _ & Hon & Hcs).
  rewrite Hst, Hcr4, Hon, Hcs. computed.
Defined.

(** X12 on a processor that passes every test and then refuses VMXON. *)
Lemma vmx_cpu_init_vmxon_refused_witness :
  let s := vmxon_refused_state in
  truthy (Z.land (cpuid_ecx (plat:=sim) 1) X86_FEATURE_VMX) = true /\
  truthy (Z.land (cr4 s) X86_CR4_VMXE) = false /\
  capabilities_ok (plat:=sim) s = true /\
  feature_control_locked_out (plat:=sim) s = false /\
  (hw_vmxon (Platform:=sim)
     (page_map_hvirt2phys (Platform:=sim) (region_addr (vmxon_region (cpu_data s))))
     (ext s)).1 = false /\
  exists s',
    vmx_cpu_init (plat:=sim) s = Done (- EIO) s' /\
    cr4 s' = cr4 s /\
    vmx_state (cpu_data s') = vmx_state (cpu_data s) /\
    transitions (events_of s (vmx_cpu_init (plat:=sim) s)) = [].
Proof.
  intros s.
  assert (truthy (Z.land (cpuid_ecx (plat:=sim) 1) X86_FEATURE_VMX) = true)
    as H1 by computed.
  assert (truthy (Z.land (cr4 s) X86_CR4_VMXE) = false) as H2
    by computed.
  assert (capabilities_ok (plat:=sim) s = true) as H3 by computed.
  assert (feature_control_locked_out (plat:=sim) s = false) as H4
    by computed.
  assert ((hw_vmxon (Platform:=sim)
             (page_map_hvirt2phys (Platform:=sim) (region_addr (vmxon_region (cpu_data s))))
             (ext s)).1 = false) as H5 by computed.
  give H1. give H2. give H3. give H4. give H5.
  exact (vmx_cpu_init_vmxon_refused (plat:=sim) s H1 H2 H3 H4 H5).
Defined.

(** X13 at the CPU of [sim_state0], whose CR4 is 0x20. *)
Lemma vmx_cpu_init_exit_round_trip_witness :
  vmx_state (cpu_data sim_state0) = VMXOFF /\
  0 <= cr4 sim_state0 < 2 ^ 64 /\
  exists s2,
    vmx_cpu_exit (plat:=sim)
      (state_of (vmx_cpu_init (plat:=sim) sim_state0)) = Done tt s2 /\
    vmx_state (cpu_data s2) = VMXOFF /\
    cr4 s2 = cr4 sim_state0.
Proof.
  assert (vmx_state (cpu_data sim_state0) = VMXOFF) as Hoff
    by computed.
  assert (0 <= cr4 sim_state0 < 2 ^ 64) as Hcr4 by computed.
  give Hoff. give Hcr4.
  exact (vmx_cpu_init_exit_round_trip (plat:=sim) sim_state0 Hoff Hcr4).
Defined.

(** X14 on a CPU in state OFF: the timer bit is written all the same. *)
Lemma vmx_schedule_vmexit_arms_witness :
  vmx_state (cpu_data sim_state0) = VMXOFF /\
  vmx_state_value VMCS_READY <> 0 /\
  vmx_state_value VMCS_READY <> 1 /\
  hw_vmwrite_ok (Platform:=sim) PIN_BASED_VM_EXEC_CONTROL (ext sim_state0)
    = true /\
  exists s',
    vmx_schedule_vmexit (plat:=sim) sim_state0 = Done tt s' /\
    vmread (plat:=sim) s' PIN_BASED_VM_EXEC_CONTROL = 0x40 /\
    events_of sim_state0 (vmx_schedule_vmexit (plat:=sim) sim_state0) =
      [Insn "vmwrite" [PIN_BASED_VM_EXEC_CONTROL; 0x40]].
Proof.
  assert (vmx_state_value VMCS_READY <> 0) as H0 by computed.
  assert (vmx_state_value VMCS_READY <> 1) as H1 by computed.
  assert (hw_vmwrite_ok (Platform:=sim) PIN_BASED_VM_EXEC_CONTROL
            (ext sim_state0) = true) as Hok by computed.
  split; [computed|].
  give H0. give H1. give Hok.
  destruct (vmx_schedule_vmexit_arms (plat:=sim) sim_state0 H0 H1 Hok)
    as (s' & Hrun & Hpin & Hev).
  exists s'. split; [exact Hrun|].
  split; (etrans; [eassumption|computed]).
Defined.

(** X15 at the bitmap of the initializer. *)
Lemma vmx_init_x2apic_witness :
  let rrow := default [] (msr_bitmap_init !! VMX_MSR_BITMAP_0000_READ) in
  let wrow := default [] (msr_bitmap_init !! VMX_MSR_BITMAP_0000_WRITE) in
  msr_bitmap_init !! VMX_MSR_BITMAP_0000_READ = Some rrow /\
  msr_bitmap_init !! VMX_MSR_BITMAP_0000_WRITE = Some wrow /\
  VMX_MSR_BITMAP_0000_READ <> VMX_MSR_BITMAP_0000_WRITE /\
  0 <= MSR_X2APIC_BASE /\
  MSR_X2APIC_BASE mod 8 = 0 /\
  (MSR_X2APIC_END + 1) mod 8 = 0 /\
  MSR_X2APIC_BASE <= MSR_X2APIC_ICR <= MSR_X2APIC_END /\
  MSR_X2APIC_ICR mod 8 = 0 /\
  MSR_X2APIC_END / 8 < Z.of_nat (length rrow) /\
  MSR_X2APIC_END / 8 < Z.of_nat (length wrow) /\
  msr_intercepted msr_bitmap_init VMX_MSR_BITMAP_0000_READ 0x802 = true /\
  exists msr_bitmap',
    vmx_init true msr_bitmap_init = Some msr_bitmap' /\
    (forall msr,
       MSR_X2APIC_BASE <= msr <= MSR_X2APIC_END ->
       msr_intercepted msr_bitmap' VMX_MSR_BITMAP_0000_READ msr = false /\
       msr_intercepted msr_bitmap' VMX_MSR_BITMAP_0000_WRITE msr
         = bool_decide (msr = MSR_X2APIC_ICR)) /\
    (forall msr,
       0 <= msr -> ~ (MSR_X2APIC_BASE <= msr <= MSR_X2APIC_END) ->
       msr_intercepted msr_bitmap' VMX_MSR_BITMAP_0000_READ msr
         = msr_intercepted msr_bitmap_init VMX_MSR_BITMAP_0000_READ msr /\
       msr_intercepted msr_bitmap' VMX_MSR_BITMAP_0000_WRITE msr
         = msr_intercepted msr_bitmap_init VMX_MSR_BITMAP_0000_WRITE msr).
Proof.
  intros rrow wrow.
  assert (msr_bitmap_init !! VMX_MSR_BITMAP_0000_READ = Some rrow) as Hr
    by computed.
  assert (msr_bitmap_init !! VMX_MSR_BITMAP_0000_WRITE = Some wrow) as Hw
    by computed.
  assert (VMX_MSR_BITMAP_0000_READ <> VMX_MSR_BITMAP_0000_WRITE) as Hne
    by computed.
  assert (0 <= MSR_X2APIC_BASE) as H0 by computed.
  assert (MSR_X2APIC_BASE mod 8 = 0) as H1 by computed.
  assert ((MSR_X2APIC_END + 1) mod 8 = 0) as H2 by computed.
  assert (MSR_X2APIC_BASE <= MSR_X2APIC_ICR <= MSR_X2APIC_END) as H3
    by computed.
  assert (MSR_X2APIC_ICR mod 8 = 0) as H4 by computed.
  assert (MSR_X2APIC_END / 8 < Z.of_nat (length rrow)) as H5
    by computed.
  assert (MSR_X2APIC_END / 8 < Z.of_nat (length wrow)) as H6
    by computed.
  give Hr. give Hw. give Hne. give H0. give H1. give H2. give H3. give H4.
  give H5. give H6.
  split; [computed|].
  exact (vmx_init_x2apic msr_bitmap_init rrow wrow
           Hr Hw Hne H0 H1 H2 H3 H4 H5 H6).
Defined.

(** X16 at three regions of which the second is closed to DMA. *)
Lemma vtd_maps_dma_regions_only_witness :
  let cell := Cell_at 0x300000 in
  let c := sim_cell 5 no_config [] in
  let s := unit_ready_state in
  let s' := state_of (for_each_err three_regions
                        (vtd_map_memory_region (plat:=sim) cell) s) in
  dmar_units s <> 0 /\
  load_cell (plat:=sim) cell s = Done c s /\
  for_each_err three_regions (vtd_map_memory_region (plat:=sim) cell) s
    = Done 0 s' /\
  world_step s s' /\
  trace s' =
    [Call "page_map_create" [0; 0x1000000; 0x100000; 0; 3; 3; 3; 0];
     Call "page_map_create" [0; 0x3000000; 0x2000; 0x200000; 1; 3; 3; 0]].
Proof.
  intros cell c s s'.
  assert (dmar_units s <> 0) as Hunits by computed.
  assert (load_cell (plat:=sim) cell s = Done c s) as Hload by computed.
  assert (for_each_err three_regions
            (vtd_map_memory_region (plat:=sim) cell) s = Done 0 s')
    as Hrun by computed.
  give Hunits. give Hload. give Hrun.
  destruct (vtd_maps_dma_regions_only (plat:=sim) cell c three_regions s s'
              Hunits Hload Hrun) as [Hstep Htrace].
  split; [done|]. rewrite Htrace. computed.
Defined.

(** X18 at the one device of bus 0: the first call frees the context
    table and clears the root entry, the second changes nothing. *)
Lemma vtd_remove_device_idempotent_witness :
  let cell := Cell_at 0x300000 in
  let e := {| lo_word := 0x200001; hi_word := 0 |} in
  let s := device_added_state in
  let s1 := state_of (vtd_remove_device_from_cell (plat:=sim) cell
                        sata_device s) in
  0 <= PAGE_MASK < 2 ^ 64 /\
  Z.land VTD_ROOT_PRESENT PAGE_MASK = 0 /\
  root_entry_table s !! Z.to_nat (bus sata_device) = Some e /\
  vtd_remove_device_from_cell (plat:=sim) cell sata_device s = Done tt s1 /\
  root_entry_table s1 !! Z.to_nat (bus sata_device)
    = Some {| lo_word := 0x200000; hi_word := 0 |} /\
  vtd_remove_device_from_cell (plat:=sim) cell sata_device s1 = Done tt s1.
Proof.
  intros cell e s s1.
  assert (0 <= PAGE_MASK < 2 ^ 64) as H1 by computed.
  assert (Z.land VTD_ROOT_PRESENT PAGE_MASK = 0) as H2 by computed.
  assert (root_entry_table s !! Z.to_nat (bus sata_device) = Some e)
    as Hroot by computed.
  assert (vtd_remove_device_from_cell (plat:=sim) cell sata_device s
          = Done tt s1) as Hrun by computed.
  give H1. give H2. give Hroot. give Hrun.
  split; [computed|].
  exact (proj2 (vtd_remove_device_idempotent (plat:=sim) cell sata_device
                  e s s1 H1 H2 Hroot Hrun)).
Defined.

(** X19 at device 00:1f.2 given to cell 5: a context table is allocated
    at 0x200000 and the entry's high word is 0x501. *)
Lemma vtd_add_device_encodes_witness :
  let cell := Cell_at 0x300000 in
  let c := sim_cell 5 no_config [] in
  let e := {| lo_word := 0; hi_word := 0 |} in
  let s := unit_ready_state in
  let s' := device_added_state in
  root_entry_table s !! Z.to_nat (bus sata_device) = Some e /\
  load_cell (plat:=sim) cell s = Done c s /\
  0 <= VTD_CTX_DID_SHIFT /\
  0 <= cell_id c /\
  cell_id c * 2 ^ VTD_CTX_DID_SHIFT < 2 ^ 32 /\
  0 <= VTD_CTX_AGAW_39 < 2 ^ VTD_CTX_DID_SHIFT /\
  0 <= VTD_CTX_AGAW_48 < 2 ^ VTD_CTX_DID_SHIFT /\
  vtd_add_device_to_cell (plat:=sim) cell sata_device s = Done true s' /\
  default 0 (mem s' !! (0x200000 + 0xfa * 16 + 8)) = 0x501 /\
  Z.shiftr (default 0 (mem s' !! (0x200000 + 0xfa * 16 + 8)))
           VTD_CTX_DID_SHIFT = cell_id c.
Proof.
  intros cell c e s s'.
  assert (root_entry_table s !! Z.to_nat (bus sata_device) = Some e)
    as Hroot by computed.
  assert (load_cell (plat:=sim) cell s = Done c s) as Hload by computed.
  assert (0 <= VTD_CTX_DID_SHIFT) as H1 by computed.
  assert (0 <= cell_id c) as H2 by computed.
  assert (cell_id c * 2 ^ VTD_CTX_DID_SHIFT < 2 ^ 32) as H3
    by computed.
  assert (0 <= VTD_CTX_AGAW_39 < 2 ^ VTD_CTX_DID_SHIFT) as H4
    by computed.
  assert (0 <= VTD_CTX_AGAW_48 < 2 ^ VTD_CTX_DID_SHIFT) as H5
    by computed.
  assert (vtd_add_device_to_cell (plat:=sim) cell sata_device s
          = Done true s') as Hrun by computed.
  give Hroot. give Hload. give H1. give H2. give H3. give H4. give H5.
  give Hrun.
  split; [computed|].
  exact (proj1 (proj2 (proj2
           (vtd_add_device_encodes (plat:=sim) cell c sata_device e s s'
              Hroot Hload H1 H2 H3 H4 H5 Hrun)))).
Defined.

(** X20 on the two-unit table and on the table with a short record, with
    fuel for the 32 bytes behind the header: the first run registers
    both units, the second stops at the short record. *)
Lemma vtd_init_terminates_witness :
  0 < sizeof_acpi_dmar_drhd /\
  (forall dmar,
     acpi_find_table (Platform:=sim_vtd) "DMAR" (ext two_unit_state)
       = Some dmar ->
     Z.max 0 (dmar_length dmar - offsetof_remap_structs) < Z.of_nat 33) /\
  (forall dmar,
     acpi_find_table (Platform:=sim_vtd) "DMAR" (ext short_record_state)
       = Some dmar ->
     Z.max 0 (dmar_length dmar - offsetof_remap_structs) < Z.of_nat 33) /\
  (exists r s', vtd_init (plat:=sim_vtd) 33 two_unit_state = Done r s') /\
  (exists r s', vtd_init (plat:=sim_vtd) 33 short_record_state = Done r s') /\
  (exists s', vtd_init (plat:=sim_vtd) 33 two_unit_state = Done 0 s' /\
              dmar_units s' = 2) /\
  (exists s', vtd_init (plat:=sim_vtd) 33 short_record_state
                = Done (- EIO) s' /\
              dmar_units s' = 1).
Proof.
  assert (0 < sizeof_acpi_dmar_drhd) as Hsize by computed.
  assert (forall dmar,
            acpi_find_table (Platform:=sim_vtd) "DMAR" (ext two_unit_state)
              = Some dmar ->
            Z.max 0 (dmar_length dmar - offsetof_remap_structs)
              < Z.of_nat 33) as Hfuel
    by (intros dmar [= <-]; computed).
  assert (forall dmar,
            acpi_find_table (Platform:=sim_vtd) "DMAR"
              (ext short_record_state) = Some dmar ->
            Z.max 0 (dmar_length dmar - offsetof_remap_structs)
              < Z.of_nat 33) as Hfuel'
    by (intros dmar [= <-]; computed).
  give Hsize. give Hfuel. give Hfuel'.
  split; [exact (vtd_init_terminates (plat:=sim_vtd) 33 two_unit_state
                   Hsize Hfuel)|].
  split; [exact (vtd_init_terminates (plat:=sim_vtd) 33 short_record_state
                   Hsize Hfuel')|].
  split; eexists; computed.
Defined.

(** X21 on the two-unit table: both units are registered, with
    three-level tables and 256 domain ids, and their register windows
    are the pages at 0x200000 and 0x201000. *)
Lemma vtd_init_windows_contiguous_witness :
  let s' := state_of (vtd_init (plat:=sim_vtd) 33 two_unit_state) in
  acpi_find_table (Platform:=sim_vtd) "DMAR" (ext two_unit_state)
    = Some two_unit_table /\
  EIO <> 0 /\ ENOMEM <> 0 /\ EBUSY <> 0 /\
  0 < sizeof_acpi_dmar_drhd /\
  0 <= offsetof_remap_structs /\
  dmar_length two_unit_table < 2 ^ 32 /\
  dmar_units two_unit_state = 0 /\
  vtd_init (plat:=sim_vtd) 33 two_unit_state = Done 0 s' /\
  dmar_units s' = 2 /\
  dmar_pt_levels s' = 3 /\
  dmar_num_did s' = 256 /\
  dmar_reg_base s' = 0x200000 /\
  unit_windows (events_of two_unit_state
                  (vtd_init (plat:=sim_vtd) 33 two_unit_state))
    = [0x200000; 0x201000].
Proof.
  intros s'.
  assert (acpi_find_table (Platform:=sim_vtd) "DMAR" (ext two_unit_state)
          = Some two_unit_table) as Htable by reflexivity.
  assert (EIO <> 0) as H1 by computed.
  assert (ENOMEM <> 0) as H2 by computed.
  assert (EBUSY <> 0) as H3 by computed.
  assert (0 < sizeof_acpi_dmar_drhd) as H4 by computed.
  assert (0 <= offsetof_remap_structs) as H5 by computed.
  assert (dmar_length two_unit_table < 2 ^ 32) as H6 by computed.
  assert (dmar_units two_unit_state = 0) as H7 by computed.
  assert (vtd_init (plat:=sim_vtd) 33 two_unit_state = Done 0 s') as Hrun
    by computed.
  give Htable. give H1. give H2. give H3. give H4. give H5. give H6.
  give H7. give Hrun.
  destruct (vtd_init_windows_contiguous (plat:=sim_vtd) 33 two_unit_table
              two_unit_state s' Htable H1 H2 H3 H4 H5 H6 H7 Hrun)
    as (_ & _ & _ & Hwin).
  split; [computed|]. split; [computed|]. split; [computed|].
  split; [computed|].
  etrans; [exact Hwin|computed].
Defined.


(** X23 for the startup vector 0x9a on a CPU that was running a 64-bit
    guest: the guest restarts at 9A00:0000, physical address 0x9a000, in
    real mode with its registers cleared. *)
Lemma vmx_cpu_reset_start_state_witness :
  writes_ok (plat:=sim) long_mode_state /\
  NoDup reset_fields /\
  load_cell (plat:=sim) (cpu_cell (cpu_data long_mode_state))
            long_mode_state
    = Done (linux_cell long_mode_state) long_mode_state /\
  Z.land X86_CR0_ET (Z.lor X86_CR0_PE X86_CR0_PG) = 0 /\
  0 <= Z.lor X86_CR0_PE X86_CR0_PG < 2 ^ 64 /\
  exists s',
    vmx_cpu_reset (plat:=sim) 0x9a long_mode_state = Done tt s' /\
    guest_regs s' = zero_registers /\
    vmread (plat:=sim) s' GUEST_RIP = 0 /\
    vmread (plat:=sim) s' GUEST_CS_SELECTOR = 0x9a00 /\
    vmread (plat:=sim) s' GUEST_CS_BASE = 0x9a000 /\
    vmread (plat:=sim) s' GUEST_IA32_EFER = 0 /\
    Z.land (vmread (plat:=sim) s' VM_ENTRY_CONTROLS) VM_ENTRY_IA32E_MODE
      = 0.
Proof.
  assert (writes_ok (plat:=sim) long_mode_state) as Hok
    by (intros f; reflexivity).
  assert (NoDup reset_fields) as Hnd by by_decision.
  assert (load_cell (plat:=sim) (cpu_cell (cpu_data long_mode_state))
            long_mode_state
          = Done (linux_cell long_mode_state) long_mode_state) as Hload
    by reflexivity.
  assert (Z.land X86_CR0_ET (Z.lor X86_CR0_PE X86_CR0_PG) = 0) as Het
    by computed.
  assert (0 <= Z.lor X86_CR0_PE X86_CR0_PG < 2 ^ 64) as Hrange by computed.
  give Hok. give Hnd. give Hload. give Het. give Hrange.
  destruct (vmx_cpu_reset_start_state (plat:=sim) 0x9a
              (linux_cell long_mode_state) long_mode_state
              Hok Hnd Hload Het Hrange)
    as (s' & Hrun & Hregs & Hrip & Hsel & Hbase & _ & _ & Hefer & Hmode & _).
  exists s'. give Hrun. give Hregs.
  split; [etrans; [exact Hrip|computed]|].
  split; [etrans; [exact Hsel|computed]|].
  split; [etrans; [exact Hbase|computed]|].
  split; [exact Hefer|exact Hmode].
Defined.
End Concrete_more.
